(** * Session enforcement engine: a shallow embedding of
      lte/gateway/c/session_manager/SessionState.cpp

    The per-subscriber session object is embedded as a record, its methods as
    functions that pass the session and the update-criteria journal
    explicitly.  Unordered maps are finite maps ([gmap]); a loop over a map
    runs over [map_to_list].  [std::set<std::string>] is a strictly increasing
    list, [std::vector] a list.  Unsigned 32-bit counters are integers with the
    wrap-around written out. *)

From stdpp Require Import gmap strings list fin_maps.
From Stdlib Require Import ZArith.

(** ** Machine integers *)

Definition uint32_max : Z := 2 ^ 32.

(** [x++] on a [uint32_t]. *)
Definition uint32_incr (x : Z) : Z := ((x + 1) mod uint32_max)%Z.

(** ** Enumerations *)

Inductive SessionFsmState :=
| SESSION_ACTIVE
| SESSION_TERMINATED
| SESSION_TERMINATION_SCHEDULED
| SESSION_RELEASED.

Inductive ReAuthState := REAUTH_NOT_NEEDED | REAUTH_REQUIRED | REAUTH_PROCESSING.

Inductive ServiceState :=
| SERVICE_ENABLED
| SERVICE_NEEDS_DEACTIVATION
| SERVICE_NEEDS_ACTIVATION
| SERVICE_REDIRECTED
| SERVICE_RESTRICTED
| SERVICE_DISABLED.

Inductive ServiceActionType :=
| CONTINUE_SERVICE
| TERMINATE_SERVICE
| ACTIVATE_SERVICE
| REDIRECT
| RESTRICT_ACCESS.

Inductive ChargingCredit_FinalAction :=
| ChargingCredit_FinalAction_TERMINATE
| ChargingCredit_FinalAction_REDIRECT
| ChargingCredit_FinalAction_RESTRICT_ACCESS.

Inductive MonitoringLevel := SESSION_LEVEL | PCC_RULE_LEVEL.

Inductive EventTrigger := REVALIDATION_TIMEOUT | USAGE_REPORT | UNSUPPORTED.

Inductive EventTriggerState := PENDING | READY | CLEARED.

Inductive PolicyType := STATIC | DYNAMIC.

Inductive RATType := TGPP_LTE | TGPP_WLAN.

Inductive SubscriberQuotaUpdate_Type := VALID_QUOTA | NO_QUOTA | TERMINATE.

Inductive GrantTrackingType := TRACKING_TOTAL | TX_ONLY | RX_ONLY | TRACKING_ALL.

Inductive CreditLimitType := FINITE | INFINITE_UNMETERED | INFINITE_METERED.

(** Modelled from the spec: the [Bucket] enumeration lives in SessionCredit.h;
    these are the counters of the credit primitive, [USED_TX] first as in the
    merge loops, [MAX_VALUES] excluded. *)
Inductive Bucket :=
| USED_TX
| USED_RX
| ALLOWED_TX
| ALLOWED_RX
| REPORTING_TX
| REPORTING_RX
| REPORTED_TX
| REPORTED_RX.

(** The range [USED_TX .. MAX_VALUES - 1] walked by the merge loops. *)
Definition all_buckets : list Bucket :=
  [USED_TX; USED_RX; ALLOWED_TX; ALLOWED_RX;
   REPORTING_TX; REPORTING_RX; REPORTED_TX; REPORTED_RX].

Global Instance SessionFsmState_eq_dec : EqDecision SessionFsmState.
Proof. solve_decision. Defined.
Global Instance ServiceState_eq_dec : EqDecision ServiceState.
Proof. solve_decision. Defined.
Global Instance ReAuthState_eq_dec : EqDecision ReAuthState.
Proof. solve_decision. Defined.
Global Instance EventTrigger_eq_dec : EqDecision EventTrigger.
Proof. solve_decision. Defined.
Global Instance EventTriggerState_eq_dec : EqDecision EventTriggerState.
Proof. solve_decision. Defined.
Global Instance PolicyType_eq_dec : EqDecision PolicyType.
Proof. solve_decision. Defined.
Global Instance MonitoringLevel_eq_dec : EqDecision MonitoringLevel.
Proof. solve_decision. Defined.
Global Instance CreditLimitType_eq_dec : EqDecision CreditLimitType.
Proof. solve_decision. Defined.
Global Instance FinalAction_eq_dec : EqDecision ChargingCredit_FinalAction.
Proof. solve_decision. Defined.

Global Instance EventTrigger_countable : Countable EventTrigger.
Proof.
  refine (inj_countable'
            (λ t, match t with
                  | REVALIDATION_TIMEOUT => 0 | USAGE_REPORT => 1 | UNSUPPORTED => 2
                  end)
            (λ n, match n with
                  | 0 => REVALIDATION_TIMEOUT | 1 => USAGE_REPORT | _ => UNSUPPORTED
                  end) _).
  by intros [].
Defined.

Global Instance PolicyType_countable : Countable PolicyType.
Proof.
  refine (inj_countable' (λ t, match t with STATIC => true | DYNAMIC => false end)
            (λ b : bool, if b then STATIC else DYNAMIC) _).
  by intros [].
Defined.

(** ** Keys, rules and lifetimes *)

(** Modelled from the spec: [CreditKey] lives in CreditKey.h; a charging key is
    the pair of rating group and service identifier, and two keys are equal
    when both agree. *)
Record CreditKey := { rating_group : Z; service_identifier : Z }.

Global Instance CreditKey_eq_dec : EqDecision CreditKey.
Proof. solve_decision. Defined.

Global Instance CreditKey_countable : Countable CreditKey.
Proof.
  refine (inj_countable' (λ k, (rating_group k, service_identifier k))
            (λ p, {| rating_group := p.1; service_identifier := p.2 |}) _).
  by intros [].
Defined.

(** [PolicyID(policy_type, rule_id)], the key of the bearer map. *)
Abbreviation PolicyID := (PolicyType * string)%type (only parsing).

Record RuleLifetime := {
  activation_time : Z;
  deactivation_time : Z
}.

(** What [operator[]] yields for a rule without a recorded lifetime. *)
Definition RuleLifetime_zero : RuleLifetime :=
  {| activation_time := 0; deactivation_time := 0 |}.

(** Modelled from the spec: [PolicyRule] is a protobuf message; a rule has an
    id and carries an optional charging key, an optional monitoring key, an
    optional QoS and its flow descriptors. *)
Record FlowQos := { qci : Z; max_req_bw_ul : Z; max_req_bw_dl : Z }.

Record PolicyRule := {
  pr_id : string;
  pr_charging_key : option CreditKey;
  pr_monitoring_key : option string;
  pr_qos : option FlowQos;
  pr_flow_list : list string
}.

Record Timestamp := { seconds : Z; nanos : Z }.

Abbreviation Ambr := (Z * Z)%type (only parsing).

(** ** [std::set<std::string>] and [std::vector<std::string>] *)

Abbreviation string_set := (list string) (only parsing).

Fixpoint set_insert (x : string) (l : string_set) : string_set :=
  match l with
  | [] => [x]
  | y :: l' =>
      match String.compare x y with
      | Lt => x :: l
      | Eq => l
      | Gt => y :: set_insert x l'
      end
  end.

(** The elements of a [std::set<std::string>] come in strictly increasing
    order. *)
Fixpoint set_sorted (l : string_set) : Prop :=
  match l with
  | [] => True
  | x :: l' => Forall (λ y, String.compare x y = Lt) l' ∧ set_sorted l'
  end.

Definition set_count (x : string) (l : string_set) : nat :=
  if bool_decide (x ∈ l) then 1 else 0.

Definition set_erase (x : string) (l : string_set) : string_set :=
  filter (λ y, y ≠ x) l.

(** [std::find(v.begin(), v.end(), x) != v.end()] *)
Definition vector_contains (x : string) (v : list string) : bool :=
  bool_decide (x ∈ v).

(** [v.erase(std::find(v.begin(), v.end(), x))] for an [x] that occurs. *)
Fixpoint vector_erase_first (x : string) (v : list string) : list string :=
  match v with
  | [] => []
  | y :: v' => if bool_decide (y = x) then v' else y :: vector_erase_first x v'
  end.

(** ** Rule stores

    The stores ([PolicyRuleBiMap], [StaticRuleStore], [DynamicRuleStore]) live
    in RuleStore.h.  A store maps a rule id to its rule; the reverse lookups by
    charging and monitoring key are read off the rules. *)

Abbreviation DynamicRuleStore := (gmap string PolicyRule) (only parsing).
Abbreviation StaticRuleStore := (gmap string PolicyRule) (only parsing).

Module RuleStore.

(** Modelled from the spec: lookup by id. *)
Definition get_rule (store : gmap string PolicyRule) (rule_id : string) : option PolicyRule :=
  store !! rule_id.

(** Modelled from the spec: insert, under the id of the rule. *)
Definition insert_rule (rule : PolicyRule) (store : gmap string PolicyRule)
  : gmap string PolicyRule :=
  <[pr_id rule := rule]> store.

(** Modelled from the spec: remove; returns the removed rule, if any, and the
    store without it. *)
Definition remove_rule (rule_id : string) (store : gmap string PolicyRule)
  : option PolicyRule * gmap string PolicyRule :=
  (store !! rule_id, delete rule_id store).

(** Modelled from the spec: enumerate the rules. *)
Definition get_rules (store : gmap string PolicyRule) : list PolicyRule :=
  (map_to_list store).*2.

(** Modelled from the spec: enumerate the rule ids. *)
Definition get_rule_ids (store : gmap string PolicyRule) : list string :=
  (map_to_list store).*1.

(** Modelled from the spec: the charging key of a rule, if the rule is in the
    store and carries one. *)
Definition get_charging_key_for_rule_id
    (store : gmap string PolicyRule) (rule_id : string)
  : option CreditKey :=
  store !! rule_id ≫= pr_charging_key.

(** Modelled from the spec: the monitoring key of a rule, if the rule is in
    the store and carries one. *)
Definition get_monitoring_key_for_rule_id
    (store : gmap string PolicyRule) (rule_id : string)
  : option string :=
  store !! rule_id ≫= pr_monitoring_key.

(** Modelled from the spec: lookup by charging key. *)
Definition get_rule_definitions_for_charging_key
    (store : gmap string PolicyRule) (key : CreditKey)
  : list PolicyRule :=
  filter (λ r, pr_charging_key r = Some key) (get_rules store).

(** Modelled from the spec: lookup of rule ids by charging key. *)
Definition get_rule_ids_for_charging_key
    (store : gmap string PolicyRule) (key : CreditKey)
  : list string :=
  pr_id <$> get_rule_definitions_for_charging_key store key.

(** Modelled from the spec: count of the rules that carry a monitoring key. *)
Definition monitored_rules_count (store : gmap string PolicyRule) : nat :=
  length (filter (λ r, is_Some (pr_monitoring_key r)) (get_rules store)).

(** Every rule is filed under its own id, as [insert_rule] does it. *)
Definition well_formed (store : gmap string PolicyRule) : Prop :=
  ∀ rule_id rule, store !! rule_id = Some rule → pr_id rule = rule_id.

End RuleStore.

(** ** Session configuration

    The configuration and the messages of the cloud are protobuf messages
    declared outside SessionState.cpp; the records hold the fields that the
    session reads, under the names of the accessors. *)

Record CommonSessionContext := {
  sid : string;
  msisdn : string;
  apn : string;
  rat_type : RATType;
  ue_ipv4 : string
}.

Record LTESessionContext := {
  bearer_id : Z;
  imei : string;
  plmn_id : string;
  imsi_plmn_id : string;
  spgw_ipv4 : string;
  user_location : string;
  qos_class_id : Z
}.

Record WLANSessionContext := { mac_addr_binary : string }.

Inductive RatSpecificContext :=
| lte_context (c : LTESessionContext)
| wlan_context (c : WLANSessionContext)
| no_rat_context.

Record SessionConfig := {
  common_context : CommonSessionContext;
  rat_specific_context : RatSpecificContext
}.

(** ** Grants and responses of the cloud *)

Record CreditUnit := { is_valid : bool; volume : Z }.

Record GrantedUnits := { total : CreditUnit; tx : CreditUnit; rx : CreditUnit }.

Abbreviation RedirectServer := string (only parsing).

Record FinalActionInfo := {
  final_action : ChargingCredit_FinalAction;
  redirect_server : RedirectServer;
  restrict_rules : list string
}.

Definition FinalActionInfo_default : FinalActionInfo :=
  {| final_action := ChargingCredit_FinalAction_TERMINATE;
     redirect_server := EmptyString; restrict_rules := [] |}.

Record ChargingCredit := {
  cc_granted_units : GrantedUnits;
  cc_is_final : bool;
  cc_final_action : ChargingCredit_FinalAction;
  cc_redirect_server : RedirectServer;
  cc_restrict_rules : list string;
  cc_validity_time : Z
}.

Record CreditUpdateResponse := {
  cur_success : bool;
  cur_charging_key : Z;
  cur_service_identifier : Z;
  cur_credit : ChargingCredit;
  cur_result_code : Z;
  cur_limit_type : CreditLimitType
}.

(** Modelled from the spec: [CreditKey(update)], the key a response is for. *)
Definition CreditKey_of_response (update : CreditUpdateResponse) : CreditKey :=
  {| rating_group := cur_charging_key update;
     service_identifier := cur_service_identifier update |}.

(** ** Usage reports *)

Record Usage := { bytes_tx : Z; bytes_rx : Z }.

Module CreditUsage.

Inductive UpdateType :=
| THRESHOLD
| QUOTA_EXHAUSTED
| VALIDITY_TIMER_EXPIRED
| REAUTH_REQUIRED
| TERMINATED.

Record t := mk {
  usage_tx : Z;
  usage_rx : Z;
  type : UpdateType;
  charging_key : Z;
  service_identifier : Z
}.

Global Instance UpdateType_eq_dec : EqDecision UpdateType.
Proof. solve_decision. Defined.

End CreditUsage.

(** Modelled from the spec: [key.set_credit_usage(&usage)] stamps the key on
    the usage entry. *)
Definition set_credit_usage (key : CreditKey) (usage : CreditUsage.t) : CreditUsage.t :=
  CreditUsage.mk (CreditUsage.usage_tx usage) (CreditUsage.usage_rx usage)
    (CreditUsage.type usage) (rating_group key) (service_identifier key).

(** The charging key a usage entry is reported under. *)
Definition credit_usage_key (u : CreditUsage.t) : CreditKey :=
  {| rating_group := CreditUsage.charging_key u;
     service_identifier := CreditUsage.service_identifier u |}.

Record UsageMonitorUpdate := {
  um_bytes_tx : Z;
  um_bytes_rx : Z;
  um_level : MonitoringLevel;
  um_monitoring_key : string
}.

Definition make_usage_monitor_update
    (usage_in : Usage) (monitoring_key : string) (level : MonitoringLevel)
  : UsageMonitorUpdate :=
  {| um_bytes_tx := bytes_tx usage_in;
     um_bytes_rx := bytes_rx usage_in;
     um_level := level;
     um_monitoring_key := monitoring_key |}.

(** ** The journal of one credit (SessionCreditUpdateCriteria) *)

Module CreditUC.

Record t := mk {
  deleted : bool;
  grant_tracking_type : GrantTrackingType;
  received_granted_units : GrantedUnits;
  bucket_deltas : Bucket → Z;
  is_final : bool;
  final_action_info : FinalActionInfo;
  expiry_time : Z;
  reauth_state : ReAuthState;
  service_state : ServiceState
}.

Definition with_deleted (v : bool) (x : t) : t :=
  mk v (grant_tracking_type x) (received_granted_units x) (bucket_deltas x)
    (is_final x) (final_action_info x) (expiry_time x) (reauth_state x) (service_state x).

Definition with_reauth_state (v : ReAuthState) (x : t) : t :=
  mk (deleted x) (grant_tracking_type x) (received_granted_units x) (bucket_deltas x)
    (is_final x) (final_action_info x) (expiry_time x) v (service_state x).

Definition with_service_state (v : ServiceState) (x : t) : t :=
  mk (deleted x) (grant_tracking_type x) (received_granted_units x) (bucket_deltas x)
    (is_final x) (final_action_info x) (expiry_time x) (reauth_state x) v.

End CreditUC.

(** ** Types and helpers declared outside SessionState.cpp

    The credit primitive (SessionCredit.h), the stored forms of credits and
    grants (StoredState.h) and the 3GPP context are used by the session only
    through their interface; they are kept abstract. *)

Class OpaqueTypes := {
  SessionCredit : Type;
  StoredSessionCredit : Type;
  StoredChargingGrant : Type;
  TgppContext : Type;
  (** the argument of [is_quota_exhausted], a [float] *)
  Threshold : Type
}.

Section Data.
Context `{OpaqueTypes}.

Record ChargingGrant := {
  credit : SessionCredit;
  is_final_grant : bool;
  final_action_info : FinalActionInfo;
  expiry_time : Z;
  reauth_state : ReAuthState;
  service_state : ServiceState
}.

Record Monitor := {
  mon_credit : SessionCredit;
  mon_level : MonitoringLevel
}.

Record StoredMonitor := {
  stored_credit : StoredSessionCredit;
  stored_level : MonitoringLevel
}.

Record StoredSessionState := Build_Stored {
  fsm_state : SessionFsmState;
  config : SessionConfig;
  imsi : string;
  session_id : string;
  subscriber_quota_state : SubscriberQuotaUpdate_Type;
  tgpp_context : TgppContext;
  request_number : Z;
  pdp_start_time : Z;
  pdp_end_time : Z;
  stored_pending_event_triggers : gmap EventTrigger EventTriggerState;
  stored_revalidation_time : Timestamp;
  stored_bearer_id_by_policy : gmap PolicyID Z;
  monitor_map : gmap string StoredMonitor;
  session_level_key : string;
  credit_map : gmap CreditKey StoredChargingGrant;
  static_rule_ids : list string;
  dynamic_rules : list PolicyRule;
  gy_dynamic_rules : list PolicyRule;
  scheduled_static_rules : string_set;
  scheduled_dynamic_rules : list PolicyRule;
  rule_lifetimes : gmap string RuleLifetime
}.

(** The members of the session object, in the order of their use in the
    constructors. *)
Record SessionState := Build_Session {
  imsi_ : string;
  session_id_ : string;
  request_number_ : Z;
  curr_state_ : SessionFsmState;
  config_ : SessionConfig;
  pdp_start_time_ : Z;
  pdp_end_time_ : Z;
  subscriber_quota_state_ : SubscriberQuotaUpdate_Type;
  tgpp_context_ : TgppContext;
  static_rules_ : StaticRuleStore;
  pending_event_triggers_ : gmap EventTrigger EventTriggerState;
  revalidation_time_ : Timestamp;
  credit_map_ : gmap CreditKey ChargingGrant;
  monitor_map_ : gmap string Monitor;
  session_level_key_ : string;
  bearer_id_by_policy_ : gmap PolicyID Z;
  active_static_rules_ : list string;
  scheduled_static_rules_ : string_set;
  active_restrict_rules_ : list string;
  dynamic_rules_ : DynamicRuleStore;
  scheduled_dynamic_rules_ : DynamicRuleStore;
  gy_dynamic_rules_ : DynamicRuleStore;
  rule_lifetimes_ : gmap string RuleLifetime
}.

Definition with_request_number_ (v : Z) (x : SessionState) : SessionState :=
  Build_Session (imsi_ x) (session_id_ x) v (curr_state_ x) (config_ x) (pdp_start_time_ x)
    (pdp_end_time_ x) (subscriber_quota_state_ x) (tgpp_context_ x) (static_rules_ x)
    (pending_event_triggers_ x) (revalidation_time_ x) (credit_map_ x) (monitor_map_ x)
    (session_level_key_ x) (bearer_id_by_policy_ x) (active_static_rules_ x)
    (scheduled_static_rules_ x) (active_restrict_rules_ x) (dynamic_rules_ x)
    (scheduled_dynamic_rules_ x) (gy_dynamic_rules_ x) (rule_lifetimes_ x).

Definition with_curr_state_ (v : SessionFsmState) (x : SessionState) : SessionState :=
  Build_Session (imsi_ x) (session_id_ x) (request_number_ x) v (config_ x)
    (pdp_start_time_ x) (pdp_end_time_ x) (subscriber_quota_state_ x) (tgpp_context_ x)
    (static_rules_ x) (pending_event_triggers_ x) (revalidation_time_ x) (credit_map_ x)
    (monitor_map_ x) (session_level_key_ x) (bearer_id_by_policy_ x)
    (active_static_rules_ x) (scheduled_static_rules_ x) (active_restrict_rules_ x)
    (dynamic_rules_ x) (scheduled_dynamic_rules_ x) (gy_dynamic_rules_ x)
    (rule_lifetimes_ x).

Definition with_config_ (v : SessionConfig) (x : SessionState) : SessionState :=
  Build_Session (imsi_ x) (session_id_ x) (request_number_ x) (curr_state_ x) v
    (pdp_start_time_ x) (pdp_end_time_ x) (subscriber_quota_state_ x) (tgpp_context_ x)
    (static_rules_ x) (pending_event_triggers_ x) (revalidation_time_ x) (credit_map_ x)
    (monitor_map_ x) (session_level_key_ x) (bearer_id_by_policy_ x)
    (active_static_rules_ x) (scheduled_static_rules_ x) (active_restrict_rules_ x)
    (dynamic_rules_ x) (scheduled_dynamic_rules_ x) (gy_dynamic_rules_ x)
    (rule_lifetimes_ x).

Definition with_pdp_end_time_ (v : Z) (x : SessionState) : SessionState :=
  Build_Session (imsi_ x) (session_id_ x) (request_number_ x) (curr_state_ x) (config_ x)
    (pdp_start_time_ x) v (subscriber_quota_state_ x) (tgpp_context_ x) (static_rules_ x)
    (pending_event_triggers_ x) (revalidation_time_ x) (credit_map_ x) (monitor_map_ x)
    (session_level_key_ x) (bearer_id_by_policy_ x) (active_static_rules_ x)
    (scheduled_static_rules_ x) (active_restrict_rules_ x) (dynamic_rules_ x)
    (scheduled_dynamic_rules_ x) (gy_dynamic_rules_ x) (rule_lifetimes_ x).

Definition with_pending_event_triggers_
    (v : gmap EventTrigger EventTriggerState) (x : SessionState)
  : SessionState :=
  Build_Session (imsi_ x) (session_id_ x) (request_number_ x) (curr_state_ x) (config_ x)
    (pdp_start_time_ x) (pdp_end_time_ x) (subscriber_quota_state_ x) (tgpp_context_ x)
    (static_rules_ x) v (revalidation_time_ x) (credit_map_ x) (monitor_map_ x)
    (session_level_key_ x) (bearer_id_by_policy_ x) (active_static_rules_ x)
    (scheduled_static_rules_ x) (active_restrict_rules_ x) (dynamic_rules_ x)
    (scheduled_dynamic_rules_ x) (gy_dynamic_rules_ x) (rule_lifetimes_ x).

Definition with_revalidation_time_ (v : Timestamp) (x : SessionState) : SessionState :=
  Build_Session (imsi_ x) (session_id_ x) (request_number_ x) (curr_state_ x) (config_ x)
    (pdp_start_time_ x) (pdp_end_time_ x) (subscriber_quota_state_ x) (tgpp_context_ x)
    (static_rules_ x) (pending_event_triggers_ x) v (credit_map_ x) (monitor_map_ x)
    (session_level_key_ x) (bearer_id_by_policy_ x) (active_static_rules_ x)
    (scheduled_static_rules_ x) (active_restrict_rules_ x) (dynamic_rules_ x)
    (scheduled_dynamic_rules_ x) (gy_dynamic_rules_ x) (rule_lifetimes_ x).

Definition with_credit_map_
    (v : gmap CreditKey ChargingGrant) (x : SessionState)
  : SessionState :=
  Build_Session (imsi_ x) (session_id_ x) (request_number_ x) (curr_state_ x) (config_ x)
    (pdp_start_time_ x) (pdp_end_time_ x) (subscriber_quota_state_ x) (tgpp_context_ x)
    (static_rules_ x) (pending_event_triggers_ x) (revalidation_time_ x) v (monitor_map_ x)
    (session_level_key_ x) (bearer_id_by_policy_ x) (active_static_rules_ x)
    (scheduled_static_rules_ x) (active_restrict_rules_ x) (dynamic_rules_ x)
    (scheduled_dynamic_rules_ x) (gy_dynamic_rules_ x) (rule_lifetimes_ x).

Definition with_monitor_map_ (v : gmap string Monitor) (x : SessionState) : SessionState :=
  Build_Session (imsi_ x) (session_id_ x) (request_number_ x) (curr_state_ x) (config_ x)
    (pdp_start_time_ x) (pdp_end_time_ x) (subscriber_quota_state_ x) (tgpp_context_ x)
    (static_rules_ x) (pending_event_triggers_ x) (revalidation_time_ x) (credit_map_ x) v
    (session_level_key_ x) (bearer_id_by_policy_ x) (active_static_rules_ x)
    (scheduled_static_rules_ x) (active_restrict_rules_ x) (dynamic_rules_ x)
    (scheduled_dynamic_rules_ x) (gy_dynamic_rules_ x) (rule_lifetimes_ x).

Definition with_session_level_key_ (v : string) (x : SessionState) : SessionState :=
  Build_Session (imsi_ x) (session_id_ x) (request_number_ x) (curr_state_ x) (config_ x)
    (pdp_start_time_ x) (pdp_end_time_ x) (subscriber_quota_state_ x) (tgpp_context_ x)
    (static_rules_ x) (pending_event_triggers_ x) (revalidation_time_ x) (credit_map_ x)
    (monitor_map_ x) v (bearer_id_by_policy_ x) (active_static_rules_ x)
    (scheduled_static_rules_ x) (active_restrict_rules_ x) (dynamic_rules_ x)
    (scheduled_dynamic_rules_ x) (gy_dynamic_rules_ x) (rule_lifetimes_ x).

Definition with_bearer_id_by_policy_ (v : gmap PolicyID Z) (x : SessionState) : SessionState :=
  Build_Session (imsi_ x) (session_id_ x) (request_number_ x) (curr_state_ x) (config_ x)
    (pdp_start_time_ x) (pdp_end_time_ x) (subscriber_quota_state_ x) (tgpp_context_ x)
    (static_rules_ x) (pending_event_triggers_ x) (revalidation_time_ x) (credit_map_ x)
    (monitor_map_ x) (session_level_key_ x) v (active_static_rules_ x)
    (scheduled_static_rules_ x) (active_restrict_rules_ x) (dynamic_rules_ x)
    (scheduled_dynamic_rules_ x) (gy_dynamic_rules_ x) (rule_lifetimes_ x).

Definition with_active_static_rules_ (v : list string) (x : SessionState) : SessionState :=
  Build_Session (imsi_ x) (session_id_ x) (request_number_ x) (curr_state_ x) (config_ x)
    (pdp_start_time_ x) (pdp_end_time_ x) (subscriber_quota_state_ x) (tgpp_context_ x)
    (static_rules_ x) (pending_event_triggers_ x) (revalidation_time_ x) (credit_map_ x)
    (monitor_map_ x) (session_level_key_ x) (bearer_id_by_policy_ x) v
    (scheduled_static_rules_ x) (active_restrict_rules_ x) (dynamic_rules_ x)
    (scheduled_dynamic_rules_ x) (gy_dynamic_rules_ x) (rule_lifetimes_ x).

Definition with_scheduled_static_rules_ (v : string_set) (x : SessionState) : SessionState :=
  Build_Session (imsi_ x) (session_id_ x) (request_number_ x) (curr_state_ x) (config_ x)
    (pdp_start_time_ x) (pdp_end_time_ x) (subscriber_quota_state_ x) (tgpp_context_ x)
    (static_rules_ x) (pending_event_triggers_ x) (revalidation_time_ x) (credit_map_ x)
    (monitor_map_ x) (session_level_key_ x) (bearer_id_by_policy_ x)
    (active_static_rules_ x) v (active_restrict_rules_ x) (dynamic_rules_ x)
    (scheduled_dynamic_rules_ x) (gy_dynamic_rules_ x) (rule_lifetimes_ x).

Definition with_active_restrict_rules_ (v : list string) (x : SessionState) : SessionState :=
  Build_Session (imsi_ x) (session_id_ x) (request_number_ x) (curr_state_ x) (config_ x)
    (pdp_start_time_ x) (pdp_end_time_ x) (subscriber_quota_state_ x) (tgpp_context_ x)
    (static_rules_ x) (pending_event_triggers_ x) (revalidation_time_ x) (credit_map_ x)
    (monitor_map_ x) (session_level_key_ x) (bearer_id_by_policy_ x)
    (active_static_rules_ x) (scheduled_static_rules_ x) v (dynamic_rules_ x)
    (scheduled_dynamic_rules_ x) (gy_dynamic_rules_ x) (rule_lifetimes_ x).

Definition with_dynamic_rules_ (v : DynamicRuleStore) (x : SessionState) : SessionState :=
  Build_Session (imsi_ x) (session_id_ x) (request_number_ x) (curr_state_ x) (config_ x)
    (pdp_start_time_ x) (pdp_end_time_ x) (subscriber_quota_state_ x) (tgpp_context_ x)
    (static_rules_ x) (pending_event_triggers_ x) (revalidation_time_ x) (credit_map_ x)
    (monitor_map_ x) (session_level_key_ x) (bearer_id_by_policy_ x)
    (active_static_rules_ x) (scheduled_static_rules_ x) (active_restrict_rules_ x) v
    (scheduled_dynamic_rules_ x) (gy_dynamic_rules_ x) (rule_lifetimes_ x).

Definition with_scheduled_dynamic_rules_
    (v : DynamicRuleStore) (x : SessionState)
  : SessionState :=
  Build_Session (imsi_ x) (session_id_ x) (request_number_ x) (curr_state_ x) (config_ x)
    (pdp_start_time_ x) (pdp_end_time_ x) (subscriber_quota_state_ x) (tgpp_context_ x)
    (static_rules_ x) (pending_event_triggers_ x) (revalidation_time_ x) (credit_map_ x)
    (monitor_map_ x) (session_level_key_ x) (bearer_id_by_policy_ x)
    (active_static_rules_ x) (scheduled_static_rules_ x) (active_restrict_rules_ x)
    (dynamic_rules_ x) v (gy_dynamic_rules_ x) (rule_lifetimes_ x).

Definition with_gy_dynamic_rules_ (v : DynamicRuleStore) (x : SessionState) : SessionState :=
  Build_Session (imsi_ x) (session_id_ x) (request_number_ x) (curr_state_ x) (config_ x)
    (pdp_start_time_ x) (pdp_end_time_ x) (subscriber_quota_state_ x) (tgpp_context_ x)
    (static_rules_ x) (pending_event_triggers_ x) (revalidation_time_ x) (credit_map_ x)
    (monitor_map_ x) (session_level_key_ x) (bearer_id_by_policy_ x)
    (active_static_rules_ x) (scheduled_static_rules_ x) (active_restrict_rules_ x)
    (dynamic_rules_ x) (scheduled_dynamic_rules_ x) v (rule_lifetimes_ x).

Definition with_rule_lifetimes_
    (v : gmap string RuleLifetime) (x : SessionState)
  : SessionState :=
  Build_Session (imsi_ x) (session_id_ x) (request_number_ x) (curr_state_ x) (config_ x)
    (pdp_start_time_ x) (pdp_end_time_ x) (subscriber_quota_state_ x) (tgpp_context_ x)
    (static_rules_ x) (pending_event_triggers_ x) (revalidation_time_ x) (credit_map_ x)
    (monitor_map_ x) (session_level_key_ x) (bearer_id_by_policy_ x)
    (active_static_rules_ x) (scheduled_static_rules_ x) (active_restrict_rules_ x)
    (dynamic_rules_ x) (scheduled_dynamic_rules_ x) (gy_dynamic_rules_ x) v.

(** The journal of one invocation (SessionStateUpdateCriteria). *)
Record SessionStateUpdateCriteria := Build_UC {
  is_fsm_updated : bool;
  updated_fsm_state : SessionFsmState;
  is_pending_event_triggers_updated : bool;
  pending_event_triggers : gmap EventTrigger EventTriggerState;
  revalidation_time : Timestamp;
  is_bearer_mapping_updated : bool;
  bearer_id_by_policy : gmap PolicyID Z;
  is_config_updated : bool;
  updated_config : SessionConfig;
  static_rules_to_install : string_set;
  static_rules_to_uninstall : string_set;
  new_scheduled_static_rules : string_set;
  dynamic_rules_to_install : list PolicyRule;
  dynamic_rules_to_uninstall : string_set;
  new_scheduled_dynamic_rules : list PolicyRule;
  gy_dynamic_rules_to_install : list PolicyRule;
  gy_dynamic_rules_to_uninstall : string_set;
  restrict_rules_to_install : string_set;
  restrict_rules_to_uninstall : string_set;
  new_rule_lifetimes : gmap string RuleLifetime;
  charging_credit_map : gmap CreditKey CreditUC.t;
  charging_credit_to_install : gmap CreditKey StoredChargingGrant;
  is_session_level_key_updated : bool;
  updated_session_level_key : string;
  monitor_credit_map : gmap string CreditUC.t;
  monitor_credit_to_install : gmap string StoredMonitor;
  updated_pdp_end_time : Z;
  request_number_increment : Z;
  updated_subscriber_quota_state : SubscriberQuotaUpdate_Type;
  updated_tgpp_context : TgppContext
}.

Definition uc_with_is_fsm_updated
    (v : bool) (x : SessionStateUpdateCriteria)
  : SessionStateUpdateCriteria :=
  Build_UC v (updated_fsm_state x) (is_pending_event_triggers_updated x)
    (pending_event_triggers x) (revalidation_time x) (is_bearer_mapping_updated x)
    (bearer_id_by_policy x) (is_config_updated x) (updated_config x)
    (static_rules_to_install x) (static_rules_to_uninstall x)
    (new_scheduled_static_rules x) (dynamic_rules_to_install x)
    (dynamic_rules_to_uninstall x) (new_scheduled_dynamic_rules x)
    (gy_dynamic_rules_to_install x) (gy_dynamic_rules_to_uninstall x)
    (restrict_rules_to_install x) (restrict_rules_to_uninstall x) (new_rule_lifetimes x)
    (charging_credit_map x) (charging_credit_to_install x) (is_session_level_key_updated x)
    (updated_session_level_key x) (monitor_credit_map x) (monitor_credit_to_install x)
    (updated_pdp_end_time x) (request_number_increment x)
    (updated_subscriber_quota_state x) (updated_tgpp_context x).

Definition uc_with_updated_fsm_state
    (v : SessionFsmState) (x : SessionStateUpdateCriteria)
  : SessionStateUpdateCriteria :=
  Build_UC (is_fsm_updated x) v (is_pending_event_triggers_updated x)
    (pending_event_triggers x) (revalidation_time x) (is_bearer_mapping_updated x)
    (bearer_id_by_policy x) (is_config_updated x) (updated_config x)
    (static_rules_to_install x) (static_rules_to_uninstall x)
    (new_scheduled_static_rules x) (dynamic_rules_to_install x)
    (dynamic_rules_to_uninstall x) (new_scheduled_dynamic_rules x)
    (gy_dynamic_rules_to_install x) (gy_dynamic_rules_to_uninstall x)
    (restrict_rules_to_install x) (restrict_rules_to_uninstall x) (new_rule_lifetimes x)
    (charging_credit_map x) (charging_credit_to_install x) (is_session_level_key_updated x)
    (updated_session_level_key x) (monitor_credit_map x) (monitor_credit_to_install x)
    (updated_pdp_end_time x) (request_number_increment x)
    (updated_subscriber_quota_state x) (updated_tgpp_context x).

Definition uc_with_is_pending_event_triggers_updated
    (v : bool) (x : SessionStateUpdateCriteria)
  : SessionStateUpdateCriteria :=
  Build_UC (is_fsm_updated x) (updated_fsm_state x) v (pending_event_triggers x)
    (revalidation_time x) (is_bearer_mapping_updated x) (bearer_id_by_policy x)
    (is_config_updated x) (updated_config x) (static_rules_to_install x)
    (static_rules_to_uninstall x) (new_scheduled_static_rules x)
    (dynamic_rules_to_install x) (dynamic_rules_to_uninstall x)
    (new_scheduled_dynamic_rules x) (gy_dynamic_rules_to_install x)
    (gy_dynamic_rules_to_uninstall x) (restrict_rules_to_install x)
    (restrict_rules_to_uninstall x) (new_rule_lifetimes x) (charging_credit_map x)
    (charging_credit_to_install x) (is_session_level_key_updated x)
    (updated_session_level_key x) (monitor_credit_map x) (monitor_credit_to_install x)
    (updated_pdp_end_time x) (request_number_increment x)
    (updated_subscriber_quota_state x) (updated_tgpp_context x).

Definition uc_with_pending_event_triggers
    (v : gmap EventTrigger EventTriggerState) (x : SessionStateUpdateCriteria)
  : SessionStateUpdateCriteria :=
  Build_UC (is_fsm_updated x) (updated_fsm_state x) (is_pending_event_triggers_updated x) v
    (revalidation_time x) (is_bearer_mapping_updated x) (bearer_id_by_policy x)
    (is_config_updated x) (updated_config x) (static_rules_to_install x)
    (static_rules_to_uninstall x) (new_scheduled_static_rules x)
    (dynamic_rules_to_install x) (dynamic_rules_to_uninstall x)
    (new_scheduled_dynamic_rules x) (gy_dynamic_rules_to_install x)
    (gy_dynamic_rules_to_uninstall x) (restrict_rules_to_install x)
    (restrict_rules_to_uninstall x) (new_rule_lifetimes x) (charging_credit_map x)
    (charging_credit_to_install x) (is_session_level_key_updated x)
    (updated_session_level_key x) (monitor_credit_map x) (monitor_credit_to_install x)
    (updated_pdp_end_time x) (request_number_increment x)
    (updated_subscriber_quota_state x) (updated_tgpp_context x).

Definition uc_with_static_rules_to_install
    (v : string_set) (x : SessionStateUpdateCriteria)
  : SessionStateUpdateCriteria :=
  Build_UC (is_fsm_updated x) (updated_fsm_state x) (is_pending_event_triggers_updated x)
    (pending_event_triggers x) (revalidation_time x) (is_bearer_mapping_updated x)
    (bearer_id_by_policy x) (is_config_updated x) (updated_config x) v
    (static_rules_to_uninstall x) (new_scheduled_static_rules x)
    (dynamic_rules_to_install x) (dynamic_rules_to_uninstall x)
    (new_scheduled_dynamic_rules x) (gy_dynamic_rules_to_install x)
    (gy_dynamic_rules_to_uninstall x) (restrict_rules_to_install x)
    (restrict_rules_to_uninstall x) (new_rule_lifetimes x) (charging_credit_map x)
    (charging_credit_to_install x) (is_session_level_key_updated x)
    (updated_session_level_key x) (monitor_credit_map x) (monitor_credit_to_install x)
    (updated_pdp_end_time x) (request_number_increment x)
    (updated_subscriber_quota_state x) (updated_tgpp_context x).

Definition uc_with_static_rules_to_uninstall
    (v : string_set) (x : SessionStateUpdateCriteria)
  : SessionStateUpdateCriteria :=
  Build_UC (is_fsm_updated x) (updated_fsm_state x) (is_pending_event_triggers_updated x)
    (pending_event_triggers x) (revalidation_time x) (is_bearer_mapping_updated x)
    (bearer_id_by_policy x) (is_config_updated x) (updated_config x)
    (static_rules_to_install x) v (new_scheduled_static_rules x)
    (dynamic_rules_to_install x) (dynamic_rules_to_uninstall x)
    (new_scheduled_dynamic_rules x) (gy_dynamic_rules_to_install x)
    (gy_dynamic_rules_to_uninstall x) (restrict_rules_to_install x)
    (restrict_rules_to_uninstall x) (new_rule_lifetimes x) (charging_credit_map x)
    (charging_credit_to_install x) (is_session_level_key_updated x)
    (updated_session_level_key x) (monitor_credit_map x) (monitor_credit_to_install x)
    (updated_pdp_end_time x) (request_number_increment x)
    (updated_subscriber_quota_state x) (updated_tgpp_context x).

Definition uc_with_new_scheduled_static_rules
    (v : string_set) (x : SessionStateUpdateCriteria)
  : SessionStateUpdateCriteria :=
  Build_UC (is_fsm_updated x) (updated_fsm_state x) (is_pending_event_triggers_updated x)
    (pending_event_triggers x) (revalidation_time x) (is_bearer_mapping_updated x)
    (bearer_id_by_policy x) (is_config_updated x) (updated_config x)
    (static_rules_to_install x) (static_rules_to_uninstall x) v
    (dynamic_rules_to_install x) (dynamic_rules_to_uninstall x)
    (new_scheduled_dynamic_rules x) (gy_dynamic_rules_to_install x)
    (gy_dynamic_rules_to_uninstall x) (restrict_rules_to_install x)
    (restrict_rules_to_uninstall x) (new_rule_lifetimes x) (charging_credit_map x)
    (charging_credit_to_install x) (is_session_level_key_updated x)
    (updated_session_level_key x) (monitor_credit_map x) (monitor_credit_to_install x)
    (updated_pdp_end_time x) (request_number_increment x)
    (updated_subscriber_quota_state x) (updated_tgpp_context x).

Definition uc_with_dynamic_rules_to_install
    (v : list PolicyRule) (x : SessionStateUpdateCriteria)
  : SessionStateUpdateCriteria :=
  Build_UC (is_fsm_updated x) (updated_fsm_state x) (is_pending_event_triggers_updated x)
    (pending_event_triggers x) (revalidation_time x) (is_bearer_mapping_updated x)
    (bearer_id_by_policy x) (is_config_updated x) (updated_config x)
    (static_rules_to_install x) (static_rules_to_uninstall x)
    (new_scheduled_static_rules x) v (dynamic_rules_to_uninstall x)
    (new_scheduled_dynamic_rules x) (gy_dynamic_rules_to_install x)
    (gy_dynamic_rules_to_uninstall x) (restrict_rules_to_install x)
    (restrict_rules_to_uninstall x) (new_rule_lifetimes x) (charging_credit_map x)
    (charging_credit_to_install x) (is_session_level_key_updated x)
    (updated_session_level_key x) (monitor_credit_map x) (monitor_credit_to_install x)
    (updated_pdp_end_time x) (request_number_increment x)
    (updated_subscriber_quota_state x) (updated_tgpp_context x).

Definition uc_with_dynamic_rules_to_uninstall
    (v : string_set) (x : SessionStateUpdateCriteria)
  : SessionStateUpdateCriteria :=
  Build_UC (is_fsm_updated x) (updated_fsm_state x) (is_pending_event_triggers_updated x)
    (pending_event_triggers x) (revalidation_time x) (is_bearer_mapping_updated x)
    (bearer_id_by_policy x) (is_config_updated x) (updated_config x)
    (static_rules_to_install x) (static_rules_to_uninstall x)
    (new_scheduled_static_rules x) (dynamic_rules_to_install x) v
    (new_scheduled_dynamic_rules x) (gy_dynamic_rules_to_install x)
    (gy_dynamic_rules_to_uninstall x) (restrict_rules_to_install x)
    (restrict_rules_to_uninstall x) (new_rule_lifetimes x) (charging_credit_map x)
    (charging_credit_to_install x) (is_session_level_key_updated x)
    (updated_session_level_key x) (monitor_credit_map x) (monitor_credit_to_install x)
    (updated_pdp_end_time x) (request_number_increment x)
    (updated_subscriber_quota_state x) (updated_tgpp_context x).

Definition uc_with_new_scheduled_dynamic_rules
    (v : list PolicyRule) (x : SessionStateUpdateCriteria)
  : SessionStateUpdateCriteria :=
  Build_UC (is_fsm_updated x) (updated_fsm_state x) (is_pending_event_triggers_updated x)
    (pending_event_triggers x) (revalidation_time x) (is_bearer_mapping_updated x)
    (bearer_id_by_policy x) (is_config_updated x) (updated_config x)
    (static_rules_to_install x) (static_rules_to_uninstall x)
    (new_scheduled_static_rules x) (dynamic_rules_to_install x)
    (dynamic_rules_to_uninstall x) v (gy_dynamic_rules_to_install x)
    (gy_dynamic_rules_to_uninstall x) (restrict_rules_to_install x)
    (restrict_rules_to_uninstall x) (new_rule_lifetimes x) (charging_credit_map x)
    (charging_credit_to_install x) (is_session_level_key_updated x)
    (updated_session_level_key x) (monitor_credit_map x) (monitor_credit_to_install x)
    (updated_pdp_end_time x) (request_number_increment x)
    (updated_subscriber_quota_state x) (updated_tgpp_context x).

Definition uc_with_gy_dynamic_rules_to_install
    (v : list PolicyRule) (x : SessionStateUpdateCriteria)
  : SessionStateUpdateCriteria :=
  Build_UC (is_fsm_updated x) (updated_fsm_state x) (is_pending_event_triggers_updated x)
    (pending_event_triggers x) (revalidation_time x) (is_bearer_mapping_updated x)
    (bearer_id_by_policy x) (is_config_updated x) (updated_config x)
    (static_rules_to_install x) (static_rules_to_uninstall x)
    (new_scheduled_static_rules x) (dynamic_rules_to_install x)
    (dynamic_rules_to_uninstall x) (new_scheduled_dynamic_rules x) v
    (gy_dynamic_rules_to_uninstall x) (restrict_rules_to_install x)
    (restrict_rules_to_uninstall x) (new_rule_lifetimes x) (charging_credit_map x)
    (charging_credit_to_install x) (is_session_level_key_updated x)
    (updated_session_level_key x) (monitor_credit_map x) (monitor_credit_to_install x)
    (updated_pdp_end_time x) (request_number_increment x)
    (updated_subscriber_quota_state x) (updated_tgpp_context x).

Definition uc_with_gy_dynamic_rules_to_uninstall
    (v : string_set) (x : SessionStateUpdateCriteria)
  : SessionStateUpdateCriteria :=
  Build_UC (is_fsm_updated x) (updated_fsm_state x) (is_pending_event_triggers_updated x)
    (pending_event_triggers x) (revalidation_time x) (is_bearer_mapping_updated x)
    (bearer_id_by_policy x) (is_config_updated x) (updated_config x)
    (static_rules_to_install x) (static_rules_to_uninstall x)
    (new_scheduled_static_rules x) (dynamic_rules_to_install x)
    (dynamic_rules_to_uninstall x) (new_scheduled_dynamic_rules x)
    (gy_dynamic_rules_to_install x) v (restrict_rules_to_install x)
    (restrict_rules_to_uninstall x) (new_rule_lifetimes x) (charging_credit_map x)
    (charging_credit_to_install x) (is_session_level_key_updated x)
    (updated_session_level_key x) (monitor_credit_map x) (monitor_credit_to_install x)
    (updated_pdp_end_time x) (request_number_increment x)
    (updated_subscriber_quota_state x) (updated_tgpp_context x).

Definition uc_with_restrict_rules_to_install
    (v : string_set) (x : SessionStateUpdateCriteria)
  : SessionStateUpdateCriteria :=
  Build_UC (is_fsm_updated x) (updated_fsm_state x) (is_pending_event_triggers_updated x)
    (pending_event_triggers x) (revalidation_time x) (is_bearer_mapping_updated x)
    (bearer_id_by_policy x) (is_config_updated x) (updated_config x)
    (static_rules_to_install x) (static_rules_to_uninstall x)
    (new_scheduled_static_rules x) (dynamic_rules_to_install x)
    (dynamic_rules_to_uninstall x) (new_scheduled_dynamic_rules x)
    (gy_dynamic_rules_to_install x) (gy_dynamic_rules_to_uninstall x) v
    (restrict_rules_to_uninstall x) (new_rule_lifetimes x) (charging_credit_map x)
    (charging_credit_to_install x) (is_session_level_key_updated x)
    (updated_session_level_key x) (monitor_credit_map x) (monitor_credit_to_install x)
    (updated_pdp_end_time x) (request_number_increment x)
    (updated_subscriber_quota_state x) (updated_tgpp_context x).

Definition uc_with_restrict_rules_to_uninstall
    (v : string_set) (x : SessionStateUpdateCriteria)
  : SessionStateUpdateCriteria :=
  Build_UC (is_fsm_updated x) (updated_fsm_state x) (is_pending_event_triggers_updated x)
    (pending_event_triggers x) (revalidation_time x) (is_bearer_mapping_updated x)
    (bearer_id_by_policy x) (is_config_updated x) (updated_config x)
    (static_rules_to_install x) (static_rules_to_uninstall x)
    (new_scheduled_static_rules x) (dynamic_rules_to_install x)
    (dynamic_rules_to_uninstall x) (new_scheduled_dynamic_rules x)
    (gy_dynamic_rules_to_install x) (gy_dynamic_rules_to_uninstall x)
    (restrict_rules_to_install x) v (new_rule_lifetimes x) (charging_credit_map x)
    (charging_credit_to_install x) (is_session_level_key_updated x)
    (updated_session_level_key x) (monitor_credit_map x) (monitor_credit_to_install x)
    (updated_pdp_end_time x) (request_number_increment x)
    (updated_subscriber_quota_state x) (updated_tgpp_context x).

Definition uc_with_new_rule_lifetimes
    (v : gmap string RuleLifetime) (x : SessionStateUpdateCriteria)
  : SessionStateUpdateCriteria :=
  Build_UC (is_fsm_updated x) (updated_fsm_state x) (is_pending_event_triggers_updated x)
    (pending_event_triggers x) (revalidation_time x) (is_bearer_mapping_updated x)
    (bearer_id_by_policy x) (is_config_updated x) (updated_config x)
    (static_rules_to_install x) (static_rules_to_uninstall x)
    (new_scheduled_static_rules x) (dynamic_rules_to_install x)
    (dynamic_rules_to_uninstall x) (new_scheduled_dynamic_rules x)
    (gy_dynamic_rules_to_install x) (gy_dynamic_rules_to_uninstall x)
    (restrict_rules_to_install x) (restrict_rules_to_uninstall x) v (charging_credit_map x)
    (charging_credit_to_install x) (is_session_level_key_updated x)
    (updated_session_level_key x) (monitor_credit_map x) (monitor_credit_to_install x)
    (updated_pdp_end_time x) (request_number_increment x)
    (updated_subscriber_quota_state x) (updated_tgpp_context x).

Definition uc_with_charging_credit_map
    (v : gmap CreditKey CreditUC.t) (x : SessionStateUpdateCriteria)
  : SessionStateUpdateCriteria :=
  Build_UC (is_fsm_updated x) (updated_fsm_state x) (is_pending_event_triggers_updated x)
    (pending_event_triggers x) (revalidation_time x) (is_bearer_mapping_updated x)
    (bearer_id_by_policy x) (is_config_updated x) (updated_config x)
    (static_rules_to_install x) (static_rules_to_uninstall x)
    (new_scheduled_static_rules x) (dynamic_rules_to_install x)
    (dynamic_rules_to_uninstall x) (new_scheduled_dynamic_rules x)
    (gy_dynamic_rules_to_install x) (gy_dynamic_rules_to_uninstall x)
    (restrict_rules_to_install x) (restrict_rules_to_uninstall x) (new_rule_lifetimes x) v
    (charging_credit_to_install x) (is_session_level_key_updated x)
    (updated_session_level_key x) (monitor_credit_map x) (monitor_credit_to_install x)
    (updated_pdp_end_time x) (request_number_increment x)
    (updated_subscriber_quota_state x) (updated_tgpp_context x).

Definition uc_with_charging_credit_to_install
    (v : gmap CreditKey StoredChargingGrant) (x : SessionStateUpdateCriteria)
  : SessionStateUpdateCriteria :=
  Build_UC (is_fsm_updated x) (updated_fsm_state x) (is_pending_event_triggers_updated x)
    (pending_event_triggers x) (revalidation_time x) (is_bearer_mapping_updated x)
    (bearer_id_by_policy x) (is_config_updated x) (updated_config x)
    (static_rules_to_install x) (static_rules_to_uninstall x)
    (new_scheduled_static_rules x) (dynamic_rules_to_install x)
    (dynamic_rules_to_uninstall x) (new_scheduled_dynamic_rules x)
    (gy_dynamic_rules_to_install x) (gy_dynamic_rules_to_uninstall x)
    (restrict_rules_to_install x) (restrict_rules_to_uninstall x) (new_rule_lifetimes x)
    (charging_credit_map x) v (is_session_level_key_updated x)
    (updated_session_level_key x) (monitor_credit_map x) (monitor_credit_to_install x)
    (updated_pdp_end_time x) (request_number_increment x)
    (updated_subscriber_quota_state x) (updated_tgpp_context x).

Definition uc_with_is_session_level_key_updated
    (v : bool) (x : SessionStateUpdateCriteria)
  : SessionStateUpdateCriteria :=
  Build_UC (is_fsm_updated x) (updated_fsm_state x) (is_pending_event_triggers_updated x)
    (pending_event_triggers x) (revalidation_time x) (is_bearer_mapping_updated x)
    (bearer_id_by_policy x) (is_config_updated x) (updated_config x)
    (static_rules_to_install x) (static_rules_to_uninstall x)
    (new_scheduled_static_rules x) (dynamic_rules_to_install x)
    (dynamic_rules_to_uninstall x) (new_scheduled_dynamic_rules x)
    (gy_dynamic_rules_to_install x) (gy_dynamic_rules_to_uninstall x)
    (restrict_rules_to_install x) (restrict_rules_to_uninstall x) (new_rule_lifetimes x)
    (charging_credit_map x) (charging_credit_to_install x) v (updated_session_level_key x)
    (monitor_credit_map x) (monitor_credit_to_install x) (updated_pdp_end_time x)
    (request_number_increment x) (updated_subscriber_quota_state x)
    (updated_tgpp_context x).

Definition uc_with_updated_session_level_key
    (v : string) (x : SessionStateUpdateCriteria)
  : SessionStateUpdateCriteria :=
  Build_UC (is_fsm_updated x) (updated_fsm_state x) (is_pending_event_triggers_updated x)
    (pending_event_triggers x) (revalidation_time x) (is_bearer_mapping_updated x)
    (bearer_id_by_policy x) (is_config_updated x) (updated_config x)
    (static_rules_to_install x) (static_rules_to_uninstall x)
    (new_scheduled_static_rules x) (dynamic_rules_to_install x)
    (dynamic_rules_to_uninstall x) (new_scheduled_dynamic_rules x)
    (gy_dynamic_rules_to_install x) (gy_dynamic_rules_to_uninstall x)
    (restrict_rules_to_install x) (restrict_rules_to_uninstall x) (new_rule_lifetimes x)
    (charging_credit_map x) (charging_credit_to_install x) (is_session_level_key_updated x)
    v (monitor_credit_map x) (monitor_credit_to_install x) (updated_pdp_end_time x)
    (request_number_increment x) (updated_subscriber_quota_state x)
    (updated_tgpp_context x).

Definition uc_with_monitor_credit_map
    (v : gmap string CreditUC.t) (x : SessionStateUpdateCriteria)
  : SessionStateUpdateCriteria :=
  Build_UC (is_fsm_updated x) (updated_fsm_state x) (is_pending_event_triggers_updated x)
    (pending_event_triggers x) (revalidation_time x) (is_bearer_mapping_updated x)
    (bearer_id_by_policy x) (is_config_updated x) (updated_config x)
    (static_rules_to_install x) (static_rules_to_uninstall x)
    (new_scheduled_static_rules x) (dynamic_rules_to_install x)
    (dynamic_rules_to_uninstall x) (new_scheduled_dynamic_rules x)
    (gy_dynamic_rules_to_install x) (gy_dynamic_rules_to_uninstall x)
    (restrict_rules_to_install x) (restrict_rules_to_uninstall x) (new_rule_lifetimes x)
    (charging_credit_map x) (charging_credit_to_install x) (is_session_level_key_updated x)
    (updated_session_level_key x) v (monitor_credit_to_install x) (updated_pdp_end_time x)
    (request_number_increment x) (updated_subscriber_quota_state x)
    (updated_tgpp_context x).

Definition uc_with_monitor_credit_to_install
    (v : gmap string StoredMonitor) (x : SessionStateUpdateCriteria)
  : SessionStateUpdateCriteria :=
  Build_UC (is_fsm_updated x) (updated_fsm_state x) (is_pending_event_triggers_updated x)
    (pending_event_triggers x) (revalidation_time x) (is_bearer_mapping_updated x)
    (bearer_id_by_policy x) (is_config_updated x) (updated_config x)
    (static_rules_to_install x) (static_rules_to_uninstall x)
    (new_scheduled_static_rules x) (dynamic_rules_to_install x)
    (dynamic_rules_to_uninstall x) (new_scheduled_dynamic_rules x)
    (gy_dynamic_rules_to_install x) (gy_dynamic_rules_to_uninstall x)
    (restrict_rules_to_install x) (restrict_rules_to_uninstall x) (new_rule_lifetimes x)
    (charging_credit_map x) (charging_credit_to_install x) (is_session_level_key_updated x)
    (updated_session_level_key x) (monitor_credit_map x) v (updated_pdp_end_time x)
    (request_number_increment x) (updated_subscriber_quota_state x)
    (updated_tgpp_context x).

Definition uc_with_request_number_increment
    (v : Z) (x : SessionStateUpdateCriteria)
  : SessionStateUpdateCriteria :=
  Build_UC (is_fsm_updated x) (updated_fsm_state x) (is_pending_event_triggers_updated x)
    (pending_event_triggers x) (revalidation_time x) (is_bearer_mapping_updated x)
    (bearer_id_by_policy x) (is_config_updated x) (updated_config x)
    (static_rules_to_install x) (static_rules_to_uninstall x)
    (new_scheduled_static_rules x) (dynamic_rules_to_install x)
    (dynamic_rules_to_uninstall x) (new_scheduled_dynamic_rules x)
    (gy_dynamic_rules_to_install x) (gy_dynamic_rules_to_uninstall x)
    (restrict_rules_to_install x) (restrict_rules_to_uninstall x) (new_rule_lifetimes x)
    (charging_credit_map x) (charging_credit_to_install x) (is_session_level_key_updated x)
    (updated_session_level_key x) (monitor_credit_map x) (monitor_credit_to_install x)
    (updated_pdp_end_time x) v (updated_subscriber_quota_state x) (updated_tgpp_context x).

(** ** Messages to the cloud and actions for the data plane *)

Record CreditUsageUpdate := {
  cuu_session_id : string;
  cuu_request_number : Z;
  cuu_sid : string;
  cuu_msisdn : string;
  cuu_ue_ipv4 : string;
  cuu_apn : string;
  cuu_rat_type : RATType;
  cuu_tgpp_ctx : TgppContext;
  cuu_spgw_ipv4 : string;
  cuu_imei : string;
  cuu_plmn_id : string;
  cuu_imsi_plmn_id : string;
  cuu_user_location : string;
  cuu_hardware_addr : string;
  cuu_usage : CreditUsage.t
}.

Record UsageMonitoringUpdateRequest := {
  umr_session_id : string;
  umr_request_number : Z;
  umr_sid : string;
  umr_ue_ipv4 : string;
  umr_rat_type : RATType;
  umr_tgpp_ctx : TgppContext;
  umr_hardware_addr : string;
  umr_update : option UsageMonitorUpdate;
  umr_event_trigger : EventTrigger
}.

Record UpdateSessionRequest := {
  updates : list CreditUsageUpdate;
  usage_monitors : list UsageMonitoringUpdateRequest
}.

Record SessionTerminateRequest := {
  str_sid : string;
  str_session_id : string;
  str_request_number : Z;
  str_ue_ipv4 : string;
  str_msisdn : string;
  str_apn : string;
  str_rat_type : RATType;
  str_tgpp_ctx : TgppContext;
  str_spgw_ipv4 : string;
  str_imei : string;
  str_plmn_id : string;
  str_imsi_plmn_id : string;
  str_user_location : string;
  str_hardware_addr : string;
  monitor_usages : list UsageMonitorUpdate;
  credit_usages : list CreditUsage.t
}.

Record ServiceAction := {
  sa_action_type : ServiceActionType;
  sa_redirect_server : option RedirectServer;
  sa_restrict_rule_ids : list string;
  sa_ambr : option Ambr;
  sa_credit_key : option CreditKey;
  sa_imsi : string;
  sa_ip_addr : string;
  sa_session_id : string;
  sa_rule_ids : list string;
  sa_rule_definitions : list PolicyRule
}.

Record SessionInfo := {
  info_imsi : string;
  info_ip_addr : string;
  info_dynamic_rules : list PolicyRule;
  info_gy_dynamic_rules : list PolicyRule;
  info_static_rules : list string;
  info_restrict_rules : list string;
  info_ambr : option Ambr
}.

End Data.

(** The methods of [SessionCredit], [ChargingGrant], [Monitor] and
    [SessionConfig] that SessionState.cpp calls and whose bodies live in other
    translation units.  A method that writes through a journal reference
    returns the new journal; a journal pointer that may be [NULL] is an
    [option]. *)
Class Helpers `{OpaqueTypes} := {
  (* SessionCredit *)
  credit_new : ServiceState → CreditLimitType → SessionCredit;
  credit_marshal : SessionCredit → StoredSessionCredit;
  credit_unmarshal : StoredSessionCredit → SessionCredit;
  credit_get_update_criteria : SessionCredit → CreditUC.t;
  USAGE_REPORTING_THRESHOLD : Threshold;
  threshold_full : Threshold;
  is_quota_exhausted : Threshold → SessionCredit → bool;
  current_grant_contains_zero : SessionCredit → bool;
  get_credit : SessionCredit → Bucket → Z;
  get_usage_for_reporting : SessionCredit → CreditUC.t → Usage * SessionCredit * CreditUC.t;
  get_all_unreported_usage_for_reporting :
    SessionCredit → CreditUC.t → Usage * SessionCredit * CreditUC.t;
  add_used_credit : Z → Z → SessionCredit → CreditUC.t → SessionCredit * CreditUC.t;
  add_credit : Z → Bucket → SessionCredit → CreditUC.t → SessionCredit * CreditUC.t;
  set_grant_tracking_type :
    GrantTrackingType → SessionCredit → CreditUC.t → SessionCredit * CreditUC.t;
  set_received_granted_units :
    GrantedUnits → SessionCredit → CreditUC.t → SessionCredit * CreditUC.t;
  mark_failure : Z → SessionCredit → CreditUC.t → SessionCredit * CreditUC.t;
  (* ChargingGrant *)
  grant_default : ChargingGrant;
  grant_marshal : ChargingGrant → StoredChargingGrant;
  grant_unmarshal : StoredChargingGrant → ChargingGrant;
  grant_get_update_criteria : ChargingGrant → CreditUC.t;
  get_action : ChargingGrant → CreditUC.t → ServiceActionType * ChargingGrant * CreditUC.t;
  get_update_type : ChargingGrant → option CreditUsage.UpdateType;
  get_credit_usage :
    CreditUsage.UpdateType → bool → ChargingGrant → CreditUC.t →
    CreditUsage.t * ChargingGrant * CreditUC.t;
  should_deactivate_service : ChargingGrant → bool;
  receive_charging_grant :
    ChargingCredit → ChargingGrant → option CreditUC.t → ChargingGrant * option CreditUC.t;
  (* Monitor *)
  should_delete_monitor : Monitor → bool;
  (* SessionConfig *)
  get_apn_ambr : SessionConfig → option Ambr;
  (* value-initialised opaque objects *)
  TgppContext_default : TgppContext
}.

(** ** The session object: SessionState.cpp *)

Section Model.
Context `{Helpers}.

Definition SessionConfig_default : SessionConfig :=
  {| common_context :=
       {| sid := EmptyString; msisdn := EmptyString; apn := EmptyString; rat_type := TGPP_LTE; ue_ipv4 := EmptyString |};
     rat_specific_context := no_rat_context |}.

(** A value-initialised journal, the local [SessionStateUpdateCriteria _] of
    [apply_update_criteria]. *)
Definition UpdateCriteria_default : SessionStateUpdateCriteria :=
  Build_UC false SESSION_ACTIVE false ∅ {| seconds := 0; nanos := 0 |} false ∅
    false SessionConfig_default [] [] [] [] [] [] [] [] [] [] ∅ ∅ ∅ false EmptyString ∅ ∅
    0 0 VALID_QUOTA TgppContext_default.

(** *** ChargingGrant and Monitor members used below *)

Definition grant_with_credit (v : SessionCredit) (g : ChargingGrant) : ChargingGrant :=
  {| credit := v; is_final_grant := is_final_grant g;
     final_action_info := final_action_info g; expiry_time := expiry_time g;
     reauth_state := reauth_state g; service_state := service_state g |}.

(** Modelled from the spec: the setter lives in ChargingGrant.cpp; it stores
    the new service state in the grant and records it in the credit's
    journal. *)
Definition set_service_state
    (new_state : ServiceState) (g : ChargingGrant) (uc : CreditUC.t)
  : ChargingGrant * CreditUC.t :=
  ({| credit := credit g; is_final_grant := is_final_grant g;
      final_action_info := final_action_info g; expiry_time := expiry_time g;
      reauth_state := reauth_state g; service_state := new_state |},
   CreditUC.with_service_state new_state uc).

(** Modelled from the spec: the setter lives in ChargingGrant.cpp; it stores
    the new reauth state in the grant and records it in the credit's
    journal. *)
Definition set_reauth_state
    (new_state : ReAuthState) (g : ChargingGrant) (uc : CreditUC.t)
  : ChargingGrant * CreditUC.t :=
  ({| credit := credit g; is_final_grant := is_final_grant g;
      final_action_info := final_action_info g; expiry_time := expiry_time g;
      reauth_state := new_state; service_state := service_state g |},
   CreditUC.with_reauth_state new_state uc).

(** [Monitor(const StoredMonitor&)] and [Monitor::marshal], as the loops of
    [marshal] and of the unmarshalling constructor spell them out. *)
Definition Monitor_of_stored (m : StoredMonitor) : Monitor :=
  {| mon_credit := credit_unmarshal (stored_credit m); mon_level := stored_level m |}.

Definition Monitor_marshal (m : Monitor) : StoredMonitor :=
  {| stored_credit := credit_marshal (mon_credit m); stored_level := mon_level m |}.

(** *** Journal entries of one key

    [get_credit_uc] and [get_monitor_uc] hand out a pointer into the journal;
    the entry is created from the live credit on first use.  Every caller has
    looked the key up in the session before, so the live grant (monitor) is
    passed along.  The entry is written back with [put_credit_uc]
    ([put_monitor_uc]). *)

Definition get_credit_uc
    (grant : ChargingGrant) (key : CreditKey) (uc : SessionStateUpdateCriteria)
  : CreditUC.t * SessionStateUpdateCriteria :=
  match charging_credit_map uc !! key with
  | Some credit_uc => (credit_uc, uc)
  | None =>
      let credit_uc := grant_get_update_criteria grant in
      (credit_uc, uc_with_charging_credit_map (<[key := credit_uc]> (charging_credit_map uc)) uc)
  end.

Definition put_credit_uc
    (key : CreditKey) (credit_uc : CreditUC.t) (uc : SessionStateUpdateCriteria)
  : SessionStateUpdateCriteria :=
  uc_with_charging_credit_map (<[key := credit_uc]> (charging_credit_map uc)) uc.

Definition get_monitor_uc
    (monitor : Monitor) (key : string) (uc : SessionStateUpdateCriteria)
  : CreditUC.t * SessionStateUpdateCriteria :=
  match monitor_credit_map uc !! key with
  | Some credit_uc => (credit_uc, uc)
  | None =>
      let credit_uc := credit_get_update_criteria (mon_credit monitor) in
      (credit_uc, uc_with_monitor_credit_map (<[key := credit_uc]> (monitor_credit_map uc)) uc)
  end.

Definition put_monitor_uc
    (key : string) (credit_uc : CreditUC.t) (uc : SessionStateUpdateCriteria)
  : SessionStateUpdateCriteria :=
  uc_with_monitor_credit_map (<[key := credit_uc]> (monitor_credit_map uc)) uc.

Definition put_grant (key : CreditKey) (grant : ChargingGrant) (s : SessionState) : SessionState :=
  with_credit_map_ (<[key := grant]> (credit_map_ s)) s.

Definition put_monitor (key : string) (monitor : Monitor) (s : SessionState) : SessionState :=
  with_monitor_map_ (<[key := monitor]> (monitor_map_ s)) s.

(** *** Marshalling *)

Definition marshal (s : SessionState) : StoredSessionState :=
  {| fsm_state := curr_state_ s;
     config := config_ s;
     imsi := imsi_ s;
     session_id := session_id_ s;
     subscriber_quota_state := subscriber_quota_state_ s;
     tgpp_context := tgpp_context_ s;
     request_number := request_number_ s;
     pdp_start_time := pdp_start_time_ s;
     pdp_end_time := pdp_end_time_ s;
     stored_pending_event_triggers := pending_event_triggers_ s;
     stored_revalidation_time := revalidation_time_ s;
     stored_bearer_id_by_policy := bearer_id_by_policy_ s;
     monitor_map :=
       foldl (λ acc p, <[p.1 := Monitor_marshal p.2]> acc) ∅ (map_to_list (monitor_map_ s));
     session_level_key := session_level_key_ s;
     credit_map :=
       foldl (λ acc p,
                <[ {| rating_group := rating_group p.1;
                      service_identifier := service_identifier p.1 |} := grant_marshal p.2 ]> acc)
         ∅ (map_to_list (credit_map_ s));
     static_rule_ids := foldl (λ acc rule_id, acc ++ [rule_id]) [] (active_static_rules_ s);
     dynamic_rules := RuleStore.get_rules (dynamic_rules_ s);
     gy_dynamic_rules := RuleStore.get_rules (gy_dynamic_rules_ s);
     scheduled_static_rules :=
       foldl (λ acc rule_id, set_insert rule_id acc) [] (scheduled_static_rules_ s);
     scheduled_dynamic_rules := RuleStore.get_rules (scheduled_dynamic_rules_ s);
     rule_lifetimes :=
       foldl (λ acc p, <[p.1 := p.2]> acc) ∅ (map_to_list (rule_lifetimes_ s)) |}.

(** [SessionState(const StoredSessionState&, StaticRuleStore&)]; the members
    the initialiser list and the body leave out are default-constructed. *)
Definition unmarshal (marshaled : StoredSessionState) (rule_store : StaticRuleStore)
  : SessionState :=
  {| imsi_ := imsi marshaled;
     session_id_ := session_id marshaled;
     request_number_ := request_number marshaled;
     curr_state_ := fsm_state marshaled;
     config_ := config marshaled;
     pdp_start_time_ := pdp_start_time marshaled;
     pdp_end_time_ := pdp_end_time marshaled;
     subscriber_quota_state_ := subscriber_quota_state marshaled;
     tgpp_context_ := tgpp_context marshaled;
     static_rules_ := rule_store;
     pending_event_triggers_ := stored_pending_event_triggers marshaled;
     revalidation_time_ := stored_revalidation_time marshaled;
     credit_map_ :=
       foldl (λ acc p, <[p.1 := grant_unmarshal p.2]> acc) ∅ (map_to_list (credit_map marshaled));
     monitor_map_ :=
       foldl (λ acc p, <[p.1 := Monitor_of_stored p.2]> acc) ∅
         (map_to_list (monitor_map marshaled));
     session_level_key_ := session_level_key marshaled;
     bearer_id_by_policy_ := stored_bearer_id_by_policy marshaled;
     active_static_rules_ :=
       foldl (λ acc rule_id, acc ++ [rule_id]) [] (static_rule_ids marshaled);
     scheduled_static_rules_ :=
       foldl (λ acc rule_id, set_insert rule_id acc) [] (scheduled_static_rules marshaled);
     active_restrict_rules_ := [];
     dynamic_rules_ :=
       foldl (λ acc rule, RuleStore.insert_rule rule acc) ∅ (dynamic_rules marshaled);
     scheduled_dynamic_rules_ :=
       foldl (λ acc rule, RuleStore.insert_rule rule acc) ∅ (scheduled_dynamic_rules marshaled);
     gy_dynamic_rules_ :=
       foldl (λ acc rule, RuleStore.insert_rule rule acc) ∅ (gy_dynamic_rules marshaled);
     rule_lifetimes_ :=
       foldl (λ acc p, <[p.1 := p.2]> acc) ∅ (map_to_list (rule_lifetimes marshaled)) |}.

(** The constructor of a fresh session. *)
Definition SessionState_new
    (imsi session_id : string) (cfg : SessionConfig) (rule_store : StaticRuleStore)
    (tgpp_context : TgppContext) (pdp_start_time : Z) : SessionState :=
  {| imsi_ := imsi;
     session_id_ := session_id;
     request_number_ := 1;
     curr_state_ := SESSION_ACTIVE;
     config_ := cfg;
     pdp_start_time_ := pdp_start_time;
     pdp_end_time_ := 0;
     subscriber_quota_state_ := VALID_QUOTA;
     tgpp_context_ := tgpp_context;
     static_rules_ := rule_store;
     pending_event_triggers_ := ∅;
     revalidation_time_ := {| seconds := 0; nanos := 0 |};
     credit_map_ := ∅;
     monitor_map_ := ∅;
     session_level_key_ := EmptyString;
     bearer_id_by_policy_ := ∅;
     active_static_rules_ := [];
     scheduled_static_rules_ := [];
     active_restrict_rules_ := [];
     dynamic_rules_ := ∅;
     scheduled_dynamic_rules_ := ∅;
     gy_dynamic_rules_ := ∅;
     rule_lifetimes_ := ∅ |}.

(** *** Simple accessors *)

Definition get_state (s : SessionState) : SessionFsmState := curr_state_ s.

Definition is_terminating (s : SessionState) : bool :=
  bool_decide (curr_state_ s = SESSION_RELEASED ∨ curr_state_ s = SESSION_TERMINATED).

Definition is_active (s : SessionState) : bool :=
  bool_decide (curr_state_ s = SESSION_ACTIVE).

Definition get_request_number (s : SessionState) : Z := request_number_ s.

Definition is_dynamic_rule_scheduled (s : SessionState) (rule_id : string) : bool :=
  bool_decide (is_Some (RuleStore.get_rule (scheduled_dynamic_rules_ s) rule_id)).

Definition is_static_rule_scheduled (s : SessionState) (rule_id : string) : bool :=
  bool_decide (set_count rule_id (scheduled_static_rules_ s) = 1).

Definition is_dynamic_rule_installed (s : SessionState) (rule_id : string) : bool :=
  bool_decide (is_Some (RuleStore.get_rule (dynamic_rules_ s) rule_id)).

Definition is_gy_dynamic_rule_installed (s : SessionState) (rule_id : string) : bool :=
  bool_decide (is_Some (RuleStore.get_rule (gy_dynamic_rules_ s) rule_id)).

Definition is_static_rule_installed (s : SessionState) (rule_id : string) : bool :=
  vector_contains rule_id (active_static_rules_ s).

Definition is_restrict_rule_installed (s : SessionState) (rule_id : string) : bool :=
  vector_contains rule_id (active_restrict_rules_ s).

Definition get_session_info (s : SessionState) : SessionInfo :=
  {| info_imsi := imsi_ s;
     info_ip_addr := ue_ipv4 (common_context (config_ s));
     info_dynamic_rules := RuleStore.get_rules (dynamic_rules_ s);
     info_gy_dynamic_rules := RuleStore.get_rules (gy_dynamic_rules_ s);
     info_static_rules := active_static_rules_ s;
     info_restrict_rules := active_restrict_rules_ s;
     info_ambr := get_apn_ambr (config_ s) |}.

(** [get_charging_credit] and [get_monitor] are [const] members: they read
    the maps with [find] and return a value only. *)
Definition get_charging_credit (s : SessionState) (key : CreditKey) (bucket : Bucket) : Z :=
  match credit_map_ s !! key with
  | None => 0
  | Some grant => get_credit (credit grant) bucket
  end.

Definition get_monitor (s : SessionState) (key : string) (bucket : Bucket) : Z :=
  match monitor_map_ s !! key with
  | None => 0
  | Some monitor => get_credit (mon_credit monitor) bucket
  end.

(** *** Rule lifetimes *)

(** [rule_lifetimes_[rule_id]]: the lifetime read, and the table, in which a
    missing entry has been created with both times zero. *)
Definition rule_lifetime_at (s : SessionState) (rule_id : string) : RuleLifetime * SessionState :=
  match rule_lifetimes_ s !! rule_id with
  | Some lifetime => (lifetime, s)
  | None =>
      (RuleLifetime_zero,
       with_rule_lifetimes_ (<[rule_id := RuleLifetime_zero]> (rule_lifetimes_ s)) s)
  end.

Definition should_rule_be_active (s : SessionState) (rule_id : string) (time : Z)
  : bool * SessionState :=
  let '(lifetime, s) := rule_lifetime_at s rule_id in
  let deactivated :=
    bool_decide (deactivation_time lifetime > 0)%Z &&
    bool_decide (deactivation_time lifetime < time)%Z in
  (bool_decide (activation_time lifetime < time)%Z && negb deactivated, s).

Definition should_rule_be_deactivated (s : SessionState) (rule_id : string) (time : Z)
  : bool * SessionState :=
  let '(lifetime, s) := rule_lifetime_at s rule_id in
  (bool_decide (deactivation_time lifetime > 0)%Z &&
   bool_decide (deactivation_time lifetime < time)%Z, s).

(** *** Installing, scheduling and removing rules

    Every mutator changes the session in place and, except where noted,
    mirrors the change into the journal. *)

Definition insert_dynamic_rule
    (rule : PolicyRule) (lifetime : RuleLifetime)
    (s : SessionState) (uc : SessionStateUpdateCriteria)
  : SessionState * SessionStateUpdateCriteria :=
  if is_dynamic_rule_installed s (pr_id rule) then (s, uc)
  else
    let s := with_rule_lifetimes_ (<[pr_id rule := lifetime]> (rule_lifetimes_ s)) s in
    let s := with_dynamic_rules_ (RuleStore.insert_rule rule (dynamic_rules_ s)) s in
    let uc := uc_with_dynamic_rules_to_install (dynamic_rules_to_install uc ++ [rule]) uc in
    let uc := uc_with_new_rule_lifetimes (<[pr_id rule := lifetime]> (new_rule_lifetimes uc)) uc in
    (s, uc).

Definition insert_gy_dynamic_rule
    (rule : PolicyRule) (lifetime : RuleLifetime)
    (s : SessionState) (uc : SessionStateUpdateCriteria)
  : SessionState * SessionStateUpdateCriteria :=
  if is_gy_dynamic_rule_installed s (pr_id rule) then (s, uc)
  else
    let s := with_rule_lifetimes_ (<[pr_id rule := lifetime]> (rule_lifetimes_ s)) s in
    let s := with_gy_dynamic_rules_ (RuleStore.insert_rule rule (gy_dynamic_rules_ s)) s in
    let uc := uc_with_gy_dynamic_rules_to_install (gy_dynamic_rules_to_install uc ++ [rule]) uc in
    let uc := uc_with_new_rule_lifetimes (<[pr_id rule := lifetime]> (new_rule_lifetimes uc)) uc in
    (s, uc).

Definition activate_static_rule
    (rule_id : string) (lifetime : RuleLifetime)
    (s : SessionState) (uc : SessionStateUpdateCriteria)
  : SessionState * SessionStateUpdateCriteria :=
  let s := with_rule_lifetimes_ (<[rule_id := lifetime]> (rule_lifetimes_ s)) s in
  let s := with_active_static_rules_ (active_static_rules_ s ++ [rule_id]) s in
  let uc := uc_with_static_rules_to_install (set_insert rule_id (static_rules_to_install uc)) uc in
  let uc := uc_with_new_rule_lifetimes (<[rule_id := lifetime]> (new_rule_lifetimes uc)) uc in
  (s, uc).

Definition activate_restrict_rule
    (rule_id : string) (lifetime : RuleLifetime)
    (s : SessionState) (uc : SessionStateUpdateCriteria)
  : SessionState * SessionStateUpdateCriteria :=
  let s := with_rule_lifetimes_ (<[rule_id := lifetime]> (rule_lifetimes_ s)) s in
  let s := with_active_restrict_rules_ (active_restrict_rules_ s ++ [rule_id]) s in
  let uc :=
    uc_with_restrict_rules_to_install (set_insert rule_id (restrict_rules_to_install uc)) uc in
  let uc := uc_with_new_rule_lifetimes (<[rule_id := lifetime]> (new_rule_lifetimes uc)) uc in
  (s, uc).

(** The removed rule ([rule_out]) stands for the boolean result as well. *)
Definition remove_dynamic_rule
    (rule_id : string) (s : SessionState) (uc : SessionStateUpdateCriteria)
  : option PolicyRule * SessionState * SessionStateUpdateCriteria :=
  let '(removed, store) := RuleStore.remove_rule rule_id (dynamic_rules_ s) in
  let s := with_dynamic_rules_ store s in
  match removed with
  | Some _ =>
      (removed, s,
       uc_with_dynamic_rules_to_uninstall (set_insert rule_id (dynamic_rules_to_uninstall uc)) uc)
  | None => (removed, s, uc)
  end.

Definition remove_scheduled_dynamic_rule
    (rule_id : string) (s : SessionState) (uc : SessionStateUpdateCriteria)
  : option PolicyRule * SessionState * SessionStateUpdateCriteria :=
  let '(removed, store) := RuleStore.remove_rule rule_id (scheduled_dynamic_rules_ s) in
  let s := with_scheduled_dynamic_rules_ store s in
  match removed with
  | Some _ =>
      (removed, s,
       uc_with_dynamic_rules_to_uninstall (set_insert rule_id (dynamic_rules_to_uninstall uc)) uc)
  | None => (removed, s, uc)
  end.

Definition remove_gy_dynamic_rule
    (rule_id : string) (s : SessionState) (uc : SessionStateUpdateCriteria)
  : option PolicyRule * SessionState * SessionStateUpdateCriteria :=
  let '(removed, store) := RuleStore.remove_rule rule_id (gy_dynamic_rules_ s) in
  let s := with_gy_dynamic_rules_ store s in
  match removed with
  | Some _ =>
      (removed, s,
       uc_with_gy_dynamic_rules_to_uninstall
         (set_insert rule_id (gy_dynamic_rules_to_uninstall uc)) uc)
  | None => (removed, s, uc)
  end.

Definition deactivate_static_rule
    (rule_id : string) (s : SessionState) (uc : SessionStateUpdateCriteria)
  : bool * SessionState * SessionStateUpdateCriteria :=
  if vector_contains rule_id (active_static_rules_ s) then
    let uc :=
      uc_with_static_rules_to_uninstall (set_insert rule_id (static_rules_to_uninstall uc)) uc in
    let s := with_active_static_rules_ (vector_erase_first rule_id (active_static_rules_ s)) s in
    (true, s, uc)
  else (false, s, uc).

(** The journal is taken and handed back untouched. *)
Definition deactivate_scheduled_static_rule
    (rule_id : string) (s : SessionState) (uc : SessionStateUpdateCriteria)
  : bool * SessionState * SessionStateUpdateCriteria :=
  if bool_decide (set_count rule_id (scheduled_static_rules_ s) = 0) then (false, s, uc)
  else (true, with_scheduled_static_rules_ (set_erase rule_id (scheduled_static_rules_ s)) s, uc).

Definition deactivate_restrict_rule
    (rule_id : string) (s : SessionState) (uc : SessionStateUpdateCriteria)
  : bool * SessionState * SessionStateUpdateCriteria :=
  if vector_contains rule_id (active_restrict_rules_ s) then
    let uc :=
      uc_with_restrict_rules_to_uninstall
        (set_insert rule_id (restrict_rules_to_uninstall uc)) uc in
    let s :=
      with_active_restrict_rules_ (vector_erase_first rule_id (active_restrict_rules_ s)) s in
    (true, s, uc)
  else (false, s, uc).

Definition schedule_dynamic_rule
    (rule : PolicyRule) (lifetime : RuleLifetime)
    (s : SessionState) (uc : SessionStateUpdateCriteria)
  : SessionState * SessionStateUpdateCriteria :=
  let uc := uc_with_new_rule_lifetimes (<[pr_id rule := lifetime]> (new_rule_lifetimes uc)) uc in
  let uc := uc_with_new_scheduled_dynamic_rules (new_scheduled_dynamic_rules uc ++ [rule]) uc in
  let s := with_rule_lifetimes_ (<[pr_id rule := lifetime]> (rule_lifetimes_ s)) s in
  let s :=
    with_scheduled_dynamic_rules_ (RuleStore.insert_rule rule (scheduled_dynamic_rules_ s)) s in
  (s, uc).

Definition schedule_static_rule
    (rule_id : string) (lifetime : RuleLifetime)
    (s : SessionState) (uc : SessionStateUpdateCriteria)
  : SessionState * SessionStateUpdateCriteria :=
  let uc := uc_with_new_rule_lifetimes (<[rule_id := lifetime]> (new_rule_lifetimes uc)) uc in
  let uc :=
    uc_with_new_scheduled_static_rules (set_insert rule_id (new_scheduled_static_rules uc)) uc in
  let s := with_rule_lifetimes_ (<[rule_id := lifetime]> (rule_lifetimes_ s)) s in
  let s := with_scheduled_static_rules_ (set_insert rule_id (scheduled_static_rules_ s)) s in
  (s, uc).

Definition install_scheduled_dynamic_rule
    (rule_id : string) (s : SessionState) (uc : SessionStateUpdateCriteria)
  : SessionState * SessionStateUpdateCriteria :=
  let '(removed, store) := RuleStore.remove_rule rule_id (scheduled_dynamic_rules_ s) in
  let s := with_scheduled_dynamic_rules_ store s in
  match removed with
  | None => (s, uc)
  | Some dynamic_rule =>
      let uc :=
        uc_with_dynamic_rules_to_install (dynamic_rules_to_install uc ++ [dynamic_rule]) uc in
      (with_dynamic_rules_ (RuleStore.insert_rule dynamic_rule (dynamic_rules_ s)) s, uc)
  end.

(** When the rule is not scheduled an error is logged and the function goes
    on: the rule id is journalled and appended to the active rules all the
    same. *)
Definition install_scheduled_static_rule
    (rule_id : string) (s : SessionState) (uc : SessionStateUpdateCriteria)
  : SessionState * SessionStateUpdateCriteria :=
  let uc := uc_with_static_rules_to_install (set_insert rule_id (static_rules_to_install uc)) uc in
  let s := with_scheduled_static_rules_ (set_erase rule_id (scheduled_static_rules_ s)) s in
  let s := with_active_static_rules_ (active_static_rules_ s ++ [rule_id]) s in
  (s, uc).

(** *** The state machine *)

Definition set_fsm_state
    (new_state : SessionFsmState) (s : SessionState) (uc : SessionStateUpdateCriteria)
  : SessionState * SessionStateUpdateCriteria :=
  if bool_decide (curr_state_ s ≠ new_state) then
    (with_curr_state_ new_state s,
     uc_with_updated_fsm_state new_state (uc_with_is_fsm_updated true uc))
  else (s, uc).

Definition mark_as_awaiting_termination
    (s : SessionState) (update_criteria : SessionStateUpdateCriteria)
  : SessionState * SessionStateUpdateCriteria :=
  set_fsm_state SESSION_TERMINATION_SCHEDULED s update_criteria.

(** *** Requests *)

Definition rat_hardware_addr (cfg : SessionConfig) : string :=
  match rat_specific_context cfg with
  | wlan_context c => mac_addr_binary c
  | _ => EmptyString
  end.

Definition add_common_fields_to_usage_monitor_update
    (s : SessionState) (update : option UsageMonitorUpdate) (trigger : EventTrigger)
  : UsageMonitoringUpdateRequest :=
  {| umr_session_id := session_id_ s;
     umr_request_number := request_number_ s;
     umr_sid := imsi_ s;
     umr_ue_ipv4 := ue_ipv4 (common_context (config_ s));
     umr_rat_type := rat_type (common_context (config_ s));
     umr_tgpp_ctx := tgpp_context_ s;
     umr_hardware_addr := rat_hardware_addr (config_ s);
     umr_update := update;
     umr_event_trigger := trigger |}.

Definition make_credit_usage_update_req (s : SessionState) (usage : CreditUsage.t)
  : CreditUsageUpdate :=
  let cfg := config_ s in
  let lte := match rat_specific_context cfg with lte_context c => Some c | _ => None end in
  {| cuu_session_id := session_id_ s;
     cuu_request_number := request_number_ s;
     cuu_sid := imsi_ s;
     cuu_msisdn := msisdn (common_context cfg);
     cuu_ue_ipv4 := ue_ipv4 (common_context cfg);
     cuu_apn := apn (common_context cfg);
     cuu_rat_type := rat_type (common_context cfg);
     cuu_tgpp_ctx := tgpp_context_ s;
     cuu_spgw_ipv4 := from_option spgw_ipv4 EmptyString lte;
     cuu_imei := from_option imei EmptyString lte;
     cuu_plmn_id := from_option plmn_id EmptyString lte;
     cuu_imsi_plmn_id := from_option imsi_plmn_id EmptyString lte;
     cuu_user_location := from_option user_location EmptyString lte;
     cuu_hardware_addr := rat_hardware_addr cfg;
     cuu_usage := usage |}.

(** The state a collection pass threads: the session, the request under
    construction, the actions collected so far and the journal. *)
Definition Collect : Type :=
  SessionState * UpdateSessionRequest * list ServiceAction * SessionStateUpdateCriteria.

Definition count_request (s : SessionState) : SessionState :=
  with_request_number_ (uint32_incr (request_number_ s)) s.

Definition count_request_uc (uc : SessionStateUpdateCriteria) : SessionStateUpdateCriteria :=
  uc_with_request_number_increment (uint32_incr (request_number_increment uc)) uc.

Definition add_update (u : CreditUsageUpdate) (req : UpdateSessionRequest) : UpdateSessionRequest :=
  {| updates := updates req ++ [u]; usage_monitors := usage_monitors req |}.

Definition add_usage_monitor (u : UsageMonitoringUpdateRequest) (req : UpdateSessionRequest)
  : UpdateSessionRequest :=
  {| updates := updates req; usage_monitors := usage_monitors req ++ [u] |}.

(** *** Charging updates

    The [switch] of [get_charging_updates] has no [break] between [REDIRECT],
    [RESTRICT_ACCESS], [ACTIVATE_SERVICE] and [TERMINATE_SERVICE]: each case
    runs into the next one.  The cases are written as functions that call the
    case below them; [None] for the action stands for [continue]. *)

Definition ServiceAction_new (action_type : ServiceActionType) : ServiceAction :=
  {| sa_action_type := action_type;
     sa_redirect_server := None;
     sa_restrict_rule_ids := [];
     sa_ambr := None;
     sa_credit_key := None;
     sa_imsi := EmptyString;
     sa_ip_addr := EmptyString;
     sa_session_id := EmptyString;
     sa_rule_ids := [];
     sa_rule_definitions := [] |}.

Definition case_TERMINATE_SERVICE (s : SessionState) (key : CreditKey) (action : ServiceAction)
  : ServiceAction :=
  {| sa_action_type := sa_action_type action;
     sa_redirect_server := sa_redirect_server action;
     sa_restrict_rule_ids := sa_restrict_rule_ids action;
     sa_ambr := sa_ambr action;
     sa_credit_key := Some key;
     sa_imsi := imsi_ s;
     sa_ip_addr := ue_ipv4 (common_context (config_ s));
     sa_session_id := session_id_ s;
     sa_rule_ids :=
       sa_rule_ids action ++ RuleStore.get_rule_ids_for_charging_key (static_rules_ s) key;
     sa_rule_definitions :=
       sa_rule_definitions action ++
       RuleStore.get_rule_definitions_for_charging_key (dynamic_rules_ s) key |}.

Definition case_ACTIVATE_SERVICE (s : SessionState) (key : CreditKey) (action : ServiceAction)
  : ServiceAction :=
  case_TERMINATE_SERVICE s key
    {| sa_action_type := sa_action_type action;
       sa_redirect_server := sa_redirect_server action;
       sa_restrict_rule_ids := sa_restrict_rule_ids action;
       sa_ambr := get_apn_ambr (config_ s);
       sa_credit_key := sa_credit_key action;
       sa_imsi := sa_imsi action;
       sa_ip_addr := sa_ip_addr action;
       sa_session_id := sa_session_id action;
       sa_rule_ids := sa_rule_ids action;
       sa_rule_definitions := sa_rule_definitions action |}.

Definition case_RESTRICT_ACCESS
    (s : SessionState) (key : CreditKey) (grant : ChargingGrant) (credit_uc : CreditUC.t)
    (action : ServiceAction)
  : option ServiceAction * ChargingGrant * CreditUC.t :=
  if bool_decide (service_state grant = SERVICE_RESTRICTED) then (None, grant, credit_uc)
  else
    let '(grant, credit_uc) := set_service_state SERVICE_RESTRICTED grant credit_uc in
    let action :=
      {| sa_action_type := sa_action_type action;
         sa_redirect_server := sa_redirect_server action;
         sa_restrict_rule_ids :=
           sa_restrict_rule_ids action ++ restrict_rules (final_action_info grant);
         sa_ambr := sa_ambr action;
         sa_credit_key := sa_credit_key action;
         sa_imsi := sa_imsi action;
         sa_ip_addr := sa_ip_addr action;
         sa_session_id := sa_session_id action;
         sa_rule_ids := sa_rule_ids action;
         sa_rule_definitions := sa_rule_definitions action |} in
    (Some (case_ACTIVATE_SERVICE s key action), grant, credit_uc).

Definition case_REDIRECT
    (s : SessionState) (key : CreditKey) (grant : ChargingGrant) (credit_uc : CreditUC.t)
    (action : ServiceAction)
  : option ServiceAction * ChargingGrant * CreditUC.t :=
  if bool_decide (service_state grant = SERVICE_REDIRECTED) then (None, grant, credit_uc)
  else
    let '(grant, credit_uc) := set_service_state SERVICE_REDIRECTED grant credit_uc in
    let action :=
      {| sa_action_type := sa_action_type action;
         sa_redirect_server := Some (redirect_server (final_action_info grant));
         sa_restrict_rule_ids := sa_restrict_rule_ids action;
         sa_ambr := sa_ambr action;
         sa_credit_key := sa_credit_key action;
         sa_imsi := sa_imsi action;
         sa_ip_addr := sa_ip_addr action;
         sa_session_id := sa_session_id action;
         sa_rule_ids := sa_rule_ids action;
         sa_rule_definitions := sa_rule_definitions action |} in
    case_RESTRICT_ACCESS s key grant credit_uc action.

(** [actions_out->push_back(std::move(action))], or nothing after [continue]. *)
Definition push_action (actions : list ServiceAction) (emitted : option ServiceAction)
  : list ServiceAction :=
  match emitted with
  | Some action => actions ++ [action]
  | None => actions
  end.

(** One round of the loop over [credit_map_]. *)
Definition charging_update_step (st : Collect) (key : CreditKey) : Collect :=
  let '(s, req, actions, uc) := st in
  match credit_map_ s !! key with
  | None => st
  | Some grant =>
      let '(credit_uc, uc) := get_credit_uc grant key uc in
      let '(action_type, grant, credit_uc) := get_action grant credit_uc in
      let action := ServiceAction_new action_type in
      match action_type with
      | CONTINUE_SERVICE =>
          match get_update_type grant with
          | None => (put_grant key grant s, req, actions, put_credit_uc key credit_uc uc)
          | Some update_type =>
              let '(grant, credit_uc) :=
                if bool_decide (update_type = CreditUsage.REAUTH_REQUIRED)
                then set_reauth_state REAUTH_PROCESSING grant credit_uc
                else (grant, credit_uc) in
              let '(update, grant, credit_uc) :=
                get_credit_usage update_type false grant credit_uc in
              let update := set_credit_usage key update in
              let credit_req := make_credit_usage_update_req s update in
              (count_request (put_grant key grant s), add_update credit_req req, actions,
               count_request_uc (put_credit_uc key credit_uc uc))
          end
      | REDIRECT =>
          let '(emitted, grant, credit_uc) := case_REDIRECT s key grant credit_uc action in
          (put_grant key grant s, req, push_action actions emitted,
           put_credit_uc key credit_uc uc)
      | RESTRICT_ACCESS =>
          let '(emitted, grant, credit_uc) :=
            case_RESTRICT_ACCESS s key grant credit_uc action in
          (put_grant key grant s, req, push_action actions emitted,
           put_credit_uc key credit_uc uc)
      | ACTIVATE_SERVICE =>
          (put_grant key grant s, req, actions ++ [case_ACTIVATE_SERVICE s key action],
           put_credit_uc key credit_uc uc)
      | TERMINATE_SERVICE =>
          (put_grant key grant s, req, actions ++ [case_TERMINATE_SERVICE s key action],
           put_credit_uc key credit_uc uc)
      end
  end.

Definition get_charging_updates (st : Collect) : Collect :=
  foldl charging_update_step st (map_to_list (credit_map_ st.1.1.1)).*1.

(** *** Monitor updates *)

(** The test that lets a monitor report: partially exhausted, and not a
    zero grant that still has quota left. *)
Definition monitor_update_due (credit : SessionCredit) : bool :=
  let is_partially_exhausted := is_quota_exhausted USAGE_REPORTING_THRESHOLD credit in
  let is_totally_exhausted := is_quota_exhausted threshold_full credit in
  negb (negb is_partially_exhausted
        || (negb is_totally_exhausted && current_grant_contains_zero credit)).

(** One round of the loop over [monitor_map_]. *)
Definition monitor_update_step (st : Collect) (mkey : string) : Collect :=
  let '(s, req, actions, uc) := st in
  match monitor_map_ s !! mkey with
  | None => st
  | Some monitor =>
      let credit := mon_credit monitor in
      let is_partially_exhausted := is_quota_exhausted USAGE_REPORTING_THRESHOLD credit in
      let is_totally_exhausted := is_quota_exhausted threshold_full credit in
      if negb is_partially_exhausted
         || (negb is_totally_exhausted && current_grant_contains_zero credit)
      then st
      else
        let '(credit_uc, uc) := get_monitor_uc monitor mkey uc in
        let '(usage, credit, credit_uc) := get_usage_for_reporting credit credit_uc in
        let update := make_usage_monitor_update usage mkey (mon_level monitor) in
        let new_req := add_common_fields_to_usage_monitor_update s (Some update) USAGE_REPORT in
        (count_request
           (put_monitor mkey {| mon_credit := credit; mon_level := mon_level monitor |} s),
         add_usage_monitor new_req req, actions,
         count_request_uc (put_monitor_uc mkey credit_uc uc))
  end.

Definition get_monitor_updates (st : Collect) : Collect :=
  foldl monitor_update_step st (map_to_list (monitor_map_ st.1.1.1)).*1.

(** Whether the monitor under [key] is due for a report in session [s]. *)
Definition monitor_due (s : SessionState) (key : string) : bool :=
  match monitor_map_ s !! key with
  | Some monitor => monitor_update_due (mon_credit monitor)
  | None => false
  end.

(** The monitoring keys of the usage reports among a list of requests. *)
Definition reported_monitoring_keys (l : list UsageMonitoringUpdateRequest) : list string :=
  omap (λ r, um_monitoring_key <$> umr_update r) l.

(** *** Event triggers *)

Definition set_event_trigger
    (trigger : EventTrigger) (value : EventTriggerState)
    (s : SessionState) (uc : SessionStateUpdateCriteria)
  : SessionState * SessionStateUpdateCriteria :=
  (with_pending_event_triggers_ (<[trigger := value]> (pending_event_triggers_ s)) s,
   uc_with_pending_event_triggers (<[trigger := value]> (pending_event_triggers uc))
     (uc_with_is_pending_event_triggers_updated true uc)).

Definition remove_event_trigger
    (trigger : EventTrigger) (s : SessionState) (uc : SessionStateUpdateCriteria)
  : SessionState * SessionStateUpdateCriteria :=
  set_event_trigger trigger CLEARED
    (with_pending_event_triggers_ (delete trigger (pending_event_triggers_ s)) s) uc.

Definition get_event_trigger_updates (st : Collect) : Collect :=
  let '(s, req, actions, uc) := st in
  match pending_event_triggers_ s !! REVALIDATION_TIMEOUT with
  | Some READY =>
      let new_req := add_common_fields_to_usage_monitor_update s None REVALIDATION_TIMEOUT in
      let '(s, uc) :=
        remove_event_trigger REVALIDATION_TIMEOUT (count_request s) (count_request_uc uc) in
      (s, add_usage_monitor new_req req, actions, uc)
  | _ => st
  end.

(** *** Collecting all updates of a session *)

Definition get_updates (st : Collect) : Collect :=
  if bool_decide (curr_state_ st.1.1.1 ≠ SESSION_ACTIVE) then st
  else get_event_trigger_updates (get_monitor_updates (get_charging_updates st)).

(** *** Termination *)

Definition termination_monitor_step
    (st : SessionState * list UsageMonitorUpdate * SessionStateUpdateCriteria) (key : string)
  : SessionState * list UsageMonitorUpdate * SessionStateUpdateCriteria :=
  let '(s, usages, uc) := st in
  match monitor_map_ s !! key with
  | None => st
  | Some monitor =>
      let '(credit_uc, uc) := get_monitor_uc monitor key uc in
      let '(usage, credit, credit_uc) :=
        get_all_unreported_usage_for_reporting (mon_credit monitor) credit_uc in
      (put_monitor key {| mon_credit := credit; mon_level := mon_level monitor |} s,
       usages ++ [make_usage_monitor_update usage key (mon_level monitor)],
       put_monitor_uc key credit_uc uc)
  end.

Definition termination_credit_step
    (st : SessionState * list CreditUsage.t * SessionStateUpdateCriteria) (key : CreditKey)
  : SessionState * list CreditUsage.t * SessionStateUpdateCriteria :=
  let '(s, usages, uc) := st in
  match credit_map_ s !! key with
  | None => st
  | Some grant =>
      let '(credit_uc, uc) := get_credit_uc grant key uc in
      let '(credit_usage, grant, credit_uc) :=
        get_credit_usage CreditUsage.TERMINATED true grant credit_uc in
      (put_grant key grant s, usages ++ [set_credit_usage key credit_usage],
       put_credit_uc key credit_uc uc)
  end.

Definition make_termination_request (s : SessionState) (uc : SessionStateUpdateCriteria)
  : SessionTerminateRequest * SessionState * SessionStateUpdateCriteria :=
  let cfg := config_ s in
  let lte := match rat_specific_context cfg with lte_context c => Some c | _ => None end in
  let '(s1, monitor_usages, uc1) :=
    foldl termination_monitor_step (s, [], uc) (map_to_list (monitor_map_ s)).*1 in
  let '(s2, credit_usages, uc2) :=
    foldl termination_credit_step (s1, [], uc1) (map_to_list (credit_map_ s1)).*1 in
  ({| str_sid := imsi_ s;
      str_session_id := session_id_ s;
      str_request_number := request_number_ s;
      str_ue_ipv4 := ue_ipv4 (common_context cfg);
      str_msisdn := msisdn (common_context cfg);
      str_apn := apn (common_context cfg);
      str_rat_type := rat_type (common_context cfg);
      str_tgpp_ctx := tgpp_context_ s;
      str_spgw_ipv4 := from_option spgw_ipv4 EmptyString lte;
      str_imei := from_option imei EmptyString lte;
      str_plmn_id := from_option plmn_id EmptyString lte;
      str_imsi_plmn_id := from_option imsi_plmn_id EmptyString lte;
      str_user_location := from_option user_location EmptyString lte;
      str_hardware_addr := rat_hardware_addr cfg;
      monitor_usages := monitor_usages;
      credit_usages := credit_usages |}, s2, uc2).

(** [complete_termination]: the request handed to the reporter, if any. *)
Definition complete_termination (s : SessionState) (uc : SessionStateUpdateCriteria)
  : option SessionTerminateRequest * SessionState * SessionStateUpdateCriteria :=
  match curr_state_ s with
  | SESSION_ACTIVE => (None, s, uc)
  | SESSION_TERMINATED => (None, s, uc)
  | _ =>
      let '(s, uc) := set_fsm_state SESSION_TERMINATED s uc in
      let '(termination_req, s, uc) := make_termination_request s uc in
      (Some termination_req, s, uc)
  end.

(** *** Receiving charging credit *)

Definition contains_credit (gsu : GrantedUnits) : bool :=
  (is_valid (total gsu) && bool_decide (volume (total gsu) > 0)%Z)
  || (is_valid (tx gsu) && bool_decide (volume (tx gsu) > 0)%Z)
  || (is_valid (rx gsu) && bool_decide (volume (rx gsu) > 0)%Z).

Definition is_infinite_credit (response : CreditUpdateResponse) : bool :=
  bool_decide (cur_limit_type response = INFINITE_UNMETERED)
  || bool_decide (cur_limit_type response = INFINITE_METERED).

Definition init_charging_credit
    (update : CreditUpdateResponse) (s : SessionState) (uc : SessionStateUpdateCriteria)
  : bool * SessionState * SessionStateUpdateCriteria :=
  if negb (cur_success update) then (false, s, uc)
  else
    let charging_grant :=
      grant_with_credit (credit_new SERVICE_ENABLED (cur_limit_type update)) grant_default in
    let charging_grant := (receive_charging_grant (cur_credit update) charging_grant None).1 in
    let uc :=
      uc_with_charging_credit_to_install
        (<[CreditKey_of_response update := grant_marshal charging_grant]>
           (charging_credit_to_install uc)) uc in
    (contains_credit (cc_granted_units (cur_credit update)) || is_infinite_credit update,
     put_grant (CreditKey_of_response update) charging_grant s, uc).

Definition receive_charging_credit
    (update : CreditUpdateResponse) (s : SessionState) (uc : SessionStateUpdateCriteria)
  : bool * SessionState * SessionStateUpdateCriteria :=
  let key := CreditKey_of_response update in
  match credit_map_ s !! key with
  | None => init_charging_credit update s uc
  | Some grant =>
      let '(credit_uc, uc) := get_credit_uc grant key uc in
      if negb (cur_success update) then
        let '(c, credit_uc) := mark_failure (cur_result_code update) (credit grant) credit_uc in
        let grant := grant_with_credit c grant in
        let '(grant, credit_uc) :=
          if should_deactivate_service grant
          then set_service_state SERVICE_NEEDS_DEACTIVATION grant credit_uc
          else (grant, credit_uc) in
        (false, put_grant key grant s, put_credit_uc key credit_uc uc)
      else
        let '(grant, received_uc) :=
          receive_charging_grant (cur_credit update) grant (Some credit_uc) in
        let credit_uc := default credit_uc received_uc in
        let '(grant, credit_uc) :=
          if bool_decide (reauth_state grant = REAUTH_PROCESSING)
          then set_reauth_state REAUTH_NOT_NEEDED grant credit_uc
          else (grant, credit_uc) in
        let '(grant, credit_uc) :=
          if negb (is_quota_exhausted threshold_full (credit grant))
             && bool_decide (service_state grant ≠ SERVICE_ENABLED)
          then set_service_state SERVICE_NEEDS_ACTIVATION grant credit_uc
          else (grant, credit_uc) in
        (contains_credit (cc_granted_units (cur_credit update)) || is_infinite_credit update,
         put_grant key grant s, put_credit_uc key credit_uc uc)
  end.

(** *** Applying usage *)

Definition add_to_monitor
    (key : string) (used_tx used_rx : Z) (s : SessionState) (uc : SessionStateUpdateCriteria)
  : bool * SessionState * SessionStateUpdateCriteria :=
  match monitor_map_ s !! key with
  | None => (false, s, uc)
  | Some monitor =>
      let '(credit_uc, uc) := get_monitor_uc monitor key uc in
      if should_delete_monitor monitor then
        let uc :=
          if bool_decide (mon_level monitor = SESSION_LEVEL)
          then uc_with_updated_session_level_key EmptyString (uc_with_is_session_level_key_updated true uc)
          else uc in
        (true, with_monitor_map_ (delete key (monitor_map_ s)) s,
         put_monitor_uc key (CreditUC.with_deleted true credit_uc) uc)
      else
        let '(c, credit_uc) := add_used_credit used_tx used_rx (mon_credit monitor) credit_uc in
        (true, put_monitor key {| mon_credit := c; mon_level := mon_level monitor |} s,
         put_monitor_uc key credit_uc uc)
  end.

(** The charging half of [add_rule_usage]. *)
Definition add_rule_usage_charging
    (rule_id : string) (used_tx used_rx : Z)
    (s : SessionState) (update_criteria : SessionStateUpdateCriteria)
  : SessionState * SessionStateUpdateCriteria :=
  let charging_key :=
    match RuleStore.get_charging_key_for_rule_id (dynamic_rules_ s) rule_id with
    | Some k => Some k
    | None => RuleStore.get_charging_key_for_rule_id (static_rules_ s) rule_id
    end in
  match charging_key with
  | None => (s, update_criteria)
  | Some charging_key =>
      match credit_map_ s !! charging_key with
      | None => (s, update_criteria)
      | Some grant =>
          let '(credit_uc, uc) := get_credit_uc grant charging_key update_criteria in
          let '(c, credit_uc) := add_used_credit used_tx used_rx (credit grant) credit_uc in
          let grant := grant_with_credit c grant in
          let '(grant, credit_uc) :=
            if should_deactivate_service grant
            then set_service_state SERVICE_NEEDS_DEACTIVATION grant credit_uc
            else (grant, credit_uc) in
          (put_grant charging_key grant s, put_credit_uc charging_key credit_uc uc)
      end
  end.

(** The monitoring half of [add_rule_usage]: the rule's own monitoring key,
    then the session-level key if it is another one. *)
Definition add_rule_usage_monitoring
    (rule_id : string) (used_tx used_rx : Z)
    (s : SessionState) (uc : SessionStateUpdateCriteria)
  : SessionState * SessionStateUpdateCriteria :=
  let found_monitoring_key :=
    match RuleStore.get_monitoring_key_for_rule_id (dynamic_rules_ s) rule_id with
    | Some k => Some k
    | None => RuleStore.get_monitoring_key_for_rule_id (static_rules_ s) rule_id
    end in
  let '(s, uc) :=
    match found_monitoring_key with
    | Some monitoring_key =>
        let r := add_to_monitor monitoring_key used_tx used_rx s uc in (r.1.2, r.2)
    | None => (s, uc)
    end in
  let monitoring_key := default EmptyString found_monitoring_key in
  if bool_decide (session_level_key_ s ≠ EmptyString) && bool_decide (monitoring_key ≠ session_level_key_ s)
  then
    let r := add_to_monitor (session_level_key_ s) used_tx used_rx s uc in (r.1.2, r.2)
  else (s, uc).

(** The usage metrics counters written at the end of [add_rule_usage] belong
    to the metrics service and are not part of the session. *)
Definition add_rule_usage
    (rule_id : string) (used_tx used_rx : Z)
    (s : SessionState) (update_criteria : SessionStateUpdateCriteria)
  : SessionState * SessionStateUpdateCriteria :=
  let '(s, uc) := add_rule_usage_charging rule_id used_tx used_rx s update_criteria in
  add_rule_usage_monitoring rule_id used_tx used_rx s uc.

(** *** Replaying a journal: [apply_update_criteria]

    The session is changed in place, so a failed merge returns [false]
    together with the session as the rounds before the failure left it.  The
    journal is taken by non-const reference: [uc.new_rule_lifetimes[id]] in
    the two scheduling loops creates a zero lifetime for an id that has none.
    The mutators called on the way write into the local journal [_], which is
    threaded along and dropped at the end. *)

Definition Merge : Type :=
  SessionState * SessionStateUpdateCriteria * SessionStateUpdateCriteria.

(** A range-[for] whose body may [return false]. *)
Fixpoint for_each_until {A St : Type}
    (body : A → St → bool * St) (l : list A) (st : St) : bool * St :=
  match l with
  | [] => (true, st)
  | x :: l' =>
      let '(ok, st') := body x st in
      if ok then for_each_until body l' st' else (false, st')
  end.

Definition and_then {St : Type} (r : bool * St) (k : St → bool * St) : bool * St :=
  if r.1 then k r.2 else r.

(** [uc.new_rule_lifetimes[rule_id]] *)
Definition journal_lifetime_at (uc : SessionStateUpdateCriteria) (rule_id : string)
  : RuleLifetime * SessionStateUpdateCriteria :=
  match new_rule_lifetimes uc !! rule_id with
  | Some lifetime => (lifetime, uc)
  | None =>
      (RuleLifetime_zero,
       uc_with_new_rule_lifetimes (<[rule_id := RuleLifetime_zero]> (new_rule_lifetimes uc)) uc)
  end.

Definition merge_static_rule_to_install (rule_id : string) (st : Merge) : bool * Merge :=
  let '(s, uc, scratch) := st in
  if is_static_rule_installed s rule_id then (false, st)
  else
    match new_rule_lifetimes uc !! rule_id with
    | Some lifetime =>
        let '(s, scratch) := activate_static_rule rule_id lifetime s scratch in
        (true, (s, uc, scratch))
    | None =>
        if is_static_rule_scheduled s rule_id then
          let '(s, scratch) := install_scheduled_static_rule rule_id s scratch in
          (true, (s, uc, scratch))
        else (false, st)
    end.

Definition merge_static_rule_to_uninstall (rule_id : string) (st : Merge) : bool * Merge :=
  let '(s, uc, scratch) := st in
  if is_static_rule_installed s rule_id then
    let '(_, s, scratch) := deactivate_static_rule rule_id s scratch in
    (true, (s, uc, scratch))
  else if is_static_rule_scheduled s rule_id then
    let '(s, scratch) := install_scheduled_static_rule rule_id s scratch in
    let '(_, s, scratch) := deactivate_static_rule rule_id s scratch in
    (true, (s, uc, scratch))
  else (false, st).

Definition merge_new_scheduled_static_rule (rule_id : string) (st : Merge) : bool * Merge :=
  let '(s, uc, scratch) := st in
  if is_static_rule_scheduled s rule_id then (false, st)
  else
    let '(lifetime, uc) := journal_lifetime_at uc rule_id in
    let '(s, scratch) := schedule_static_rule rule_id lifetime s scratch in
    (true, (s, uc, scratch)).

Definition merge_dynamic_rule_to_install (rule : PolicyRule) (st : Merge) : bool * Merge :=
  let '(s, uc, scratch) := st in
  if is_dynamic_rule_installed s (pr_id rule) then (false, st)
  else
    match new_rule_lifetimes uc !! pr_id rule with
    | Some lifetime =>
        let '(s, scratch) := insert_dynamic_rule rule lifetime s scratch in
        (true, (s, uc, scratch))
    | None =>
        if is_dynamic_rule_scheduled s (pr_id rule) then
          let '(s, scratch) := install_scheduled_dynamic_rule (pr_id rule) s scratch in
          (true, (s, uc, scratch))
        else (false, st)
    end.

(** For a scheduled dynamic rule the source calls the _static_ variant
    [install_scheduled_static_rule] and then removes the id from the active
    dynamic rules. *)
Definition merge_dynamic_rule_to_uninstall (rule_id : string) (st : Merge) : bool * Merge :=
  let '(s, uc, scratch) := st in
  if is_dynamic_rule_installed s rule_id then
    let s := with_dynamic_rules_ (RuleStore.remove_rule rule_id (dynamic_rules_ s)).2 s in
    (true, (s, uc, scratch))
  else if is_dynamic_rule_scheduled s rule_id then
    let '(s, scratch) := install_scheduled_static_rule rule_id s scratch in
    let s := with_dynamic_rules_ (RuleStore.remove_rule rule_id (dynamic_rules_ s)).2 s in
    (true, (s, uc, scratch))
  else (false, st).

Definition merge_new_scheduled_dynamic_rule (rule : PolicyRule) (st : Merge) : bool * Merge :=
  let '(s, uc, scratch) := st in
  if is_dynamic_rule_scheduled s (pr_id rule) then (false, st)
  else
    let '(lifetime, uc) := journal_lifetime_at uc (pr_id rule) in
    let '(s, scratch) := schedule_dynamic_rule rule lifetime s scratch in
    (true, (s, uc, scratch)).

Definition merge_gy_dynamic_rule_to_install (rule : PolicyRule) (st : Merge) : bool * Merge :=
  let '(s, uc, scratch) := st in
  if is_gy_dynamic_rule_installed s (pr_id rule) then (false, st)
  else
    match new_rule_lifetimes uc !! pr_id rule with
    | Some lifetime =>
        let '(s, scratch) := insert_gy_dynamic_rule rule lifetime s scratch in
        (true, (s, uc, scratch))
    | None => (false, st)
    end.

Definition merge_gy_dynamic_rule_to_uninstall (rule_id : string) (st : Merge) : bool * Merge :=
  let '(s, uc, scratch) := st in
  if is_gy_dynamic_rule_installed s rule_id then
    let s := with_gy_dynamic_rules_ (RuleStore.remove_rule rule_id (gy_dynamic_rules_ s)).2 s in
    (true, (s, uc, scratch))
  else (false, st).

Definition merge_restrict_rule_to_install (rule_id : string) (st : Merge) : bool * Merge :=
  let '(s, uc, scratch) := st in
  if is_restrict_rule_installed s rule_id then (false, st)
  else
    match new_rule_lifetimes uc !! rule_id with
    | Some lifetime =>
        let '(s, scratch) := activate_restrict_rule rule_id lifetime s scratch in
        (true, (s, uc, scratch))
    | None => (false, st)
    end.

Definition merge_restrict_rule_to_uninstall (rule_id : string) (st : Merge) : bool * Merge :=
  let '(s, uc, scratch) := st in
  if is_restrict_rule_installed s rule_id then
    let '(_, s, scratch) := deactivate_restrict_rule rule_id s scratch in
    (true, (s, uc, scratch))
  else (false, st).

(** The credit merge shared by [apply_charging_credit_update] and
    [apply_monitor_updates]; the journal entry is a local copy that the credit
    methods write to. *)
Definition merge_credit (credit : SessionCredit) (credit_update : CreditUC.t)
  : SessionCredit * CreditUC.t :=
  let '(credit, credit_update) :=
    set_grant_tracking_type (CreditUC.grant_tracking_type credit_update) credit credit_update in
  let '(credit, credit_update) :=
    set_received_granted_units
      (CreditUC.received_granted_units credit_update) credit credit_update in
  foldl (λ (st : SessionCredit * CreditUC.t) bucket,
           add_credit (CreditUC.bucket_deltas st.2 bucket) bucket st.1 st.2)
    (credit, credit_update) all_buckets.

Definition apply_charging_credit_update
    (key : CreditKey) (credit_update : CreditUC.t) (s : SessionState) : SessionState :=
  match credit_map_ s !! key with
  | None => s
  | Some charging_grant =>
      if CreditUC.deleted credit_update then
        with_credit_map_ (delete key (credit_map_ s)) s
      else
        let '(credit, credit_update) := merge_credit (credit charging_grant) credit_update in
        put_grant key
          {| credit := credit;
             is_final_grant := CreditUC.is_final credit_update;
             final_action_info := CreditUC.final_action_info credit_update;
             expiry_time := CreditUC.expiry_time credit_update;
             reauth_state := CreditUC.reauth_state credit_update;
             service_state := CreditUC.service_state credit_update |} s
  end.

Definition apply_monitor_updates
    (key : string) (update : CreditUC.t) (s : SessionState) : SessionState :=
  match monitor_map_ s !! key with
  | None => s
  | Some monitor =>
      let '(credit, _) := merge_credit (mon_credit monitor) update in
      put_monitor key {| mon_credit := credit; mon_level := mon_level monitor |} s
  end.

Definition set_session_level_key (new_key : string) (s : SessionState) : SessionState :=
  with_session_level_key_ new_key s.

Definition set_monitor
    (key : string) (monitor : Monitor) (s : SessionState) (uc : SessionStateUpdateCriteria)
  : SessionState * SessionStateUpdateCriteria :=
  (put_monitor key monitor s,
   uc_with_monitor_credit_to_install
     (<[key := Monitor_marshal monitor]> (monitor_credit_to_install uc)) uc).

(** The part of [apply_update_criteria] before the rule loops. *)
Definition apply_update_criteria_head (uc : SessionStateUpdateCriteria) (s : SessionState)
  : SessionState :=
  let s := if is_fsm_updated uc then with_curr_state_ (updated_fsm_state uc) s else s in
  let s :=
    if is_pending_event_triggers_updated uc then
      foldl (λ s (it : EventTrigger * EventTriggerState),
               let s :=
                 with_pending_event_triggers_ (<[it.1 := it.2]> (pending_event_triggers_ s)) s in
               if bool_decide (it.1 = REVALIDATION_TIMEOUT)
               then with_revalidation_time_ (revalidation_time uc) s
               else s)
        s (map_to_list (pending_event_triggers uc))
    else s in
  let s :=
    if is_bearer_mapping_updated uc
    then with_bearer_id_by_policy_ (bearer_id_by_policy uc) s else s in
  if is_config_updated uc then with_config_ (updated_config uc) s else s.

(** The rule loops, in the order of the source. *)
Definition apply_update_criteria_rules (uc : SessionStateUpdateCriteria) (st : Merge)
  : bool * Merge :=
  and_then (for_each_until merge_static_rule_to_install (static_rules_to_install uc) st) (λ st,
  and_then (for_each_until merge_static_rule_to_uninstall (static_rules_to_uninstall uc) st) (λ st,
  and_then (for_each_until merge_new_scheduled_static_rule (new_scheduled_static_rules uc) st) (λ st,
  and_then (for_each_until merge_dynamic_rule_to_install (dynamic_rules_to_install uc) st) (λ st,
  and_then (for_each_until merge_dynamic_rule_to_uninstall (dynamic_rules_to_uninstall uc) st) (λ st,
  and_then (for_each_until merge_new_scheduled_dynamic_rule (new_scheduled_dynamic_rules uc) st) (λ st,
  and_then (for_each_until merge_gy_dynamic_rule_to_install (gy_dynamic_rules_to_install uc) st) (λ st,
  and_then
    (for_each_until merge_gy_dynamic_rule_to_uninstall (gy_dynamic_rules_to_uninstall uc) st) (λ st,
  and_then (for_each_until merge_restrict_rule_to_install (restrict_rules_to_install uc) st) (λ st,
  for_each_until merge_restrict_rule_to_uninstall (restrict_rules_to_uninstall uc) st))))))))).

(** The part of [apply_update_criteria] after the rule loops. *)
Definition apply_update_criteria_tail (uc : SessionStateUpdateCriteria) (st : Merge) : Merge :=
  let '(s, uc_now, scratch) := st in
  let s :=
    foldl (λ s (it : CreditKey * CreditUC.t), apply_charging_credit_update it.1 it.2 s)
      s (map_to_list (charging_credit_map uc)) in
  let s :=
    foldl (λ s (it : CreditKey * StoredChargingGrant), put_grant it.1 (grant_unmarshal it.2) s)
      s (map_to_list (charging_credit_to_install uc)) in
  let s :=
    if is_session_level_key_updated uc
    then set_session_level_key (updated_session_level_key uc) s else s in
  let s :=
    foldl (λ s (it : string * CreditUC.t), apply_monitor_updates it.1 it.2 s)
      s (map_to_list (monitor_credit_map uc)) in
  let '(s, scratch) :=
    foldl (λ (acc : SessionState * SessionStateUpdateCriteria) (it : string * StoredMonitor),
             let '(s, scratch) := set_monitor it.1 (Monitor_of_stored it.2) acc.1 acc.2 in
             (put_monitor it.1 (Monitor_of_stored it.2) s, scratch))
      (s, scratch) (map_to_list (monitor_credit_to_install uc)) in
  let s :=
    if bool_decide (updated_pdp_end_time uc > 0)%Z
    then with_pdp_end_time_ (updated_pdp_end_time uc) s else s in
  (s, uc_now, scratch).

Definition apply_update_criteria (s : SessionState) (uc : SessionStateUpdateCriteria)
  : bool * SessionState * SessionStateUpdateCriteria :=
  let s := apply_update_criteria_head uc s in
  let '(ok, st) := apply_update_criteria_rules uc (s, uc, UpdateCriteria_default) in
  if ok then
    let '(s, uc, _) := apply_update_criteria_tail uc st in (true, s, uc)
  else (false, st.1.1, st.1.2).


(** *** The rule entries of a journal

    The ten rule loops of [apply_update_criteria] seen as one pass over the
    rule entries of the journal, in the order of the source. *)

Inductive JournalEntry :=
| StaticInstall (rule_id : string)
| StaticUninstall (rule_id : string)
| StaticSchedule (rule_id : string)
| DynamicInstall (rule : PolicyRule)
| DynamicUninstall (rule_id : string)
| DynamicSchedule (rule : PolicyRule)
| GyDynamicInstall (rule : PolicyRule)
| GyDynamicUninstall (rule_id : string)
| RestrictInstall (rule_id : string)
| RestrictUninstall (rule_id : string).

Definition journal_entries (uc : SessionStateUpdateCriteria) : list JournalEntry :=
  (StaticInstall <$> static_rules_to_install uc)
  ++ (StaticUninstall <$> static_rules_to_uninstall uc)
  ++ (StaticSchedule <$> new_scheduled_static_rules uc)
  ++ (DynamicInstall <$> dynamic_rules_to_install uc)
  ++ (DynamicUninstall <$> dynamic_rules_to_uninstall uc)
  ++ (DynamicSchedule <$> new_scheduled_dynamic_rules uc)
  ++ (GyDynamicInstall <$> gy_dynamic_rules_to_install uc)
  ++ (GyDynamicUninstall <$> gy_dynamic_rules_to_uninstall uc)
  ++ (RestrictInstall <$> restrict_rules_to_install uc)
  ++ (RestrictUninstall <$> restrict_rules_to_uninstall uc).

Definition merge_entry (e : JournalEntry) (st : Merge) : bool * Merge :=
  match e with
  | StaticInstall rule_id => merge_static_rule_to_install rule_id st
  | StaticUninstall rule_id => merge_static_rule_to_uninstall rule_id st
  | StaticSchedule rule_id => merge_new_scheduled_static_rule rule_id st
  | DynamicInstall rule => merge_dynamic_rule_to_install rule st
  | DynamicUninstall rule_id => merge_dynamic_rule_to_uninstall rule_id st
  | DynamicSchedule rule => merge_new_scheduled_dynamic_rule rule st
  | GyDynamicInstall rule => merge_gy_dynamic_rule_to_install rule st
  | GyDynamicUninstall rule_id => merge_gy_dynamic_rule_to_uninstall rule_id st
  | RestrictInstall rule_id => merge_restrict_rule_to_install rule_id st
  | RestrictUninstall rule_id => merge_restrict_rule_to_uninstall rule_id st
  end.

(** The merge preconditions in the words of the specification, read on the
    session as merged so far and on the lifetimes the journal holds: an entry
    violates its precondition when it installs what is installed already,
    installs a rule that has no lifetime in the journal (for static and
    dynamic rules: and that is not scheduled either), uninstalls what is
    neither installed nor scheduled (gy-dynamic and restrict rules are never
    scheduled), or schedules what is scheduled already. *)
Definition violates_precondition
    (e : JournalEntry) (s : SessionState) (lifetimes : gmap string RuleLifetime) : Prop :=
  match e with
  | StaticInstall rule_id =>
      rule_id ∈ active_static_rules_ s
      ∨ (lifetimes !! rule_id = None ∧ (rule_id ∉ scheduled_static_rules_ s))
  | StaticUninstall rule_id =>
      (rule_id ∉ active_static_rules_ s) ∧ (rule_id ∉ scheduled_static_rules_ s)
  | StaticSchedule rule_id => rule_id ∈ scheduled_static_rules_ s
  | DynamicInstall rule =>
      is_Some (dynamic_rules_ s !! pr_id rule)
      ∨ (lifetimes !! pr_id rule = None ∧ scheduled_dynamic_rules_ s !! pr_id rule = None)
  | DynamicUninstall rule_id =>
      dynamic_rules_ s !! rule_id = None ∧ scheduled_dynamic_rules_ s !! rule_id = None
  | DynamicSchedule rule => is_Some (scheduled_dynamic_rules_ s !! pr_id rule)
  | GyDynamicInstall rule =>
      is_Some (gy_dynamic_rules_ s !! pr_id rule) ∨ lifetimes !! pr_id rule = None
  | GyDynamicUninstall rule_id => gy_dynamic_rules_ s !! rule_id = None
  | RestrictInstall rule_id =>
      rule_id ∈ active_restrict_rules_ s ∨ lifetimes !! rule_id = None
  | RestrictUninstall rule_id => (rule_id ∉ active_restrict_rules_ s)
  end.

End Model.

(** ** A reference credit primitive

    Modelled from the spec: the credit primitive, the charging grant and their
    stored forms live in SessionCredit.cpp, ChargingGrant.cpp and
    StoredState.h.  This instance of the interface follows sections 3 and 4.1
    of the specification (counters per bucket, quota exhaustion against the
    allowance, usage moved into the reporting buckets when reported and from
    there into the reported buckets when the grant arrives, the next action
    derived from the service state and the final action) and serves to run the
    session's methods on concrete sessions. *)

Module Reference.

Local Open Scope Z_scope.

Global Instance Bucket_eq_dec : EqDecision Bucket.
Proof. solve_decision. Defined.

(** Modelled from the spec: the credit primitive, a counter per bucket with the
    tracking type and the units of the last grant. *)
Record Credit := {
  counters : Bucket → Z;
  tracking_type : GrantTrackingType;
  last_grant : GrantedUnits
}.

(** Modelled from the spec: add [d] to the counter of bucket [b]. *)
Definition bump (b : Bucket) (d : Z) (f : Bucket → Z) : Bucket → Z :=
  λ b', if bool_decide (b' = b) then (f b' + d)%Z else f b'.

(** Modelled from the spec: a grant without valid units. *)
Definition no_units : GrantedUnits :=
  {| total := {| is_valid := false; volume := 0 |};
     tx := {| is_valid := false; volume := 0 |};
     rx := {| is_valid := false; volume := 0 |} |}.

(** Modelled from the spec: a credit with all counters at zero. *)
Definition Credit_zero : Credit :=
  {| counters := λ _, 0%Z; tracking_type := TRACKING_TOTAL; last_grant := no_units |}.

(** Modelled from the spec: the volume used in both directions. *)
Definition used (c : Credit) : Z := (counters c USED_TX + counters c USED_RX)%Z.

(** Modelled from the spec: the volume allowed in both directions. *)
Definition allowed (c : Credit) : Z := (counters c ALLOWED_TX + counters c ALLOWED_RX)%Z.

(** Modelled from the spec: [quotaExhausted(p%)] holds when
    [used ≥ (p / 100) · allowed]. *)
Definition quota_exhausted (p : Z) (c : Credit) : bool :=
  bool_decide (p * allowed c ≤ 100 * used c)%Z.

(** Modelled from the spec: [currentGrantContainsZero], a valid unit of the
    last grant has volume zero. *)
Definition grant_contains_zero (c : Credit) : bool :=
  (is_valid (total (last_grant c)) && bool_decide (volume (total (last_grant c)) = 0))
  || (is_valid (tx (last_grant c)) && bool_decide (volume (tx (last_grant c)) = 0))
  || (is_valid (rx (last_grant c)) && bool_decide (volume (rx (last_grant c)) = 0)).

(** Modelled from the spec: a fresh journal entry of a credit, all deltas zero. *)
Definition update_criteria_of (c : Credit) : CreditUC.t :=
  CreditUC.mk false (tracking_type c) (last_grant c) (λ _, 0%Z) false FinalActionInfo_default 0
    REAUTH_NOT_NEEDED SERVICE_ENABLED.

(** Modelled from the spec: replace the counters. *)
Definition with_counters (f : Bucket → Z) (c : Credit) : Credit :=
  {| counters := f; tracking_type := tracking_type c; last_grant := last_grant c |}.

(** Modelled from the spec: replace the bucket deltas of a journal entry. *)
Definition uc_with_deltas (f : Bucket → Z) (uc : CreditUC.t) : CreditUC.t :=
  CreditUC.mk (CreditUC.deleted uc) (CreditUC.grant_tracking_type uc)
    (CreditUC.received_granted_units uc) f (CreditUC.is_final uc)
    (CreditUC.final_action_info uc) (CreditUC.expiry_time uc) (CreditUC.reauth_state uc)
    (CreditUC.service_state uc).

(** Modelled from the spec: add to a bucket and record the delta in the journal. *)
Definition add_to_bucket (d : Z) (b : Bucket) (c : Credit) (uc : CreditUC.t)
  : Credit * CreditUC.t :=
  (with_counters (bump b d (counters c)) c,
   uc_with_deltas (bump b d (CreditUC.bucket_deltas uc)) uc).

(** Modelled from the spec: [getUsageForReport], the usage since the last
    report, moved into the reporting buckets. *)
Definition usage_for_reporting (c : Credit) (uc : CreditUC.t) : Usage * Credit * CreditUC.t :=
  let tx := (counters c USED_TX - counters c REPORTED_TX - counters c REPORTING_TX)%Z in
  let rx := (counters c USED_RX - counters c REPORTED_RX - counters c REPORTING_RX)%Z in
  let '(c, uc) := add_to_bucket tx REPORTING_TX c uc in
  let '(c, uc) := add_to_bucket rx REPORTING_RX c uc in
  ({| bytes_tx := tx; bytes_rx := rx |}, c, uc).

(** Modelled from the spec: [markFailure] drops what is in the reporting
    buckets. *)
Definition drop_reporting (c : Credit) (uc : CreditUC.t) : Credit * CreditUC.t :=
  let '(c, uc) := add_to_bucket (- counters c REPORTING_TX) REPORTING_TX c uc in
  add_to_bucket (- counters c REPORTING_RX) REPORTING_RX c uc.

(** Modelled from the spec: on report success the reporting buckets are added
    to the reported ones and emptied ([reported += reporting; reporting = 0]);
    the deltas are recorded in the journal entry. *)
Definition commit_reporting (c : Credit) (uc : CreditUC.t) : Credit * CreditUC.t :=
  let '(c, uc) := add_to_bucket (counters c REPORTING_TX) REPORTED_TX c uc in
  let '(c, uc) := add_to_bucket (counters c REPORTING_RX) REPORTED_RX c uc in
  drop_reporting c uc.

(** Modelled from the spec: replace the received units of a journal entry. *)
Definition uc_with_received_units (gsu : GrantedUnits) (uc : CreditUC.t) : CreditUC.t :=
  CreditUC.mk (CreditUC.deleted uc) (CreditUC.grant_tracking_type uc) gsu
    (CreditUC.bucket_deltas uc) (CreditUC.is_final uc) (CreditUC.final_action_info uc)
    (CreditUC.expiry_time uc) (CreditUC.reauth_state uc) (CreditUC.service_state uc).

(** Modelled from the spec: [receiveGrant], a successful grant.  The granted
    units are added to the allowance ([allowed] is updated only here), the
    report that the grant answers is committed, and the units and the deltas
    are recorded in the journal entry. *)
Definition receive_units (gsu : GrantedUnits) (c : Credit) (uc : CreditUC.t)
  : Credit * CreditUC.t :=
  let c := {| counters := counters c; tracking_type := tracking_type c; last_grant := gsu |} in
  let uc := uc_with_received_units gsu uc in
  let '(c, uc) :=
    if is_valid (total gsu) then add_to_bucket (volume (total gsu)) ALLOWED_TX c uc
    else (c, uc) in
  let '(c, uc) :=
    if is_valid (tx gsu) then add_to_bucket (volume (tx gsu)) ALLOWED_TX c uc else (c, uc) in
  let '(c, uc) :=
    if is_valid (rx gsu) then add_to_bucket (volume (rx gsu)) ALLOWED_RX c uc else (c, uc) in
  commit_reporting c uc.

(** Modelled from the spec: [receiveGrant] with the optional journal entry of
    the callers; without one nothing is recorded. *)
Definition Credit_receive (gsu : GrantedUnits) (c : Credit) (uc : option CreditUC.t)
  : Credit * option CreditUC.t :=
  match uc with
  | Some u => let '(c, u) := receive_units gsu c u in (c, Some u)
  | None => ((receive_units gsu c (update_criteria_of c)).1, None)
  end.

(** Modelled from the spec: the stored form of a charging grant. *)
Record StoredGrant := {
  sg_credit : Credit;
  sg_is_final : bool;
  sg_final_action_info : FinalActionInfo;
  sg_expiry_time : Z;
  sg_reauth_state : ReAuthState;
  sg_service_state : ServiceState
}.

(** Modelled from the spec: the opaque types of the reference instance; a
    credit is stored as it is and thresholds are percentages. *)
Definition types : OpaqueTypes :=
  {| SessionCredit := Credit;
     StoredSessionCredit := Credit;
     StoredChargingGrant := StoredGrant;
     TgppContext := string * string;
     Threshold := Z |}.

(** Modelled from the spec: charging grants over the reference credit. *)
Definition Grant : Type := @ChargingGrant types.

(** Modelled from the spec: a default-constructed grant. *)
Definition Grant_default : Grant :=
  {| credit := Credit_zero : @SessionCredit types;
     is_final_grant := false;
     final_action_info := FinalActionInfo_default;
     expiry_time := 0;
     reauth_state := REAUTH_NOT_NEEDED;
     service_state := SERVICE_ENABLED |}.

(** Modelled from the spec: a grant is stored field by field. *)
Definition Grant_marshal (g : Grant) : StoredGrant :=
  {| sg_credit := credit g;
     sg_is_final := is_final_grant g;
     sg_final_action_info := final_action_info g;
     sg_expiry_time := expiry_time g;
     sg_reauth_state := reauth_state g;
     sg_service_state := service_state g |}.

(** Modelled from the spec: a grant is restored field by field. *)
Definition Grant_unmarshal (g : StoredGrant) : Grant :=
  {| credit := sg_credit g : @SessionCredit types;
     is_final_grant := sg_is_final g;
     final_action_info := sg_final_action_info g;
     expiry_time := sg_expiry_time g;
     reauth_state := sg_reauth_state g;
     service_state := sg_service_state g |}.

(** Modelled from the spec: a fresh journal entry of a grant. *)
Definition Grant_update_criteria (g : Grant) : CreditUC.t :=
  CreditUC.mk false (tracking_type (credit g)) (last_grant (credit g)) (λ _, 0%Z)
    (is_final_grant g) (final_action_info g) (expiry_time g) (reauth_state g) (service_state g).

(** Modelled from the spec: set the service state of a grant and journal it. *)
Definition Grant_with_service_state (v : ServiceState) (g : Grant) (uc : CreditUC.t)
  : Grant * CreditUC.t :=
  ({| credit := credit g; is_final_grant := is_final_grant g;
      final_action_info := final_action_info g; expiry_time := expiry_time g;
      reauth_state := reauth_state g; service_state := v |},
   CreditUC.with_service_state v uc).

(** Modelled from the spec: the service action of a final action. *)
Definition final_action_to_action (a : ChargingCredit_FinalAction) : ServiceActionType :=
  match a with
  | ChargingCredit_FinalAction_TERMINATE => TERMINATE_SERVICE
  | ChargingCredit_FinalAction_REDIRECT => REDIRECT
  | ChargingCredit_FinalAction_RESTRICT_ACCESS => RESTRICT_ACCESS
  end.

(** Modelled from the spec: the next service action of a grant, derived from
    its service state and final action. *)
Definition Grant_get_action (g : Grant) (uc : CreditUC.t)
  : ServiceActionType * Grant * CreditUC.t :=
  match service_state g with
  | SERVICE_NEEDS_DEACTIVATION =>
      if is_final_grant g
      then (final_action_to_action (final_action (final_action_info g)), g, uc)
      else
        let '(g, uc) := Grant_with_service_state SERVICE_DISABLED g uc in
        (TERMINATE_SERVICE, g, uc)
  | SERVICE_NEEDS_ACTIVATION =>
      let '(g, uc) := Grant_with_service_state SERVICE_ENABLED g uc in
      (ACTIVATE_SERVICE, g, uc)
  | _ => (CONTINUE_SERVICE, g, uc)
  end.

(** Modelled from the spec: a report is in flight while a reporting bucket is
    not zero. *)
Definition is_reporting (c : Credit) : bool :=
  bool_decide (counters c REPORTING_TX > 0 ∨ counters c REPORTING_RX > 0)%Z.

(** Modelled from the spec: an update is warranted when reauth is required or
    the quota threshold is reached, and none while a report is in flight. *)
Definition Grant_get_update_type (g : Grant) : option CreditUsage.UpdateType :=
  if is_reporting (credit g) then None
  else if bool_decide (reauth_state g = REAUTH_REQUIRED) then Some CreditUsage.REAUTH_REQUIRED
  else if is_final_grant g then None
  else if quota_exhausted 80 (credit g) then Some CreditUsage.QUOTA_EXHAUSTED
  else None.

(** Modelled from the spec: the usage entry of a grant, taken from the usage
    since the last report. *)
Definition Grant_get_credit_usage
    (update_type : CreditUsage.UpdateType) (is_terminate : bool) (g : Grant) (uc : CreditUC.t)
  : CreditUsage.t * Grant * CreditUC.t :=
  let '(usage, c, uc) := usage_for_reporting (credit g) uc in
  (CreditUsage.mk (bytes_tx usage) (bytes_rx usage) update_type 0 0,
   {| credit := c : @SessionCredit types; is_final_grant := is_final_grant g;
      final_action_info := final_action_info g; expiry_time := expiry_time g;
      reauth_state := reauth_state g; service_state := service_state g |}, uc).

(** Modelled from the spec: an enabled service is to be deactivated when its
    quota is used up on a final grant or without any allowance. *)
Definition Grant_should_deactivate_service (g : Grant) : bool :=
  bool_decide (service_state g = SERVICE_ENABLED) && quota_exhausted 100 (credit g)
  && (is_final_grant g || negb (bool_decide (0 < allowed (credit g))%Z)).

(** Modelled from the spec: a grant received from the cloud.  The credit
    receives the granted units, which commits the report in flight; final
    grants stamp [isFinal] and [finalActionInfo]. *)
Definition Grant_receive (cc : ChargingCredit) (g : Grant) (uc : option CreditUC.t)
  : Grant * option CreditUC.t :=
  let info :=
    if cc_is_final cc then
      {| final_action := cc_final_action cc;
         redirect_server :=
           if bool_decide (cc_final_action cc = ChargingCredit_FinalAction_REDIRECT)
           then cc_redirect_server cc else EmptyString;
         restrict_rules :=
           if bool_decide (cc_final_action cc = ChargingCredit_FinalAction_RESTRICT_ACCESS)
           then cc_restrict_rules cc else [] |}
    else FinalActionInfo_default in
  let '(c, uc) := Credit_receive (cc_granted_units cc) (credit g) uc in
  ({| credit := c : @SessionCredit types; is_final_grant := cc_is_final cc;
      final_action_info := info; expiry_time := cc_validity_time cc;
      reauth_state := reauth_state g; service_state := service_state g |},
   (λ u, CreditUC.mk (CreditUC.deleted u) (CreditUC.grant_tracking_type u)
           (CreditUC.received_granted_units u) (CreditUC.bucket_deltas u) (cc_is_final cc) info
           (cc_validity_time cc) (CreditUC.reauth_state u) (CreditUC.service_state u)) <$> uc).

(** Modelled from the spec: the helpers of the session over the reference
    credit. *)
Definition helpers : @Helpers types :=
  {| credit_new := λ _ _, Credit_zero : @SessionCredit types;
     credit_marshal := λ c : @SessionCredit types, c : @StoredSessionCredit types;
     credit_unmarshal := λ c : @StoredSessionCredit types, c : @SessionCredit types;
     credit_get_update_criteria := update_criteria_of : @SessionCredit types → _;
     USAGE_REPORTING_THRESHOLD := 80%Z : @Threshold types;
     threshold_full := 100%Z : @Threshold types;
     is_quota_exhausted := quota_exhausted : @Threshold types → @SessionCredit types → _;
     current_grant_contains_zero := grant_contains_zero : @SessionCredit types → _;
     get_credit := counters : @SessionCredit types → _;
     get_usage_for_reporting := usage_for_reporting;
     get_all_unreported_usage_for_reporting := usage_for_reporting;
     add_used_credit := λ tx rx (c : @SessionCredit types) uc,
       let '(c, uc) := add_to_bucket tx USED_TX c uc in add_to_bucket rx USED_RX c uc;
     add_credit := add_to_bucket : Z → Bucket → @SessionCredit types → _;
     set_grant_tracking_type := λ t (c : @SessionCredit types) uc,
       ({| counters := counters c; tracking_type := t; last_grant := last_grant c |}, uc);
     set_received_granted_units := λ gsu (c : @SessionCredit types) uc,
       ({| counters := counters c; tracking_type := tracking_type c; last_grant := gsu |}, uc);
     mark_failure := λ _ (c : @SessionCredit types) uc, drop_reporting c uc;
     grant_default := Grant_default;
     grant_marshal := Grant_marshal;
     grant_unmarshal := Grant_unmarshal;
     grant_get_update_criteria := Grant_update_criteria;
     get_action := Grant_get_action;
     get_update_type := Grant_get_update_type;
     get_credit_usage := Grant_get_credit_usage;
     should_deactivate_service := Grant_should_deactivate_service;
     receive_charging_grant := Grant_receive;
     should_delete_monitor := λ m : @Monitor types,
       grant_contains_zero (mon_credit m) && quota_exhausted 100 (mon_credit m);
     get_apn_ambr := λ _, None;
     TgppContext_default := (EmptyString, EmptyString) : @TgppContext types |}.

End Reference.

(** ** Concrete sessions

    Sessions and journals over the reference credit primitive, on which the
    methods are run below. *)

Module Scenario.

#[local] Existing Instance Reference.types.
#[local] Existing Instance Reference.helpers.

Local Open Scope Z_scope.

Definition cfg : SessionConfig :=
  {| common_context :=
       {| sid := "IMSI001"; msisdn := "5100001234"; apn := "magma.ipv4";
          rat_type := TGPP_LTE; ue_ipv4 := "192.168.128.11" |};
     rat_specific_context :=
       lte_context
         {| bearer_id := 5; imei := EmptyString; plmn_id := "00101"; imsi_plmn_id := "00101";
            spgw_ipv4 := "192.168.60.142"; user_location := EmptyString; qos_class_id := 9 |} |}.

(** A fresh session: request number 1, state ACTIVE, no rules and no credit. *)
Definition fresh : SessionState :=
  SessionState_new "IMSI001" "s1" cfg ∅ (EmptyString, EmptyString) 0.

Definition journal : SessionStateUpdateCriteria := UpdateCriteria_default.

Definition empty_request : UpdateSessionRequest := {| updates := []; usage_monitors := [] |}.

(** A session that has completed termination. *)
Definition terminated : SessionState := with_curr_state_ SESSION_TERMINATED fresh.

(** A session with the static rule [r1] scheduled from 100 to 200. *)
Definition window : RuleLifetime := {| activation_time := 100; deactivation_time := 200 |}.

Definition with_scheduled_static : SessionState :=
  (schedule_static_rule "r1" window fresh journal).1.

(** A dynamic rule on rating group 10, and a session that has it scheduled. *)
Definition rg10 : CreditKey := {| rating_group := 10; service_identifier := 0 |}.

Definition d1 : PolicyRule :=
  {| pr_id := "d1"; pr_charging_key := Some rg10; pr_monitoring_key := None;
     pr_qos := None; pr_flow_list := [] |}.

Definition with_scheduled_dynamic : SessionState :=
  (schedule_dynamic_rule d1 window fresh journal).1.

(** A session with the restrict rule [restrict1] active. *)
Definition with_restrict_rule : SessionState :=
  (activate_restrict_rule "restrict1" RuleLifetime_zero fresh journal).1.

(** A journal that asks to install the static rule [r1] and records no
    lifetime for it. *)
Definition install_r1_without_lifetime : SessionStateUpdateCriteria :=
  uc_with_static_rules_to_install ["r1"] journal.

(** Rating group 10 holds a final grant of 1000 bytes with final action
    REDIRECT; the quota is used up and the service is due for deactivation. *)
Definition redirect_grant : ChargingGrant :=
  {| credit :=
       {| Reference.counters :=
            Reference.bump USED_TX 1000 (Reference.bump ALLOWED_TX 1000 (λ _, 0));
          Reference.tracking_type := TRACKING_TOTAL;
          Reference.last_grant := Reference.no_units |} : SessionCredit;
     is_final_grant := true;
     final_action_info :=
       {| final_action := ChargingCredit_FinalAction_REDIRECT;
          redirect_server := "http://portal.example/";
          restrict_rules := [] |};
     expiry_time := 0;
     reauth_state := REAUTH_NOT_NEEDED;
     service_state := SERVICE_NEEDS_DEACTIVATION |}.

Definition with_redirect_grant : SessionState :=
  put_grant rg10 redirect_grant
    (with_dynamic_rules_ (RuleStore.insert_rule d1 ∅) fresh).

End Scenario.


(** * Further members of SessionState.cpp

    More of the session object: plain setters, event triggers,
    reauthorisation, monitor credit, bearers and declarative rule sets.
    [sync_rules_to_time] is left out: its first loop calls
    [deactivate_static_rule], which erases from [active_static_rules_], inside
    a range-[for] over that vector, so what it does is not defined by the
    source alone. *)

Inductive ReAuthResult := UPDATE_INITIATED | UPDATE_NOT_NEEDED.

Global Instance ReAuthResult_eq_dec : EqDecision ReAuthResult.
Proof. solve_decision. Defined.

(** ** Messages *)

Module UsageMonitoringCredit.

Inductive Action := CONTINUE | DISABLE.

Global Instance Action_eq_dec : EqDecision Action.
Proof. solve_decision. Defined.

Record t := mk {
  action : Action;
  monitoring_key : string;
  level : MonitoringLevel;
  granted_units : GrantedUnits
}.

End UsageMonitoringCredit.

(** [has_credit()] is [credit] being set. *)
Record UsageMonitoringUpdateResponse := {
  umu_success : bool;
  umu_credit : option UsageMonitoringCredit.t;
  umu_result_code : Z
}.

Record PolicyBearerBindingRequest := {
  policy_rule_id : string;
  pbb_bearer_id : Z
}.

Record CreateBearerRequest := {
  cb_sid : string;
  cb_ip_addr : string;
  cb_link_bearer_id : Z;
  cb_policy_rules : list PolicyRule
}.

Record DeleteBearerRequest := {
  db_sid : string;
  db_ip_addr : string;
  db_link_bearer_id : Z;
  db_eps_bearer_ids : list Z
}.

Record BearerUpdate := {
  needs_creation : bool;
  create_req : CreateBearerRequest;
  needs_deletion : bool;
  delete_req : DeleteBearerRequest
}.

(** A default-constructed [BearerUpdate]: nothing to create, nothing to
    delete. *)
Definition BearerUpdate_default : BearerUpdate :=
  {| needs_creation := false;
     create_req :=
       {| cb_sid := EmptyString; cb_ip_addr := EmptyString; cb_link_bearer_id := 0;
          cb_policy_rules := [] |};
     needs_deletion := false;
     delete_req :=
       {| db_sid := EmptyString; db_ip_addr := EmptyString; db_link_bearer_id := 0;
          db_eps_bearer_ids := [] |} |}.

Record StaticRuleInstall := {
  sri_rule_id : string;
  sri_activation_time : Z;
  sri_deactivation_time : Z
}.

Record DynamicRuleInstall := {
  dri_policy_rule : PolicyRule;
  dri_activation_time : Z;
  dri_deactivation_time : Z
}.

Record RuleSet := {
  apply_subscriber_wide : bool;
  rs_apn : string;
  rs_static_rules : list StaticRuleInstall;
  rs_dynamic_rules : list DynamicRuleInstall
}.

Record RulesPerSubscriber := {
  rps_imsi : string;
  rps_rule_set : list RuleSet
}.

(** ** Rule sets *)

Module RulesToProcess.

Record t := mk {
  static_rules : list string;
  dynamic_rules : list PolicyRule
}.

Definition empty : t := mk [] [].

End RulesToProcess.

(** [RuleSetToApply]: an unordered set of static rule ids and an unordered
    map of dynamic rules by id. *)
Module RuleSetToApply.

Record t := mk {
  static_rules : gset string;
  dynamic_rules : gmap string PolicyRule
}.

(** [RuleSetToApply(const RuleSet&)] *)
Definition of_rule_set (rule_set : RuleSet) : t :=
  {| static_rules :=
       foldl (λ acc install, {[sri_rule_id install]} ∪ acc) ∅ (rs_static_rules rule_set);
     dynamic_rules :=
       foldl (λ acc install,
                <[pr_id (dri_policy_rule install) := dri_policy_rule install]> acc)
         ∅ (rs_dynamic_rules rule_set) |}.

Definition combine_rule_set (other self : t) : t :=
  {| static_rules :=
       foldl (λ acc static_rule, {[static_rule]} ∪ acc) (static_rules self)
         (elements (static_rules other));
     dynamic_rules :=
       foldl (λ acc (dynamic_pair : string * PolicyRule),
                <[dynamic_pair.1 := dynamic_pair.2]> acc)
         (dynamic_rules self) (map_to_list (dynamic_rules other)) |}.

End RuleSetToApply.

Module RuleSetBySubscriber.

Record t := mk {
  imsi : string;
  rule_set_by_apn : gmap string RuleSetToApply.t;
  subscriber_wide_rule_set : option RuleSetToApply.t
}.

(** [RuleSetBySubscriber(const RulesPerSubscriber&)]: a rule set that is not
    subscriber wide resets the subscriber-wide rule set read before it. *)
Definition of_rules_per_subscriber (rules_per_subscriber : RulesPerSubscriber) : t :=
  foldl (λ (self : t) (rule_set : RuleSet),
           if apply_subscriber_wide rule_set then
             mk (imsi self) (rule_set_by_apn self) (Some (RuleSetToApply.of_rule_set rule_set))
           else
             mk (imsi self)
               (<[rs_apn rule_set := RuleSetToApply.of_rule_set rule_set]> (rule_set_by_apn self))
               None)
    (mk (rps_imsi rules_per_subscriber) ∅ None) (rps_rule_set rules_per_subscriber).

Definition get_combined_rule_set_for_apn (apn : string) (self : t) : option RuleSetToApply.t :=
  match rule_set_by_apn self !! apn, subscriber_wide_rule_set self with
  | Some rule_set_to_apply, Some subscriber_wide =>
      Some (RuleSetToApply.combine_rule_set subscriber_wide rule_set_to_apply)
  | _, Some subscriber_wide => Some subscriber_wide
  | Some apn_rule_set, None => Some apn_rule_set
  | None, None => None
  end.

End RuleSetBySubscriber.

(** ** Further helpers declared outside SessionState.cpp *)

Class MoreHelpers `{Helpers} := {
  (** [SessionCredit()], the credit of a default-constructed [Monitor] *)
  credit_default : SessionCredit;
  (** [SessionCredit(SERVICE_DISABLED)] *)
  credit_new_disabled : SessionCredit;
  is_reporting : SessionCredit → bool;
  receive_credit :
    GrantedUnits → SessionCredit → option CreditUC.t → SessionCredit * option CreditUC.t;
  reset_reporting_credit : SessionCredit → CreditUC.t → SessionCredit * CreditUC.t
}.

Section MoreModel.
Context `{MoreHelpers}.

Definition with_subscriber_quota_state_
    (v : SubscriberQuotaUpdate_Type) (x : SessionState)
  : SessionState :=
  Build_Session (imsi_ x) (session_id_ x) (request_number_ x) (curr_state_ x) (config_ x)
    (pdp_start_time_ x) (pdp_end_time_ x) v (tgpp_context_ x) (static_rules_ x)
    (pending_event_triggers_ x) (revalidation_time_ x) (credit_map_ x) (monitor_map_ x)
    (session_level_key_ x) (bearer_id_by_policy_ x) (active_static_rules_ x)
    (scheduled_static_rules_ x) (active_restrict_rules_ x) (dynamic_rules_ x)
    (scheduled_dynamic_rules_ x) (gy_dynamic_rules_ x) (rule_lifetimes_ x).

Definition with_tgpp_context_ (v : TgppContext) (x : SessionState) : SessionState :=
  Build_Session (imsi_ x) (session_id_ x) (request_number_ x) (curr_state_ x) (config_ x)
    (pdp_start_time_ x) (pdp_end_time_ x) (subscriber_quota_state_ x) v (static_rules_ x)
    (pending_event_triggers_ x) (revalidation_time_ x) (credit_map_ x) (monitor_map_ x)
    (session_level_key_ x) (bearer_id_by_policy_ x) (active_static_rules_ x)
    (scheduled_static_rules_ x) (active_restrict_rules_ x) (dynamic_rules_ x)
    (scheduled_dynamic_rules_ x) (gy_dynamic_rules_ x) (rule_lifetimes_ x).

Definition uc_with_revalidation_time
    (v : Timestamp) (x : SessionStateUpdateCriteria)
  : SessionStateUpdateCriteria :=
  Build_UC (is_fsm_updated x) (updated_fsm_state x) (is_pending_event_triggers_updated x)
    (pending_event_triggers x) v (is_bearer_mapping_updated x) (bearer_id_by_policy x)
    (is_config_updated x) (updated_config x) (static_rules_to_install x)
    (static_rules_to_uninstall x) (new_scheduled_static_rules x)
    (dynamic_rules_to_install x) (dynamic_rules_to_uninstall x)
    (new_scheduled_dynamic_rules x) (gy_dynamic_rules_to_install x)
    (gy_dynamic_rules_to_uninstall x) (restrict_rules_to_install x)
    (restrict_rules_to_uninstall x) (new_rule_lifetimes x) (charging_credit_map x)
    (charging_credit_to_install x) (is_session_level_key_updated x)
    (updated_session_level_key x) (monitor_credit_map x) (monitor_credit_to_install x)
    (updated_pdp_end_time x) (request_number_increment x)
    (updated_subscriber_quota_state x) (updated_tgpp_context x).

Definition uc_with_is_bearer_mapping_updated
    (v : bool) (x : SessionStateUpdateCriteria)
  : SessionStateUpdateCriteria :=
  Build_UC (is_fsm_updated x) (updated_fsm_state x) (is_pending_event_triggers_updated x)
    (pending_event_triggers x) (revalidation_time x) v (bearer_id_by_policy x)
    (is_config_updated x) (updated_config x) (static_rules_to_install x)
    (static_rules_to_uninstall x) (new_scheduled_static_rules x)
    (dynamic_rules_to_install x) (dynamic_rules_to_uninstall x)
    (new_scheduled_dynamic_rules x) (gy_dynamic_rules_to_install x)
    (gy_dynamic_rules_to_uninstall x) (restrict_rules_to_install x)
    (restrict_rules_to_uninstall x) (new_rule_lifetimes x) (charging_credit_map x)
    (charging_credit_to_install x) (is_session_level_key_updated x)
    (updated_session_level_key x) (monitor_credit_map x) (monitor_credit_to_install x)
    (updated_pdp_end_time x) (request_number_increment x)
    (updated_subscriber_quota_state x) (updated_tgpp_context x).

Definition uc_with_bearer_id_by_policy
    (v : gmap PolicyID Z) (x : SessionStateUpdateCriteria)
  : SessionStateUpdateCriteria :=
  Build_UC (is_fsm_updated x) (updated_fsm_state x) (is_pending_event_triggers_updated x)
    (pending_event_triggers x) (revalidation_time x) (is_bearer_mapping_updated x) v
    (is_config_updated x) (updated_config x) (static_rules_to_install x)
    (static_rules_to_uninstall x) (new_scheduled_static_rules x)
    (dynamic_rules_to_install x) (dynamic_rules_to_uninstall x)
    (new_scheduled_dynamic_rules x) (gy_dynamic_rules_to_install x)
    (gy_dynamic_rules_to_uninstall x) (restrict_rules_to_install x)
    (restrict_rules_to_uninstall x) (new_rule_lifetimes x) (charging_credit_map x)
    (charging_credit_to_install x) (is_session_level_key_updated x)
    (updated_session_level_key x) (monitor_credit_map x) (monitor_credit_to_install x)
    (updated_pdp_end_time x) (request_number_increment x)
    (updated_subscriber_quota_state x) (updated_tgpp_context x).

Definition uc_with_updated_pdp_end_time
    (v : Z) (x : SessionStateUpdateCriteria)
  : SessionStateUpdateCriteria :=
  Build_UC (is_fsm_updated x) (updated_fsm_state x) (is_pending_event_triggers_updated x)
    (pending_event_triggers x) (revalidation_time x) (is_bearer_mapping_updated x)
    (bearer_id_by_policy x) (is_config_updated x) (updated_config x)
    (static_rules_to_install x) (static_rules_to_uninstall x)
    (new_scheduled_static_rules x) (dynamic_rules_to_install x)
    (dynamic_rules_to_uninstall x) (new_scheduled_dynamic_rules x)
    (gy_dynamic_rules_to_install x) (gy_dynamic_rules_to_uninstall x)
    (restrict_rules_to_install x) (restrict_rules_to_uninstall x) (new_rule_lifetimes x)
    (charging_credit_map x) (charging_credit_to_install x) (is_session_level_key_updated x)
    (updated_session_level_key x) (monitor_credit_map x) (monitor_credit_to_install x) v
    (request_number_increment x) (updated_subscriber_quota_state x)
    (updated_tgpp_context x).

Definition uc_with_updated_subscriber_quota_state
    (v : SubscriberQuotaUpdate_Type) (x : SessionStateUpdateCriteria)
  : SessionStateUpdateCriteria :=
  Build_UC (is_fsm_updated x) (updated_fsm_state x) (is_pending_event_triggers_updated x)
    (pending_event_triggers x) (revalidation_time x) (is_bearer_mapping_updated x)
    (bearer_id_by_policy x) (is_config_updated x) (updated_config x)
    (static_rules_to_install x) (static_rules_to_uninstall x)
    (new_scheduled_static_rules x) (dynamic_rules_to_install x)
    (dynamic_rules_to_uninstall x) (new_scheduled_dynamic_rules x)
    (gy_dynamic_rules_to_install x) (gy_dynamic_rules_to_uninstall x)
    (restrict_rules_to_install x) (restrict_rules_to_uninstall x) (new_rule_lifetimes x)
    (charging_credit_map x) (charging_credit_to_install x) (is_session_level_key_updated x)
    (updated_session_level_key x) (monitor_credit_map x) (monitor_credit_to_install x)
    (updated_pdp_end_time x) (request_number_increment x) v (updated_tgpp_context x).

Definition uc_with_updated_tgpp_context
    (v : TgppContext) (x : SessionStateUpdateCriteria)
  : SessionStateUpdateCriteria :=
  Build_UC (is_fsm_updated x) (updated_fsm_state x) (is_pending_event_triggers_updated x)
    (pending_event_triggers x) (revalidation_time x) (is_bearer_mapping_updated x)
    (bearer_id_by_policy x) (is_config_updated x) (updated_config x)
    (static_rules_to_install x) (static_rules_to_uninstall x)
    (new_scheduled_static_rules x) (dynamic_rules_to_install x)
    (dynamic_rules_to_uninstall x) (new_scheduled_dynamic_rules x)
    (gy_dynamic_rules_to_install x) (gy_dynamic_rules_to_uninstall x)
    (restrict_rules_to_install x) (restrict_rules_to_uninstall x) (new_rule_lifetimes x)
    (charging_credit_map x) (charging_credit_to_install x) (is_session_level_key_updated x)
    (updated_session_level_key x) (monitor_credit_map x) (monitor_credit_to_install x)
    (updated_pdp_end_time x) (request_number_increment x)
    (updated_subscriber_quota_state x) v.

Definition uc_with_is_config_updated
    (v : bool) (x : SessionStateUpdateCriteria)
  : SessionStateUpdateCriteria :=
  Build_UC (is_fsm_updated x) (updated_fsm_state x) (is_pending_event_triggers_updated x)
    (pending_event_triggers x) (revalidation_time x) (is_bearer_mapping_updated x)
    (bearer_id_by_policy x) v (updated_config x) (static_rules_to_install x)
    (static_rules_to_uninstall x) (new_scheduled_static_rules x)
    (dynamic_rules_to_install x) (dynamic_rules_to_uninstall x)
    (new_scheduled_dynamic_rules x) (gy_dynamic_rules_to_install x)
    (gy_dynamic_rules_to_uninstall x) (restrict_rules_to_install x)
    (restrict_rules_to_uninstall x) (new_rule_lifetimes x) (charging_credit_map x)
    (charging_credit_to_install x) (is_session_level_key_updated x)
    (updated_session_level_key x) (monitor_credit_map x) (monitor_credit_to_install x)
    (updated_pdp_end_time x) (request_number_increment x)
    (updated_subscriber_quota_state x) (updated_tgpp_context x).

Definition uc_with_updated_config
    (v : SessionConfig) (x : SessionStateUpdateCriteria)
  : SessionStateUpdateCriteria :=
  Build_UC (is_fsm_updated x) (updated_fsm_state x) (is_pending_event_triggers_updated x)
    (pending_event_triggers x) (revalidation_time x) (is_bearer_mapping_updated x)
    (bearer_id_by_policy x) (is_config_updated x) v (static_rules_to_install x)
    (static_rules_to_uninstall x) (new_scheduled_static_rules x)
    (dynamic_rules_to_install x) (dynamic_rules_to_uninstall x)
    (new_scheduled_dynamic_rules x) (gy_dynamic_rules_to_install x)
    (gy_dynamic_rules_to_uninstall x) (restrict_rules_to_install x)
    (restrict_rules_to_uninstall x) (new_rule_lifetimes x) (charging_credit_map x)
    (charging_credit_to_install x) (is_session_level_key_updated x)
    (updated_session_level_key x) (monitor_credit_map x) (monitor_credit_to_install x)
    (updated_pdp_end_time x) (request_number_increment x)
    (updated_subscriber_quota_state x) (updated_tgpp_context x).

(** *** Plain setters *)

Definition set_subscriber_quota_state
    (state : SubscriberQuotaUpdate_Type) (s : SessionState) (uc : SessionStateUpdateCriteria)
  : SessionState * SessionStateUpdateCriteria :=
  (with_subscriber_quota_state_ state s, uc_with_updated_subscriber_quota_state state uc).

Definition set_tgpp_context
    (tgpp_context : TgppContext) (s : SessionState) (uc : SessionStateUpdateCriteria)
  : SessionState * SessionStateUpdateCriteria :=
  (with_tgpp_context_ tgpp_context s, uc_with_updated_tgpp_context tgpp_context uc).

Definition set_config (config : SessionConfig) (s : SessionState) : SessionState :=
  with_config_ config s.

Definition set_pdp_end_time (epoch : Z) (s : SessionState) : SessionState :=
  with_pdp_end_time_ epoch s.

(** [request_number_ += incr] on a [uint32_t]. *)
Definition increment_request_number (incr : Z) (s : SessionState) : SessionState :=
  with_request_number_ ((request_number_ s + incr) mod uint32_max)%Z s.

(** *** Event triggers *)

Definition add_new_event_trigger
    (trigger : EventTrigger) (s : SessionState) (uc : SessionStateUpdateCriteria)
  : SessionState * SessionStateUpdateCriteria :=
  set_event_trigger trigger PENDING s uc.

(** A trigger that is not pending is only logged; it is made READY all the
    same. *)
Definition mark_event_trigger_as_triggered
    (trigger : EventTrigger) (s : SessionState) (uc : SessionStateUpdateCriteria)
  : SessionState * SessionStateUpdateCriteria :=
  set_event_trigger trigger READY s uc.

Definition set_revalidation_time
    (time : Timestamp) (s : SessionState) (uc : SessionStateUpdateCriteria)
  : SessionState * SessionStateUpdateCriteria :=
  (with_revalidation_time_ time s, uc_with_revalidation_time time uc).

(** *** Reauthorisation *)

(** The grant [reauth_key] creates for a key that is not in the credit map. *)
Definition reauth_placeholder : ChargingGrant :=
  {| credit := credit_new_disabled;
     is_final_grant := is_final_grant grant_default;
     final_action_info := final_action_info grant_default;
     expiry_time := expiry_time grant_default;
     reauth_state := REAUTH_REQUIRED;
     service_state := SERVICE_DISABLED |}.

(** For a known key the journal entry is not the one [get_credit_uc] would
    hand out: a fresh one is made from the grant and stored over whatever the
    journal held for the key. *)
Definition reauth_key
    (charging_key : CreditKey) (s : SessionState) (uc : SessionStateUpdateCriteria)
  : ReAuthResult * SessionState * SessionStateUpdateCriteria :=
  match credit_map_ s !! charging_key with
  | Some grant =>
      if is_reporting (credit grant) then (UPDATE_NOT_NEEDED, s, uc)
      else
        let '(grant, credit_uc) :=
          set_reauth_state REAUTH_REQUIRED grant (grant_get_update_criteria grant) in
        (UPDATE_INITIATED, put_grant charging_key grant s,
         put_credit_uc charging_key credit_uc uc)
  | None =>
      (UPDATE_INITIATED, put_grant charging_key reauth_placeholder s,
       uc_with_charging_credit_to_install
         (<[charging_key := grant_marshal reauth_placeholder]> (charging_credit_to_install uc))
         uc)
  end.

(** One round of the loop of [reauth_all]. *)
Definition reauth_all_step
    (st : ReAuthResult * SessionState * SessionStateUpdateCriteria) (key : CreditKey)
  : ReAuthResult * SessionState * SessionStateUpdateCriteria :=
  let '(res, s, uc) := st in
  match credit_map_ s !! key with
  | None => st
  | Some grant =>
      if is_reporting (credit grant) then st
      else
        let '(grant, credit_uc) :=
          set_reauth_state REAUTH_REQUIRED grant (grant_get_update_criteria grant) in
        (UPDATE_INITIATED, put_grant key grant s, put_credit_uc key credit_uc uc)
  end.

Definition reauth_all (s : SessionState) (uc : SessionStateUpdateCriteria)
  : ReAuthResult * SessionState * SessionStateUpdateCriteria :=
  foldl reauth_all_step (UPDATE_NOT_NEEDED, s, uc) (map_to_list (credit_map_ s)).*1.

Definition set_charging_credit
    (key : CreditKey) (charging_grant : ChargingGrant)
    (s : SessionState) (uc : SessionStateUpdateCriteria)
  : SessionState * SessionStateUpdateCriteria :=
  (put_grant key charging_grant s,
   uc_with_charging_credit_to_install
     (<[key := grant_marshal charging_grant]> (charging_credit_to_install uc)) uc).


(** *** Monitor credit *)


Definition update_session_level_key
    (credit : UsageMonitoringCredit.t) (s : SessionState) (uc : SessionStateUpdateCriteria)
  : SessionState * SessionStateUpdateCriteria :=
  let new_key := UsageMonitoringCredit.monitoring_key credit in
  let s :=
    if bool_decide (UsageMonitoringCredit.action credit = UsageMonitoringCredit.DISABLE)
    then with_session_level_key_ EmptyString s
    else with_session_level_key_ new_key s in
  (s, uc_with_updated_session_level_key (session_level_key_ s)
        (uc_with_is_session_level_key_updated true uc)).

Definition init_new_monitor
    (success : bool) (credit : UsageMonitoringCredit.t)
    (s : SessionState) (uc : SessionStateUpdateCriteria)
  : bool * SessionState * SessionStateUpdateCriteria :=
  if negb success then (false, s, uc)
  else if bool_decide (UsageMonitoringCredit.action credit = UsageMonitoringCredit.DISABLE)
  then (false, s, uc)
  else
    let monitor :=
      {| mon_credit :=
           (receive_credit (UsageMonitoringCredit.granted_units credit) credit_default None).1;
         mon_level := UsageMonitoringCredit.level credit |} in
    (true, put_monitor (UsageMonitoringCredit.monitoring_key credit) monitor s,
     uc_with_monitor_credit_to_install
       (<[UsageMonitoringCredit.monitoring_key credit := Monitor_marshal monitor]>
          (monitor_credit_to_install uc)) uc).

Definition receive_monitor
    (update : UsageMonitoringUpdateResponse)
    (s : SessionState) (uc : SessionStateUpdateCriteria)
  : bool * SessionState * SessionStateUpdateCriteria :=
  match umu_credit update with
  | None => (true, s, uc)
  | Some credit =>
      let '(s, uc) :=
        if umu_success update
           && bool_decide (UsageMonitoringCredit.level credit = SESSION_LEVEL)
        then update_session_level_key credit s uc
        else (s, uc) in
      let mkey := UsageMonitoringCredit.monitoring_key credit in
      if from_option CreditUC.deleted false (monitor_credit_map uc !! mkey) then (false, s, uc)
      else
        match monitor_map_ s !! mkey with
        | None => init_new_monitor (umu_success update) credit s uc
        | Some monitor =>
            let '(credit_uc, uc) := get_monitor_uc monitor mkey uc in
            if negb (umu_success update) then
              let '(c, credit_uc) :=
                mark_failure (umu_result_code update) (mon_credit monitor) credit_uc in
              (false, put_monitor mkey {| mon_credit := c; mon_level := mon_level monitor |} s,
               put_monitor_uc mkey credit_uc uc)
            else
              let '(c, received_uc) :=
                receive_credit (UsageMonitoringCredit.granted_units credit)
                  (mon_credit monitor) (Some credit_uc) in
              (true, put_monitor mkey {| mon_credit := c; mon_level := mon_level monitor |} s,
               put_monitor_uc mkey (default credit_uc received_uc) uc)
        end
  end.

(** *** Bearers *)

Definition get_policy_type (s : SessionState) (rule_id : string) : option PolicyType :=
  if is_static_rule_installed s rule_id then Some STATIC
  else if is_dynamic_rule_installed s rule_id then Some DYNAMIC
  else None.

Definition bind_policy_to_bearer
    (request : PolicyBearerBindingRequest) (s : SessionState) (uc : SessionStateUpdateCriteria)
  : SessionState * SessionStateUpdateCriteria :=
  let rule_id := policy_rule_id request in
  match get_policy_type s rule_id with
  | None => (s, uc)
  | Some policy_type =>
      let s :=
        with_bearer_id_by_policy_
          (<[(policy_type, rule_id) := pbb_bearer_id request]> (bearer_id_by_policy_ s)) s in
      (s, uc_with_bearer_id_by_policy (bearer_id_by_policy_ s)
            (uc_with_is_bearer_mapping_updated true uc))
  end.

(** The rule, if the policy exists and has a QoS ([rule_out] when the result
    is true). *)
Definition policy_has_qos (s : SessionState) (policy_type : PolicyType) (rule_id : string)
  : option PolicyRule :=
  match policy_type with
  | STATIC =>
      match RuleStore.get_rule (static_rules_ s) rule_id with
      | Some rule => if bool_decide (is_Some (pr_qos rule)) then Some rule else None
      | None => None
      end
  | DYNAMIC =>
      match RuleStore.get_rule (dynamic_rules_ s) rule_id with
      | Some rule => if bool_decide (is_Some (pr_qos rule)) then Some rule else None
      | None => None
      end
  end.

Definition update_bearer_creation_req
    (s : SessionState) (policy_type : PolicyType) (rule_id : string)
    (config : SessionConfig) (update : BearerUpdate) : BearerUpdate :=
  match rat_specific_context config with
  | lte_context lte =>
      if bool_decide (is_Some (bearer_id_by_policy_ s !! (policy_type, rule_id))) then update
      else
        match policy_has_qos s policy_type rule_id with
        | None => update
        | Some rule =>
            if bool_decide (qci <$> pr_qos rule = Some (qos_class_id lte)) then update
            else
              let req :=
                if needs_creation update then create_req update
                else
                  {| cb_sid := sid (common_context config);
                     cb_ip_addr := ue_ipv4 (common_context config);
                     cb_link_bearer_id := bearer_id lte;
                     cb_policy_rules := cb_policy_rules (create_req update) |} in
              {| needs_creation := true;
                 create_req :=
                   {| cb_sid := cb_sid req; cb_ip_addr := cb_ip_addr req;
                      cb_link_bearer_id := cb_link_bearer_id req;
                      cb_policy_rules := cb_policy_rules req ++ [rule] |};
                 needs_deletion := needs_deletion update;
                 delete_req := delete_req update |}
        end
  | _ => update
  end.

Definition update_bearer_deletion_req
    (policy_type : PolicyType) (rule_id : string) (config : SessionConfig)
    (st : SessionState * BearerUpdate * SessionStateUpdateCriteria)
  : SessionState * BearerUpdate * SessionStateUpdateCriteria :=
  let '(s, update, uc) := st in
  match rat_specific_context config with
  | lte_context lte =>
      match bearer_id_by_policy_ s !! (policy_type, rule_id) with
      | None => st
      | Some bearer_id_to_delete =>
          let s :=
            with_bearer_id_by_policy_
              (delete (policy_type, rule_id) (bearer_id_by_policy_ s)) s in
          let uc :=
            uc_with_bearer_id_by_policy (bearer_id_by_policy_ s)
              (uc_with_is_bearer_mapping_updated true uc) in
          let req :=
            if needs_deletion update then delete_req update
            else
              {| db_sid := sid (common_context config);
                 db_ip_addr := ue_ipv4 (common_context config);
                 db_link_bearer_id := bearer_id lte;
                 db_eps_bearer_ids := db_eps_bearer_ids (delete_req update) |} in
          (s,
           {| needs_creation := needs_creation update;
              create_req := create_req update;
              needs_deletion := true;
              delete_req :=
                {| db_sid := db_sid req; db_ip_addr := db_ip_addr req;
                   db_link_bearer_id := db_link_bearer_id req;
                   db_eps_bearer_ids := db_eps_bearer_ids req ++ [bearer_id_to_delete] |} |},
           uc)
      end
  | _ => st
  end.

Definition get_dedicated_bearer_updates
    (rules_to_activate rules_to_deactivate : RulesToProcess.t)
    (s : SessionState) (uc : SessionStateUpdateCriteria)
  : BearerUpdate * SessionState * SessionStateUpdateCriteria :=
  let update :=
    foldl (λ update rule_id, update_bearer_creation_req s STATIC rule_id (config_ s) update)
      BearerUpdate_default (RulesToProcess.static_rules rules_to_activate) in
  let update :=
    foldl (λ update rule,
             update_bearer_creation_req s DYNAMIC (pr_id rule) (config_ s) update)
      update (RulesToProcess.dynamic_rules rules_to_activate) in
  let st :=
    foldl (λ st rule_id, update_bearer_deletion_req STATIC rule_id (config_ st.1.1) st)
      (s, update, uc) (RulesToProcess.static_rules rules_to_deactivate) in
  let '(s, update, uc) :=
    foldl (λ st rule,
             update_bearer_deletion_req DYNAMIC (pr_id rule) (config_ st.1.1) st)
      st (RulesToProcess.dynamic_rules rules_to_deactivate) in
  (update, s, uc).

(** *** Declarative rule sets

    The loops of [apply_session_static_rule_set] and
    [apply_session_dynamic_rule_set], one definition per loop body. *)

(** Install a static rule of the set that is not installed. *)
Definition static_rule_set_install_step
    (lifetime : RuleLifetime)
    (st : RulesToProcess.t * SessionState * SessionStateUpdateCriteria)
    (static_rule_id : string)
  : RulesToProcess.t * SessionState * SessionStateUpdateCriteria :=
  let '(to_activate, s, uc) := st in
  if negb (is_static_rule_installed s static_rule_id) then
    let '(s, uc) := activate_static_rule static_rule_id lifetime s uc in
    (RulesToProcess.mk
       (RulesToProcess.static_rules to_activate ++ [static_rule_id])
       (RulesToProcess.dynamic_rules to_activate), s, uc)
  else st.

(** Note an active static rule that is not in the set. *)
Definition static_rule_set_collect_step
    (static_rules : gset string) (to_deactivate : RulesToProcess.t) (static_rule_id : string)
  : RulesToProcess.t :=
  if bool_decide (static_rule_id ∉ static_rules) then
    RulesToProcess.mk
      (RulesToProcess.static_rules to_deactivate ++ [static_rule_id])
      (RulesToProcess.dynamic_rules to_deactivate)
  else to_deactivate.

Definition static_rule_set_remove_step
    (st : SessionState * SessionStateUpdateCriteria) (static_rule_id : string)
  : SessionState * SessionStateUpdateCriteria :=
  let r := deactivate_static_rule static_rule_id st.1 st.2 in (r.1.2, r.2).

Definition apply_session_static_rule_set
    (static_rules : gset string)
    (rules_to_activate rules_to_deactivate : RulesToProcess.t)
    (s : SessionState) (uc : SessionStateUpdateCriteria)
  : RulesToProcess.t * RulesToProcess.t * SessionState * SessionStateUpdateCriteria :=
  let lifetime := RuleLifetime_zero in
  let '(rules_to_activate, s, uc) :=
    foldl (static_rule_set_install_step lifetime)
      (rules_to_activate, s, uc) (elements static_rules) in
  let rules_to_deactivate :=
    foldl (static_rule_set_collect_step static_rules)
      rules_to_deactivate (active_static_rules_ s) in
  let '(s, uc) :=
    foldl static_rule_set_remove_step
      (s, uc) (RulesToProcess.static_rules rules_to_deactivate) in
  (rules_to_activate, rules_to_deactivate, s, uc).

(** Install a dynamic rule of the set whose key is not installed. *)
Definition dynamic_rule_set_install_step
    (lifetime : RuleLifetime)
    (st : RulesToProcess.t * SessionState * SessionStateUpdateCriteria)
    (dynamic_rule_pair : string * PolicyRule)
  : RulesToProcess.t * SessionState * SessionStateUpdateCriteria :=
  let '(to_activate, s, uc) := st in
  if negb (is_dynamic_rule_installed s dynamic_rule_pair.1) then
    let '(s, uc) := insert_dynamic_rule dynamic_rule_pair.2 lifetime s uc in
    (RulesToProcess.mk (RulesToProcess.static_rules to_activate)
       (RulesToProcess.dynamic_rules to_activate ++ [dynamic_rule_pair.2]), s, uc)
  else st.

(** Remove an installed dynamic rule whose id is not a key of the set. *)
Definition dynamic_rule_set_remove_step
    (dynamic_rules : gmap string PolicyRule)
    (st : RulesToProcess.t * SessionState * SessionStateUpdateCriteria)
    (dynamic_rule : PolicyRule)
  : RulesToProcess.t * SessionState * SessionStateUpdateCriteria :=
  let '(to_deactivate, s, uc) := st in
  if bool_decide (dynamic_rules !! pr_id dynamic_rule = None) then
    let r := remove_dynamic_rule (pr_id dynamic_rule) s uc in
    (RulesToProcess.mk (RulesToProcess.static_rules to_deactivate)
       (RulesToProcess.dynamic_rules to_deactivate ++ [dynamic_rule]),
     r.1.2, r.2)
  else st.

Definition apply_session_dynamic_rule_set
    (dynamic_rules : gmap string PolicyRule)
    (rules_to_activate rules_to_deactivate : RulesToProcess.t)
    (s : SessionState) (uc : SessionStateUpdateCriteria)
  : RulesToProcess.t * RulesToProcess.t * SessionState * SessionStateUpdateCriteria :=
  let lifetime := RuleLifetime_zero in
  let '(rules_to_activate, s, uc) :=
    foldl (dynamic_rule_set_install_step lifetime)
      (rules_to_activate, s, uc) (map_to_list dynamic_rules) in
  let active_dynamic_rules := RuleStore.get_rules (dynamic_rules_ s) in
  let '(rules_to_deactivate, s, uc) :=
    foldl (dynamic_rule_set_remove_step dynamic_rules)
      (rules_to_deactivate, s, uc) active_dynamic_rules in
  (rules_to_activate, rules_to_deactivate, s, uc).

End MoreModel.

Section Journals.
Context `{Helpers}.

(** A journal that holds nothing but rule entries and lifetimes. *)
Definition rules_only (uc : SessionStateUpdateCriteria) : Prop :=
  is_fsm_updated uc = false
  ∧ is_pending_event_triggers_updated uc = false
  ∧ is_bearer_mapping_updated uc = false
  ∧ is_config_updated uc = false
  ∧ charging_credit_map uc = ∅
  ∧ charging_credit_to_install uc = ∅
  ∧ is_session_level_key_updated uc = false
  ∧ monitor_credit_map uc = ∅
  ∧ monitor_credit_to_install uc = ∅
  ∧ updated_pdp_end_time uc = 0%Z.

(** The members that no statement of [apply_update_criteria] assigns to. *)
Definition not_replayed (s : SessionState)
  : string * string * Z * Z * SubscriberQuotaUpdate_Type * TgppContext :=
  (imsi_ s, session_id_ s, request_number_ s, pdp_start_time_ s,
   subscriber_quota_state_ s, tgpp_context_ s).

(** [std::count(v.begin(), v.end(), x)] *)
Definition occurrences (x : string) (v : list string) : nat :=
  length (filter (λ y, y = x) v).

(** The [n] request numbers counted up from [first] on a [uint32_t]. *)
Definition request_numbers_from (first : Z) (n : nat) : list Z :=
  (λ i, Nat.iter i uint32_incr first) <$> seq 0 n.

(** A collection pass from [st] to [st'] that has added the messages
    [new_updates] and [new_monitors] and numbered them in this order. *)
Definition numbered (st st' : Collect)
    (new_updates : list CreditUsageUpdate) (new_monitors : list UsageMonitoringUpdateRequest)
  : Prop :=
  let n := (length new_updates + length new_monitors)%nat in
  updates st'.1.1.2 = updates st.1.1.2 ++ new_updates
  ∧ usage_monitors st'.1.1.2 = usage_monitors st.1.1.2 ++ new_monitors
  ∧ (cuu_request_number <$> new_updates) ++ (umr_request_number <$> new_monitors)
    = request_numbers_from (request_number_ st.1.1.1) n
  ∧ request_number_ st'.1.1.1 = Nat.iter n uint32_incr (request_number_ st.1.1.1)
  ∧ request_number_increment st'.2 = Nat.iter n uint32_incr (request_number_increment st.2).

(** A service action that names session [s] as its target and one of its
    charging keys with the rules of that key. *)
Definition addressed (s : SessionState) (a : ServiceAction) : Prop :=
  sa_imsi a = imsi_ s
  ∧ sa_session_id a = session_id_ s
  ∧ sa_ip_addr a = ue_ipv4 (common_context (config_ s))
  ∧ sa_action_type a ≠ CONTINUE_SERVICE
  ∧ ∃ key,
      sa_credit_key a = Some key
      ∧ is_Some (credit_map_ s !! key)
      ∧ sa_rule_ids a = RuleStore.get_rule_ids_for_charging_key (static_rules_ s) key
      ∧ sa_rule_definitions a
        = RuleStore.get_rule_definitions_for_charging_key (dynamic_rules_ s) key.

(** A credit usage update that names session [s] and one of its charging
    keys. *)
Definition reports_for (s : SessionState) (u : CreditUsageUpdate) : Prop :=
  cuu_session_id u = session_id_ s
  ∧ cuu_sid u = imsi_ s
  ∧ is_Some (credit_map_ s !! credit_usage_key (cuu_usage u)).

(** The charging keys that the messages of a collection pass are about: the
    key of each credit usage update, then the key of each service action. *)
Definition message_keys
    (new_updates : list CreditUsageUpdate) (new_actions : list ServiceAction)
  : list (option CreditKey) :=
  ((λ u, Some (credit_usage_key (cuu_usage u))) <$> new_updates)
  ++ (sa_credit_key <$> new_actions).

(** The policies a [RulesToProcess] names, static rules first, as
    [get_dedicated_bearer_updates] goes through them. *)
Definition policies_of (rules : RulesToProcess.t) : list PolicyID :=
  ((λ rule_id, (STATIC, rule_id)) <$> RulesToProcess.static_rules rules)
  ++ ((λ rule, (DYNAMIC, pr_id rule)) <$> RulesToProcess.dynamic_rules rules).

End Journals.

(** ** Calls on a session

    The members of the session that change the session or its journal, as
    values, so that a statement can range over every sequence of calls.
    [CallApplyUpdateCriteria] replays a journal of its own onto the session.
    The three passes of [get_updates] and the two bearer passes are reached
    through [get_updates] and [get_dedicated_bearer_updates];
    [apply_session_rule_set] is [CallApplySessionStaticRuleSet] followed by
    [CallApplySessionDynamicRuleSet].  Two members that are not [const] are
    not among the calls: [sync_rules_to_time], which is left out of the
    embedding, and [update_data_usage_metrics], which only counts in the
    metrics registry; of the session the first touches only the rule stores
    and the lifetimes. *)

Section Calls.
Context `{MoreHelpers}.





End Calls.

(** ** The further helpers over the reference credit primitive *)

Module MoreReference.

#[local] Existing Instance Reference.types.
#[local] Existing Instance Reference.helpers.

Local Open Scope Z_scope.

(** Modelled from the spec: a default credit has all counters at zero, a
    report is in flight while a reporting bucket holds volume, credit received
    for a monitor is a successful grant of the credit primitive, and resetting
    a report drops what is in the reporting buckets. *)
Definition more_helpers : @MoreHelpers Reference.types Reference.helpers :=
  {| credit_default := Reference.Credit_zero : @SessionCredit Reference.types;
     credit_new_disabled := Reference.Credit_zero : @SessionCredit Reference.types;
     is_reporting := Reference.is_reporting : @SessionCredit Reference.types → bool;
     receive_credit := Reference.Credit_receive;
     reset_reporting_credit := Reference.drop_reporting |}.

End MoreReference.

(** ** Further concrete sessions and messages *)

Module MoreScenario.

#[local] Existing Instance Reference.types.
#[local] Existing Instance Reference.helpers.
#[local] Existing Instance MoreReference.more_helpers.

Local Open Scope Z_scope.

(** Sessions with the static rule [r1], the dynamic rule [d1], and [d1] as a
    gy-dynamic rule installed. *)
Definition with_static_r1 : SessionState :=
  (activate_static_rule "r1" Scenario.window Scenario.fresh Scenario.journal).1.

Definition with_dynamic_d1 : SessionState :=
  (insert_dynamic_rule Scenario.d1 Scenario.window Scenario.fresh Scenario.journal).1.

Definition with_gy_d1 : SessionState :=
  (insert_gy_dynamic_rule Scenario.d1 Scenario.window Scenario.fresh Scenario.journal).1.

(** A session released by the access gateway. *)
Definition released : SessionState := with_curr_state_ SESSION_RELEASED Scenario.fresh.

(** A session whose REVALIDATION_TIMEOUT trigger is ready. *)
Definition revalidation_due : SessionState :=
  (mark_event_trigger_as_triggered REVALIDATION_TIMEOUT Scenario.fresh Scenario.journal).1.

(** A WLAN session. *)
Definition wlan_cfg : SessionConfig :=
  {| common_context := common_context Scenario.cfg;
     rat_specific_context := wlan_context {| mac_addr_binary := "0a1b2c3d4e5f" |} |}.

Definition wlan_session : SessionState :=
  SessionState_new "IMSI001" "s2" wlan_cfg ∅ (EmptyString, EmptyString) 0.

(** An LTE session (default bearer 5, QCI 9) over a static rule store that
    holds [q1], a rule with QCI 5; its static rule [r1] is bound to bearer
    6. *)
Definition q1 : PolicyRule :=
  {| pr_id := "q1"; pr_charging_key := None; pr_monitoring_key := None;
     pr_qos := Some {| qci := 5; max_req_bw_ul := 1000; max_req_bw_dl := 1000 |};
     pr_flow_list := [] |}.

Definition lte_session : SessionState :=
  with_bearer_id_by_policy_ {[ (STATIC, "r1") := 6 ]}
    (with_active_static_rules_ ["r1"]
       (SessionState_new "IMSI001" "s1" Scenario.cfg (RuleStore.insert_rule q1 ∅)
          (EmptyString, EmptyString) 0)).

Definition activate_q1 : RulesToProcess.t := RulesToProcess.mk ["q1"] [].

Definition deactivate_r1 : RulesToProcess.t := RulesToProcess.mk ["r1"] [].

(** A first grant of 1000 bytes for rating group 10, and a first session-level
    monitor grant of 500 bytes for monitoring key [m1]. *)
Definition units (n : Z) : GrantedUnits :=
  {| total := {| is_valid := true; volume := n |};
     tx := {| is_valid := false; volume := 0 |};
     rx := {| is_valid := false; volume := 0 |} |}.

Definition first_grant : CreditUpdateResponse :=
  {| cur_success := true; cur_charging_key := 10; cur_service_identifier := 0;
     cur_credit :=
       {| cc_granted_units := units 1000; cc_is_final := false;
          cc_final_action := ChargingCredit_FinalAction_TERMINATE;
          cc_redirect_server := EmptyString; cc_restrict_rules := [];
          cc_validity_time := 3600 |};
     cur_result_code := 2001; cur_limit_type := FINITE |}.

Definition m1_credit : UsageMonitoringCredit.t :=
  UsageMonitoringCredit.mk UsageMonitoringCredit.CONTINUE "m1" SESSION_LEVEL (units 500).

Definition first_monitor_grant : UsageMonitoringUpdateResponse :=
  {| umu_success := true; umu_credit := Some m1_credit; umu_result_code := 2001 |}.

(** A second grant of 2000 bytes for rating group 10. *)
Definition second_grant : CreditUpdateResponse :=
  {| cur_success := true; cur_charging_key := 10; cur_service_identifier := 0;
     cur_credit :=
       {| cc_granted_units := units 2000; cc_is_final := false;
          cc_final_action := ChargingCredit_FinalAction_TERMINATE;
          cc_redirect_server := EmptyString; cc_restrict_rules := [];
          cc_validity_time := 3600 |};
     cur_result_code := 2001; cur_limit_type := FINITE |}.

(** A session with the dynamic rule [d1] of rating group 10 installed, the
    first grant received and 800 bytes used on [d1]: the grant is due for a
    report. *)
Definition with_usage : SessionState :=
  let s := (receive_charging_credit first_grant with_dynamic_d1 Scenario.journal).1.2 in
  (add_rule_usage "d1" 800 0 s Scenario.journal).1.


(** A journal in which the monitor [m1] is marked deleted. *)
Definition m1_deleted : CreditUC.t :=
  CreditUC.with_deleted true (Reference.update_criteria_of Reference.Credit_zero).

Definition journal_with_m1_deleted : SessionStateUpdateCriteria :=
  put_monitor_uc "m1" m1_deleted Scenario.journal.

(** The declarative rule sets [{r1, r2}] and [{d1}]. *)
Definition static_set : gset string := {[ "r1"; "r2" ]}.

Definition dynamic_set : gmap string PolicyRule := {[ "d1" := Scenario.d1 ]}.

End MoreScenario.

(** * Properties *)

Section Lifetimes.
Context `{Helpers}.

Lemma rule_lifetime_at_present (s : SessionState) (rule_id : string) (lifetime : RuleLifetime) :
  rule_lifetimes_ s !! rule_id = Some lifetime →
  rule_lifetime_at s rule_id = (lifetime, s).
Proof. intros Hl. unfold rule_lifetime_at. by rewrite Hl. Qed.

(** C2 (amended).  For a rule with lifetime [{a, d}], [should_rule_be_active]
    at time [t] returns true exactly when [a < t] and the rule is not past its
    deactivation, that is not ([d > 0] and [d < t]); the session is left as it
    is.  In particular at [t = d], for a positive [d] above [a], the rule is
    still active: deactivation takes effect strictly after [d], in the same
    way as in [should_rule_be_deactivated]. *)
Theorem should_rule_be_active_spec
    (s : SessionState) (rule_id : string) (a d t : Z) :
  rule_lifetimes_ s !! rule_id = Some {| activation_time := a; deactivation_time := d |} →
  ((should_rule_be_active s rule_id t).1 = true ↔ (a < t ∧ ¬ (d > 0 ∧ d < t))%Z)
  ∧ ((should_rule_be_deactivated s rule_id t).1 = true ↔ (d > 0 ∧ d < t)%Z)
  ∧ (should_rule_be_active s rule_id t).2 = s
  ∧ ((a < d)%Z → (d > 0)%Z → (should_rule_be_active s rule_id d).1 = true).
Proof.
  intros Hl.
  unfold should_rule_be_active, should_rule_be_deactivated.
  rewrite !(rule_lifetime_at_present _ _ _ Hl). simpl.
  split; [|split; [|split]].
  - rewrite andb_true_iff, negb_true_iff, andb_false_iff,
      !bool_decide_eq_true, !bool_decide_eq_false.
    split; [intros [Ha Hd]; lia|].
    intros [Ha Hd]. split; [done|].
    destruct (decide (d > 0)%Z); [right; lia | by left].
  - rewrite andb_true_iff, !bool_decide_eq_true. done.
  - done.
  - intros Had Hd.
    rewrite andb_true_iff, negb_true_iff, andb_false_iff,
      !bool_decide_eq_true, !bool_decide_eq_false.
    split; [done | right; lia].
Qed.

End Lifetimes.

Section Lookups.
Context `{Helpers}.

(** C10.  For a key that is not in the credit map, [get_charging_credit]
    returns 0 for every bucket, and so does [get_monitor] for a key that is not
    in the monitor map.  Both are [const] members reading the map with [find]:
    they return a value and nothing else, so the session stays as it is and
    the key is not created. *)
Theorem get_credit_of_missing_key :
  (∀ (s : SessionState) (key : CreditKey) (bucket : Bucket),
      credit_map_ s !! key = None → get_charging_credit s key bucket = 0%Z)
  ∧ (∀ (s : SessionState) (key : string) (bucket : Bucket),
      monitor_map_ s !! key = None → get_monitor s key bucket = 0%Z).
Proof.
  split; intros s key bucket Hnone.
  - unfold get_charging_credit. by rewrite Hnone.
  - unfold get_monitor. by rewrite Hnone.
Qed.

End Lookups.

Section Fsm.
Context `{Helpers}.

Lemma get_updates_inactive (st : Collect) :
  curr_state_ st.1.1.1 ≠ SESSION_ACTIVE → get_updates st = st.
Proof. intros Hst. unfold get_updates. by rewrite bool_decide_eq_true_2. Qed.

Lemma set_fsm_state_state (new_state : SessionFsmState) s uc :
  curr_state_ (set_fsm_state new_state s uc).1 = new_state.
Proof.
  unfold set_fsm_state. case_bool_decide as Hne; simpl; [done|].
  destruct (decide (curr_state_ s = new_state)); [done | by destruct Hne].
Qed.




Lemma foldl_curr_state {K A B : Type} (f : SessionState * A * B → K → SessionState * A * B)
    (l : list K) (st : SessionState * A * B) :
  (∀ st k, curr_state_ (f st k).1.1 = curr_state_ st.1.1) →
  curr_state_ (foldl f st l).1.1 = curr_state_ st.1.1.
Proof.
  intros Hf. revert st. induction l as [|k l IH]; intros st; simpl; [done|].
  by rewrite IH, Hf.
Qed.


Lemma make_termination_request_curr_state s uc :
  curr_state_ (make_termination_request s uc).1.2 = curr_state_ s.
Proof.
  unfold make_termination_request.
  destruct (foldl termination_monitor_step _ _) as [[s1 mu] uc1] eqn:E1.
  destruct (foldl termination_credit_step _ _) as [[s2 cu] uc2] eqn:E2.
  simpl.
  change s2 with (s2, cu, uc2).1.1. rewrite <- E2.
  rewrite foldl_curr_state; simpl.
  - change s1 with (s1, mu, uc1).1.1. rewrite <- E1.
    rewrite foldl_curr_state; simpl; [done|].
    intros [[s' a] b] k. unfold termination_monitor_step. by repeat case_match.
  - intros [[s' a] b] k. unfold termination_credit_step. by repeat case_match.
Qed.

Lemma complete_termination_not_active s uc :
  curr_state_ s ≠ SESSION_ACTIVE →
  curr_state_ (complete_termination s uc).1.2 = SESSION_TERMINATED.
Proof.
  intros Hs. unfold complete_termination.
  destruct (curr_state_ s) eqn:E; try done; simpl.
  - destruct (set_fsm_state _ s uc) as [s1 uc1] eqn:E1.
    destruct (make_termination_request s1 uc1) as [[r s2] uc2] eqn:E2. simpl.
    change s2 with (r, s2, uc2).1.2. rewrite <- E2, make_termination_request_curr_state.
    change s1 with (s1, uc1).1. rewrite <- E1. apply set_fsm_state_state.
  - destruct (set_fsm_state _ s uc) as [s1 uc1] eqn:E1.
    destruct (make_termination_request s1 uc1) as [[r s2] uc2] eqn:E2. simpl.
    change s2 with (r, s2, uc2).1.2. rewrite <- E2, make_termination_request_curr_state.
    change s1 with (s1, uc1).1. rewrite <- E1. apply set_fsm_state_state.
Qed.

End Fsm.

Section Terminated.
Context `{Helpers}.

(** The credit and rule operations never read the FSM state: run on the same
    session in another FSM state they do the same, and keep that state. *)
Lemma add_to_monitor_fsm_blind (f : SessionFsmState) key tx rx s uc :
  add_to_monitor key tx rx (with_curr_state_ f s) uc
  = ((add_to_monitor key tx rx s uc).1.1,
     with_curr_state_ f (add_to_monitor key tx rx s uc).1.2,
     (add_to_monitor key tx rx s uc).2).
Proof. destruct s. unfold add_to_monitor. simpl. by repeat case_match. Qed.

Lemma add_rule_usage_charging_fsm_blind (f : SessionFsmState) rule_id tx rx s uc :
  add_rule_usage_charging rule_id tx rx (with_curr_state_ f s) uc
  = (with_curr_state_ f (add_rule_usage_charging rule_id tx rx s uc).1,
     (add_rule_usage_charging rule_id tx rx s uc).2).
Proof. destruct s. unfold add_rule_usage_charging. simpl. by repeat case_match. Qed.

Lemma add_rule_usage_monitoring_fsm_blind (f : SessionFsmState) rule_id tx rx s uc :
  add_rule_usage_monitoring rule_id tx rx (with_curr_state_ f s) uc
  = (with_curr_state_ f (add_rule_usage_monitoring rule_id tx rx s uc).1,
     (add_rule_usage_monitoring rule_id tx rx s uc).2).
Proof.
  unfold add_rule_usage_monitoring.
  change (dynamic_rules_ (with_curr_state_ f s)) with (dynamic_rules_ s).
  change (static_rules_ (with_curr_state_ f s)) with (static_rules_ s).
  destruct (match RuleStore.get_monitoring_key_for_rule_id (dynamic_rules_ s) rule_id with
            | Some k => Some k
            | None => RuleStore.get_monitoring_key_for_rule_id (static_rules_ s) rule_id
            end) as [mk|]; simpl.
  - rewrite add_to_monitor_fsm_blind. simpl.
    change (session_level_key_ (with_curr_state_ f ?x)) with (session_level_key_ x).
    case_match; [|done]. by rewrite add_to_monitor_fsm_blind.
  - change (session_level_key_ (with_curr_state_ f s)) with (session_level_key_ s).
    case_match; [|done]. by rewrite add_to_monitor_fsm_blind.
Qed.

Lemma add_rule_usage_fsm_blind (f : SessionFsmState) rule_id tx rx s uc :
  add_rule_usage rule_id tx rx (with_curr_state_ f s) uc
  = (with_curr_state_ f (add_rule_usage rule_id tx rx s uc).1,
     (add_rule_usage rule_id tx rx s uc).2).
Proof.
  unfold add_rule_usage. rewrite add_rule_usage_charging_fsm_blind.
  destruct (add_rule_usage_charging rule_id tx rx s uc) as [s1 uc1]. simpl.
  apply add_rule_usage_monitoring_fsm_blind.
Qed.

Lemma receive_charging_credit_fsm_blind (f : SessionFsmState) update s uc :
  receive_charging_credit update (with_curr_state_ f s) uc
  = ((receive_charging_credit update s uc).1.1,
     with_curr_state_ f (receive_charging_credit update s uc).1.2,
     (receive_charging_credit update s uc).2).
Proof.
  destruct s. unfold receive_charging_credit, init_charging_credit. simpl.
  by repeat case_match.
Qed.

Lemma activate_static_rule_fsm_blind (f : SessionFsmState) rule_id lifetime s uc :
  activate_static_rule rule_id lifetime (with_curr_state_ f s) uc
  = (with_curr_state_ f (activate_static_rule rule_id lifetime s uc).1,
     (activate_static_rule rule_id lifetime s uc).2).
Proof. by destruct s. Qed.

Lemma insert_dynamic_rule_fsm_blind (f : SessionFsmState) rule lifetime s uc :
  insert_dynamic_rule rule lifetime (with_curr_state_ f s) uc
  = (with_curr_state_ f (insert_dynamic_rule rule lifetime s uc).1,
     (insert_dynamic_rule rule lifetime s uc).2).
Proof.
  destruct s. unfold insert_dynamic_rule, is_dynamic_rule_installed. simpl.
  by case_match.
Qed.

Lemma with_curr_state_same s : with_curr_state_ (curr_state_ s) s = s.
Proof. by destruct s. Qed.

(** C3 (amended).  On a session whose FSM state is TERMINATED,
    [complete_termination] and [get_updates] do nothing.  The credit updates
    ([receive_charging_credit], [add_rule_usage]) and the rule installs
    ([activate_static_rule], [insert_dynamic_rule]) keep the state TERMINATED,
    but they are not gated by it: they change credit map, journal and rule
    stores as they would on the same session in state ACTIVE.
    [set_fsm_state] moves the session to whatever state is asked for. *)
Theorem terminated_session_operations
    (s : SessionState) (uc : SessionStateUpdateCriteria) :
  curr_state_ s = SESSION_TERMINATED →
  let active := with_curr_state_ SESSION_ACTIVE s in
  complete_termination s uc = (None, s, uc)
  ∧ (∀ req actions, get_updates (s, req, actions, uc) = (s, req, actions, uc))
  ∧ (∀ update,
        receive_charging_credit update s uc
        = ((receive_charging_credit update active uc).1.1,
           with_curr_state_ SESSION_TERMINATED (receive_charging_credit update active uc).1.2,
           (receive_charging_credit update active uc).2))
  ∧ (∀ rule_id used_tx used_rx,
        add_rule_usage rule_id used_tx used_rx s uc
        = (with_curr_state_ SESSION_TERMINATED
             (add_rule_usage rule_id used_tx used_rx active uc).1,
           (add_rule_usage rule_id used_tx used_rx active uc).2))
  ∧ (∀ rule_id lifetime,
        activate_static_rule rule_id lifetime s uc
        = (with_curr_state_ SESSION_TERMINATED
             (activate_static_rule rule_id lifetime active uc).1,
           (activate_static_rule rule_id lifetime active uc).2)
        ∧ active_static_rules_ (activate_static_rule rule_id lifetime s uc).1
          = active_static_rules_ s ++ [rule_id])
  ∧ (∀ rule lifetime,
        insert_dynamic_rule rule lifetime s uc
        = (with_curr_state_ SESSION_TERMINATED
             (insert_dynamic_rule rule lifetime active uc).1,
           (insert_dynamic_rule rule lifetime active uc).2)
        ∧ (is_dynamic_rule_installed s (pr_id rule) = false →
           dynamic_rules_ (insert_dynamic_rule rule lifetime s uc).1 !! pr_id rule = Some rule))
  ∧ (∀ new_state, curr_state_ (set_fsm_state new_state s uc).1 = new_state).
Proof.
  intros Hs active.
  assert (Hback : s = with_curr_state_ SESSION_TERMINATED active).
  { subst active. rewrite <- Hs at 1. by destruct s. }
  split; [|split; [|split; [|split; [|split; [|split]]]]].
  - unfold complete_termination. by rewrite Hs.
  - intros req actions. apply get_updates_inactive. simpl. by rewrite Hs.
  - intros update. rewrite Hback at 1. apply receive_charging_credit_fsm_blind.
  - intros rule_id tx rx. rewrite Hback at 1. apply add_rule_usage_fsm_blind.
  - intros rule_id lifetime. split; [|done].
    rewrite Hback at 1. apply activate_static_rule_fsm_blind.
  - intros rule lifetime. split.
    + rewrite Hback at 1. apply insert_dynamic_rule_fsm_blind.
    + intros Hni. unfold insert_dynamic_rule. rewrite Hni. simpl.
      unfold RuleStore.insert_rule. apply lookup_insert_eq.
  - intros new_state. apply set_fsm_state_state.
Qed.

End Terminated.

Section Termination.
Context `{Helpers}.

Lemma put_monitor_is_Some key monitor s k :
  is_Some (monitor_map_ s !! key) →
  is_Some (monitor_map_ (put_monitor key monitor s) !! k) ↔ is_Some (monitor_map_ s !! k).
Proof.
  intros Hkey. destruct s. simpl in *. rewrite lookup_insert.
  case_decide; subst; [split; eauto | done].
Qed.

Lemma put_grant_is_Some key grant s k :
  is_Some (credit_map_ s !! key) →
  is_Some (credit_map_ (put_grant key grant s) !! k) ↔ is_Some (credit_map_ s !! k).
Proof.
  intros Hkey. destruct s. simpl in *. rewrite lookup_insert.
  case_decide; subst; [split; eauto | done].
Qed.

(** One round of the monitor loop of [make_termination_request] appends one
    usage entry for its key and leaves the request number alone. *)
Lemma termination_monitor_step_spec st key :
  is_Some (monitor_map_ st.1.1 !! key) →
  let st' := termination_monitor_step st key in
  um_monitoring_key <$> st'.1.2 = (um_monitoring_key <$> st.1.2) ++ [key]
  ∧ request_number_ st'.1.1 = request_number_ st.1.1
  ∧ credit_map_ st'.1.1 = credit_map_ st.1.1
  ∧ request_number_increment st'.2 = request_number_increment st.2
  ∧ (∀ k, is_Some (monitor_map_ st'.1.1 !! k) ↔ is_Some (monitor_map_ st.1.1 !! k)).
Proof.
  destruct st as [[s usages] uc]. simpl. intros [monitor Hm].
  unfold termination_monitor_step. rewrite Hm.
  unfold get_monitor_uc.
  destruct (monitor_credit_map uc !! key) as [cuc|];
    destruct (get_all_unreported_usage_for_reporting _ _) as [[usage c] cuc'];
    simpl; rewrite fmap_app; simpl;
    (repeat split; try done; try (by apply put_monitor_is_Some; eauto);
     try (intros ?; by apply put_monitor_is_Some; eauto)).
Qed.

Lemma termination_monitor_fold (l : list string) st :
  (∀ k, k ∈ l → is_Some (monitor_map_ st.1.1 !! k)) →
  let st' := foldl termination_monitor_step st l in
  um_monitoring_key <$> st'.1.2 = (um_monitoring_key <$> st.1.2) ++ l
  ∧ request_number_ st'.1.1 = request_number_ st.1.1
  ∧ credit_map_ st'.1.1 = credit_map_ st.1.1
  ∧ request_number_increment st'.2 = request_number_increment st.2.
Proof.
  revert st. induction l as [|k l IH]; intros st Hl; simpl.
  - by rewrite app_nil_r.
  - destruct (termination_monitor_step_spec st k) as (H1 & H2 & H3 & H4 & H5).
    { apply Hl. by left. }
    destruct (IH (termination_monitor_step st k)) as (I1 & I2 & I3 & I4).
    { intros k' Hk'. apply H5, Hl. by right. }
    rewrite I1, I2, I3, I4, H1, H2, H3, H4. by rewrite <- app_assoc.
Qed.

Lemma credit_usage_key_set key u : credit_usage_key (set_credit_usage key u) = key.
Proof. by destruct key. Qed.

Lemma termination_credit_step_spec st key :
  is_Some (credit_map_ st.1.1 !! key) →
  let st' := termination_credit_step st key in
  credit_usage_key <$> st'.1.2 = (credit_usage_key <$> st.1.2) ++ [key]
  ∧ request_number_ st'.1.1 = request_number_ st.1.1
  ∧ request_number_increment st'.2 = request_number_increment st.2
  ∧ (∀ k, is_Some (credit_map_ st'.1.1 !! k) ↔ is_Some (credit_map_ st.1.1 !! k)).
Proof.
  destruct st as [[s usages] uc]. simpl. intros [grant Hg].
  unfold termination_credit_step. rewrite Hg.
  unfold get_credit_uc.
  destruct (charging_credit_map uc !! key) as [cuc|];
    destruct (get_credit_usage _ _ _ _) as [[usage g] cuc'];
    simpl; rewrite fmap_app; simpl; rewrite credit_usage_key_set;
    (repeat split; try done; try (by apply put_grant_is_Some; eauto);
     try (intros ?; by apply put_grant_is_Some; eauto)).
Qed.

Lemma termination_credit_fold (l : list CreditKey) st :
  (∀ k, k ∈ l → is_Some (credit_map_ st.1.1 !! k)) →
  let st' := foldl termination_credit_step st l in
  credit_usage_key <$> st'.1.2 = (credit_usage_key <$> st.1.2) ++ l
  ∧ request_number_ st'.1.1 = request_number_ st.1.1
  ∧ request_number_increment st'.2 = request_number_increment st.2.
Proof.
  revert st. induction l as [|k l IH]; intros st Hl; simpl.
  - by rewrite app_nil_r.
  - destruct (termination_credit_step_spec st k) as (H1 & H2 & H3 & H4).
    { apply Hl. by left. }
    destruct (IH (termination_credit_step st k)) as (I1 & I2 & I3).
    { intros k' Hk'. apply H4, Hl. by right. }
    rewrite I1, I2, I3, H1, H2, H3. by rewrite <- app_assoc.
Qed.

Lemma map_keys_present {K A} `{Countable K} (m : gmap K A) k :
  k ∈ (map_to_list m).*1 → is_Some (m !! k).
Proof.
  intros Hk. apply list_elem_of_fmap in Hk as [[k' x] [-> Hk]].
  apply elem_of_map_to_list in Hk. by eexists.
Qed.

(** C6 (amended).  [make_termination_request] builds one request that holds
    exactly one monitor usage entry per monitor of the monitor map and exactly
    one credit usage entry per grant of the credit map, each under its key and
    in the order of the maps.  The request carries the session's current
    request number; the request number of the session and the increment
    counted in the journal are left as they are. *)
Theorem make_termination_request_spec
    (s : SessionState) (uc : SessionStateUpdateCriteria) :
  let r := make_termination_request s uc in
  um_monitoring_key <$> monitor_usages r.1.1 = (map_to_list (monitor_map_ s)).*1
  ∧ length (monitor_usages r.1.1) = size (monitor_map_ s)
  ∧ credit_usage_key <$> credit_usages r.1.1 = (map_to_list (credit_map_ s)).*1
  ∧ length (credit_usages r.1.1) = size (credit_map_ s)
  ∧ str_request_number r.1.1 = request_number_ s
  ∧ request_number_ r.1.2 = request_number_ s
  ∧ request_number_increment r.2 = request_number_increment uc.
Proof.
  unfold make_termination_request.
  pose proof (termination_monitor_fold (map_to_list (monitor_map_ s)).*1 (s, [], uc)) as Hm.
  destruct (foldl termination_monitor_step _ _) as [[s1 mu] uc1].
  simpl in Hm. destruct Hm as (M1 & M2 & M3 & M4); [apply map_keys_present|].
  pose proof (termination_credit_fold (map_to_list (credit_map_ s1)).*1 (s1, [], uc1)) as Hc.
  destruct (foldl termination_credit_step _ _) as [[s2 cu] uc2].
  simpl in Hc. destruct Hc as (C1 & C2 & C3); [apply map_keys_present|].
  simpl. rewrite M3 in C1.
  split; [done|]. split.
  { rewrite <- (length_fmap um_monitoring_key), M1, length_fmap.
    apply length_map_to_list. }
  split; [done|]. split.
  { rewrite <- (length_fmap credit_usage_key), C1, length_fmap.
    apply length_map_to_list. }
  split; [done|]. split; congruence.
Qed.

End Termination.

Lemma filter_ext_elem {A} (P Q : A → Prop)
    `{!∀ x, Decision (P x), !∀ x, Decision (Q x)} (l : list A) :
  (∀ x, x ∈ l → P x ↔ Q x) → filter P l = filter Q l.
Proof.
  induction l as [|x l IH]; intros Hl; [done|].
  rewrite !filter_cons.
  rewrite IH by (intros y Hy; apply Hl; by right).
  destruct (decide (P x)) as [Hp|Hp], (decide (Q x)) as [Hq|Hq]; try done.
  - destruct Hq. apply Hl; [by left | done].
  - destruct Hp. apply Hl; [by left | done].
Qed.

Section MonitorUpdates.
Context `{Helpers}.

Lemma monitor_update_step_spec (st : Collect) (k : string) :
  let st' := monitor_update_step st k in
  ∃ news,
    usage_monitors st'.1.1.2 = usage_monitors st.1.1.2 ++ news
    ∧ updates st'.1.1.2 = updates st.1.1.2
    ∧ Forall (λ n, umr_event_trigger n = USAGE_REPORT ∧ is_Some (umr_update n)) news
    ∧ reported_monitoring_keys news = (if monitor_due st.1.1.1 k then [k] else [])
    ∧ (∀ k', k' ≠ k → monitor_map_ st'.1.1.1 !! k' = monitor_map_ st.1.1.1 !! k').
Proof.
  destruct st as [[[s req] actions] uc]. simpl.
  unfold monitor_update_step.
  destruct (monitor_map_ s !! k) as [m|] eqn:Hm.
  - unfold monitor_due. rewrite Hm.
    destruct (monitor_update_due (mon_credit m)) eqn:Hd.
    + unfold monitor_update_due in Hd. apply negb_true_iff in Hd. rewrite Hd.
      destruct (get_monitor_uc m k uc) as [cuc uc1].
      destruct (get_usage_for_reporting _ _) as [[usage c] cuc']. simpl.
      eexists [_]. split; [done|]. split; [done|]. split.
      { constructor; [|constructor]. simpl. eauto. }
      split; [done|]. intros k' Hk'. by rewrite lookup_insert_ne.
    + unfold monitor_update_due in Hd. apply negb_false_iff in Hd. rewrite Hd.
      exists []. simpl. rewrite app_nil_r. by repeat split.
  - exists []. simpl. rewrite app_nil_r. unfold monitor_due. rewrite Hm.
    by repeat split.
Qed.

Lemma monitor_update_fold (l : list string) (st : Collect) :
  NoDup l →
  let st' := foldl monitor_update_step st l in
  ∃ news,
    usage_monitors st'.1.1.2 = usage_monitors st.1.1.2 ++ news
    ∧ updates st'.1.1.2 = updates st.1.1.2
    ∧ Forall (λ n, umr_event_trigger n = USAGE_REPORT ∧ is_Some (umr_update n)) news
    ∧ reported_monitoring_keys news = filter (λ k, monitor_due st.1.1.1 k = true) l
    ∧ (∀ k', k' ∉ l → monitor_map_ st'.1.1.1 !! k' = monitor_map_ st.1.1.1 !! k').
Proof.
  intros Hnd. revert st. induction Hnd as [|k l Hk Hnd IH]; intros st; simpl.
  - exists []. rewrite app_nil_r. by repeat split.
  - destruct (monitor_update_step_spec st k) as (n1 & A1 & A2 & A3 & A4 & A5).
    destruct (IH (monitor_update_step st k)) as (n2 & B1 & B2 & B3 & B4 & B5).
    exists (n1 ++ n2). split; [by rewrite B1, A1, app_assoc|].
    split; [by rewrite B2|]. split; [by apply Forall_app|]. split.
    + unfold reported_monitoring_keys in *. rewrite omap_app, A4, B4.
      rewrite filter_cons.
      assert (filter (λ k0, monitor_due (monitor_update_step st k).1.1.1 k0 = true) l
              = filter (λ k0, monitor_due st.1.1.1 k0 = true) l) as ->.
      { apply filter_ext_elem. intros k' Hk'. unfold monitor_due.
        rewrite A5; [done|]. intros ->. done. }
      destruct (monitor_due st.1.1.1 k) eqn:Hd.
      * by rewrite decide_True.
      * by rewrite decide_False.
    + intros k' Hk'. apply not_elem_of_cons in Hk' as [Hne Hk'].
      rewrite B5 by done. by apply A5.
Qed.

(** C5.  [get_monitor_updates] appends, after what the request holds already,
    one usage report (event trigger USAGE_REPORT) for exactly those monitors
    of the monitor map whose credit is partially exhausted (at the usage
    reporting threshold), except the monitors whose current grant contains a
    zero and whose credit is not yet totally exhausted: their report is
    skipped.  No monitor is reported twice. *)
Theorem get_monitor_updates_spec (st : Collect) :
  let st' := get_monitor_updates st in
  ∃ news,
    usage_monitors st'.1.1.2 = usage_monitors st.1.1.2 ++ news
    ∧ Forall (λ n, umr_event_trigger n = USAGE_REPORT ∧ is_Some (umr_update n)) news
    ∧ NoDup (reported_monitoring_keys news)
    ∧ length (reported_monitoring_keys news) = length news
    ∧ ∀ k, k ∈ reported_monitoring_keys news ↔
           ∃ m, monitor_map_ st.1.1.1 !! k = Some m
                ∧ is_quota_exhausted USAGE_REPORTING_THRESHOLD (mon_credit m) = true
                ∧ ¬ (current_grant_contains_zero (mon_credit m) = true
                     ∧ is_quota_exhausted threshold_full (mon_credit m) = false).
Proof.
  unfold get_monitor_updates.
  destruct (monitor_update_fold (map_to_list (monitor_map_ st.1.1.1)).*1 st)
    as (news & N1 & N2 & N3 & N4 & N5); [apply NoDup_fst_map_to_list|].
  exists news. split; [done|]. split; [done|]. split.
  { rewrite N4. apply NoDup_filter, NoDup_fst_map_to_list. }
  split.
  { clear -N3. unfold reported_monitoring_keys.
    induction N3 as [|n news [_ [u Hu]] _ IH]; simpl; [done|].
    rewrite Hu. simpl. f_equal. exact IH. }
  intros k. rewrite N4, list_elem_of_filter. unfold monitor_due, monitor_update_due. split.
  - intros [Hd _]. destruct (monitor_map_ st.1.1.1 !! k) as [m|] eqn:Hm; [|done].
    exists m. split; [done|].
    apply negb_true_iff, orb_false_iff in Hd as [Hp Hz].
    apply negb_false_iff in Hp. split; [done|].
    intros [Hzero Htot]. by rewrite Htot, Hzero in Hz.
  - intros (m & Hm & Hp & Hz). split.
    + rewrite Hm. apply negb_true_iff, orb_false_iff.
      split; [by rewrite Hp|].
      destruct (is_quota_exhausted threshold_full (mon_credit m)) eqn:Ht; [done|].
      destruct (current_grant_contains_zero (mon_credit m)) eqn:Hc; [|done].
      by destruct Hz.
    + apply list_elem_of_fmap. exists (k, m). split; [done|].
      by apply elem_of_map_to_list.
Qed.

End MonitorUpdates.

Section ChargingUpdates.
Context `{Helpers}.

(** What a round of the charging loop leaves alone: the rule stores and the
    identity of the session, the actions collected before, and the grants and
    journal entries of all other keys. *)
Lemma charging_update_step_frame (st : Collect) (k' : CreditKey) :
  let st' := charging_update_step st k' in
  static_rules_ st'.1.1.1 = static_rules_ st.1.1.1
  ∧ dynamic_rules_ st'.1.1.1 = dynamic_rules_ st.1.1.1
  ∧ imsi_ st'.1.1.1 = imsi_ st.1.1.1
  ∧ session_id_ st'.1.1.1 = session_id_ st.1.1.1
  ∧ config_ st'.1.1.1 = config_ st.1.1.1
  ∧ (∃ more, st'.1.2 = st.1.2 ++ more)
  ∧ (∀ k, k ≠ k' →
       credit_map_ st'.1.1.1 !! k = credit_map_ st.1.1.1 !! k
       ∧ charging_credit_map st'.2 !! k = charging_credit_map st.2 !! k).
Proof.
  destruct st as [[[s req] actions] uc]. simpl.
  unfold charging_update_step, get_credit_uc, case_REDIRECT, case_RESTRICT_ACCESS, push_action.
  repeat case_match; simplify_eq/=;
    (split; [done|]); (split; [done|]); (split; [done|]); (split; [done|]); (split; [done|]);
    (split; [first [by exists [] ; rewrite app_nil_r | by eexists]|]);
    intros k Hk; rewrite ?lookup_insert_ne by done; done.
Qed.

Lemma charging_update_fold_frame (l : list CreditKey) (st : Collect) :
  let st' := foldl charging_update_step st l in
  static_rules_ st'.1.1.1 = static_rules_ st.1.1.1
  ∧ dynamic_rules_ st'.1.1.1 = dynamic_rules_ st.1.1.1
  ∧ imsi_ st'.1.1.1 = imsi_ st.1.1.1
  ∧ session_id_ st'.1.1.1 = session_id_ st.1.1.1
  ∧ config_ st'.1.1.1 = config_ st.1.1.1
  ∧ (∃ more, st'.1.2 = st.1.2 ++ more)
  ∧ (∀ k, k ∉ l →
       credit_map_ st'.1.1.1 !! k = credit_map_ st.1.1.1 !! k
       ∧ charging_credit_map st'.2 !! k = charging_credit_map st.2 !! k).
Proof.
  revert st. induction l as [|k' l IH]; intros st; simpl.
  - do 5 (split; [done|]). split; [|done]. exists []. by rewrite app_nil_r.
  - destruct (charging_update_step_frame st k') as (A1 & A2 & A3 & A4 & A5 & [m1 A6] & A7).
    destruct (IH (charging_update_step st k')) as (B1 & B2 & B3 & B4 & B5 & [m2 B6] & B7).
    rewrite B1, B2, B3, B4, B5, B6, A6.
    do 5 (split; [done|]). split.
    + exists (m1 ++ m2). by rewrite app_assoc.
    + intros k [Hne Hl]%not_elem_of_cons.
      destruct (B7 _ Hl) as [-> ->]. by apply A7.
Qed.

(** The round of a grant whose derived action is REDIRECT and which is not
    REDIRECTED yet: the action is pushed with the redirect server and the
    rules of the key, and, the [REDIRECT] case running into [RESTRICT_ACCESS],
    the grant is left in state SERVICE_RESTRICTED. *)
Lemma charging_update_step_redirect
    (st : Collect) (key : CreditKey) (grant grant' : ChargingGrant) (credit_uc' : CreditUC.t) :
  credit_map_ st.1.1.1 !! key = Some grant →
  get_action grant (get_credit_uc grant key st.2).1 = (REDIRECT, grant', credit_uc') →
  service_state grant' ≠ SERVICE_REDIRECTED →
  let st' := charging_update_step st key in
  (∃ a, st'.1.2 = st.1.2 ++ [a]
        ∧ sa_action_type a = REDIRECT
        ∧ sa_redirect_server a = Some (redirect_server (final_action_info grant'))
        ∧ sa_credit_key a = Some key
        ∧ sa_rule_ids a = RuleStore.get_rule_ids_for_charging_key (static_rules_ st.1.1.1) key
        ∧ sa_rule_definitions a
          = RuleStore.get_rule_definitions_for_charging_key (dynamic_rules_ st.1.1.1) key)
  ∧ service_state <$> credit_map_ st'.1.1.1 !! key = Some SERVICE_RESTRICTED
  ∧ CreditUC.service_state <$> charging_credit_map st'.2 !! key = Some SERVICE_RESTRICTED.
Proof.
  destruct st as [[[s req] actions] uc]. simpl. intros Hg Ha Hns.
  unfold charging_update_step. rewrite Hg.
  destruct (get_credit_uc grant key uc) as [cuc uc1]. simpl in Ha. rewrite Ha.
  unfold case_REDIRECT. rewrite bool_decide_eq_false_2 by done. simpl.
  split.
  - eexists. split; [done|]. by repeat split.
  - by rewrite !lookup_insert_eq.
Qed.

(** C1 (what the code does).  For a grant of the credit map whose derived
    action is REDIRECT and whose service state is not REDIRECTED,
    [get_charging_updates] emits a REDIRECT action carrying the redirect
    server and the rule ids and definitions of the charging key; but the grant
    does not end in SERVICE_REDIRECTED: the [REDIRECT] case has no [break], the
    [RESTRICT_ACCESS] case runs next and leaves the grant, and its journal
    entry, in SERVICE_RESTRICTED. *)
Theorem get_charging_updates_redirect_ends_restricted
    (st : Collect) (key : CreditKey) (grant grant' : ChargingGrant) (credit_uc' : CreditUC.t) :
  credit_map_ st.1.1.1 !! key = Some grant →
  get_action grant (get_credit_uc grant key st.2).1 = (REDIRECT, grant', credit_uc') →
  service_state grant' ≠ SERVICE_REDIRECTED →
  let st' := get_charging_updates st in
  (∃ a, a ∈ st'.1.2
        ∧ sa_action_type a = REDIRECT
        ∧ sa_redirect_server a = Some (redirect_server (final_action_info grant'))
        ∧ sa_credit_key a = Some key
        ∧ sa_rule_ids a = RuleStore.get_rule_ids_for_charging_key (static_rules_ st.1.1.1) key
        ∧ sa_rule_definitions a
          = RuleStore.get_rule_definitions_for_charging_key (dynamic_rules_ st.1.1.1) key)
  ∧ service_state <$> credit_map_ st'.1.1.1 !! key = Some SERVICE_RESTRICTED
  ∧ service_state <$> credit_map_ st'.1.1.1 !! key ≠ Some SERVICE_REDIRECTED.
Proof.
  intros Hg Ha Hns. unfold get_charging_updates.
  assert (Hin : key ∈ (map_to_list (credit_map_ st.1.1.1)).*1).
  { apply list_elem_of_fmap. exists (key, grant). split; [done|]. by apply elem_of_map_to_list. }
  pose proof (NoDup_fst_map_to_list (credit_map_ st.1.1.1)) as Hnd.
  apply list_elem_of_split in Hin as (l1 & l2 & Hl). rewrite Hl in Hnd |- *.
  apply NoDup_app in Hnd as (_ & Hl1 & Hnd).
  apply NoDup_cons in Hnd as [Hl2 _].
  assert (Hk1 : key ∉ l1). { intros Hk. apply (Hl1 _ Hk). by left. }
  rewrite foldl_app. simpl.
  destruct (charging_update_fold_frame l1 st) as (A1 & A2 & _ & _ & _ & _ & A7).
  destruct (A7 _ Hk1) as [A8 A9].
  set (st1 := foldl charging_update_step st l1) in *.
  destruct (charging_update_step_redirect st1 key grant grant' credit_uc')
    as ((a & S1 & S2 & S3 & S4 & S5 & S6) & S7 & _).
  { by rewrite A8. }
  { unfold get_credit_uc in *. rewrite A9. destruct (charging_credit_map st.2 !! key); done. }
  { done. }
  destruct (charging_update_fold_frame l2 (charging_update_step st1 key))
    as (_ & _ & _ & _ & _ & [more B6] & B7).
  destruct (B7 _ Hl2) as [B8 _].
  split.
  - exists a. split.
    + rewrite B6, S1. apply elem_of_app. left. apply elem_of_app. right. by left.
    + rewrite <- A1, <- A2. by repeat split.
  - rewrite B8, S7. done.
Qed.

End ChargingUpdates.

Section Merge.
Context `{Helpers}.

Lemma for_each_until_app {A St : Type} (body : A → St → bool * St) (l1 l2 : list A) (st : St) :
  for_each_until body (l1 ++ l2) st
  = and_then (for_each_until body l1 st) (for_each_until body l2).
Proof.
  revert st. induction l1 as [|x l1 IH]; intros st; simpl; [done|].
  destruct (body x st) as [[] st']; [apply IH | done].
Qed.

Lemma for_each_until_fmap {A B St : Type} (g : A → B) (body : B → St → bool * St)
    (l : list A) (st : St) :
  for_each_until body (g <$> l) st = for_each_until (λ x, body (g x)) l st.
Proof.
  revert st. induction l as [|x l IH]; intros st; simpl; [done|].
  destruct (body (g x) st) as [[] st']; [apply IH | done].
Qed.

(** A loop with early exit fails exactly when some round fails after all the
    rounds before it went through. *)
Lemma for_each_until_false {A St : Type} (body : A → St → bool * St) (l : list A) (st : St) :
  (for_each_until body l st).1 = false ↔
  ∃ before x after st',
    l = before ++ x :: after
    ∧ for_each_until body before st = (true, st')
    ∧ (body x st').1 = false.
Proof.
  revert st. induction l as [|x l IH]; intros st; simpl.
  - split; [done|]. intros (before & y & after & st' & Hl & _). by destruct before.
  - destruct (body x st) as [ok st1] eqn:Hb. destruct ok.
    + rewrite IH. split.
      * intros (before & y & after & st' & -> & Hrun & Hy).
        exists (x :: before), y, after, st'. simpl. by rewrite Hb.
      * intros (before & y & after & st' & Hl & Hrun & Hy).
        destruct before as [|z before]; simpl in *; simplify_eq.
        -- by rewrite Hb in Hy.
        -- rewrite Hb in Hrun. by exists before, y, after, st'.
    + simpl. split; [|done]. intros _.
      exists [], x, l, st. simpl. by rewrite Hb.
Qed.

Lemma for_each_until_ext {A St : Type} (body body' : A → St → bool * St) (l : list A) (st : St) :
  (∀ x st, body x st = body' x st) →
  for_each_until body l st = for_each_until body' l st.
Proof.
  intros Hb. revert st. induction l as [|x l IH]; intros st; simpl; [done|].
  rewrite Hb. destruct (body' x st) as [[] st']; [apply IH | done].
Qed.

Lemma and_then_for_each_until {A : Type} (C : A → JournalEntry)
    (body : A → Merge → bool * Merge) (l : list A) (rest : list JournalEntry)
    (k : Merge → bool * Merge) (st : Merge) :
  (∀ x st, body x st = merge_entry (C x) st) →
  (∀ st', k st' = for_each_until merge_entry rest st') →
  and_then (for_each_until body l st) k = for_each_until merge_entry ((C <$> l) ++ rest) st.
Proof.
  intros Hb Hk. rewrite for_each_until_app, for_each_until_fmap.
  rewrite (for_each_until_ext body (λ x, merge_entry (C x))) by done.
  unfold and_then. destruct (for_each_until _ l st) as [[] st']; simpl; [apply Hk | done].
Qed.

Lemma apply_update_criteria_rules_entries (uc : SessionStateUpdateCriteria) (st : Merge) :
  apply_update_criteria_rules uc st = for_each_until merge_entry (journal_entries uc) st.
Proof.
  unfold apply_update_criteria_rules, journal_entries.
  repeat (apply and_then_for_each_until; [done | clear st; intros st]).
  rewrite for_each_until_fmap. by apply for_each_until_ext.
Qed.

Lemma set_count_one (x : string) (l : list string) :
  bool_decide (set_count x l = 1) = bool_decide (x ∈ l).
Proof. unfold set_count. by destruct (bool_decide (x ∈ l)). Qed.

Lemma not_not_None {A : Type} (mx : option A) : ¬ mx ≠ None ↔ mx = None.
Proof.
  destruct mx as [x|]; split; try done.
  - intros Hn. by destruct Hn.
  - intros _ Hn. by destruct Hn.
Qed.

(** A round fails exactly when its entry violates its precondition. *)
Lemma merge_entry_false (e : JournalEntry) (st : Merge) :
  (merge_entry e st).1 = false ↔ violates_precondition e st.1.1 (new_rule_lifetimes st.1.2).
Proof.
  destruct st as [[s uc] scratch]. simpl.
  destruct e; simpl;
    unfold merge_static_rule_to_install, merge_static_rule_to_uninstall,
      merge_new_scheduled_static_rule, merge_dynamic_rule_to_install,
      merge_dynamic_rule_to_uninstall, merge_new_scheduled_dynamic_rule,
      merge_gy_dynamic_rule_to_install, merge_gy_dynamic_rule_to_uninstall,
      merge_restrict_rule_to_install, merge_restrict_rule_to_uninstall,
      is_static_rule_installed, is_static_rule_scheduled, is_dynamic_rule_installed,
      is_dynamic_rule_scheduled, is_gy_dynamic_rule_installed, is_restrict_rule_installed,
      vector_contains, RuleStore.get_rule;
    rewrite ?set_count_one, ?bool_decide_eq_false, ?bool_decide_eq_true;
    repeat match goal with
           | |- context [bool_decide ?P] => destruct (bool_decide_reflect P)
           | |- context [match ?x with _ => _ end] => destruct x eqn:?
           end;
    simplify_eq/=; rewrite <- ?not_eq_None_Some in *; rewrite ?not_not_None in *;
    intuition (eauto; congruence).
Qed.

(** C8 (amended).  [apply_update_criteria] returns false exactly when the
    pass over the rule entries of the journal, taken in the order of the code
    against the session as merged so far, meets an entry that violates its
    merge precondition: an install of a rule that is installed already; an
    install of a rule without a lifetime in the journal, unless it is a static
    or dynamic rule that is scheduled (it is then promoted); an uninstall of a
    rule that is neither installed nor scheduled; a schedule of a rule that is
    scheduled already.  On every other journal it returns true. *)
Theorem apply_update_criteria_fails_iff
    (s : SessionState) (uc : SessionStateUpdateCriteria) :
  ((apply_update_criteria s uc).1.1 = false ↔
   ∃ before e after st,
     journal_entries uc = before ++ e :: after
     ∧ for_each_until merge_entry before
         (apply_update_criteria_head uc s, uc, UpdateCriteria_default) = (true, st)
     ∧ violates_precondition e st.1.1 (new_rule_lifetimes st.1.2))
  ∧ ((apply_update_criteria s uc).1.1 = true ↔
     ¬ ∃ before e after st,
         journal_entries uc = before ++ e :: after
         ∧ for_each_until merge_entry before
             (apply_update_criteria_head uc s, uc, UpdateCriteria_default) = (true, st)
         ∧ violates_precondition e st.1.1 (new_rule_lifetimes st.1.2)).
Proof.
  cut ((apply_update_criteria s uc).1.1 = false ↔
       ∃ before e after st,
         journal_entries uc = before ++ e :: after
         ∧ for_each_until merge_entry before
             (apply_update_criteria_head uc s, uc, UpdateCriteria_default) = (true, st)
         ∧ violates_precondition e st.1.1 (new_rule_lifetimes st.1.2)).
  { intros Hiff. split; [done|]. rewrite <- Hiff.
    by destruct ((apply_update_criteria s uc).1.1). }
  unfold apply_update_criteria.
  rewrite apply_update_criteria_rules_entries.
  set (st0 := (apply_update_criteria_head uc s, uc, UpdateCriteria_default)).
  pose proof (for_each_until_false merge_entry (journal_entries uc) st0) as Hloop.
  destruct (for_each_until merge_entry (journal_entries uc) st0) as [ok st1].
  simpl in Hloop. split.
  - intros Hfail.
    assert (ok = false) as Hok.
    { destruct ok; [|done].
      by destruct (apply_update_criteria_tail uc st1) as [[s2 uc2] scratch2]. }
    apply Hloop in Hok as (before & e & after & st' & Hl & Hrun & He).
    exists before, e, after, st'. by rewrite <- merge_entry_false.
  - intros (before & e & after & st' & Hl & Hrun & He).
    assert (ok = false) as ->; [|done].
    apply Hloop. exists before, e, after, st'. by rewrite merge_entry_false.
Qed.

End Merge.

Section RoundTrip.
Context `{Helpers}.

Lemma foldl_push_back {A : Type} (l acc : list A) :
  foldl (λ acc x, acc ++ [x]) acc l = acc ++ l.
Proof.
  revert acc. induction l as [|x l IH]; intros acc; simpl.
  - by rewrite app_nil_r.
  - by rewrite IH, <- app_assoc.
Qed.

Lemma foldl_ext_elem {A B : Type} (f g : B → A → B) (l : list A) (b : B) :
  (∀ b x, x ∈ l → f b x = g b x) → foldl f b l = foldl g b l.
Proof.
  revert b. induction l as [|x l IH]; intros b Hfg; simpl; [done|].
  rewrite Hfg by (by left). apply IH. intros b' y Hy. apply Hfg. by right.
Qed.

(** Filling a map entry by entry from the entries of another map, as the
    loops of [marshal] and of the constructor do, maps the values. *)
Lemma foldl_insert_lookup {K A B : Type} `{Countable K} (f : A → B)
    (l : list (K * A)) (acc : gmap K B) (k : K) :
  NoDup l.*1 →
  foldl (λ acc p, <[p.1 := f p.2]> acc) acc l !! k
  = match (list_to_map l : gmap K A) !! k with
    | Some v => Some (f v)
    | None => acc !! k
    end.
Proof.
  revert acc. induction l as [|[k0 v0] l IH]; intros acc Hnd; simpl.
  - by rewrite lookup_empty.
  - apply NoDup_cons in Hnd as [Hk0 Hnd]. rewrite IH by done.
    destruct (decide (k = k0)) as [->|Hne].
    + rewrite lookup_insert_eq.
      rewrite (not_elem_of_list_to_map_1 l k0) by done.
      by rewrite lookup_insert_eq.
    + rewrite !lookup_insert_ne by done. done.
Qed.

Lemma foldl_insert_map_to_list {K A B : Type} `{Countable K} (f : A → B) (m : gmap K A) :
  foldl (λ acc p, <[p.1 := f p.2]> acc) ∅ (map_to_list m) = f <$> m.
Proof.
  apply map_eq. intros k.
  rewrite foldl_insert_lookup by apply NoDup_fst_map_to_list.
  rewrite list_to_map_to_list, lookup_fmap, lookup_empty.
  by destruct (m !! k).
Qed.

Lemma foldl_copy_map_to_list {K A : Type} `{Countable K} (m : gmap K A) :
  foldl (λ acc p, <[p.1 := p.2]> acc) ∅ (map_to_list m) = m.
Proof. exact (eq_trans (foldl_insert_map_to_list id m) (map_fmap_id m)). Qed.

Lemma fmap_round_trip {K A B : Type} `{Countable K} (f : A → B) (g : B → A) (m : gmap K A) :
  (∀ x, g (f x) = x) → g <$> (f <$> m) = m.
Proof.
  intros Hgf. rewrite <- map_fmap_compose.
  rewrite <- (map_fmap_id m) at 2. apply map_fmap_ext. intros k x _. apply Hgf.
Qed.

Lemma insert_rules_of_store (store : gmap string PolicyRule) :
  RuleStore.well_formed store →
  foldl (λ acc rule, RuleStore.insert_rule rule acc) ∅ (RuleStore.get_rules store) = store.
Proof.
  intros Hwf. unfold RuleStore.get_rules, RuleStore.insert_rule.
  rewrite foldl_fmap.
  rewrite (foldl_ext_elem _ (λ acc p, <[p.1 := p.2]> acc)).
  - apply foldl_copy_map_to_list.
  - intros acc [k r] Hin. simpl. apply elem_of_map_to_list in Hin.
    by rewrite (Hwf _ _ Hin).
Qed.

Lemma set_insert_greatest (x : string) (l : list string) :
  Forall (λ y, String.compare y x = Lt) l → set_insert x l = l ++ [x].
Proof.
  induction 1 as [|y l Hy _ IH]; simpl; [done|].
  rewrite String.compare_antisym, Hy. simpl. by rewrite IH.
Qed.

Lemma set_sorted_below (acc : list string) (x : string) (l : list string) :
  set_sorted (acc ++ x :: l) → Forall (λ y, String.compare y x = Lt) acc.
Proof.
  induction acc as [|y acc IH]; simpl; [constructor|].
  intros [Hy Hs]. constructor; [|by apply IH].
  rewrite Forall_forall in Hy. apply Hy. apply elem_of_app. right. by left.
Qed.

Lemma foldl_set_insert_sorted (l acc : list string) :
  set_sorted (acc ++ l) → foldl (λ acc x, set_insert x acc) acc l = acc ++ l.
Proof.
  revert acc. induction l as [|x l IH]; intros acc Hs; simpl.
  - by rewrite app_nil_r.
  - rewrite set_insert_greatest by (by eapply set_sorted_below).
    rewrite IH; rewrite <- app_assoc; done.
Qed.

(** Apart from the restrict rules, a session comes back from [marshal] and
    the unmarshalling constructor as it was, provided the credit primitive and
    the grants survive their own round trip, the rule stores are well formed
    and the scheduled static rules are a set. *)
Lemma marshal_unmarshal_up_to_restrict_rules (s : SessionState) :
  (∀ c, credit_unmarshal (credit_marshal c) = c) →
  (∀ g, grant_unmarshal (grant_marshal g) = g) →
  RuleStore.well_formed (dynamic_rules_ s) →
  RuleStore.well_formed (scheduled_dynamic_rules_ s) →
  RuleStore.well_formed (gy_dynamic_rules_ s) →
  set_sorted (scheduled_static_rules_ s) →
  unmarshal (marshal s) (static_rules_ s) = with_active_restrict_rules_ [] s.
Proof.
  intros Hc Hg Hd Hsd Hgy Hsorted.
  unfold unmarshal, marshal. simpl.
  rewrite !foldl_push_back. simpl.
  rewrite !insert_rules_of_store by done.
  rewrite (foldl_set_insert_sorted (scheduled_static_rules_ s) []) by exact Hsorted. simpl.
  rewrite (foldl_set_insert_sorted (scheduled_static_rules_ s) []) by exact Hsorted. simpl.
  rewrite (foldl_insert_map_to_list Monitor_marshal).
  rewrite (foldl_insert_map_to_list Monitor_of_stored).
  rewrite (fmap_round_trip Monitor_marshal Monitor_of_stored).
  2:{ intros [c l]. unfold Monitor_of_stored, Monitor_marshal. simpl. by rewrite Hc. }
  rewrite (foldl_ext_elem _ (λ acc p, <[p.1 := grant_marshal p.2]> acc)
             (map_to_list (credit_map_ s))).
  2:{ intros acc [[rg si] g] _. done. }
  rewrite (foldl_insert_map_to_list grant_marshal).
  rewrite (foldl_insert_map_to_list grant_unmarshal).
  rewrite (fmap_round_trip grant_marshal grant_unmarshal) by done.
  rewrite !foldl_copy_map_to_list.
  by destruct s.
Qed.

End RoundTrip.

Section FsmCalls.
Context `{MoreHelpers}.


















End FsmCalls.

(** * The methods run on concrete sessions *)

Section OnReference.

#[local] Existing Instance Reference.types.
#[local] Existing Instance Reference.helpers.

Local Open Scope Z_scope.

(** C1, at a concrete session: rating group 10 holds an exhausted final grant
    with final action REDIRECT.  The REDIRECT action is emitted with the
    redirect server and the dynamic rule of the key, and the grant ends in
    SERVICE_RESTRICTED, not in SERVICE_REDIRECTED. *)
Lemma redirect_grant_ends_restricted :
  let st := (Scenario.with_redirect_grant, Scenario.empty_request, [], Scenario.journal) in
  let st' := get_charging_updates st in
  (∃ a, a ∈ st'.1.2
        ∧ sa_action_type a = REDIRECT
        ∧ sa_redirect_server a = Some "http://portal.example/"
        ∧ sa_credit_key a = Some Scenario.rg10
        ∧ sa_rule_ids a = []
        ∧ sa_rule_definitions a = [Scenario.d1])
  ∧ service_state <$> credit_map_ st'.1.1.1 !! Scenario.rg10 = Some SERVICE_RESTRICTED
  ∧ service_state <$> credit_map_ st'.1.1.1 !! Scenario.rg10 ≠ Some SERVICE_REDIRECTED.
Proof.
  refine (get_charging_updates_redirect_ends_restricted
            (Scenario.with_redirect_grant, Scenario.empty_request, [], Scenario.journal)
            Scenario.rg10 Scenario.redirect_grant Scenario.redirect_grant _ _ _ _).
  - vm_compute. reflexivity.
  - reflexivity.
  - vm_compute. discriminate.
Defined.

(** C2, the claim as stated fails: with lifetime [{100, 200}] the rule is
    reported active at [t = 200], although [200 > 200] does not hold. *)
Lemma should_rule_be_active_at_deactivation_time :
  rule_lifetimes_ Scenario.with_scheduled_static !! "r1"
  = Some {| activation_time := 100; deactivation_time := 200 |}
  ∧ (should_rule_be_active Scenario.with_scheduled_static "r1" 200).1 = true
  ∧ ¬ (100 < 200 ∧ (200 = 0 ∨ 200 > 200)).
Proof.
  split; [vm_compute; reflexivity|]. split; [vm_compute; reflexivity|]. lia.
Qed.

Lemma should_rule_be_active_spec_witness :
  ((should_rule_be_active Scenario.with_scheduled_static "r1" 150).1 = true
   ↔ 100 < 150 ∧ ¬ (200 > 0 ∧ 200 < 150))
  ∧ ((should_rule_be_deactivated Scenario.with_scheduled_static "r1" 150).1 = true
     ↔ 200 > 0 ∧ 200 < 150)
  ∧ (should_rule_be_active Scenario.with_scheduled_static "r1" 150).2
    = Scenario.with_scheduled_static
  ∧ (100 < 200 → 200 > 0 →
     (should_rule_be_active Scenario.with_scheduled_static "r1" 200).1 = true).
Proof.
  apply (should_rule_be_active_spec Scenario.with_scheduled_static "r1" 100 200 150).
  vm_compute. reflexivity.
Defined.

(** C3, the claim as stated fails: on a TERMINATED session
    [mark_as_awaiting_termination] moves the FSM state to
    TERMINATION_SCHEDULED, and [activate_static_rule] installs the rule. *)
Lemma terminated_session_is_not_frozen :
  get_state Scenario.terminated = SESSION_TERMINATED
  ∧ get_state (mark_as_awaiting_termination Scenario.terminated Scenario.journal).1
    = SESSION_TERMINATION_SCHEDULED
  ∧ active_static_rules_ Scenario.terminated = []
  ∧ active_static_rules_
      (activate_static_rule "r1" Scenario.window Scenario.terminated Scenario.journal).1
    = ["r1"].
Proof. by vm_compute. Qed.

Lemma terminated_session_operations_witness :
  complete_termination Scenario.terminated Scenario.journal
  = (None, Scenario.terminated, Scenario.journal)
  ∧ curr_state_ (set_fsm_state SESSION_RELEASED Scenario.terminated Scenario.journal).1
    = SESSION_RELEASED.
Proof.
  destruct (terminated_session_operations Scenario.terminated Scenario.journal)
    as (Hc & _ & _ & _ & _ & _ & Hset); [reflexivity|].
  split; [exact Hc | exact (Hset SESSION_RELEASED)].
Defined.

(** C6, the claim as stated fails: the request number of the session is 1
    before and after [make_termination_request]; it is not incremented. *)
Lemma make_termination_request_keeps_request_number :
  request_number_ Scenario.fresh = 1
  ∧ request_number_ (make_termination_request Scenario.fresh Scenario.journal).1.2 = 1
  ∧ request_number_ (make_termination_request Scenario.fresh Scenario.journal).1.2
    ≠ uint32_incr (request_number_ Scenario.fresh).
Proof. by vm_compute. Qed.

(** C7, at concrete sessions.  Removing a scheduled static rule in place
    leaves the journal empty, so the clone the journal is replayed on keeps
    the rule scheduled.  Removing a scheduled dynamic rule in place journals
    the id as a dynamic rule to uninstall; the replay calls the static
    [install_scheduled_static_rule] for it, so the clone keeps the dynamic
    rule scheduled and gains an active static rule of that name.  In both
    cases the marshalled clone differs from the marshalled session. *)
Theorem journal_replay_misses_scheduled_rule_removal :
  (let mutated :=
     deactivate_scheduled_static_rule "r1" Scenario.with_scheduled_static Scenario.journal in
   let clone := apply_update_criteria Scenario.with_scheduled_static mutated.2 in
   mutated.1.1 = true
   ∧ clone.1.1 = true
   ∧ scheduled_static_rules (marshal mutated.1.2) = []
   ∧ scheduled_static_rules (marshal clone.1.2) = ["r1"]
   ∧ marshal clone.1.2 ≠ marshal mutated.1.2)
  ∧ (let mutated :=
       remove_scheduled_dynamic_rule "d1" Scenario.with_scheduled_dynamic Scenario.journal in
     let clone := apply_update_criteria Scenario.with_scheduled_dynamic mutated.2 in
     mutated.1.1 = Some Scenario.d1
     ∧ clone.1.1 = true
     ∧ scheduled_dynamic_rules (marshal mutated.1.2) = []
     ∧ scheduled_dynamic_rules (marshal clone.1.2) = [Scenario.d1]
     ∧ static_rule_ids (marshal mutated.1.2) = []
     ∧ static_rule_ids (marshal clone.1.2) = ["d1"]
     ∧ marshal clone.1.2 ≠ marshal mutated.1.2).
Proof.
  split.
  - repeat split; try (vm_compute; reflexivity).
    intros Heq. apply (f_equal scheduled_static_rules) in Heq.
    vm_compute in Heq. discriminate.
  - repeat split; try (vm_compute; reflexivity).
    intros Heq. apply (f_equal static_rule_ids) in Heq.
    vm_compute in Heq. discriminate.
Qed.

(** C8, the claim as stated fails: the journal asks to install the static
    rule [r1] and records no lifetime for it, yet the merge succeeds, because
    the rule is scheduled in the session and is promoted. *)
Lemma install_without_lifetime_merges :
  "r1" ∈ static_rules_to_install Scenario.install_r1_without_lifetime
  ∧ new_rule_lifetimes Scenario.install_r1_without_lifetime !! "r1" = None
  ∧ (apply_update_criteria Scenario.with_scheduled_static
       Scenario.install_r1_without_lifetime).1.1 = true.
Proof.
  split; [by apply list_elem_of_singleton|]. split; vm_compute; reflexivity.
Qed.

(** C9, at a concrete session: a session with an active restrict rule comes
    back from [marshal] and [unmarshal] without it, and [get_session_info]
    tells the two sessions apart. *)
Theorem marshal_unmarshal_loses_restrict_rules :
  info_restrict_rules (get_session_info Scenario.with_restrict_rule) = ["restrict1"]
  ∧ info_restrict_rules
      (get_session_info
         (unmarshal (marshal Scenario.with_restrict_rule)
            (static_rules_ Scenario.with_restrict_rule))) = []
  ∧ get_session_info
      (unmarshal (marshal Scenario.with_restrict_rule)
         (static_rules_ Scenario.with_restrict_rule))
    ≠ get_session_info Scenario.with_restrict_rule.
Proof.
  repeat split; try (vm_compute; reflexivity).
  intros Heq. apply (f_equal info_restrict_rules) in Heq.
  vm_compute in Heq. discriminate.
Qed.

(** The round trip of the same session keeps everything but the restrict
    rule. *)
Lemma marshal_unmarshal_keeps_the_rest :
  unmarshal (marshal Scenario.with_restrict_rule) (static_rules_ Scenario.with_restrict_rule)
  = with_active_restrict_rules_ [] Scenario.with_restrict_rule.
Proof.
  apply marshal_unmarshal_up_to_restrict_rules; try done.
  by intros [].
Qed.

Lemma get_credit_of_missing_key_witness :
  get_charging_credit Scenario.fresh Scenario.rg10 USED_TX = 0
  ∧ get_monitor Scenario.fresh "mkey1" USED_RX = 0.
Proof.
  split.
  - apply (proj1 get_credit_of_missing_key Scenario.fresh Scenario.rg10 USED_TX).
    vm_compute. reflexivity.
  - apply (proj2 get_credit_of_missing_key Scenario.fresh "mkey1" USED_RX).
    vm_compute. reflexivity.
Defined.

End OnReference.

(** * Calls on a session that awaits termination *)

Section FsmOnReference.

#[local] Existing Instance Reference.types.
#[local] Existing Instance Reference.helpers.
#[local] Existing Instance MoreReference.more_helpers.

Local Open Scope Z_scope.



End FsmOnReference.

(** * Further properties *)

Section JournalReplay.
Context `{Helpers}.

Lemma apply_update_criteria_rules_only (s : SessionState) (uc : SessionStateUpdateCriteria) :
  rules_only uc →
  apply_update_criteria s uc
  = let r := for_each_until merge_entry (journal_entries uc) (s, uc, UpdateCriteria_default) in
    (r.1, r.2.1.1, r.2.1.2).
Proof.
  intros (H1 & H2 & H3 & H4 & H5 & H6 & H7 & H8 & H9 & H10).
  unfold apply_update_criteria, apply_update_criteria_head.
  rewrite H1, H2, H3, H4. rewrite apply_update_criteria_rules_entries.
  destruct (for_each_until merge_entry (journal_entries uc) (s, uc, UpdateCriteria_default))
    as [[] [[s1 uc1] scratch]]; simpl; [|done].
  rewrite H5, H6, H7, H8, H9, H10, !map_to_list_empty. simpl. done.
Qed.

(** X1.  Replaying an empty journal changes nothing and succeeds. *)
Theorem apply_update_criteria_empty_journal (s : SessionState) :
  apply_update_criteria s UpdateCriteria_default = (true, s, UpdateCriteria_default).
Proof. by rewrite apply_update_criteria_rules_only. Qed.

End JournalReplay.
Section JournalReplayRules.
Context `{Helpers}.

Ltac replay_start :=
  rewrite apply_update_criteria_rules_only by (by repeat split);
  unfold journal_entries; simpl.

Lemma is_static_rule_scheduled_elem (s : SessionState) (rule_id : string) :
  is_static_rule_scheduled s rule_id = bool_decide (rule_id ∈ scheduled_static_rules_ s).
Proof. unfold is_static_rule_scheduled. apply set_count_one. Qed.

(** X2.  The journal that one change of the static rules of a session writes
    into an empty journal, replayed on the session as it was before, succeeds
    and yields the changed session: for [activate_static_rule] of a rule that
    is not installed, [schedule_static_rule] of a rule that is not scheduled,
    [install_scheduled_static_rule] of a scheduled rule that is not installed,
    and [deactivate_static_rule] of an installed rule. *)
Theorem replay_static_rule_change
    (s : SessionState) (rule_id : string) (lifetime : RuleLifetime) :
  (is_static_rule_installed s rule_id = false →
   let r := activate_static_rule rule_id lifetime s UpdateCriteria_default in
   apply_update_criteria s r.2 = (true, r.1, r.2))
  ∧ (is_static_rule_scheduled s rule_id = false →
     let r := schedule_static_rule rule_id lifetime s UpdateCriteria_default in
     apply_update_criteria s r.2 = (true, r.1, r.2))
  ∧ (is_static_rule_installed s rule_id = false →
     is_static_rule_scheduled s rule_id = true →
     let r := install_scheduled_static_rule rule_id s UpdateCriteria_default in
     apply_update_criteria s r.2 = (true, r.1, r.2))
  ∧ (is_static_rule_installed s rule_id = true →
     let r := deactivate_static_rule rule_id s UpdateCriteria_default in
     r.1.1 = true ∧ apply_update_criteria s r.2 = (true, r.1.2, r.2)).
Proof.
  split; [|split; [|split]].
  - intros Hni r. subst r. unfold activate_static_rule. simpl. replay_start.
    unfold merge_static_rule_to_install. rewrite Hni. simpl.
    rewrite lookup_insert_eq. done.
  - intros Hns r. subst r. unfold schedule_static_rule. simpl. replay_start.
    unfold merge_new_scheduled_static_rule. rewrite Hns.
    unfold journal_lifetime_at. simpl. rewrite lookup_insert_eq. done.
  - intros Hni Hsch r. subst r. unfold install_scheduled_static_rule. simpl. replay_start.
    unfold merge_static_rule_to_install. rewrite Hni. simpl.
    rewrite lookup_empty, Hsch. done.
  - intros Hi r. subst r. unfold deactivate_static_rule.
    unfold is_static_rule_installed in Hi. rewrite Hi. simpl. split; [done|].
    replay_start.
    unfold merge_static_rule_to_uninstall, is_static_rule_installed. rewrite Hi.
    unfold deactivate_static_rule. rewrite Hi. done.
Qed.

Lemma elem_of_set_insert (x y : string) (l : list string) :
  y ∈ set_insert x l ↔ y = x ∨ y ∈ l.
Proof.
  induction l as [|z l IH]; simpl.
  - rewrite list_elem_of_singleton. split; [by left|]. intros [?|Hin]; [done|].
    by apply not_elem_of_nil in Hin.
  - destruct (String.compare x z) eqn:Hc.
    + apply String.compare_eq_iff in Hc. subst z. split; [by right|].
      intros [->|?]; [by left|done].
    + rewrite elem_of_cons. done.
    + rewrite !elem_of_cons, IH. tauto.
Qed.

(** X3.  The journal that one change of the dynamic rules of a session writes
    into an empty journal, replayed on the session as it was before, succeeds
    and yields the changed session: for [insert_dynamic_rule] of a rule that
    is not installed, [schedule_dynamic_rule] of a rule that is not scheduled,
    [install_scheduled_dynamic_rule] of a scheduled rule (filed under its own
    id) that is not installed, and [remove_dynamic_rule] of an installed
    rule. *)
Theorem replay_dynamic_rule_change
    (s : SessionState) (rule : PolicyRule) (lifetime : RuleLifetime) :
  (is_dynamic_rule_installed s (pr_id rule) = false →
   let r := insert_dynamic_rule rule lifetime s UpdateCriteria_default in
   apply_update_criteria s r.2 = (true, r.1, r.2))
  ∧ (is_dynamic_rule_scheduled s (pr_id rule) = false →
     let r := schedule_dynamic_rule rule lifetime s UpdateCriteria_default in
     apply_update_criteria s r.2 = (true, r.1, r.2))
  ∧ (is_dynamic_rule_installed s (pr_id rule) = false →
     scheduled_dynamic_rules_ s !! pr_id rule = Some rule →
     let r := install_scheduled_dynamic_rule (pr_id rule) s UpdateCriteria_default in
     apply_update_criteria s r.2 = (true, r.1, r.2))
  ∧ (dynamic_rules_ s !! pr_id rule = Some rule →
     let r := remove_dynamic_rule (pr_id rule) s UpdateCriteria_default in
     r.1.1 = Some rule ∧ apply_update_criteria s r.2 = (true, r.1.2, r.2)).
Proof.
  split; [|split; [|split]].
  - intros Hni r. subst r. unfold insert_dynamic_rule. rewrite Hni. simpl. replay_start.
    unfold merge_dynamic_rule_to_install. rewrite Hni. simpl.
    rewrite lookup_insert_eq. unfold insert_dynamic_rule. rewrite Hni. done.
  - intros Hns r. subst r. unfold schedule_dynamic_rule. simpl. replay_start.
    unfold merge_new_scheduled_dynamic_rule. rewrite Hns.
    unfold journal_lifetime_at. simpl. rewrite lookup_insert_eq. done.
  - intros Hni Hsch r. subst r.
    unfold install_scheduled_dynamic_rule, RuleStore.remove_rule. rewrite Hsch. simpl.
    replay_start.
    unfold merge_dynamic_rule_to_install. rewrite Hni. simpl. rewrite lookup_empty.
    unfold is_dynamic_rule_scheduled, RuleStore.get_rule. rewrite Hsch.
    rewrite bool_decide_eq_true_2 by eauto.
    unfold install_scheduled_dynamic_rule, RuleStore.remove_rule. rewrite Hsch. done.
  - intros Hi r. subst r. unfold remove_dynamic_rule, RuleStore.remove_rule. rewrite Hi.
    simpl. split; [done|]. replay_start.
    unfold merge_dynamic_rule_to_uninstall, is_dynamic_rule_installed, RuleStore.get_rule.
    rewrite Hi. rewrite bool_decide_eq_true_2 by eauto. done.
Qed.

(** X4.  The journal that one change of the gy-dynamic or of the restrict
    rules writes into an empty journal, replayed on the session as it was
    before, succeeds and yields the changed session: for
    [insert_gy_dynamic_rule] and [activate_restrict_rule] of a rule that is
    not installed, [remove_gy_dynamic_rule] and [deactivate_restrict_rule] of
    an installed one. *)
Theorem replay_final_unit_rule_change
    (s : SessionState) (rule : PolicyRule) (rule_id : string) (lifetime : RuleLifetime) :
  (is_gy_dynamic_rule_installed s (pr_id rule) = false →
   let r := insert_gy_dynamic_rule rule lifetime s UpdateCriteria_default in
   apply_update_criteria s r.2 = (true, r.1, r.2))
  ∧ (gy_dynamic_rules_ s !! pr_id rule = Some rule →
     let r := remove_gy_dynamic_rule (pr_id rule) s UpdateCriteria_default in
     r.1.1 = Some rule ∧ apply_update_criteria s r.2 = (true, r.1.2, r.2))
  ∧ (is_restrict_rule_installed s rule_id = false →
     let r := activate_restrict_rule rule_id lifetime s UpdateCriteria_default in
     apply_update_criteria s r.2 = (true, r.1, r.2))
  ∧ (is_restrict_rule_installed s rule_id = true →
     let r := deactivate_restrict_rule rule_id s UpdateCriteria_default in
     r.1.1 = true ∧ apply_update_criteria s r.2 = (true, r.1.2, r.2)).
Proof.
  split; [|split; [|split]].
  - intros Hni r. subst r. unfold insert_gy_dynamic_rule. rewrite Hni. simpl. replay_start.
    unfold merge_gy_dynamic_rule_to_install. rewrite Hni. simpl.
    rewrite lookup_insert_eq. unfold insert_gy_dynamic_rule. rewrite Hni. done.
  - intros Hi r. subst r. unfold remove_gy_dynamic_rule, RuleStore.remove_rule. rewrite Hi.
    simpl. split; [done|]. replay_start.
    unfold merge_gy_dynamic_rule_to_uninstall, is_gy_dynamic_rule_installed,
      RuleStore.get_rule.
    rewrite Hi. rewrite bool_decide_eq_true_2 by eauto. done.
  - intros Hni r. subst r. unfold activate_restrict_rule. simpl. replay_start.
    unfold merge_restrict_rule_to_install. rewrite Hni. simpl.
    rewrite lookup_insert_eq. done.
  - intros Hi r. subst r. unfold deactivate_restrict_rule.
    unfold is_restrict_rule_installed in Hi. rewrite Hi. simpl. split; [done|].
    replay_start.
    unfold merge_restrict_rule_to_uninstall, is_restrict_rule_installed. rewrite Hi.
    unfold deactivate_restrict_rule. rewrite Hi. done.
Qed.

(** X5.  A journal does not keep the order of its entries.  When a static
    rule is scheduled and then installed under one journal, the session holds
    it as active only; the replay runs the installs before the schedules, so
    the session the journal is replayed on ends with the rule both active
    and scheduled. *)
Theorem replay_schedule_then_install
    (s : SessionState) (rule_id : string) (lifetime : RuleLifetime) :
  is_static_rule_installed s rule_id = false →
  is_static_rule_scheduled s rule_id = false →
  let scheduled := schedule_static_rule rule_id lifetime s UpdateCriteria_default in
  let installed := install_scheduled_static_rule rule_id scheduled.1 scheduled.2 in
  let replayed := apply_update_criteria s installed.2 in
  is_static_rule_installed installed.1 rule_id = true
  ∧ is_static_rule_scheduled installed.1 rule_id = false
  ∧ replayed.1.1 = true
  ∧ is_static_rule_installed replayed.1.2 rule_id = true
  ∧ is_static_rule_scheduled replayed.1.2 rule_id = true.
Proof.
  intros Hni Hns scheduled installed replayed.
  subst replayed installed scheduled.
  unfold schedule_static_rule, install_scheduled_static_rule. simpl.
  rewrite apply_update_criteria_rules_only by (by repeat split).
  unfold journal_entries. simpl.
  unfold merge_static_rule_to_install. rewrite Hni. simpl. rewrite lookup_insert_eq. simpl.
  unfold merge_new_scheduled_static_rule.
  rewrite !is_static_rule_scheduled_elem in *. simpl.
  apply bool_decide_eq_false in Hns. rewrite (bool_decide_eq_false_2 _ Hns). simpl.
  unfold journal_lifetime_at. simpl. rewrite lookup_insert_eq. simpl.
  unfold is_static_rule_installed, vector_contains. simpl.
  repeat split.
  - apply bool_decide_eq_true_2. apply elem_of_app. right. by left.
  - apply bool_decide_eq_false_2. intros Hin.
    apply list_elem_of_filter in Hin as [Hne _]. by destruct Hne.
  - apply bool_decide_eq_true_2. apply elem_of_app. right. by left.
  - apply bool_decide_eq_true_2. apply elem_of_set_insert. by left.
Qed.

End JournalReplayRules.
Section JournalReplayFrame.
Context `{Helpers}.

Lemma for_each_until_invariant {A St : Type} (P : St → Prop)
    (body : A → St → bool * St) (l : list A) (st : St) :
  (∀ x st, P st → P (body x st).2) → P st → P (for_each_until body l st).2.
Proof.
  intros Hbody. revert st. induction l as [|x l IH]; intros st HP; simpl; [done|].
  specialize (Hbody x st HP). destruct (body x st) as [[] st']; simpl in *; [by apply IH|done].
Qed.

Lemma foldl_invariant {A St : Type} (P : St → Prop) (f : St → A → St) (l : list A) (st : St) :
  (∀ st x, P st → P (f st x)) → P st → P (foldl f st l).
Proof.
  intros Hf. revert st. induction l as [|x l IH]; intros st HP; simpl; [done|].
  apply IH. by apply Hf.
Qed.

Lemma merge_entry_not_replayed (e : JournalEntry) (st : Merge) :
  not_replayed (merge_entry e st).2.1.1 = not_replayed st.1.1.
Proof.
  destruct st as [[s uc] scratch].
  destruct e; simpl;
    unfold merge_static_rule_to_install, merge_static_rule_to_uninstall,
      merge_new_scheduled_static_rule, merge_dynamic_rule_to_install,
      merge_dynamic_rule_to_uninstall, merge_new_scheduled_dynamic_rule,
      merge_gy_dynamic_rule_to_install, merge_gy_dynamic_rule_to_uninstall,
      merge_restrict_rule_to_install, merge_restrict_rule_to_uninstall,
      journal_lifetime_at, insert_dynamic_rule, insert_gy_dynamic_rule,
      install_scheduled_dynamic_rule, deactivate_static_rule, deactivate_restrict_rule;
    repeat case_match; simplify_eq; done.
Qed.

Lemma apply_update_criteria_head_not_replayed (uc : SessionStateUpdateCriteria) s :
  not_replayed (apply_update_criteria_head uc s) = not_replayed s.
Proof.
  unfold apply_update_criteria_head.
  repeat case_match; try done;
    try (apply (foldl_invariant (λ s', not_replayed s' = not_replayed s)); [|done];
         intros s' it Hs'; by case_match).
Qed.

Lemma apply_update_criteria_tail_not_replayed (uc : SessionStateUpdateCriteria) (st : Merge) :
  not_replayed (apply_update_criteria_tail uc st).1.1 = not_replayed st.1.1.
Proof.
  destruct st as [[s uc_now] scratch]. unfold apply_update_criteria_tail.
  set (s1 := foldl _ s (map_to_list (charging_credit_map uc))).
  set (s2 := foldl _ s1 (map_to_list (charging_credit_to_install uc))).
  set (s3 := if is_session_level_key_updated uc then _ else s2).
  set (s4 := foldl _ s3 (map_to_list (monitor_credit_map uc))).
  set (r5 := foldl _ (s4, scratch) (map_to_list (monitor_credit_to_install uc))).
  assert (H1 : not_replayed s1 = not_replayed s).
  { apply (foldl_invariant (λ s', not_replayed s' = not_replayed s)); [|done].
    intros s' it Hs'. unfold apply_charging_credit_update.
    repeat case_match; done. }
  assert (H2 : not_replayed s2 = not_replayed s).
  { apply (foldl_invariant (λ s', not_replayed s' = not_replayed s)); [|done].
    intros s' it Hs'. done. }
  assert (H3 : not_replayed s3 = not_replayed s).
  { subst s3. by case_match. }
  assert (H4 : not_replayed s4 = not_replayed s).
  { apply (foldl_invariant (λ s', not_replayed s' = not_replayed s)); [|done].
    intros s' it Hs'. unfold apply_monitor_updates.
    repeat case_match; done. }
  assert (H5 : not_replayed r5.1 = not_replayed s).
  { apply (foldl_invariant (λ r, not_replayed r.1 = not_replayed s)); [|done].
    intros r it Hr. done. }
  destruct r5 as [s5 scratch5]. simpl in *. by case_match.
Qed.

Lemma apply_update_criteria_frame (s : SessionState) (uc : SessionStateUpdateCriteria) :
  not_replayed (apply_update_criteria s uc).1.2 = not_replayed s.
Proof.
  unfold apply_update_criteria.
  rewrite apply_update_criteria_rules_entries.
  pose proof (for_each_until_invariant
                (λ st : Merge, not_replayed st.1.1 = not_replayed s)
                merge_entry (journal_entries uc)
                (apply_update_criteria_head uc s, uc, UpdateCriteria_default)) as Hrules.
  simpl in Hrules.
  destruct (for_each_until merge_entry (journal_entries uc) _) as [ok st] eqn:Hr.
  simpl in Hrules.
  assert (Hst : not_replayed st.1.1 = not_replayed s).
  { apply Hrules.
    - intros e st' Hst'. by rewrite merge_entry_not_replayed.
    - apply apply_update_criteria_head_not_replayed. }
  destruct ok; [|done].
  pose proof (apply_update_criteria_tail_not_replayed uc st) as Htail.
  destruct (apply_update_criteria_tail uc st) as [[s' uc'] scratch']. simpl in *.
  by rewrite Htail.
Qed.

(** X6.  Replaying a journal never touches the request number, the subscriber
    quota state, or the 3GPP context of the session, whatever the journal
    holds in [request_number_increment], [updated_subscriber_quota_state] and
    [updated_tgpp_context], and whether the merge succeeds or fails; the
    subscriber id, the session id and the PDP start time stay as well. *)
Theorem apply_update_criteria_not_replayed
    (s : SessionState) (uc : SessionStateUpdateCriteria) :
  let merged := (apply_update_criteria s uc).1.2 in
  request_number_ merged = request_number_ s
  ∧ subscriber_quota_state_ merged = subscriber_quota_state_ s
  ∧ tgpp_context_ merged = tgpp_context_ s
  ∧ imsi_ merged = imsi_ s
  ∧ session_id_ merged = session_id_ s
  ∧ pdp_start_time_ merged = pdp_start_time_ s.
Proof.
  intros merged. pose proof (apply_update_criteria_frame s uc) as Hframe.
  fold merged in Hframe. unfold not_replayed in Hframe. by simplify_eq.
Qed.

End JournalReplayFrame.
Section JournalReplaySession.
Context `{MoreHelpers}.

Lemma apply_update_criteria_tail_journal (uc : SessionStateUpdateCriteria) (st : Merge) :
  (apply_update_criteria_tail uc st).1.2 = st.1.2.
Proof.
  destruct st as [[s uc_now] scratch]. unfold apply_update_criteria_tail.
  by destruct (foldl _ (_, scratch) (map_to_list (monitor_credit_to_install uc))).
Qed.

Lemma apply_update_criteria_no_entries (s : SessionState) (uc : SessionStateUpdateCriteria) :
  journal_entries uc = [] →
  apply_update_criteria s uc
  = (true,
     (apply_update_criteria_tail uc
        (apply_update_criteria_head uc s, uc, UpdateCriteria_default)).1.1,
     uc).
Proof.
  intros Hnone. unfold apply_update_criteria.
  rewrite apply_update_criteria_rules_entries, Hnone. cbn [for_each_until].
  pose proof (apply_update_criteria_tail_journal uc
                (apply_update_criteria_head uc s, uc, UpdateCriteria_default)) as Huc.
  destruct (apply_update_criteria_tail uc _) as [[s1 uc1] scratch]. simpl in *. by subst.
Qed.

Lemma with_revalidation_time_same (s : SessionState) :
  with_revalidation_time_ (revalidation_time_ s) s = s.
Proof. by destruct s. Qed.

(** X7.  A change of the FSM state or of the bearer bindings made in place
    under an empty journal is what the replay of that journal makes of the
    session as it was before: [set_fsm_state] to any state (the same state
    included, which journals nothing) and [bind_policy_to_bearer] of any
    request (one for an unknown policy included, which changes nothing). *)
Theorem replay_fsm_state_and_bearer_binding
    (s : SessionState) (new_state : SessionFsmState) (request : PolicyBearerBindingRequest) :
  (let r := set_fsm_state new_state s UpdateCriteria_default in
   apply_update_criteria s r.2 = (true, r.1, r.2))
  ∧ (let r := bind_policy_to_bearer request s UpdateCriteria_default in
     apply_update_criteria s r.2 = (true, r.1, r.2)).
Proof.
  split.
  - unfold set_fsm_state. case_bool_decide; simpl.
    + by rewrite apply_update_criteria_no_entries.
    + by rewrite apply_update_criteria_rules_only.
  - unfold bind_policy_to_bearer. destruct (get_policy_type s _); simpl.
    + by rewrite apply_update_criteria_no_entries.
    + by rewrite apply_update_criteria_rules_only.
Qed.

(** X8.  The revalidation time is replayed only together with the
    REVALIDATION_TIMEOUT trigger.  A journal that holds [set_revalidation_time]
    alone leaves the replayed session with its old time.  One that holds the
    time and the trigger replays to the session changed in place.  One that
    holds the trigger alone, in any state, replays to the session changed in
    place but with the revalidation time of the journal, which is the zero
    time stamp; for every other trigger the replay gives the session changed
    in place. *)
Theorem replay_revalidation_time
    (s : SessionState) (time : Timestamp)
    (trigger : EventTrigger) (value : EventTriggerState) :
  (let r := set_revalidation_time time s UpdateCriteria_default in
   apply_update_criteria s r.2 = (true, s, r.2))
  ∧ (let r1 := set_revalidation_time time s UpdateCriteria_default in
     let r := add_new_event_trigger REVALIDATION_TIMEOUT r1.1 r1.2 in
     apply_update_criteria s r.2 = (true, r.1, r.2))
  ∧ (let r := set_event_trigger trigger value s UpdateCriteria_default in
     apply_update_criteria s r.2
     = (true,
        (if bool_decide (trigger = REVALIDATION_TIMEOUT)
         then with_revalidation_time_ {| seconds := 0; nanos := 0 |} r.1 else r.1),
        r.2)).
Proof.
  split; [|split].
  - simpl. rewrite apply_update_criteria_no_entries by done. simpl. by destruct s.
  - simpl. rewrite apply_update_criteria_no_entries by done.
    unfold apply_update_criteria_tail, apply_update_criteria_head. simpl.
    rewrite insert_empty, map_to_list_singleton. simpl. by destruct s.
  - simpl. rewrite apply_update_criteria_no_entries by done.
    unfold apply_update_criteria_tail, apply_update_criteria_head. simpl.
    rewrite insert_empty, map_to_list_singleton. simpl.
    case_bool_decide; by destruct s.
Qed.

(** X9.  Credit received for a key the session does not know replays: when
    grants and credits survive their stored form, [receive_charging_credit]
    for a key that is not in the credit map, and [receive_monitor] for a key
    that is not in the monitor map, made in place under an empty journal,
    give the session that the replay of the journal makes of the session as
    it was before.  This covers the failed update, which creates nothing, the
    monitor with action DISABLE, and the session-level key.  The same holds
    for a grant put under any key with [set_charging_credit]. *)
Theorem replay_new_credit
    (s : SessionState) (update : CreditUpdateResponse)
    (monitor_update : UsageMonitoringUpdateResponse)
    (key : CreditKey) (charging_grant : ChargingGrant) :
  (∀ g, grant_unmarshal (grant_marshal g) = g) →
  (∀ c, credit_unmarshal (credit_marshal c) = c) →
  (credit_map_ s !! CreditKey_of_response update = None →
   let r := receive_charging_credit update s UpdateCriteria_default in
   apply_update_criteria s r.2 = (true, r.1.2, r.2))
  ∧ ((∀ credit, umu_credit monitor_update = Some credit →
        monitor_map_ s !! UsageMonitoringCredit.monitoring_key credit = None) →
     let r := receive_monitor monitor_update s UpdateCriteria_default in
     apply_update_criteria s r.2 = (true, r.1.2, r.2))
  ∧ (let r := set_charging_credit key charging_grant s UpdateCriteria_default in
     apply_update_criteria s r.2 = (true, r.1, r.2)).
Proof.
  intros Hg Hc. split; [|split].
  3:{ simpl. rewrite apply_update_criteria_no_entries by done.
      unfold apply_update_criteria_tail, apply_update_criteria_head. simpl.
      rewrite insert_empty, map_to_list_singleton. simpl. rewrite Hg. by destruct s. }
  - intros Hnew. unfold receive_charging_credit. rewrite Hnew.
    unfold init_charging_credit. destruct (cur_success update); simpl.
    + rewrite apply_update_criteria_no_entries by done.
      unfold apply_update_criteria_tail, apply_update_criteria_head. simpl.
      rewrite insert_empty, map_to_list_singleton. simpl. rewrite Hg. by destruct s.
    + by rewrite apply_update_criteria_rules_only.
  - intros Hnew. unfold receive_monitor.
    destruct (umu_credit monitor_update) as [credit|] eqn:Hcredit; simpl.
    2:{ by rewrite apply_update_criteria_rules_only. }
    specialize (Hnew credit eq_refl).
    assert (Hround : ∀ m, Monitor_of_stored (Monitor_marshal m) = m).
    { intros [c l]. unfold Monitor_of_stored, Monitor_marshal. simpl. by rewrite Hc. }
    unfold update_session_level_key, init_new_monitor.
    destruct (umu_success monitor_update); simpl.
    + destruct (bool_decide (UsageMonitoringCredit.level credit = SESSION_LEVEL)); simpl.
      * rewrite lookup_empty. simpl.
        destruct (bool_decide (UsageMonitoringCredit.action credit
                               = UsageMonitoringCredit.DISABLE)) eqn:Hd; simpl;
          rewrite Hnew; simpl.
        -- rewrite apply_update_criteria_no_entries by done.
           unfold apply_update_criteria_tail, apply_update_criteria_head. simpl.
           by destruct s.
        -- rewrite apply_update_criteria_no_entries by done.
           unfold apply_update_criteria_tail, apply_update_criteria_head. simpl.
           rewrite insert_empty, map_to_list_singleton. simpl. rewrite Hround.
           unfold put_monitor. simpl. rewrite insert_insert_eq. by destruct s.
      * rewrite lookup_empty. simpl. rewrite Hnew.
        destruct (bool_decide (UsageMonitoringCredit.action credit
                               = UsageMonitoringCredit.DISABLE)) eqn:Hd; simpl.
        -- by rewrite apply_update_criteria_rules_only.
        -- rewrite apply_update_criteria_no_entries by done.
           unfold apply_update_criteria_tail, apply_update_criteria_head. simpl.
           rewrite insert_empty, map_to_list_singleton. simpl. rewrite Hround.
           unfold put_monitor. simpl. rewrite insert_insert_eq. by destruct s.
    + rewrite lookup_empty. simpl. rewrite Hnew. simpl.
      by rewrite apply_update_criteria_rules_only.
Qed.

(** X10.  Session members outside the rules and the credit.  The quota state
    and the 3GPP context that [set_subscriber_quota_state] and
    [set_tgpp_context] set in place are journalled, but a replay of that
    journal does not apply them: it gives the session as it was.  A journal
    that holds an end time of the PDP context replays to the session
    [set_pdp_end_time] makes, unless the time is not above 0, which leaves the
    session as it is; a journal that holds a configuration replays to the
    session [set_config] makes. *)
Theorem replay_of_session_members
    (s : SessionState) (state : SubscriberQuotaUpdate_Type) (tgpp_context : TgppContext)
    (epoch : Z) (config : SessionConfig) :
  (let r := set_subscriber_quota_state state s UpdateCriteria_default in
   subscriber_quota_state_ r.1 = state
   ∧ updated_subscriber_quota_state r.2 = state
   ∧ apply_update_criteria s r.2 = (true, s, r.2))
  ∧ (let r := set_tgpp_context tgpp_context s UpdateCriteria_default in
     tgpp_context_ r.1 = tgpp_context
     ∧ updated_tgpp_context r.2 = tgpp_context
     ∧ apply_update_criteria s r.2 = (true, s, r.2))
  ∧ (let uc := uc_with_updated_pdp_end_time epoch UpdateCriteria_default in
     apply_update_criteria s uc
     = (true, (if bool_decide (epoch > 0)%Z then set_pdp_end_time epoch s else s), uc))
  ∧ (let uc :=
       uc_with_updated_config config (uc_with_is_config_updated true UpdateCriteria_default) in
     apply_update_criteria s uc = (true, set_config config s, uc)).
Proof.
  split; [|split; [|split]]; simpl.
  - do 2 (split; [done|]). by rewrite apply_update_criteria_rules_only.
  - do 2 (split; [done|]). by rewrite apply_update_criteria_rules_only.
  - rewrite apply_update_criteria_no_entries by done.
    unfold apply_update_criteria_tail, apply_update_criteria_head. simpl.
    by case_bool_decide.
  - by rewrite apply_update_criteria_no_entries.
Qed.

End JournalReplaySession.
Section RequestNumbers.
Context `{MoreHelpers}.

Lemma request_numbers_from_S (first : Z) (n : nat) :
  request_numbers_from first (S n)
  = request_numbers_from first n ++ [Nat.iter n uint32_incr first].
Proof. unfold request_numbers_from. by rewrite seq_S, fmap_app. Qed.

Lemma numbered_refl (st : Collect) : numbered st st [] [].
Proof. unfold numbered. simpl. by rewrite !app_nil_r. Qed.

Lemma numbered_update (st : Collect) s req actions uc new_updates s' uc' u :
  numbered st (s, req, actions, uc) new_updates [] →
  request_number_ s' = uint32_incr (request_number_ s) →
  request_number_increment uc' = uint32_incr (request_number_increment uc) →
  cuu_request_number u = request_number_ s →
  numbered st (s', add_update u req, actions, uc')
    (new_updates ++ [u]) [].
Proof.
  unfold numbered. simpl. intros (Hu & Hm & Hn & Hr & Hi) Hs' Huc' Hnum.
  rewrite !Nat.add_0_r, !app_nil_r in *. rewrite length_app, Nat.add_1_r. simpl.
  rewrite Hu, Hm, Hs', Huc', Hr, Hi, fmap_app, Hn, request_numbers_from_S. simpl.
  rewrite Hnum, Hr, app_assoc. done.
Qed.

Lemma numbered_monitor (st : Collect) s req actions uc new_updates new_monitors s' uc' u :
  numbered st (s, req, actions, uc) new_updates new_monitors →
  request_number_ s' = uint32_incr (request_number_ s) →
  request_number_increment uc' = uint32_incr (request_number_increment uc) →
  umr_request_number u = request_number_ s →
  numbered st (s', add_usage_monitor u req, actions, uc')
    new_updates (new_monitors ++ [u]).
Proof.
  unfold numbered. simpl. intros (Hu & Hm & Hn & Hr & Hi) Hs' Huc' Hnum.
  rewrite length_app, Nat.add_1_r, Nat.add_succ_r. simpl.
  rewrite Hu, Hm, Hs', Huc', Hr, Hi, fmap_app, request_numbers_from_S. simpl.
  rewrite (app_assoc (cuu_request_number <$> new_updates)), Hn, Hnum, Hr, app_assoc. done.
Qed.

Lemma numbered_silent (st : Collect) s req actions uc new_updates new_monitors s' actions' uc' :
  numbered st (s, req, actions, uc) new_updates new_monitors →
  request_number_ s' = request_number_ s →
  request_number_increment uc' = request_number_increment uc →
  numbered st (s', req, actions', uc') new_updates new_monitors.
Proof.
  unfold numbered. simpl. intros (Hu & Hm & Hn & Hr & Hi) Hs' Huc'.
  by rewrite Hs', Huc'.
Qed.

Lemma charging_update_step_numbered (st st1 : Collect) (key : CreditKey) new_updates :
  numbered st st1 new_updates [] →
  ∃ new_updates', numbered st (charging_update_step st1 key) new_updates' [].
Proof.
  destruct st1 as [[[s req] actions] uc]. intros Hnum.
  unfold charging_update_step, get_credit_uc, case_REDIRECT, case_RESTRICT_ACCESS.
  repeat case_match; simplify_eq/=;
    first [ by eexists; eapply numbered_update
          | by eexists; eapply numbered_silent
          | by eexists ].
Qed.

Lemma monitor_update_step_numbered
    (st st1 : Collect) (key : string) new_updates new_monitors :
  numbered st st1 new_updates new_monitors →
  ∃ new_monitors', numbered st (monitor_update_step st1 key) new_updates new_monitors'.
Proof.
  destruct st1 as [[[s req] actions] uc]. intros Hnum.
  unfold monitor_update_step, get_monitor_uc.
  repeat case_match; simplify_eq/=;
    first [ by eexists; eapply numbered_monitor
          | by eexists ].
Qed.

Lemma get_event_trigger_updates_numbered (st st1 : Collect) new_updates new_monitors :
  numbered st st1 new_updates new_monitors →
  ∃ new_monitors', numbered st (get_event_trigger_updates st1) new_updates new_monitors'.
Proof.
  destruct st1 as [[[s req] actions] uc]. intros Hnum.
  unfold get_event_trigger_updates, remove_event_trigger, set_event_trigger.
  repeat case_match; simplify_eq/=; try by eexists.
  eexists. by eapply numbered_monitor.
Qed.

Lemma get_updates_numbered (st : Collect) :
  ∃ new_updates new_monitors, numbered st (get_updates st) new_updates new_monitors.
Proof.
  unfold get_updates. case_bool_decide.
  { exists [], []. apply numbered_refl. }
  assert (Hc : ∃ nu, numbered st (get_charging_updates st) nu []).
  { unfold get_charging_updates.
    apply (foldl_invariant (λ st1, ∃ nu, numbered st st1 nu [])).
    - intros st1 key [nu Hnu]. by eapply charging_update_step_numbered.
    - exists []. apply numbered_refl. }
  destruct Hc as [nu Hc]. exists nu.
  assert (Hm : ∃ nm, numbered st (get_monitor_updates (get_charging_updates st)) nu nm).
  { unfold get_monitor_updates.
    apply (foldl_invariant (λ st1, ∃ nm, numbered st st1 nu nm)).
    - intros st1 key [nm Hnm]. by eapply monitor_update_step_numbered.
    - by exists []. }
  destruct Hm as [nm Hm].
  by eapply get_event_trigger_updates_numbered.
Qed.

(** X11.  [get_updates] numbers its messages consecutively: the messages it
    adds to the request, the credit usage updates followed by the usage
    monitor requests, carry the request numbers counted up from the session's
    one, and the session's request number and the journal's
    [request_number_increment] are counted up once per message.  What the
    request held before stays in place. *)
Theorem get_updates_request_numbers (st : Collect) :
  let st' := get_updates st in
  ∃ new_updates new_monitors,
    let n := (length new_updates + length new_monitors)%nat in
    updates st'.1.1.2 = updates st.1.1.2 ++ new_updates
    ∧ usage_monitors st'.1.1.2 = usage_monitors st.1.1.2 ++ new_monitors
    ∧ (cuu_request_number <$> new_updates) ++ (umr_request_number <$> new_monitors)
      = request_numbers_from (request_number_ st.1.1.1) n
    ∧ request_number_ st'.1.1.1 = Nat.iter n uint32_incr (request_number_ st.1.1.1)
    ∧ request_number_increment st'.2 = Nat.iter n uint32_incr (request_number_increment st.2).
Proof. exact (get_updates_numbered st). Qed.

Lemma iter_uint32_incr (n : nat) (x : Z) :
  (0 ≤ x < uint32_max)%Z → Nat.iter n uint32_incr x = ((x + Z.of_nat n) mod uint32_max)%Z.
Proof.
  intros Hx. induction n as [|n IH].
  - simpl. rewrite Z.add_0_r, Z.mod_small; [done|lia].
  - rewrite Nat.iter_succ, IH. unfold uint32_incr.
    rewrite Zplus_mod_idemp_l. f_equal. lia.
Qed.

(** X12.  The journal of [get_updates] and the request number.  After a
    collection pass under an empty journal, replaying the journal on the
    session as it was before leaves the request number behind; adding the
    journal's [request_number_increment] with [increment_request_number]
    brings it to the number of the session the pass ran on.  The request
    number is a [uint32_t] here. *)
Theorem increment_request_number_catches_up
    (s : SessionState) (req : UpdateSessionRequest) (actions : list ServiceAction) :
  (0 ≤ request_number_ s < uint32_max)%Z →
  let st' := get_updates (s, req, actions, UpdateCriteria_default) in
  let replayed := (apply_update_criteria s st'.2).1.2 in
  request_number_ replayed = request_number_ s
  ∧ request_number_ (increment_request_number (request_number_increment st'.2) replayed)
    = request_number_ st'.1.1.1.
Proof.
  intros Hrange st' replayed.
  assert (Hsame : request_number_ replayed = request_number_ s).
  { pose proof (apply_update_criteria_frame s st'.2) as Hframe.
    fold replayed in Hframe. unfold not_replayed in Hframe. by simplify_eq. }
  split; [done|].
  destruct (get_updates_numbered (s, req, actions, UpdateCriteria_default))
    as (nu & nm & _ & _ & _ & Hr & Hi).
  fold st' in Hr, Hi. simpl in Hr, Hi.
  unfold increment_request_number. simpl. rewrite Hsame, Hr, Hi.
  rewrite !iter_uint32_incr by (unfold uint32_max in *; lia).
  by rewrite Z.add_0_l, Zplus_mod_idemp_r.
Qed.

End RequestNumbers.
Section TriggersAndTermination.
Context `{MoreHelpers}.

(** X13.  The life of the REVALIDATION_TIMEOUT trigger.  While it is only
    pending, [get_event_trigger_updates] does nothing.  Once it is marked as
    triggered, the next call adds one usage monitor request without a usage,
    numbered with the session's request number, and leaves the trigger in the
    session and in the journal, in state CLEARED: [remove_event_trigger]
    erases the entry and sets it again.  A call after that does nothing. *)
Theorem revalidation_trigger_lifecycle
    (s : SessionState) (req : UpdateSessionRequest) (actions : list ServiceAction)
    (uc : SessionStateUpdateCriteria) :
  (let added := add_new_event_trigger REVALIDATION_TIMEOUT s uc in
   get_event_trigger_updates (added.1, req, actions, added.2)
   = (added.1, req, actions, added.2))
  ∧ (let marked := mark_event_trigger_as_triggered REVALIDATION_TIMEOUT s uc in
     let st := get_event_trigger_updates (marked.1, req, actions, marked.2) in
     st.1.1.2
     = add_usage_monitor
         (add_common_fields_to_usage_monitor_update s None REVALIDATION_TIMEOUT) req
     ∧ st.1.2 = actions
     ∧ request_number_ st.1.1.1 = uint32_incr (request_number_ s)
     ∧ request_number_increment st.2 = uint32_incr (request_number_increment uc)
     ∧ pending_event_triggers_ st.1.1.1 !! REVALIDATION_TIMEOUT = Some CLEARED
     ∧ pending_event_triggers st.2 !! REVALIDATION_TIMEOUT = Some CLEARED
     ∧ get_event_trigger_updates st = st).
Proof.
  split.
  - unfold get_event_trigger_updates. simpl. by rewrite lookup_insert_eq.
  - unfold get_event_trigger_updates at 2. simpl. rewrite lookup_insert_eq. simpl.
    rewrite !lookup_insert_eq. by repeat split.
Qed.

Lemma make_termination_request_fsm_journal s uc :
  let r := make_termination_request s uc in
  is_fsm_updated r.2 = is_fsm_updated uc ∧ updated_fsm_state r.2 = updated_fsm_state uc.
Proof.
  unfold make_termination_request.
  pose proof (foldl_invariant
                (λ st : SessionState * list UsageMonitorUpdate * SessionStateUpdateCriteria,
                   is_fsm_updated st.2 = is_fsm_updated uc
                   ∧ updated_fsm_state st.2 = updated_fsm_state uc)
                termination_monitor_step (map_to_list (monitor_map_ s)).*1 (s, [], uc)) as Hmon.
  destruct (foldl termination_monitor_step _ _) as [[s1 mu] uc1].
  pose proof (foldl_invariant
                (λ st : SessionState * list CreditUsage.t * SessionStateUpdateCriteria,
                   is_fsm_updated st.2 = is_fsm_updated uc
                   ∧ updated_fsm_state st.2 = updated_fsm_state uc)
                termination_credit_step (map_to_list (credit_map_ s1)).*1 (s1, [], uc1)) as Hcred.
  destruct (foldl termination_credit_step _ _) as [[s2 cu] uc2]. simpl in *.
  apply Hcred.
  - intros [[s' a] b] k Hst. unfold termination_credit_step, get_credit_uc.
    by repeat case_match; simplify_eq/=.
  - apply Hmon; [|done].
    intros [[s' a] b] k Hst. unfold termination_monitor_step, get_monitor_uc.
    by repeat case_match; simplify_eq/=.
Qed.

Lemma make_termination_request_header s uc :
  let r := (make_termination_request s uc).1.1 in
  str_request_number r = request_number_ s
  ∧ str_session_id r = session_id_ s
  ∧ str_sid r = imsi_ s.
Proof.
  unfold make_termination_request.
  destruct (foldl termination_monitor_step _ _) as [[s1 mu] uc1].
  by destruct (foldl termination_credit_step _ _) as [[s2 cu] uc2].
Qed.

(** X14.  [complete_termination] on a session that is ACTIVE refuses: nothing
    is reported and session and journal stay as they are.  From a state that
    is neither ACTIVE nor TERMINATED it reports one termination request
    numbered with the session's request number, leaves that number as it is,
    moves the session to TERMINATED and journals this state; a second call
    reports nothing and changes nothing. *)
Theorem complete_termination_reports_once
    (s : SessionState) (uc : SessionStateUpdateCriteria) :
  (curr_state_ s = SESSION_ACTIVE → complete_termination s uc = (None, s, uc))
  ∧ (curr_state_ s ≠ SESSION_ACTIVE → curr_state_ s ≠ SESSION_TERMINATED →
     let r := complete_termination s uc in
     (∃ termination_req,
        r.1.1 = Some termination_req
        ∧ str_request_number termination_req = request_number_ s
        ∧ str_session_id termination_req = session_id_ s
        ∧ str_sid termination_req = imsi_ s)
     ∧ curr_state_ r.1.2 = SESSION_TERMINATED
     ∧ is_fsm_updated r.2 = true
     ∧ updated_fsm_state r.2 = SESSION_TERMINATED
     ∧ complete_termination r.1.2 r.2 = (None, r.1.2, r.2)).
Proof.
  split.
  - intros Hs. unfold complete_termination. by rewrite Hs.
  - intros Hna Hnt r.
    assert (Hterm : curr_state_ r.1.2 = SESSION_TERMINATED).
    { by apply complete_termination_not_active. }
    assert (Hr : r = let '(s1, uc1) := set_fsm_state SESSION_TERMINATED s uc in
                     let '(termination_req, s2, uc2) := make_termination_request s1 uc1 in
                     (Some termination_req, s2, uc2)).
    { subst r. unfold complete_termination. by destruct (curr_state_ s). }
    clearbody r.
    unfold set_fsm_state in Hr. rewrite bool_decide_eq_true_2 in Hr by done.
    pose proof (make_termination_request_header
                  (with_curr_state_ SESSION_TERMINATED s)
                  (uc_with_updated_fsm_state SESSION_TERMINATED
                     (uc_with_is_fsm_updated true uc))) as Hhead.
    pose proof (make_termination_request_fsm_journal
                  (with_curr_state_ SESSION_TERMINATED s)
                  (uc_with_updated_fsm_state SESSION_TERMINATED
                     (uc_with_is_fsm_updated true uc))) as Hjournal.
    destruct (make_termination_request _ _) as [[termination_req s2] uc2].
    subst r. simpl in *.
    split; [by exists termination_req|]. split; [done|].
    destruct Hjournal as [-> ->]. do 2 (split; [done|]).
    unfold complete_termination. by rewrite Hterm.
Qed.

End TriggersAndTermination.
Section StaticRules.
Context `{MoreHelpers}.

Lemma occurrences_cons (x y : string) (v : list string) :
  occurrences x (y :: v) = ((if bool_decide (y = x) then 1 else 0) + occurrences x v)%nat.
Proof.
  unfold occurrences. rewrite filter_cons. by case_decide; case_bool_decide.
Qed.

Lemma occurrences_singleton (x y : string) :
  occurrences x [y] = if bool_decide (x = y) then 1%nat else 0%nat.
Proof.
  rewrite occurrences_cons. unfold occurrences. rewrite filter_nil. simpl.
  repeat case_bool_decide; simplify_eq; done.
Qed.

Lemma occurrences_app (x : string) (v w : list string) :
  occurrences x (v ++ w) = (occurrences x v + occurrences x w)%nat.
Proof. unfold occurrences. by rewrite filter_app, length_app. Qed.

Lemma elem_of_occurrences (x : string) (v : list string) :
  x ∈ v ↔ (0 < occurrences x v)%nat.
Proof.
  induction v as [|y v IH].
  - split; [by intros ?%not_elem_of_nil | unfold occurrences; simpl; lia].
  - rewrite occurrences_cons, elem_of_cons, IH. case_bool_decide as Hyx.
    + split; [lia|]. intros _. by left.
    + split; [intros [->|?]; [done|lia] | intros ?; right; lia].
Qed.

Lemma occurrences_erase_first (x y : string) (v : list string) :
  occurrences x (vector_erase_first y v)
  = (occurrences x v - (if bool_decide (x = y) then 1 else 0))%nat.
Proof.
  induction v as [|z v IH]; simpl; [done|].
  rewrite occurrences_cons.
  destruct (bool_decide (z = y)) eqn:Hzy.
  - apply bool_decide_eq_true in Hzy. subst z. repeat case_bool_decide; simplify_eq; lia.
  - apply bool_decide_eq_false in Hzy.
    rewrite occurrences_cons, IH. repeat case_bool_decide; simplify_eq; lia.
Qed.

Lemma vector_erase_first_absent (x : string) (v : list string) :
  x ∉ v → vector_erase_first x v = v.
Proof.
  induction v as [|y v IH]; intros Hx; simpl; [done|].
  apply not_elem_of_cons in Hx as [Hne Hx].
  rewrite bool_decide_eq_false_2 by done. by rewrite IH.
Qed.

(** X15.  The active static rules are a vector and [activate_static_rule]
    does not look whether the rule is there: it adds one occurrence of the id
    each time.  [deactivate_static_rule] takes one occurrence away and returns
    true, or returns false and leaves session and journal as they are when
    there is none.  So a rule activated twice is still installed after one
    deactivation. *)
Theorem static_rule_occurrences
    (s : SessionState) (uc : SessionStateUpdateCriteria)
    (rule_id other : string) (lifetime : RuleLifetime) :
  (let r := activate_static_rule rule_id lifetime s uc in
   occurrences other (active_static_rules_ r.1)
   = (occurrences other (active_static_rules_ s)
      + (if bool_decide (other = rule_id) then 1 else 0))%nat)
  ∧ (let r := deactivate_static_rule rule_id s uc in
     r.1.1 = is_static_rule_installed s rule_id
     ∧ occurrences other (active_static_rules_ r.1.2)
       = (occurrences other (active_static_rules_ s)
          - (if bool_decide (other = rule_id) then 1 else 0))%nat
     ∧ (r.1.1 = false → r = (false, s, uc)))
  ∧ is_static_rule_installed s other
    = bool_decide (0 < occurrences other (active_static_rules_ s))%nat
  ∧ (let twice :=
       activate_static_rule rule_id lifetime
         (activate_static_rule rule_id lifetime s uc).1
         (activate_static_rule rule_id lifetime s uc).2 in
     is_static_rule_installed (deactivate_static_rule rule_id twice.1 twice.2).1.2 rule_id
     = true).
Proof.
  assert (Hinst : ∀ s' id, is_static_rule_installed s' id
                           = bool_decide (0 < occurrences id (active_static_rules_ s'))%nat).
  { intros s' id. unfold is_static_rule_installed, vector_contains.
    apply bool_decide_ext, elem_of_occurrences. }
  assert (Hde : ∀ s' uc' id,
            occurrences id (active_static_rules_ (deactivate_static_rule rule_id s' uc').1.2)
            = (occurrences id (active_static_rules_ s')
               - (if bool_decide (id = rule_id) then 1 else 0))%nat).
  { intros s' uc' id. unfold deactivate_static_rule, vector_contains.
    case_bool_decide as Hin; simpl.
    - apply occurrences_erase_first.
    - case_bool_decide; [subst id|lia].
      destruct (decide (0 < occurrences rule_id (active_static_rules_ s'))%nat) as [Hpos|];
        [|lia].
      by apply elem_of_occurrences in Hpos. }
  split; [|split; [|split]].
  - simpl. by rewrite occurrences_app, occurrences_singleton.
  - simpl. split; [|split].
    + unfold deactivate_static_rule, is_static_rule_installed. by case_match.
    + apply Hde.
    + unfold deactivate_static_rule. by case_match.
  - apply Hinst.
  - simpl. rewrite Hinst, Hde. simpl. rewrite !occurrences_app.
    rewrite !occurrences_singleton, !(bool_decide_eq_true_2 (rule_id = rule_id)) by done.
    apply bool_decide_eq_true_2. lia.
Qed.

Lemma filter_none {A} (P : A → Prop) `{!∀ x, Decision (P x)} (l : list A) :
  (∀ x, x ∈ l → ¬ P x) → filter P l = [].
Proof.
  induction l as [|x l IH]; intros Hl; [done|].
  rewrite filter_cons, decide_False by (apply Hl; by left).
  apply IH. intros y Hy. apply Hl. by right.
Qed.

Lemma static_rule_set_install_fold
    (lifetime : RuleLifetime) (l : list string)
    (to_activate : RulesToProcess.t) (s : SessionState) (uc : SessionStateUpdateCriteria) :
  NoDup l →
  let r := foldl (static_rule_set_install_step lifetime) (to_activate, s, uc) l in
  let installed := filter (λ x, x ∉ active_static_rules_ s) l in
  active_static_rules_ r.1.2 = active_static_rules_ s ++ installed
  ∧ RulesToProcess.static_rules r.1.1 = RulesToProcess.static_rules to_activate ++ installed
  ∧ RulesToProcess.dynamic_rules r.1.1 = RulesToProcess.dynamic_rules to_activate.
Proof.
  revert to_activate s uc. induction l as [|x l IH]; intros to_activate s uc Hnd; simpl.
  { by rewrite !app_nil_r. }
  apply NoDup_cons in Hnd as [Hx Hnd].
  unfold is_static_rule_installed, vector_contains. rewrite filter_cons.
  destruct (decide (x ∉ active_static_rules_ s)) as [Hout|Hin].
  - rewrite bool_decide_eq_false_2 by done. simpl.
    destruct (IH (RulesToProcess.mk (RulesToProcess.static_rules to_activate ++ [x])
                    (RulesToProcess.dynamic_rules to_activate))
                 (with_active_static_rules_ (active_static_rules_ s ++ [x])
                    (with_rule_lifetimes_ (<[x:=lifetime]> (rule_lifetimes_ s)) s))
                 (uc_with_new_rule_lifetimes (<[x:=lifetime]> (new_rule_lifetimes uc))
                    (uc_with_static_rules_to_install
                       (set_insert x (static_rules_to_install uc)) uc)) Hnd)
      as (IH1 & IH2 & IH3).
    simpl in *. rewrite IH1, IH2, IH3, <- !app_assoc. simpl.
    assert (Hfilter : filter (λ y, y ∉ active_static_rules_ s ++ [x]) l
                      = filter (λ y, y ∉ active_static_rules_ s) l).
    { apply filter_ext_elem. intros y Hy. rewrite elem_of_app, list_elem_of_singleton.
      split; [tauto|]. intros Hny [?|Heq]; [done|]. by subst y. }
    by rewrite Hfilter.
  - rewrite bool_decide_eq_true_2 by (by apply dec_stable). simpl. by apply IH.
Qed.

Lemma static_rule_set_collect_fold
    (static_rules : gset string) (l : list string) (to_deactivate : RulesToProcess.t) :
  let r := foldl (static_rule_set_collect_step static_rules) to_deactivate l in
  RulesToProcess.static_rules r
  = RulesToProcess.static_rules to_deactivate ++ filter (λ x, x ∉ static_rules) l
  ∧ RulesToProcess.dynamic_rules r = RulesToProcess.dynamic_rules to_deactivate.
Proof.
  revert to_deactivate. induction l as [|x l IH]; intros to_deactivate; simpl.
  { by rewrite app_nil_r. }
  unfold static_rule_set_collect_step at 2 4. rewrite filter_cons.
  case_bool_decide; case_decide; try done.
  destruct (IH (RulesToProcess.mk (RulesToProcess.static_rules to_deactivate ++ [x])
                  (RulesToProcess.dynamic_rules to_deactivate))) as [IH1 IH2].
  simpl in *. by rewrite IH1, IH2, <- app_assoc.
Qed.

Lemma static_rule_set_remove_fold
    (l : list string) (s : SessionState) (uc : SessionStateUpdateCriteria) (id : string) :
  occurrences id (active_static_rules_ (foldl static_rule_set_remove_step (s, uc) l).1)
  = (occurrences id (active_static_rules_ s) - occurrences id l)%nat.
Proof.
  revert s uc. induction l as [|x l IH]; intros s uc; simpl.
  { unfold occurrences at 3. simpl. lia. }
  unfold static_rule_set_remove_step at 2.
  destruct (deactivate_static_rule x s uc) as [[ok s1] uc1] eqn:Hde. simpl.
  rewrite IH, occurrences_cons.
  assert (Hs1 : active_static_rules_ s1 = vector_erase_first x (active_static_rules_ s)).
  { unfold deactivate_static_rule, vector_contains in Hde.
    case_bool_decide; simplify_eq; [done|]. by rewrite vector_erase_first_absent. }
  rewrite Hde. simpl. rewrite Hs1, occurrences_erase_first.
  repeat case_bool_decide; simplify_eq; lia.
Qed.

(** X16.  [apply_session_static_rule_set], called with no static rule noted
    for deactivation yet, makes the installed static rules those of the set:
    afterwards a rule is installed exactly when it is in the set.  The rules
    it reports as activated are the rules of the set that were not installed,
    appended to the ones passed in, and the ones reported as deactivated are
    the rules that were active and are not in the set, once per occurrence.
    The dynamic rules of both reports are not touched. *)
Theorem apply_session_static_rule_set_installs_the_set
    (static_rules : gset string) (rules_to_activate rules_to_deactivate : RulesToProcess.t)
    (s : SessionState) (uc : SessionStateUpdateCriteria) :
  RulesToProcess.static_rules rules_to_deactivate = [] →
  let r :=
    apply_session_static_rule_set static_rules rules_to_activate rules_to_deactivate s uc in
  (∀ rule_id, is_static_rule_installed r.1.2 rule_id = bool_decide (rule_id ∈ static_rules))
  ∧ RulesToProcess.static_rules r.1.1.1
    = RulesToProcess.static_rules rules_to_activate
      ++ filter (λ x, x ∉ active_static_rules_ s) (elements static_rules)
  ∧ RulesToProcess.static_rules r.1.1.2
    = filter (λ x, x ∉ static_rules) (active_static_rules_ s)
  ∧ RulesToProcess.dynamic_rules r.1.1.1 = RulesToProcess.dynamic_rules rules_to_activate
  ∧ RulesToProcess.dynamic_rules r.1.1.2 = RulesToProcess.dynamic_rules rules_to_deactivate.
Proof.
  intros Hnone r. subst r. unfold apply_session_static_rule_set.
  pose proof (static_rule_set_install_fold RuleLifetime_zero (elements static_rules)
                rules_to_activate s uc (NoDup_elements static_rules)) as (A1 & A2 & A3).
  destruct (foldl (static_rule_set_install_step _) _ _) as [[to_activate s1] uc1].
  simpl in A1, A2, A3.
  pose proof (static_rule_set_collect_fold static_rules (active_static_rules_ s1)
                rules_to_deactivate) as (B1 & B2).
  simpl in B1, B2. rewrite Hnone in B1. simpl in B1.
  set (to_deactivate := foldl (static_rule_set_collect_step static_rules) _ _) in *.
  assert (Hold : filter (λ x, x ∉ static_rules) (active_static_rules_ s1)
                 = filter (λ x, x ∉ static_rules) (active_static_rules_ s)).
  { rewrite A1, filter_app.
    rewrite (filter_none _ (filter _ (elements static_rules))), app_nil_r; [done|].
    intros x [_ Hx%elem_of_elements]%list_elem_of_filter. tauto. }
  pose proof (static_rule_set_remove_fold (RulesToProcess.static_rules to_deactivate) s1 uc1)
    as Hocc.
  destruct (foldl static_rule_set_remove_step _ _) as [s2 uc2]. simpl in *.
  split; [|by rewrite B1, Hold].
  intros rule_id. unfold is_static_rule_installed, vector_contains.
  apply bool_decide_ext. rewrite elem_of_occurrences, Hocc, B1.
  unfold occurrences at 2. rewrite list_filter_filter.
  destruct (decide (rule_id ∈ static_rules)) as [Hin|Hout].
  - rewrite filter_none.
    2:{ intros x _ [-> Hx]. done. }
    simpl. rewrite Nat.sub_0_r, <- elem_of_occurrences, A1, elem_of_app.
    split; [done|]. intros _.
    destruct (decide (rule_id ∈ active_static_rules_ s)); [by left|right].
    apply list_elem_of_filter. split; [done|]. by apply elem_of_elements.
  - split; [|done]. intros Hpos. exfalso.
    assert (Hsame : filter (λ x, x = rule_id ∧ x ∉ static_rules) (active_static_rules_ s1)
                    = filter (λ x, x = rule_id) (active_static_rules_ s1)).
    { apply filter_ext_elem. intros x _. split; [tauto|]. by intros ->. }
    rewrite Hsame in Hpos. unfold occurrences in Hpos. lia.
Qed.

End StaticRules.
Section DynamicRuleSet.
Context `{MoreHelpers}.

Lemma dynamic_rule_set_install_fold
    (lifetime : RuleLifetime) (l : list (string * PolicyRule))
    (to_activate : RulesToProcess.t) (s : SessionState) (uc : SessionStateUpdateCriteria) :
  NoDup l.*1 →
  (∀ p, p ∈ l → pr_id p.2 = p.1) →
  let r := foldl (dynamic_rule_set_install_step lifetime) (to_activate, s, uc) l in
  dynamic_rules_ r.1.2 = dynamic_rules_ s ∪ list_to_map l
  ∧ RulesToProcess.dynamic_rules r.1.1
    = RulesToProcess.dynamic_rules to_activate
      ++ (filter (λ p, dynamic_rules_ s !! p.1 = None) l).*2
  ∧ RulesToProcess.static_rules r.1.1 = RulesToProcess.static_rules to_activate.
Proof.
  revert to_activate s uc.
  induction l as [|[k rule] l IH]; intros to_activate s uc Hnd Hid; simpl.
  { by rewrite app_nil_r, (right_id_L ∅ (∪)). }
  simpl in Hnd. apply NoDup_cons in Hnd as [Hk Hnd].
  assert (Hrule : pr_id rule = k). { apply (Hid (k, rule)). by left. }
  assert (Hid' : ∀ p, p ∈ l → pr_id p.2 = p.1). { intros p Hp. apply Hid. by right. }
  unfold insert_dynamic_rule, is_dynamic_rule_installed, RuleStore.get_rule,
    RuleStore.insert_rule.
  rewrite Hrule, filter_cons. simpl.
  destruct (dynamic_rules_ s !! k) as [old|] eqn:Hold.
  - rewrite bool_decide_eq_true_2 by eauto. simpl.
    destruct (IH to_activate s uc Hnd Hid') as (IH1 & IH2 & IH3).
    simpl in *. rewrite IH1, IH2, IH3. split; [|done].
    apply map_eq. intros i. rewrite !lookup_union.
    destruct (decide (i = k)) as [->|Hne].
    + rewrite Hold, lookup_insert_eq. by destruct (list_to_map l !! k).
    + by rewrite lookup_insert_ne.
  - rewrite bool_decide_eq_false_2 by (by intros [? ?]). simpl.
    destruct (IH (RulesToProcess.mk (RulesToProcess.static_rules to_activate)
                    (RulesToProcess.dynamic_rules to_activate ++ [rule]))
                 (with_dynamic_rules_ (<[k:=rule]> (dynamic_rules_ s))
                    (with_rule_lifetimes_ (<[k:=lifetime]> (rule_lifetimes_ s)) s))
                 (uc_with_new_rule_lifetimes (<[k:=lifetime]> (new_rule_lifetimes uc))
                    (uc_with_dynamic_rules_to_install (dynamic_rules_to_install uc ++ [rule])
                       uc)) Hnd Hid')
      as (IH1 & IH2 & IH3).
    simpl in *. rewrite IH1, IH2, IH3, <- app_assoc. simpl.
    split; [|split; [|done]].
    + rewrite <- insert_union_l. by rewrite insert_union_r.
    + do 3 f_equal. apply filter_ext_elem. intros [k' rule'] Hin. simpl.
      rewrite lookup_insert_ne; [done|]. intros ->. apply Hk.
      apply list_elem_of_fmap. by exists (k', rule').
Qed.

Lemma dynamic_rule_set_remove_fold
    (dynamic_rules : gmap string PolicyRule) (l : list PolicyRule)
    (to_deactivate : RulesToProcess.t) (s : SessionState) (uc : SessionStateUpdateCriteria) :
  let r := foldl (dynamic_rule_set_remove_step dynamic_rules) (to_deactivate, s, uc) l in
  (∀ rule_id,
     dynamic_rules_ r.1.2 !! rule_id
     = if bool_decide (rule_id ∈ pr_id <$> l ∧ dynamic_rules !! rule_id = None)
       then None else dynamic_rules_ s !! rule_id)
  ∧ RulesToProcess.dynamic_rules r.1.1
    = RulesToProcess.dynamic_rules to_deactivate
      ++ filter (λ rule, dynamic_rules !! pr_id rule = None) l
  ∧ RulesToProcess.static_rules r.1.1 = RulesToProcess.static_rules to_deactivate.
Proof.
  revert to_deactivate s uc. induction l as [|rule l IH]; intros to_deactivate s uc; simpl.
  { simpl. by rewrite app_nil_r. }
  cbv zeta. cbn [foldl]. rewrite filter_cons.
  destruct (decide (dynamic_rules !! pr_id rule = None)) as [Hout|Hin].
  - rewrite !(bool_decide_eq_true_2 (dynamic_rules !! pr_id rule = None)) by done.
    destruct (remove_dynamic_rule (pr_id rule) s uc) as [[removed s1] uc1] eqn:Hrm. simpl.
    assert (Hs1 : dynamic_rules_ s1 = delete (pr_id rule) (dynamic_rules_ s)).
    { unfold remove_dynamic_rule, RuleStore.remove_rule in Hrm.
      by repeat case_match; simplify_eq/=. }
    destruct (IH (RulesToProcess.mk (RulesToProcess.static_rules to_deactivate)
                    (RulesToProcess.dynamic_rules to_deactivate ++ [rule])) s1 uc1)
      as (IH1 & IH2 & IH3).
    cbv zeta in IH1, IH2, IH3. rewrite IH2, IH3. cbn [RulesToProcess.dynamic_rules
      RulesToProcess.static_rules]. rewrite <- app_assoc. split; [|done].
    intros rule_id. rewrite IH1, Hs1.
    destruct (decide (rule_id = pr_id rule)) as [->|Hne].
    + rewrite lookup_delete_eq.
      rewrite (bool_decide_eq_true_2 (pr_id rule ∈ pr_id rule :: _ ∧ _));
        [by case_bool_decide|].
      split; [by left|done].
    + rewrite lookup_delete_ne by done. apply (f_equal (λ b : bool, if b then _ else _)).
      apply bool_decide_ext. rewrite elem_of_cons. tauto.
  - rewrite !(bool_decide_eq_false_2 (dynamic_rules !! pr_id rule = None)) by done.
    destruct (IH to_deactivate s uc) as (IH1 & IH2 & IH3).
    cbv zeta in IH1, IH2, IH3. rewrite IH2, IH3. split; [|done].
    intros rule_id. rewrite IH1. apply (f_equal (λ b : bool, if b then _ else _)).
    apply bool_decide_ext. rewrite elem_of_cons. split; [tauto|].
    intros [[->|?] ?]; done.
Qed.

(** X17.  [apply_session_dynamic_rule_set] makes the installed dynamic rules
    those of the set, by id: afterwards a rule id is installed exactly when
    it is a key of the set.  A rule that was installed under such an id keeps
    its old definition, whatever the set holds for it; only the ids that were
    not installed get the definition of the set and are reported as
    activated.  The rules reported as deactivated are the installed rules
    whose id is not in the set.  Both rule stores are well formed here. *)
Theorem apply_session_dynamic_rule_set_installs_the_set
    (dynamic_rules : gmap string PolicyRule)
    (rules_to_activate rules_to_deactivate : RulesToProcess.t)
    (s : SessionState) (uc : SessionStateUpdateCriteria) :
  RuleStore.well_formed (dynamic_rules_ s) →
  RuleStore.well_formed dynamic_rules →
  let r :=
    apply_session_dynamic_rule_set dynamic_rules rules_to_activate rules_to_deactivate s uc in
  (∀ rule_id,
     dynamic_rules_ r.1.2 !! rule_id
     = match dynamic_rules !! rule_id with
       | None => None
       | Some rule => Some (default rule (dynamic_rules_ s !! rule_id))
       end)
  ∧ RulesToProcess.dynamic_rules r.1.1.1
    = RulesToProcess.dynamic_rules rules_to_activate
      ++ (filter (λ p, dynamic_rules_ s !! p.1 = None) (map_to_list dynamic_rules)).*2
  ∧ (∃ removed,
       RulesToProcess.dynamic_rules r.1.1.2
       = RulesToProcess.dynamic_rules rules_to_deactivate ++ removed
       ∧ ∀ rule, rule ∈ removed
                 ↔ dynamic_rules_ s !! pr_id rule = Some rule
                   ∧ dynamic_rules !! pr_id rule = None)
  ∧ RulesToProcess.static_rules r.1.1.1 = RulesToProcess.static_rules rules_to_activate
  ∧ RulesToProcess.static_rules r.1.1.2 = RulesToProcess.static_rules rules_to_deactivate.
Proof.
  intros Hwf Hset r. subst r. unfold apply_session_dynamic_rule_set.
  pose proof (dynamic_rule_set_install_fold RuleLifetime_zero (map_to_list dynamic_rules)
                rules_to_activate s uc (NoDup_fst_map_to_list dynamic_rules)) as Hinstall.
  destruct Hinstall as (A1 & A2 & A3).
  { intros [k rule] Hin%elem_of_map_to_list. by apply Hset. }
  destruct (foldl (dynamic_rule_set_install_step _) _ _) as [[to_activate s1] uc1].
  simpl in A1, A2, A3. rewrite list_to_map_to_list in A1.
  pose proof (dynamic_rule_set_remove_fold dynamic_rules
                (RuleStore.get_rules (dynamic_rules_ s1)) rules_to_deactivate s1 uc1)
    as (B1 & B2 & B3).
  destruct (foldl (dynamic_rule_set_remove_step _) _ _) as [[to_deactivate s2] uc2].
  simpl in *.
  assert (Hwf1 : RuleStore.well_formed (dynamic_rules_ s1)).
  { intros k rule. rewrite A1, lookup_union_Some_raw. intros [?|[_ ?]]; eauto. }
  assert (Hvalues : ∀ rule, rule ∈ RuleStore.get_rules (dynamic_rules_ s1)
                            ↔ dynamic_rules_ s1 !! pr_id rule = Some rule).
  { intros rule. unfold RuleStore.get_rules. rewrite list_elem_of_fmap. split.
    - intros ([k rule'] & -> & Hin%elem_of_map_to_list). simpl.
      by rewrite (Hwf1 _ _ Hin).
    - intros Hin. exists (pr_id rule, rule). split; [done|]. by apply elem_of_map_to_list. }
  split; [|split; [done|split; [|done]]].
  - intros rule_id. rewrite B1, A1, lookup_union.
    destruct (dynamic_rules !! rule_id) as [rule|] eqn:Hrule.
    + rewrite bool_decide_eq_false_2 by (by intros [_ ?]).
      by destruct (dynamic_rules_ s !! rule_id).
    + destruct (dynamic_rules_ s !! rule_id) as [old|] eqn:Hold; simpl.
      * rewrite bool_decide_eq_true_2; [done|]. split; [|done].
        apply list_elem_of_fmap. exists old. split; [by rewrite (Hwf _ _ Hold)|].
        rewrite <- A1. apply Hvalues.
        rewrite A1, (Hwf _ _ Hold), lookup_union, Hold, Hrule. done.
      * by case_bool_decide.
  - eexists. split; [exact B2|]. intros rule.
    rewrite list_elem_of_filter, Hvalues, A1, lookup_union. split.
    + intros [Hnone Hsome]. rewrite Hnone in Hsome.
      by destruct (dynamic_rules_ s !! pr_id rule).
    + intros [Hsome Hnone]. by rewrite Hsome, Hnone.
Qed.

End DynamicRuleSet.
Section RuleSets.

Lemma foldl_union_singletons (l : list string) (acc : gset string) :
  foldl (λ acc x, {[x]} ∪ acc) acc l = list_to_set l ∪ acc.
Proof.
  revert acc. induction l as [|x l IH]; intros acc; simpl.
  - by rewrite (left_id_L ∅ (∪)).
  - by rewrite IH, (assoc_L (∪)), (comm_L (∪) _ {[x]}).
Qed.

Lemma combine_rule_set_union (other self : RuleSetToApply.t) :
  RuleSetToApply.static_rules (RuleSetToApply.combine_rule_set other self)
  = RuleSetToApply.static_rules other ∪ RuleSetToApply.static_rules self
  ∧ RuleSetToApply.dynamic_rules (RuleSetToApply.combine_rule_set other self)
    = RuleSetToApply.dynamic_rules other ∪ RuleSetToApply.dynamic_rules self.
Proof.
  unfold RuleSetToApply.combine_rule_set. simpl. split.
  - by rewrite foldl_union_singletons, list_to_set_elements_L.
  - apply map_eq. intros k.
    etrans; [apply (foldl_insert_lookup id); apply NoDup_fst_map_to_list|].
    rewrite list_to_map_to_list, lookup_union.
    by destruct (RuleSetToApply.dynamic_rules other !! k),
      (RuleSetToApply.dynamic_rules self !! k).
Qed.

(** X18.  [get_combined_rule_set_for_apn] gives no rule set exactly when the
    subscriber has neither a rule set for the APN nor a subscriber-wide one.
    Otherwise the static rules are the union of the two and the dynamic rules
    are those of both, where for an id that both define the subscriber-wide
    definition replaces the one of the APN. *)
Theorem get_combined_rule_set_for_apn_union
    (self : RuleSetBySubscriber.t) (apn : string) :
  let for_apn := RuleSetBySubscriber.rule_set_by_apn self !! apn in
  let subscriber_wide := RuleSetBySubscriber.subscriber_wide_rule_set self in
  let combined := RuleSetBySubscriber.get_combined_rule_set_for_apn apn self in
  (combined = None ↔ for_apn = None ∧ subscriber_wide = None)
  ∧ from_option RuleSetToApply.static_rules ∅ combined
    = from_option RuleSetToApply.static_rules ∅ subscriber_wide
      ∪ from_option RuleSetToApply.static_rules ∅ for_apn
  ∧ from_option RuleSetToApply.dynamic_rules ∅ combined
    = from_option RuleSetToApply.dynamic_rules ∅ subscriber_wide
      ∪ from_option RuleSetToApply.dynamic_rules ∅ for_apn.
Proof.
  intros for_apn subscriber_wide combined. subst combined.
  unfold RuleSetBySubscriber.get_combined_rule_set_for_apn.
  fold for_apn subscriber_wide.
  destruct for_apn as [a|], subscriber_wide as [w|]; cbn [from_option].
  - destruct (combine_rule_set_union w a) as [-> ->]. split; [|done].
    split; [done|]. by intros [? _].
  - rewrite !(left_id_L ∅ (∪)). split; [|done]. split; [done|]. by intros [? _].
  - rewrite !(right_id_L ∅ (∪)). split; [|done]. split; [done|]. by intros [_ ?].
  - rewrite !(left_id_L ∅ (∪)). done.
Qed.

Lemma of_rules_per_subscriber_snoc (imsi : string) (l : list RuleSet) (rule_set : RuleSet) :
  RuleSetBySubscriber.of_rules_per_subscriber
    {| rps_imsi := imsi; rps_rule_set := l ++ [rule_set] |}
  = let self :=
      RuleSetBySubscriber.of_rules_per_subscriber {| rps_imsi := imsi; rps_rule_set := l |} in
    if apply_subscriber_wide rule_set then
      RuleSetBySubscriber.mk (RuleSetBySubscriber.imsi self)
        (RuleSetBySubscriber.rule_set_by_apn self)
        (Some (RuleSetToApply.of_rule_set rule_set))
    else
      RuleSetBySubscriber.mk (RuleSetBySubscriber.imsi self)
        (<[rs_apn rule_set := RuleSetToApply.of_rule_set rule_set]>
           (RuleSetBySubscriber.rule_set_by_apn self))
        None.
Proof. unfold RuleSetBySubscriber.of_rules_per_subscriber. simpl. by rewrite foldl_app. Qed.

(** X19.  What the constructor of [RuleSetBySubscriber] keeps of a list of
    rule sets.  The subscriber-wide rule set is the last rule set of the list
    if that one is subscriber wide, and none otherwise: every rule set for an
    APN resets the subscriber-wide rule set read before it.  The rule set of
    an APN is the last one of the list that is for this APN and not subscriber
    wide. *)
Theorem of_rules_per_subscriber_keeps_last (rules_per_subscriber : RulesPerSubscriber) :
  let self := RuleSetBySubscriber.of_rules_per_subscriber rules_per_subscriber in
  let rule_sets := rps_rule_set rules_per_subscriber in
  RuleSetBySubscriber.imsi self = rps_imsi rules_per_subscriber
  ∧ RuleSetBySubscriber.subscriber_wide_rule_set self
    = match last rule_sets with
      | Some rule_set =>
          if apply_subscriber_wide rule_set
          then Some (RuleSetToApply.of_rule_set rule_set) else None
      | None => None
      end
  ∧ ∀ apn,
      RuleSetBySubscriber.rule_set_by_apn self !! apn
      = RuleSetToApply.of_rule_set
        <$> last (filter (λ rule_set, apply_subscriber_wide rule_set = false
                                      ∧ rs_apn rule_set = apn) rule_sets).
Proof.
  destruct rules_per_subscriber as [imsi l]. simpl.
  induction l as [|rule_set l IH] using rev_ind.
  { simpl. split; [done|]. split; [done|]. intros apn. by rewrite lookup_empty. }
  rewrite of_rules_per_subscriber_snoc. destruct IH as (IH1 & IH2 & IH3).
  cbv zeta. rewrite last_snoc.
  destruct (apply_subscriber_wide rule_set) eqn:Hwide; simpl.
  - split; [done|]. split; [done|]. intros apn. rewrite IH3, filter_app, filter_cons.
    rewrite decide_False by (rewrite Hwide; by intros [? _]).
    by rewrite filter_nil, app_nil_r.
  - split; [done|]. split; [done|]. intros apn. rewrite filter_app, filter_cons, filter_nil.
    destruct (decide (rs_apn rule_set = apn)) as [<-|Hne].
    + rewrite lookup_insert_eq, decide_True by done. by rewrite last_snoc.
    + rewrite lookup_insert_ne by done. rewrite decide_False by (by intros [_ ?]).
      by rewrite app_nil_r, IH3.
Qed.

(** X20.  Every rule set the constructor of [RuleSetToApply] builds, and
    every combination of two of them, files each dynamic rule under its own
    id; the static rules of a built rule set are the ids of its static rule
    installs. *)
Theorem rule_set_to_apply_well_formed (rule_set other : RuleSet) :
  let built := RuleSetToApply.of_rule_set rule_set in
  RuleStore.well_formed (RuleSetToApply.dynamic_rules built)
  ∧ (∀ rule_id, rule_id ∈ RuleSetToApply.static_rules built
                ↔ rule_id ∈ sri_rule_id <$> rs_static_rules rule_set)
  ∧ (∀ rule_id, is_Some (RuleSetToApply.dynamic_rules built !! rule_id)
                ↔ rule_id ∈ (pr_id ∘ dri_policy_rule) <$> rs_dynamic_rules rule_set)
  ∧ RuleStore.well_formed
      (RuleSetToApply.dynamic_rules
         (RuleSetToApply.combine_rule_set (RuleSetToApply.of_rule_set other) built)).
Proof.
  assert (Hwf : ∀ rs, RuleStore.well_formed
                        (RuleSetToApply.dynamic_rules (RuleSetToApply.of_rule_set rs))).
  { intros rs. unfold RuleSetToApply.of_rule_set. simpl.
    apply (foldl_invariant RuleStore.well_formed).
    - intros store install Hstore k rule.
      destruct (decide (k = pr_id (dri_policy_rule install))) as [->|Hne].
      + rewrite lookup_insert_eq. by intros [= <-].
      + rewrite lookup_insert_ne by done. apply Hstore.
    - intros k rule. by rewrite lookup_empty. }
  intros built. split; [apply Hwf|]. split; [|split].
  - intros rule_id. subst built. unfold RuleSetToApply.of_rule_set. simpl.
    induction (rs_static_rules rule_set) as [|install l IH] using rev_ind.
    + simpl. split; [by intros ?%not_elem_of_empty|by intros ?%not_elem_of_nil].
    + rewrite foldl_app, fmap_app, elem_of_app. simpl.
      rewrite elem_of_union, elem_of_singleton, list_elem_of_singleton, IH. tauto.
  - intros rule_id. subst built. unfold RuleSetToApply.of_rule_set. simpl.
    induction (rs_dynamic_rules rule_set) as [|install l IH] using rev_ind.
    + simpl. rewrite lookup_empty. split; [by intros [? ?]|by intros ?%not_elem_of_nil].
    + rewrite foldl_app, fmap_app, elem_of_app. simpl. rewrite list_elem_of_singleton.
      destruct (decide (rule_id = pr_id (dri_policy_rule install))) as [->|Hne].
      * rewrite lookup_insert_eq. split; [by right|eauto].
      * rewrite lookup_insert_ne by done. rewrite IH. tauto.
  - destruct (combine_rule_set_union (RuleSetToApply.of_rule_set other) built) as [_ ->].
    intros k rule [?|[_ ?]]%lookup_union_Some_raw; by eapply Hwf.
Qed.

End RuleSets.
Section Reauth.
Context `{MoreHelpers}.

(** X21.  [reauth_key] answers UPDATE_NOT_NEEDED exactly for a key whose
    grant is reporting, and then changes nothing.  In every other case the
    key ends in the credit map with reauth state REAUTH_REQUIRED: a known
    grant keeps its other members, and its journal entry is replaced by a
    fresh entry of the grant with REAUTH_REQUIRED, whatever the journal held
    for the key; an unknown key gets a disabled grant, journalled as a credit
    to install.  The grants and journal entries of all other keys stay. *)
Theorem reauth_key_result
    (s : SessionState) (uc : SessionStateUpdateCriteria) (charging_key : CreditKey) :
  let r := reauth_key charging_key s uc in
  (r.1.1 = UPDATE_NOT_NEEDED
   ↔ ∃ grant, credit_map_ s !! charging_key = Some grant ∧ is_reporting (credit grant) = true)
  ∧ (r.1.1 = UPDATE_NOT_NEEDED → r.1.2 = s ∧ r.2 = uc)
  ∧ (r.1.1 = UPDATE_INITIATED →
     reauth_state <$> credit_map_ r.1.2 !! charging_key = Some REAUTH_REQUIRED)
  ∧ (∀ grant, credit_map_ s !! charging_key = Some grant →
       is_reporting (credit grant) = false →
       credit_map_ r.1.2 !! charging_key
       = Some (set_reauth_state REAUTH_REQUIRED grant (grant_get_update_criteria grant)).1
       ∧ charging_credit_map r.2 !! charging_key
         = Some (CreditUC.with_reauth_state REAUTH_REQUIRED (grant_get_update_criteria grant))
       ∧ charging_credit_to_install r.2 = charging_credit_to_install uc)
  ∧ (credit_map_ s !! charging_key = None →
     credit_map_ r.1.2 !! charging_key = Some reauth_placeholder
     ∧ service_state reauth_placeholder = SERVICE_DISABLED
     ∧ charging_credit_to_install r.2 !! charging_key = Some (grant_marshal reauth_placeholder)
     ∧ charging_credit_map r.2 = charging_credit_map uc)
  ∧ (∀ key, key ≠ charging_key →
       credit_map_ r.1.2 !! key = credit_map_ s !! key
       ∧ charging_credit_map r.2 !! key = charging_credit_map uc !! key
       ∧ charging_credit_to_install r.2 !! key = charging_credit_to_install uc !! key).
Proof.
  intros r. subst r. unfold reauth_key.
  destruct (credit_map_ s !! charging_key) as [grant|] eqn:Hgrant.
  - destruct (is_reporting (credit grant)) eqn:Hrep; simpl.
    + split; [split; [eauto|done]|]. split; [done|]. split; [done|].
      split; [by intros ? [= <-]; congruence|]. split; [done|]. done.
    + split; [split; [done|intros (g & [= <-] & ?); congruence]|].
      split; [done|]. rewrite !lookup_insert_eq. split; [done|].
      split; [by intros g [= <-] _|]. split; [done|].
      intros key Hne. by rewrite !lookup_insert_ne.
  - simpl. split; [split; [done|by intros (g & ? & _)]|].
    split; [done|]. rewrite !lookup_insert_eq. split; [done|].
    split; [done|]. split; [done|].
    intros key Hne. by rewrite !lookup_insert_ne.
Qed.

Lemma reauth_all_fold (l : list CreditKey)
    (res : ReAuthResult) (s : SessionState) (uc : SessionStateUpdateCriteria) :
  NoDup l →
  let r := foldl reauth_all_step (res, s, uc) l in
  let due key :=
    match credit_map_ s !! key with
    | Some grant => bool_decide (key ∈ l) && negb (is_reporting (credit grant))
    | None => false
    end in
  (∀ key,
     credit_map_ r.1.2 !! key
     = if due key
       then (λ grant, (set_reauth_state REAUTH_REQUIRED grant
                         (grant_get_update_criteria grant)).1) <$> credit_map_ s !! key
       else credit_map_ s !! key)
  ∧ (∀ key,
       charging_credit_map r.2 !! key
       = if due key
         then (λ grant, CreditUC.with_reauth_state REAUTH_REQUIRED
                          (grant_get_update_criteria grant)) <$> credit_map_ s !! key
         else charging_credit_map uc !! key)
  ∧ (r.1.1 = UPDATE_INITIATED ↔ res = UPDATE_INITIATED ∨ ∃ key, due key = true).
Proof.
  revert res s uc. induction l as [|k l IH]; intros res s uc Hnd.
  { simpl. split; [|split].
    - intros key. by destruct (credit_map_ s !! key).
    - intros key. by destruct (credit_map_ s !! key).
    - split; [by left|]. intros [?|[key Hkey]]; [done|].
      by destruct (credit_map_ s !! key). }
  apply NoDup_cons in Hnd as [Hk Hnd]. cbn [foldl]. cbv zeta.
  assert (Hl : ∀ key, key ≠ k → bool_decide (key ∈ k :: l) = bool_decide (key ∈ l)).
  { intros key Hne. apply bool_decide_ext. rewrite elem_of_cons. tauto. }
  assert (Hkl : bool_decide (k ∈ l) = false) by (by apply bool_decide_eq_false_2).
  unfold reauth_all_step at 2 4 6.
  destruct (credit_map_ s !! k) as [grant|] eqn:Hgrant.
  2:{ destruct (IH res s uc Hnd) as (IH1 & IH2 & IH3). cbv zeta in IH1, IH2, IH3.
      split; [|split].
      - intros key. rewrite IH1. destruct (decide (key = k)) as [->|Hne].
        + by rewrite Hgrant.
        + by rewrite Hl.
      - intros key. rewrite IH2. destruct (decide (key = k)) as [->|Hne].
        + by rewrite Hgrant.
        + by rewrite Hl.
      - rewrite IH3. apply or_iff_compat_l. split; intros [key Hkey]; exists key.
        + destruct (decide (key = k)) as [->|Hne]; [by rewrite Hgrant in Hkey|].
          by rewrite Hl.
        + destruct (decide (key = k)) as [->|Hne]; [by rewrite Hgrant in Hkey|].
          by rewrite Hl in Hkey. }
  destruct (is_reporting (credit grant)) eqn:Hrep.
  { destruct (IH res s uc Hnd) as (IH1 & IH2 & IH3). cbv zeta in IH1, IH2, IH3.
    split; [|split].
    - intros key. rewrite IH1. destruct (decide (key = k)) as [->|Hne].
      + rewrite Hgrant. simpl. rewrite Hrep. simpl. by rewrite !andb_false_r.
      + by rewrite Hl.
    - intros key. rewrite IH2. destruct (decide (key = k)) as [->|Hne].
      + rewrite Hgrant. simpl. rewrite Hrep. simpl. by rewrite !andb_false_r.
      + by rewrite Hl.
    - rewrite IH3. apply or_iff_compat_l. split; intros [key Hkey]; exists key.
      + destruct (decide (key = k)) as [->|Hne].
        * rewrite Hgrant in Hkey. simpl in Hkey. by rewrite Hkl in Hkey.
        * by rewrite Hl.
      + destruct (decide (key = k)) as [->|Hne].
        * rewrite Hgrant in Hkey. simpl in Hkey. rewrite Hrep in Hkey. simpl in Hkey.
          by rewrite andb_false_r in Hkey.
        * by rewrite Hl in Hkey. }
  cbn [set_reauth_state].
  match goal with
  | |- context [foldl reauth_all_step (UPDATE_INITIATED, ?s1, ?uc1) l] =>
      destruct (IH UPDATE_INITIATED s1 uc1 Hnd) as (IH1 & IH2 & IH3)
  end.
  cbv zeta in IH1, IH2, IH3. unfold put_grant, put_credit_uc in *. simpl in IH1, IH2, IH3.
  split; [|split].
  - intros key. rewrite IH1. destruct (decide (key = k)) as [->|Hne].
    + rewrite lookup_insert_eq, Hgrant. simpl.
      rewrite Hrep, Hkl. simpl. by rewrite bool_decide_eq_true_2 by (by left).
    + by rewrite lookup_insert_ne, Hl.
  - intros key. rewrite IH2. destruct (decide (key = k)) as [->|Hne].
    + rewrite !lookup_insert_eq, Hgrant. simpl.
      rewrite Hrep, Hkl. simpl. by rewrite bool_decide_eq_true_2 by (by left).
    + by rewrite !lookup_insert_ne, Hl.
  - rewrite IH3. split; [|by intros; left]. intros _. right. exists k.
    rewrite Hgrant. simpl. rewrite Hrep. simpl.
    by rewrite bool_decide_eq_true_2 by (by left).
Qed.

(** X22.  [reauth_all] leaves reporting grants as they are and gives every
    other grant the reauth state REAUTH_REQUIRED together with a fresh journal
    entry; no key is added to or taken from the credit map.  The answer is
    UPDATE_INITIATED exactly when some grant is not reporting. *)
Theorem reauth_all_result (s : SessionState) (uc : SessionStateUpdateCriteria) :
  let r := reauth_all s uc in
  (∀ key grant,
     credit_map_ s !! key = Some grant →
     if is_reporting (credit grant)
     then credit_map_ r.1.2 !! key = Some grant
          ∧ charging_credit_map r.2 !! key = charging_credit_map uc !! key
     else credit_map_ r.1.2 !! key
          = Some (set_reauth_state REAUTH_REQUIRED grant (grant_get_update_criteria grant)).1
          ∧ reauth_state <$> credit_map_ r.1.2 !! key = Some REAUTH_REQUIRED
          ∧ charging_credit_map r.2 !! key
            = Some (CreditUC.with_reauth_state REAUTH_REQUIRED
                      (grant_get_update_criteria grant)))
  ∧ (∀ key, credit_map_ s !! key = None → credit_map_ r.1.2 !! key = None)
  ∧ (r.1.1 = UPDATE_INITIATED
     ↔ ∃ key grant, credit_map_ s !! key = Some grant ∧ is_reporting (credit grant) = false).
Proof.
  intros r. subst r. unfold reauth_all.
  destruct (reauth_all_fold (map_to_list (credit_map_ s)).*1 UPDATE_NOT_NEEDED s uc
              (NoDup_fst_map_to_list _)) as (F1 & F2 & F3).
  cbv zeta in F1, F2, F3.
  assert (Hkeys : ∀ key grant, credit_map_ s !! key = Some grant →
                    bool_decide (key ∈ (map_to_list (credit_map_ s)).*1) = true).
  { intros key grant Hg. apply bool_decide_eq_true_2, list_elem_of_fmap.
    exists (key, grant). split; [done|]. by apply elem_of_map_to_list. }
  split; [|split].
  - intros key grant Hg. rewrite F1, F2, Hg. simpl. rewrite (Hkeys _ _ Hg). simpl.
    by destruct (is_reporting (credit grant)).
  - intros key Hnone. by rewrite F1, Hnone.
  - rewrite F3. split.
    + intros [?|[key Hkey]]; [done|]. exists key.
      destruct (credit_map_ s !! key) as [grant|]; [|done]. exists grant.
      split; [done|]. apply andb_true_iff in Hkey as [_ Hkey]. by apply negb_true_iff.
    + intros (key & grant & Hg & Hrep). right. exists key.
      rewrite Hg. simpl. by rewrite (Hkeys _ _ Hg), Hrep.
Qed.

End Reauth.
Section Bearers.
Context `{MoreHelpers}.

Lemma get_dedicated_bearer_updates_policies
    (rules_to_activate rules_to_deactivate : RulesToProcess.t)
    (s : SessionState) (uc : SessionStateUpdateCriteria) :
  get_dedicated_bearer_updates rules_to_activate rules_to_deactivate s uc
  = let update :=
      foldl (λ update (p : PolicyID), update_bearer_creation_req s p.1 p.2 (config_ s) update)
        BearerUpdate_default (policies_of rules_to_activate) in
    let r :=
      foldl (λ st (p : PolicyID), update_bearer_deletion_req p.1 p.2 (config_ st.1.1) st)
        (s, update, uc) (policies_of rules_to_deactivate) in
    (r.1.2, r.1.1, r.2).
Proof.
  unfold get_dedicated_bearer_updates, policies_of.
  rewrite !foldl_app, !foldl_fmap. simpl.
  by destruct (foldl _ (foldl _ _ (RulesToProcess.static_rules rules_to_deactivate))
                 (RulesToProcess.dynamic_rules rules_to_deactivate)) as [[s' u'] uc'].
Qed.

(** X23.  Dedicated bearers exist on LTE only: for a session whose
    configuration has no LTE context, [get_dedicated_bearer_updates] asks for
    no bearer to be created or deleted and leaves the session, its bearer map
    included, and the journal as they are, whatever rules are passed. *)
Theorem get_dedicated_bearer_updates_without_lte
    (rules_to_activate rules_to_deactivate : RulesToProcess.t)
    (s : SessionState) (uc : SessionStateUpdateCriteria) :
  (∀ lte, rat_specific_context (config_ s) ≠ lte_context lte) →
  get_dedicated_bearer_updates rules_to_activate rules_to_deactivate s uc
  = (BearerUpdate_default, s, uc).
Proof.
  intros Hlte. rewrite get_dedicated_bearer_updates_policies. cbv zeta.
  assert (Hcreate : foldl (λ update (p : PolicyID),
                             update_bearer_creation_req s p.1 p.2 (config_ s) update)
                      BearerUpdate_default (policies_of rules_to_activate)
                    = BearerUpdate_default).
  { apply (foldl_invariant (λ u, u = BearerUpdate_default)); [|done].
    intros u p ->. unfold update_bearer_creation_req.
    destruct (rat_specific_context (config_ s)) eqn:Hc; [|done|done]. by destruct (Hlte c). }
  rewrite Hcreate.
  assert (Hdelete : foldl (λ st (p : PolicyID),
                             update_bearer_deletion_req p.1 p.2 (config_ st.1.1) st)
                      (s, BearerUpdate_default, uc) (policies_of rules_to_deactivate)
                    = (s, BearerUpdate_default, uc)).
  { apply (foldl_invariant (λ st, st = (s, BearerUpdate_default, uc))); [|done].
    intros st p ->. unfold update_bearer_deletion_req. simpl.
    destruct (rat_specific_context (config_ s)) eqn:Hc; [|done|done]. by destruct (Hlte c). }
  by rewrite Hdelete.
Qed.

Lemma bearer_creation_fold
    (s : SessionState) (lte : LTESessionContext) (ps : list PolicyID) (update : BearerUpdate) :
  rat_specific_context (config_ s) = lte_context lte →
  let wanted (p : PolicyID) (rule : PolicyRule) : Prop :=
    bearer_id_by_policy_ s !! p = None
    ∧ policy_has_qos s p.1 p.2 = Some rule
    ∧ qci <$> pr_qos rule ≠ Some (qos_class_id lte) in
  let update' :=
    foldl (λ update (p : PolicyID), update_bearer_creation_req s p.1 p.2 (config_ s) update)
      update ps in
  (∀ rule, rule ∈ cb_policy_rules (create_req update')
           ↔ rule ∈ cb_policy_rules (create_req update) ∨ ∃ p, p ∈ ps ∧ wanted p rule)
  ∧ (needs_creation update' = true
     ↔ needs_creation update = true ∨ ∃ p rule, p ∈ ps ∧ wanted p rule)
  ∧ ((needs_creation update = true →
      cb_sid (create_req update) = sid (common_context (config_ s))
      ∧ cb_ip_addr (create_req update) = ue_ipv4 (common_context (config_ s))
      ∧ cb_link_bearer_id (create_req update) = bearer_id lte) →
     needs_creation update' = true →
     cb_sid (create_req update') = sid (common_context (config_ s))
     ∧ cb_ip_addr (create_req update') = ue_ipv4 (common_context (config_ s))
     ∧ cb_link_bearer_id (create_req update') = bearer_id lte)
  ∧ needs_deletion update' = needs_deletion update
  ∧ delete_req update' = delete_req update.
Proof.
  intros Hlte wanted. revert update. induction ps as [|p ps IH]; intros update.
  { simpl. split; [|split; [|done]].
    - intros rule. split; [by left|]. intros [?|(p & ?%not_elem_of_nil & _)]; done.
    - split; [by left|]. intros [?|(p & rule & ?%not_elem_of_nil & _)]; done. }
  cbn [foldl]. cbv zeta.
  destruct (IH (update_bearer_creation_req s p.1 p.2 (config_ s) update))
    as (IH1 & IH2 & IH3 & IH4 & IH5).
  cbv zeta in IH1, IH2, IH3, IH4, IH5.
  assert (Hstep :
    (∃ rule, wanted p rule
             ∧ update_bearer_creation_req s p.1 p.2 (config_ s) update
               = {| needs_creation := true;
                    create_req :=
                      {| cb_sid := if needs_creation update then cb_sid (create_req update)
                                   else sid (common_context (config_ s));
                         cb_ip_addr := if needs_creation update
                                       then cb_ip_addr (create_req update)
                                       else ue_ipv4 (common_context (config_ s));
                         cb_link_bearer_id := if needs_creation update
                                              then cb_link_bearer_id (create_req update)
                                              else bearer_id lte;
                         cb_policy_rules := cb_policy_rules (create_req update) ++ [rule] |};
                    needs_deletion := needs_deletion update;
                    delete_req := delete_req update |})
    ∨ ((∀ rule, ¬ wanted p rule)
       ∧ update_bearer_creation_req s p.1 p.2 (config_ s) update = update)).
  { unfold update_bearer_creation_req, wanted. rewrite Hlte. destruct p as [t id]. simpl.
    destruct (bearer_id_by_policy_ s !! (t, id)) as [b|] eqn:Hb.
    { rewrite bool_decide_eq_true_2 by eauto. right. split; [|done]. by intros rule [? _]. }
    rewrite bool_decide_eq_false_2 by (by intros [? ?]).
    destruct (policy_has_qos s t id) as [rule|] eqn:Hq.
    2:{ right. split; [|done]. by intros rule (_ & ? & _). }
    case_bool_decide as Hqci.
    { right. split; [|done]. intros rule' (_ & [= <-] & ?). done. }
    left. exists rule. split; [done|]. by destruct (needs_creation update). }
  destruct Hstep as [(rule & Hwanted & Hstep)|[Hnot Hstep]]; rewrite Hstep in *; simpl in *.
  - split; [|split; [|split; [|done]]].
    + intros rule'. rewrite IH1, elem_of_app, list_elem_of_singleton. split.
      * intros [[?| ->]|(p' & Hp' & Hw)]; [by left| |].
        -- right. exists p. split; [by left|done].
        -- right. exists p'. split; [by right|done].
      * intros [?|(p' & [->|Hp']%elem_of_cons & Hw)]; [by left; left| |].
        -- left. right. destruct Hwanted as (_ & Hq & _), Hw as (_ & Hq' & _). congruence.
        -- right. by exists p'.
    + rewrite IH2. split; [|by intros; left]. intros _. right. exists p, rule.
      split; [by left|done].
    + intros Hhead Hneeds. apply IH3; [|done]. intros _.
      destruct (needs_creation update); [by apply Hhead|done].
  - split; [|split; [|split; [|done]]].
    + intros rule'. rewrite IH1. apply or_iff_compat_l. split.
      * intros (p' & Hp' & Hw). exists p'. split; [by right|done].
      * intros (p' & [->|Hp']%elem_of_cons & Hw); [by destruct (Hnot rule')|]. by exists p'.
    + rewrite IH2. apply or_iff_compat_l. split.
      * intros (p' & rule' & Hp' & Hw). exists p', rule'. split; [by right|done].
      * intros (p' & rule' & [->|Hp']%elem_of_cons & Hw); [by destruct (Hnot rule')|].
        by exists p', rule'.
    + done.
Qed.

Lemma bearer_deletion_fold
    (lte : LTESessionContext) (ps : list PolicyID)
    (s : SessionState) (update : BearerUpdate) (uc : SessionStateUpdateCriteria) :
  rat_specific_context (config_ s) = lte_context lte →
  let r :=
    foldl (λ st (p : PolicyID), update_bearer_deletion_req p.1 p.2 (config_ st.1.1) st)
      (s, update, uc) ps in
  (∀ p, bearer_id_by_policy_ r.1.1 !! p
        = if bool_decide (p ∈ ps) then None else bearer_id_by_policy_ s !! p)
  ∧ (∀ id, id ∈ db_eps_bearer_ids (delete_req r.1.2)
           ↔ id ∈ db_eps_bearer_ids (delete_req update)
             ∨ ∃ p, p ∈ ps ∧ bearer_id_by_policy_ s !! p = Some id)
  ∧ (needs_deletion r.1.2 = true
     ↔ needs_deletion update = true ∨ ∃ p, p ∈ ps ∧ is_Some (bearer_id_by_policy_ s !! p))
  ∧ ((needs_deletion update = true →
      db_sid (delete_req update) = sid (common_context (config_ s))
      ∧ db_ip_addr (delete_req update) = ue_ipv4 (common_context (config_ s))
      ∧ db_link_bearer_id (delete_req update) = bearer_id lte) →
     needs_deletion r.1.2 = true →
     db_sid (delete_req r.1.2) = sid (common_context (config_ s))
     ∧ db_ip_addr (delete_req r.1.2) = ue_ipv4 (common_context (config_ s))
     ∧ db_link_bearer_id (delete_req r.1.2) = bearer_id lte)
  ∧ ((is_bearer_mapping_updated uc = true ∧ bearer_id_by_policy uc = bearer_id_by_policy_ s)
     ∨ (∃ p, p ∈ ps ∧ is_Some (bearer_id_by_policy_ s !! p)) →
     is_bearer_mapping_updated r.2 = true
     ∧ bearer_id_by_policy r.2 = bearer_id_by_policy_ r.1.1)
  ∧ ((∀ p, p ∈ ps → bearer_id_by_policy_ s !! p = None) → r = (s, update, uc))
  ∧ needs_creation r.1.2 = needs_creation update
  ∧ create_req r.1.2 = create_req update
  ∧ config_ r.1.1 = config_ s.
Proof.
  intros Hlte. revert s update uc Hlte.
  induction ps as [|p ps IH]; intros s update uc Hlte.
  { simpl. split; [done|]. split; [|split; [|split; [done|split; [|done]]]].
    - intros id. split; [by left|]. intros [?|(p & ?%not_elem_of_nil & _)]; done.
    - split; [by left|]. intros [?|(p & ?%not_elem_of_nil & _)]; done.
    - by intros [?|(p & ?%not_elem_of_nil & _)]. }
  cbn [foldl]. cbv zeta.
  assert (Hin : ∀ q, q ≠ p → bool_decide (q ∈ p :: ps) = bool_decide (q ∈ ps)).
  { intros q Hne. apply bool_decide_ext. rewrite elem_of_cons. tauto. }
  unfold update_bearer_deletion_req at 2 4 6 8 10 12 14 16 18. simpl. rewrite Hlte.
  destruct (bearer_id_by_policy_ s !! (p.1, p.2)) as [b|] eqn:Hb;
    rewrite <- surjective_pairing in Hb.
  2:{ destruct (IH s update uc Hlte) as (IH1 & IH2 & IH3 & IH4 & IH5 & IH6 & IH7 & IH8 & IH9).
      cbv zeta in IH1, IH2, IH3, IH4, IH5, IH6, IH7, IH8, IH9.
      split; [|split; [|split; [|split; [done|split; [|split; [|done]]]]]].
      - intros q. rewrite IH1. destruct (decide (q = p)) as [->|Hne].
        + rewrite (bool_decide_eq_true_2 (p ∈ p :: ps)) by (by left).
          rewrite Hb. by case_bool_decide.
        + by rewrite Hin.
      - intros id. rewrite IH2. apply or_iff_compat_l. split.
        + intros (q & Hq & Hid). exists q. split; [by right|done].
        + intros (q & [->|Hq]%elem_of_cons & Hid); [congruence|]. by exists q.
      - rewrite IH3. apply or_iff_compat_l. split.
        + intros (q & Hq & Hid). exists q. split; [by right|done].
        + intros (q & [->|Hq]%elem_of_cons & Hid); [rewrite Hb in Hid; by destruct Hid|].
          by exists q.
      - intros [?|(q & [->|Hq]%elem_of_cons & Hid)];
          [by apply IH5; left|rewrite Hb in Hid; by destruct Hid|].
        apply IH5. right. by exists q.
      - intros Hnone. apply IH6. intros q Hq. apply Hnone. by right. }
  match goal with
  | |- context [foldl _ (?s1, ?u1, ?uc1) ps] =>
      destruct (IH s1 u1 uc1 Hlte) as (IH1 & IH2 & IH3 & IH4 & IH5 & IH6 & IH7 & IH8 & IH9)
  end.
  cbv zeta in IH1, IH2, IH3, IH4, IH5, IH6, IH7, IH8, IH9. simpl in *.
  split; [|split; [|split; [|split; [|split; [|split; [|done]]]]]].
  - intros q. rewrite IH1. destruct (decide (q = p)) as [->|Hne].
    + rewrite (bool_decide_eq_true_2 (p ∈ p :: ps)) by (by left).
      rewrite <- surjective_pairing, lookup_delete_eq. by case_bool_decide.
    + rewrite Hin by done. rewrite <- surjective_pairing, lookup_delete_ne by done. done.
  - intros id. rewrite IH2.
    assert (Hids : db_eps_bearer_ids
                     (if needs_deletion update then delete_req update
                      else {| db_sid := sid (common_context (config_ s));
                              db_ip_addr := ue_ipv4 (common_context (config_ s));
                              db_link_bearer_id := bearer_id lte;
                              db_eps_bearer_ids := db_eps_bearer_ids (delete_req update) |})
                   = db_eps_bearer_ids (delete_req update)).
    { by destruct (needs_deletion update). }
    rewrite Hids, elem_of_app, list_elem_of_singleton. split.
    + intros [[?| ->]|(q & Hq & Hid)]; [by left| |].
      * right. exists p. split; [by left|done].
      * right. exists q. split; [by right|].
        rewrite <- surjective_pairing in Hid.
        destruct (decide (q = p)) as [->|Hne]; [by rewrite lookup_delete_eq in Hid|].
        by rewrite lookup_delete_ne in Hid.
    + intros [?|(q & [->|Hq]%elem_of_cons & Hid)]; [by left; left| |].
      * left. right. congruence.
      * destruct (decide (q = p)) as [->|Hne]; [left; right; congruence|].
        right. exists q. split; [done|].
        by rewrite <- surjective_pairing, lookup_delete_ne.
  - rewrite IH3. split; [|by intros; left]. intros _. right. exists p.
    split; [by left|by rewrite Hb].
  - intros Hhead Hneeds. apply IH4; [|done]. intros _.
    destruct (needs_deletion update); [by apply Hhead|done].
  - intros _. apply IH5. by left.
  - intros Hnone. rewrite (Hnone p) in Hb; [done|by left].
Qed.

(** X24.  On a session with an LTE context,
    [get_dedicated_bearer_updates] asks for a bearer for exactly those rules
    to activate that have no bearer yet, exist in their store with a QoS, and
    whose QCI is not the one of the default bearer.  It asks to delete exactly
    the bearers bound to the rules to deactivate, and unbinds these rules in
    the bearer map, which it journals.  A request that is needed carries the
    subscriber, the address and the default bearer of the session; when no
    bearer is to be deleted, session and journal stay as they are. *)
Theorem get_dedicated_bearer_updates_on_lte
    (rules_to_activate rules_to_deactivate : RulesToProcess.t)
    (s : SessionState) (uc : SessionStateUpdateCriteria) (lte : LTESessionContext) :
  rat_specific_context (config_ s) = lte_context lte →
  let r := get_dedicated_bearer_updates rules_to_activate rules_to_deactivate s uc in
  let update := r.1.1 in
  (∀ rule, rule ∈ cb_policy_rules (create_req update)
           ↔ ∃ p, p ∈ policies_of rules_to_activate
                  ∧ bearer_id_by_policy_ s !! p = None
                  ∧ policy_has_qos s p.1 p.2 = Some rule
                  ∧ qci <$> pr_qos rule ≠ Some (qos_class_id lte))
  ∧ (needs_creation update = true ↔ cb_policy_rules (create_req update) ≠ [])
  ∧ (needs_creation update = true →
     cb_sid (create_req update) = sid (common_context (config_ s))
     ∧ cb_ip_addr (create_req update) = ue_ipv4 (common_context (config_ s))
     ∧ cb_link_bearer_id (create_req update) = bearer_id lte)
  ∧ (∀ id, id ∈ db_eps_bearer_ids (delete_req update)
           ↔ ∃ p, p ∈ policies_of rules_to_deactivate
                  ∧ bearer_id_by_policy_ s !! p = Some id)
  ∧ (needs_deletion update = true ↔ db_eps_bearer_ids (delete_req update) ≠ [])
  ∧ (needs_deletion update = true →
     db_sid (delete_req update) = sid (common_context (config_ s))
     ∧ db_ip_addr (delete_req update) = ue_ipv4 (common_context (config_ s))
     ∧ db_link_bearer_id (delete_req update) = bearer_id lte
     ∧ is_bearer_mapping_updated r.2 = true
     ∧ bearer_id_by_policy r.2 = bearer_id_by_policy_ r.1.2)
  ∧ (needs_deletion update = false → r.1.2 = s ∧ r.2 = uc)
  ∧ (∀ p, bearer_id_by_policy_ r.1.2 !! p
          = if bool_decide (p ∈ policies_of rules_to_deactivate)
            then None else bearer_id_by_policy_ s !! p).
Proof.
  intros Hlte r update. subst update r.
  rewrite get_dedicated_bearer_updates_policies. cbv zeta.
  destruct (bearer_creation_fold s lte (policies_of rules_to_activate) BearerUpdate_default
              Hlte) as (C1 & C2 & C3 & C4 & C5).
  cbv zeta in C1, C2, C3, C4, C5.
  set (created := foldl _ BearerUpdate_default (policies_of rules_to_activate)) in *.
  destruct (bearer_deletion_fold lte (policies_of rules_to_deactivate) s created uc Hlte)
    as (D1 & D2 & D3 & D4 & D5 & D6 & D7 & D8 & D9).
  cbv zeta in D1, D2, D3, D4, D5, D6, D7, D8, D9.
  set (r := foldl _ (s, created, uc) (policies_of rules_to_deactivate)) in *.
  cbn [fst snd]. rewrite D7, D8.
  assert (Hnonempty : ∀ {A} (l : list A), l ≠ [] ↔ ∃ x, x ∈ l).
  { intros A [|x l]; split; try done.
    - by intros (x & ?%not_elem_of_nil).
    - intros _. exists x. by left. }
  split; [|split; [|split; [|split; [|split; [|split; [|split]]]]]].
  - intros rule. rewrite C1. simpl. split.
    + intros [?%not_elem_of_nil|?]; done.
    + intros ?. by right.
  - rewrite C2, Hnonempty. simpl. split.
    + intros [?|(p & rule & Hp)]; [done|]. exists rule. apply C1. right. by exists p.
    + intros (rule & [?%not_elem_of_nil|(p & Hp)]%C1); [done|]. right. by exists p, rule.
  - intros Hneeds. by apply C3.
  - intros id. rewrite D2, C5. simpl. split.
    + intros [?%not_elem_of_nil|?]; done.
    + intros ?. by right.
  - rewrite D3, C4, Hnonempty. simpl. split.
    + intros [?|(p & Hp & [id Hid])]; [done|]. exists id. apply D2. right. by exists p.
    + intros (id & [Hid|(p & Hp & Hid)]%D2).
      * rewrite C5 in Hid. by apply not_elem_of_nil in Hid.
      * right. exists p. by rewrite Hid.
  - intros Hneeds.
    destruct D4 as (? & ? & ?); [by rewrite C4|done|].
    apply D3 in Hneeds as [Hneeds|Hsome]; [by rewrite C4 in Hneeds|].
    destruct D5 as [? ?]; [by right|]. done.
  - intros Hneeds. rewrite D6; [done|]. intros p Hp.
    destruct (bearer_id_by_policy_ s !! p) as [id|] eqn:Hid; [|done].
    assert (needs_deletion r.1.2 = true); [|congruence].
    apply D3. right. exists p. by rewrite Hid.
  - apply D1.
Qed.

End Bearers.
Section ChargingMessages.
Context `{Helpers}.

Lemma charging_update_step_messages (st : Collect) (k : CreditKey) :
  let s := st.1.1.1 in
  let st' := charging_update_step st k in
  (∀ key, is_Some (credit_map_ st'.1.1.1 !! key) ↔ is_Some (credit_map_ s !! key))
  ∧ ∃ new_updates new_actions,
      updates st'.1.1.2 = updates st.1.1.2 ++ new_updates
      ∧ usage_monitors st'.1.1.2 = usage_monitors st.1.1.2
      ∧ st'.1.2 = st.1.2 ++ new_actions
      ∧ (length new_updates + length new_actions ≤ if bool_decide (is_Some (credit_map_ s !! k)) then 1 else 0)%nat
      ∧ Forall (addressed s) new_actions
      ∧ Forall (reports_for s) new_updates
      ∧ Forall (λ key, key = Some k) (message_keys new_updates new_actions).
Proof.
  destruct st as [[[s req] actions] uc]. cbv zeta. cbn [fst snd].
  unfold charging_update_step.
  destruct (credit_map_ s !! k) as [grant|] eqn:Hgrant.
  2:{ split; [done|]. exists [], []. rewrite !app_nil_r. simpl. by repeat split. }
  assert (Hk : is_Some (credit_map_ s !! k)) by (by rewrite Hgrant).
  rewrite bool_decide_eq_true_2 by (by eauto).
  assert (Hkeys : ∀ g key, is_Some (credit_map_ (put_grant k g s) !! key)
                           ↔ is_Some (credit_map_ s !! key)).
  { intros g key. by apply put_grant_is_Some. }
  assert (Haddr : ∀ a, sa_action_type a ≠ CONTINUE_SERVICE →
                       sa_rule_ids a = [] → sa_rule_definitions a = [] →
                       addressed s (case_TERMINATE_SERVICE s k a)).
  { intros a Ht Hids Hdefs. unfold addressed. simpl. rewrite Hids, Hdefs. simpl.
    do 4 (split; [done|]). by exists k. }
  destruct (get_credit_uc grant k uc) as [credit_uc uc1].
  destruct (get_action grant credit_uc) as [[action_type grant1] credit_uc1].
  destruct action_type.
  1:{ destruct (get_update_type grant1) as [update_type|].
      - destruct (if bool_decide (update_type = CreditUsage.REAUTH_REQUIRED) then _ else _)
          as [grant2 credit_uc2].
        destruct (get_credit_usage update_type false grant2 credit_uc2)
          as [[update grant3] credit_uc3].
        split; [apply Hkeys|]. eexists [_], []. simpl. rewrite app_nil_r.
        do 3 (split; [done|]). split; [lia|]. split; [done|].
        split; apply Forall_singleton.
        + unfold reports_for. simpl. by rewrite credit_usage_key_set.
        + simpl. by rewrite credit_usage_key_set.
      - split; [apply Hkeys|]. exists [], []. simpl. rewrite !app_nil_r.
        repeat split; try done. lia. }
  all: unfold case_REDIRECT, case_RESTRICT_ACCESS; simpl;
    repeat case_bool_decide; simpl; (split; [apply Hkeys|]);
    first
      [ exists [], []; simpl; rewrite !app_nil_r; repeat split; try done; lia
      | eexists [], [_]; simpl; rewrite app_nil_r;
        do 3 (split; [done|]); split; [lia|]; split; [|split; [done|]];
        apply Forall_singleton;
        first [ by apply Haddr
              | by apply (Haddr (Build_ServiceAction _ _ _ _ _ _ _ _ _ _))
              | done ] ].
Qed.

Lemma message_keys_app (nu1 nu2 : list CreditUsageUpdate) (na1 na2 : list ServiceAction) :
  message_keys (nu1 ++ nu2) (na1 ++ na2) ≡ₚ message_keys nu1 na1 ++ message_keys nu2 na2.
Proof.
  unfold message_keys. rewrite !fmap_app, <- !(assoc_L (++)).
  f_equiv. rewrite !(assoc_L (++)). f_equiv. apply Permutation_app_comm.
Qed.

Lemma length_message_keys (nu : list CreditUsageUpdate) (na : list ServiceAction) :
  length (message_keys nu na) = (length nu + length na)%nat.
Proof. unfold message_keys. by rewrite length_app, !length_fmap. Qed.

Lemma addressed_frame (s s' : SessionState) (a : ServiceAction) :
  static_rules_ s' = static_rules_ s →
  dynamic_rules_ s' = dynamic_rules_ s →
  imsi_ s' = imsi_ s →
  session_id_ s' = session_id_ s →
  config_ s' = config_ s →
  (∀ key, is_Some (credit_map_ s' !! key) ↔ is_Some (credit_map_ s !! key)) →
  addressed s' a → addressed s a.
Proof.
  unfold addressed. intros -> -> -> -> -> Hkeys (? & ? & ? & ? & key & ? & ?%Hkeys & ? & ?).
  do 4 (split; [done|]). by exists key.
Qed.

Lemma reports_for_frame (s s' : SessionState) (u : CreditUsageUpdate) :
  imsi_ s' = imsi_ s →
  session_id_ s' = session_id_ s →
  (∀ key, is_Some (credit_map_ s' !! key) ↔ is_Some (credit_map_ s !! key)) →
  reports_for s' u → reports_for s u.
Proof. unfold reports_for. by intros -> -> Hkeys (? & ? & ?%Hkeys). Qed.

Lemma charging_update_fold_messages (l : list CreditKey) (st : Collect) :
  NoDup l →
  let s := st.1.1.1 in
  let st' := foldl charging_update_step st l in
  (∀ key, is_Some (credit_map_ st'.1.1.1 !! key) ↔ is_Some (credit_map_ s !! key))
  ∧ ∃ new_updates new_actions,
      updates st'.1.1.2 = updates st.1.1.2 ++ new_updates
      ∧ usage_monitors st'.1.1.2 = usage_monitors st.1.1.2
      ∧ st'.1.2 = st.1.2 ++ new_actions
      ∧ (length new_updates + length new_actions
         ≤ length (filter (λ key, is_Some (credit_map_ s !! key)) l))%nat
      ∧ Forall (addressed s) new_actions
      ∧ Forall (reports_for s) new_updates
      ∧ Forall (λ key, ∃ k, key = Some k ∧ k ∈ l) (message_keys new_updates new_actions)
      ∧ NoDup (message_keys new_updates new_actions).
Proof.
  revert st. induction l as [|k l IH]; intros st Hnd; cbv zeta.
  { simpl. split; [done|]. exists [], []. rewrite !app_nil_r.
    repeat split; try done. constructor. }
  apply NoDup_cons in Hnd as [Hk Hnd]. cbn [foldl].
  destruct (charging_update_step_frame st k) as (F1 & F2 & F3 & F4 & F5 & _ & _).
  destruct (charging_update_step_messages st k)
    as (K1 & nu1 & na1 & U1 & M1 & A1 & L1 & P1 & Q1 & R1).
  destruct (IH (charging_update_step st k) Hnd)
    as (K2 & nu2 & na2 & U2 & M2 & A2 & L2 & P2 & Q2 & R2 & N2).
  cbv zeta in *.
  split; [intros key; by rewrite K2, K1|].
  exists (nu1 ++ nu2), (na1 ++ na2).
  rewrite U2, U1, M2, M1, A2, A1, !app_assoc. do 3 (split; [done|]).
  rewrite !message_keys_app.
  split; [|split; [|split; [|split]]].
  - rewrite !length_app, filter_cons.
    assert (Hsame : filter (λ key, is_Some (credit_map_ (charging_update_step st k).1.1.1
                                            !! key)) l
                    = filter (λ key, is_Some (credit_map_ st.1.1.1 !! key)) l).
    { apply filter_ext_elem. intros key _. apply K1. }
    rewrite Hsame in L2. case_bool_decide; case_decide; simpl; try done; lia.
  - apply Forall_app. split; [done|].
    eapply Forall_impl; [exact P2|]. intros a. by apply addressed_frame.
  - apply Forall_app. split; [done|].
    eapply Forall_impl; [exact Q2|]. intros u. by apply reports_for_frame.
  - apply Forall_app. split.
    + eapply Forall_impl; [exact R1|]. intros key ->. exists k. split; [done | by left].
    + eapply Forall_impl; [exact R2|]. intros key (k' & -> & Hin).
      exists k'. split; [done | by right].
  - apply NoDup_app. split; [|split; [|done]].
    + assert (Hlen : (length (message_keys nu1 na1) ≤ 1)%nat).
      { rewrite length_message_keys. etrans; [exact L1|]. case_bool_decide; lia. }
      destruct (message_keys nu1 na1) as [|x [|y rest]]; simpl in Hlen;
        [constructor | apply NoDup_singleton | lia].
    + intros key Hkey1 Hkey2.
      rewrite Forall_forall in R1. apply R1 in Hkey1 as ->.
      rewrite Forall_forall in R2. apply R2 in Hkey2 as (k' & Heq & Hin).
      by simplify_eq.
Qed.

(** X25.  What [get_charging_updates] sends.  It adds credit usage updates
    and service actions and no usage monitor request.  Every update names the
    session and a key of its credit map; every action names the session, its
    subscriber and address, is not CONTINUE_SERVICE, and carries a key of the
    credit map with the static rule ids and the dynamic rule definitions of
    that key.  There is at most one message for each key: no two of the added
    messages, updates and actions taken together, are about the same key, and
    so there are no more messages than keys in the credit map.  No key is
    added to or taken from the credit map. *)
Theorem get_charging_updates_messages (st : Collect) :
  let s := st.1.1.1 in
  let st' := get_charging_updates st in
  (∀ key, is_Some (credit_map_ st'.1.1.1 !! key) ↔ is_Some (credit_map_ s !! key))
  ∧ ∃ new_updates new_actions,
      updates st'.1.1.2 = updates st.1.1.2 ++ new_updates
      ∧ usage_monitors st'.1.1.2 = usage_monitors st.1.1.2
      ∧ st'.1.2 = st.1.2 ++ new_actions
      ∧ (length new_updates + length new_actions ≤ size (credit_map_ s))%nat
      ∧ Forall (addressed s) new_actions
      ∧ Forall (reports_for s) new_updates
      ∧ NoDup (message_keys new_updates new_actions).
Proof.
  cbv zeta. unfold get_charging_updates.
  destruct (charging_update_fold_messages (map_to_list (credit_map_ st.1.1.1)).*1 st
              (NoDup_fst_map_to_list _))
    as (K & nu & na & U & M & A & L & P & Q & _ & N).
  cbv zeta in *. split; [done|]. exists nu, na. do 3 (split; [done|]).
  split; [|done]. etrans; [exact L|]. etrans; [apply length_filter|].
  by rewrite length_fmap, length_map_to_list.
Qed.

End ChargingMessages.
Section CreditEdges.
Context `{MoreHelpers}.

(** X26.  A session without restrict rules comes back from its stored form
    exactly: [unmarshal (marshal s)] over the same static rule store is [s],
    provided credits and grants survive their own stored form, the dynamic
    rule stores file every rule under its id, and the scheduled static rules
    are a set in order. *)
Theorem marshal_unmarshal_without_restrict_rules (s : SessionState) :
  (∀ c, credit_unmarshal (credit_marshal c) = c) →
  (∀ g, grant_unmarshal (grant_marshal g) = g) →
  RuleStore.well_formed (dynamic_rules_ s) →
  RuleStore.well_formed (scheduled_dynamic_rules_ s) →
  RuleStore.well_formed (gy_dynamic_rules_ s) →
  set_sorted (scheduled_static_rules_ s) →
  active_restrict_rules_ s = [] →
  unmarshal (marshal s) (static_rules_ s) = s.
Proof.
  intros Hc Hg Hd Hsd Hgy Hsorted Hnone.
  rewrite marshal_unmarshal_up_to_restrict_rules by done.
  rewrite <- Hnone. by destruct s.
Qed.

(** X27.  [add_rule_usage] books usage on what is there and creates nothing:
    the credit map keeps its keys, the monitor map gets no new key (an
    exhausted monitor may go), and rules, lifetimes, request number and FSM
    state stay.  Usage for a rule that has no charging key and no monitoring
    key, on a session without session-level key, changes nothing at all. *)
Theorem add_rule_usage_creates_nothing
    (rule_id : string) (used_tx used_rx : Z)
    (s : SessionState) (uc : SessionStateUpdateCriteria) :
  let r := add_rule_usage rule_id used_tx used_rx s uc in
  (∀ key, is_Some (credit_map_ r.1 !! key) ↔ is_Some (credit_map_ s !! key))
  ∧ (∀ key, is_Some (monitor_map_ r.1 !! key) → is_Some (monitor_map_ s !! key))
  ∧ dynamic_rules_ r.1 = dynamic_rules_ s
  ∧ active_static_rules_ r.1 = active_static_rules_ s
  ∧ rule_lifetimes_ r.1 = rule_lifetimes_ s
  ∧ request_number_ r.1 = request_number_ s
  ∧ curr_state_ r.1 = curr_state_ s
  ∧ (RuleStore.get_charging_key_for_rule_id (dynamic_rules_ s) rule_id = None →
     RuleStore.get_charging_key_for_rule_id (static_rules_ s) rule_id = None →
     RuleStore.get_monitoring_key_for_rule_id (dynamic_rules_ s) rule_id = None →
     RuleStore.get_monitoring_key_for_rule_id (static_rules_ s) rule_id = None →
     session_level_key_ s = EmptyString →
     r = (s, uc)).
Proof.
  intros r. subst r.
  assert (Hmon : ∀ key s0 uc0,
            let r := add_to_monitor key used_tx used_rx s0 uc0 in
            credit_map_ r.1.2 = credit_map_ s0
            ∧ (∀ k, is_Some (monitor_map_ r.1.2 !! k) → is_Some (monitor_map_ s0 !! k))
            ∧ static_rules_ r.1.2 = static_rules_ s0
            ∧ dynamic_rules_ r.1.2 = dynamic_rules_ s0
            ∧ active_static_rules_ r.1.2 = active_static_rules_ s0
            ∧ rule_lifetimes_ r.1.2 = rule_lifetimes_ s0
            ∧ request_number_ r.1.2 = request_number_ s0
            ∧ curr_state_ r.1.2 = curr_state_ s0
            ∧ session_level_key_ r.1.2 = session_level_key_ s0).
  { intros key s0 uc0. unfold add_to_monitor, get_monitor_uc.
    destruct (monitor_map_ s0 !! key) as [monitor|] eqn:Hm; [|done].
    repeat case_match; simplify_eq/=; (split; [done|]); (split; [|done]); intros k.
    all: destruct (decide (k = key)) as [->|Hne];
      rewrite ?lookup_delete_eq, ?lookup_delete_ne, ?lookup_insert_eq, ?lookup_insert_ne
        by done; rewrite ?Hm; eauto; by intros [? ?]. }
  assert (Hch : let r := add_rule_usage_charging rule_id used_tx used_rx s uc in
                (∀ key, is_Some (credit_map_ r.1 !! key) ↔ is_Some (credit_map_ s !! key))
                ∧ monitor_map_ r.1 = monitor_map_ s
                ∧ static_rules_ r.1 = static_rules_ s
                ∧ dynamic_rules_ r.1 = dynamic_rules_ s
                ∧ active_static_rules_ r.1 = active_static_rules_ s
                ∧ rule_lifetimes_ r.1 = rule_lifetimes_ s
                ∧ request_number_ r.1 = request_number_ s
                ∧ curr_state_ r.1 = curr_state_ s
                ∧ session_level_key_ r.1 = session_level_key_ s).
  { unfold add_rule_usage_charging, get_credit_uc.
    repeat case_match; simplify_eq/=; try done.
    all: split; [|done]; intros key; apply put_grant_is_Some; eauto. }
  unfold add_rule_usage.
  destruct (add_rule_usage_charging rule_id used_tx used_rx s uc) as [s1 uc1] eqn:Hcharging.
  simpl in Hch. destruct Hch as (C1 & C2 & C3 & C4 & C5 & C6 & C7 & C8 & C9).
  unfold add_rule_usage_monitoring. rewrite C3, C4.
  set (found := match RuleStore.get_monitoring_key_for_rule_id (dynamic_rules_ s) rule_id with
                | Some k => Some k
                | None => RuleStore.get_monitoring_key_for_rule_id (static_rules_ s) rule_id
                end).
  assert (Hfirst : ∃ s2 uc2,
            match found with
            | Some monitoring_key =>
                ((add_to_monitor monitoring_key used_tx used_rx s1 uc1).1.2,
                 (add_to_monitor monitoring_key used_tx used_rx s1 uc1).2)
            | None => (s1, uc1)
            end = (s2, uc2)
            ∧ credit_map_ s2 = credit_map_ s1
            ∧ (∀ k, is_Some (monitor_map_ s2 !! k) → is_Some (monitor_map_ s1 !! k))
            ∧ static_rules_ s2 = static_rules_ s1
            ∧ dynamic_rules_ s2 = dynamic_rules_ s1
            ∧ active_static_rules_ s2 = active_static_rules_ s1
            ∧ rule_lifetimes_ s2 = rule_lifetimes_ s1
            ∧ request_number_ s2 = request_number_ s1
            ∧ curr_state_ s2 = curr_state_ s1
            ∧ session_level_key_ s2 = session_level_key_ s1
            ∧ (found = None → s2 = s1 ∧ uc2 = uc1)).
  { destruct found as [monitoring_key|].
    - pose proof (Hmon monitoring_key s1 uc1) as Hm. cbv zeta in Hm.
      destruct (add_to_monitor monitoring_key used_tx used_rx s1 uc1) as [[ok s2] uc2].
      exists s2, uc2. simpl in *. destruct Hm as (? & ? & ? & ? & ? & ? & ? & ? & ?).
      by repeat split.
    - exists s1, uc1. by repeat split. }
  destruct Hfirst as (s2 & uc2 & -> & M1 & M2 & M3 & M4 & M5 & M6 & M7 & M8 & M9 & M10).
  assert (Hlast : ∃ s3 uc3,
            (if bool_decide (session_level_key_ s2 ≠ EmptyString)
                && bool_decide (default EmptyString found ≠ session_level_key_ s2)
             then ((add_to_monitor (session_level_key_ s2) used_tx used_rx s2 uc2).1.2,
                   (add_to_monitor (session_level_key_ s2) used_tx used_rx s2 uc2).2)
             else (s2, uc2)) = (s3, uc3)
            ∧ credit_map_ s3 = credit_map_ s2
            ∧ (∀ k, is_Some (monitor_map_ s3 !! k) → is_Some (monitor_map_ s2 !! k))
            ∧ dynamic_rules_ s3 = dynamic_rules_ s2
            ∧ active_static_rules_ s3 = active_static_rules_ s2
            ∧ rule_lifetimes_ s3 = rule_lifetimes_ s2
            ∧ request_number_ s3 = request_number_ s2
            ∧ curr_state_ s3 = curr_state_ s2
            ∧ (session_level_key_ s2 = EmptyString → s3 = s2 ∧ uc3 = uc2)).
  { destruct (bool_decide (session_level_key_ s2 ≠ EmptyString)) eqn:Hkey; simpl.
    - destruct (bool_decide (default EmptyString found ≠ session_level_key_ s2)).
      + pose proof (Hmon (session_level_key_ s2) s2 uc2) as Hm. cbv zeta in Hm.
        destruct (add_to_monitor (session_level_key_ s2) used_tx used_rx s2 uc2)
          as [[ok s3] uc3].
        exists s3, uc3. simpl in *. destruct Hm as (? & ? & ? & ? & ? & ? & ? & ? & ?).
        apply bool_decide_eq_true in Hkey. by repeat split.
      + exists s2, uc2. by repeat split.
    - exists s2, uc2. by repeat split. }
  destruct Hlast as (s3 & uc3 & -> & L1 & L2 & L3 & L4 & L5 & L6 & L7 & L8).
  simpl. split; [intros key; by rewrite L1, M1|].
  split; [intros key Hkey; rewrite <- C2; by apply M2, L2|].
  repeat split; try congruence.
  intros Hc1 Hc2 Hm1 Hm2 Hslk.
  assert (Hfound : found = None). { subst found. by rewrite Hm1, Hm2. }
  destruct (M10 Hfound) as [-> ->]. destruct L8 as [-> ->]; [congruence|].
  unfold add_rule_usage_charging in Hcharging. by rewrite Hc1, Hc2 in Hcharging.
Qed.

(** X28.  [receive_charging_credit] by cases.  A failed update answers false,
    and for a key the session does not know it changes nothing.  A successful
    update answers whether it held credit (a valid unit with volume, or an
    infinite limit), and the key is in the credit map afterwards; a new key is
    journalled as a credit to install in its stored form, a known key gets a
    journal entry.  The grants and journal entries of all other keys stay. *)
Theorem receive_charging_credit_by_cases
    (update : CreditUpdateResponse) (s : SessionState) (uc : SessionStateUpdateCriteria) :
  let key := CreditKey_of_response update in
  let r := receive_charging_credit update s uc in
  (cur_success update = false →
   r.1.1 = false ∧ (credit_map_ s !! key = None → r = (false, s, uc)))
  ∧ (cur_success update = true →
     r.1.1 = contains_credit (cc_granted_units (cur_credit update)) || is_infinite_credit update
     ∧ is_Some (credit_map_ r.1.2 !! key))
  ∧ (credit_map_ s !! key = None → cur_success update = true →
     charging_credit_to_install r.2 !! key = grant_marshal <$> credit_map_ r.1.2 !! key
     ∧ charging_credit_map r.2 = charging_credit_map uc)
  ∧ (is_Some (credit_map_ s !! key) →
     is_Some (credit_map_ r.1.2 !! key)
     ∧ is_Some (charging_credit_map r.2 !! key)
     ∧ charging_credit_to_install r.2 = charging_credit_to_install uc)
  ∧ (∀ k, k ≠ key →
       credit_map_ r.1.2 !! k = credit_map_ s !! k
       ∧ charging_credit_map r.2 !! k = charging_credit_map uc !! k
       ∧ charging_credit_to_install r.2 !! k = charging_credit_to_install uc !! k).
Proof.
  intros key r. subst r. unfold receive_charging_credit, init_charging_credit.
  fold key. destruct (credit_map_ s !! key) as [grant|] eqn:Hgrant.
  - unfold get_credit_uc. destruct (cur_success update); simpl.
    all: repeat case_match; simplify_eq/=;
      rewrite ?lookup_insert_eq;
      (split; [done|]); (split; [by eauto|]); (split; [done|]); (split; [by eauto|]);
      intros k Hne; by rewrite ?lookup_insert_ne.
  - destruct (cur_success update); simpl; rewrite ?lookup_insert_eq.
    + split; [done|]. split; [by eauto|]. split; [done|]. split; [by intros [? ?]|].
      intros k Hne. by rewrite ?lookup_insert_ne.
    + split; [done|]. split; [done|]. split; [done|]. split; [by intros [? ?]|]. done.
Qed.

(** X29.  Asking for the lifetime of a rule the session has none for creates
    one with both times zero: [should_rule_be_active] then answers whether the
    time is after 0 and leaves the zero lifetime in the session, and
    [should_rule_be_deactivated] answers false. *)
Theorem should_rule_be_active_of_unknown_rule
    (s : SessionState) (rule_id : string) (time : Z) :
  rule_lifetimes_ s !! rule_id = None →
  (should_rule_be_active s rule_id time).1 = bool_decide (0 < time)%Z
  ∧ (should_rule_be_deactivated s rule_id time).1 = false
  ∧ rule_lifetimes_ (should_rule_be_active s rule_id time).2
    = <[rule_id := RuleLifetime_zero]> (rule_lifetimes_ s)
  ∧ rule_lifetimes_ (should_rule_be_deactivated s rule_id time).2
    = <[rule_id := RuleLifetime_zero]> (rule_lifetimes_ s).
Proof.
  intros Hnone. unfold should_rule_be_active, should_rule_be_deactivated, rule_lifetime_at.
  rewrite Hnone. simpl. by rewrite andb_true_r.
Qed.

(** X30.  A monitor update for a key whose journal entry is marked deleted is
    ignored and answers false, but only after the session-level key has been
    handled: a successful update of level SESSION_LEVEL has by then set the
    session-level key (to the empty key for action DISABLE) and journalled it.
    The monitor map and the monitor entries of the journal stay. *)
Theorem receive_monitor_for_deleted_monitor
    (update : UsageMonitoringUpdateResponse) (credit : UsageMonitoringCredit.t)
    (entry : CreditUC.t) (s : SessionState) (uc : SessionStateUpdateCriteria) :
  umu_credit update = Some credit →
  monitor_credit_map uc !! UsageMonitoringCredit.monitoring_key credit = Some entry →
  CreditUC.deleted entry = true →
  let r := receive_monitor update s uc in
  r.1.1 = false
  ∧ monitor_map_ r.1.2 = monitor_map_ s
  ∧ monitor_credit_map r.2 = monitor_credit_map uc
  ∧ monitor_credit_to_install r.2 = monitor_credit_to_install uc
  ∧ (if umu_success update
        && bool_decide (UsageMonitoringCredit.level credit = SESSION_LEVEL)
     then session_level_key_ r.1.2
          = (if bool_decide (UsageMonitoringCredit.action credit
                             = UsageMonitoringCredit.DISABLE)
             then EmptyString else UsageMonitoringCredit.monitoring_key credit)
          ∧ is_session_level_key_updated r.2 = true
          ∧ updated_session_level_key r.2 = session_level_key_ r.1.2
     else r.1.2 = s ∧ r.2 = uc).
Proof.
  intros Hcredit Hentry Hdeleted r. subst r. unfold receive_monitor. rewrite Hcredit.
  destruct (umu_success update && bool_decide (UsageMonitoringCredit.level credit
                                               = SESSION_LEVEL)); simpl.
  - unfold update_session_level_key. simpl. rewrite Hentry. simpl. rewrite Hdeleted.
    by case_bool_decide.
  - rewrite Hentry. simpl. by rewrite Hdeleted.
Qed.

End CreditEdges.
(** * The further properties on concrete sessions *)

Section FurtherOnReference.

#[local] Existing Instance Reference.types.
#[local] Existing Instance Reference.helpers.
#[local] Existing Instance MoreReference.more_helpers.

Local Open Scope Z_scope.

Lemma reference_credit_round_trip (c : SessionCredit) : credit_unmarshal (credit_marshal c) = c.
Proof. reflexivity. Qed.

Lemma reference_grant_round_trip (g : ChargingGrant) : grant_unmarshal (grant_marshal g) = g.
Proof. by destruct g. Qed.

Lemma well_formed_empty : RuleStore.well_formed ∅.
Proof. intros k rule. by rewrite lookup_empty. Qed.

Lemma well_formed_insert_rule (rule : PolicyRule) (store : gmap string PolicyRule) :
  RuleStore.well_formed store → RuleStore.well_formed (RuleStore.insert_rule rule store).
Proof.
  intros Hstore k rule'. unfold RuleStore.insert_rule.
  destruct (decide (k = pr_id rule)) as [->|Hne].
  - rewrite lookup_insert_eq. by intros [= <-].
  - rewrite lookup_insert_ne by done. apply Hstore.
Qed.

(** Static rule [r1]: activated on a fresh session, installed from the schedule,
    and deactivated where it is active; each journal replays to the changed
    session. *)
Lemma replay_static_rule_change_witness :
  (let r := activate_static_rule "r1" Scenario.window Scenario.fresh UpdateCriteria_default in
   apply_update_criteria Scenario.fresh r.2 = (true, r.1, r.2))
  ∧ (let r := install_scheduled_static_rule "r1" Scenario.with_scheduled_static
                UpdateCriteria_default in
     apply_update_criteria Scenario.with_scheduled_static r.2 = (true, r.1, r.2))
  ∧ (let r := deactivate_static_rule "r1" MoreScenario.with_static_r1 UpdateCriteria_default in
     r.1.1 = true
     ∧ apply_update_criteria MoreScenario.with_static_r1 r.2 = (true, r.1.2, r.2)).
Proof.
  split; [|split].
  - apply (proj1 (replay_static_rule_change Scenario.fresh "r1" Scenario.window)).
    vm_compute. reflexivity.
  - apply (proj1 (proj2 (proj2 (replay_static_rule_change Scenario.with_scheduled_static
                                  "r1" Scenario.window)))); vm_compute; reflexivity.
  - apply (proj2 (proj2 (proj2 (replay_static_rule_change MoreScenario.with_static_r1
                                  "r1" Scenario.window)))).
    vm_compute. reflexivity.
Defined.

(** Dynamic rule [d1]: inserted on a fresh session, installed from the
    schedule, and removed where it is installed. *)
Lemma replay_dynamic_rule_change_witness :
  (let r := insert_dynamic_rule Scenario.d1 Scenario.window Scenario.fresh
              UpdateCriteria_default in
   apply_update_criteria Scenario.fresh r.2 = (true, r.1, r.2))
  ∧ (let r := install_scheduled_dynamic_rule "d1" Scenario.with_scheduled_dynamic
                UpdateCriteria_default in
     apply_update_criteria Scenario.with_scheduled_dynamic r.2 = (true, r.1, r.2))
  ∧ (let r := remove_dynamic_rule "d1" MoreScenario.with_dynamic_d1 UpdateCriteria_default in
     r.1.1 = Some Scenario.d1
     ∧ apply_update_criteria MoreScenario.with_dynamic_d1 r.2 = (true, r.1.2, r.2)).
Proof.
  split; [|split].
  - apply (proj1 (replay_dynamic_rule_change Scenario.fresh Scenario.d1 Scenario.window)).
    vm_compute. reflexivity.
  - apply (proj1 (proj2 (proj2 (replay_dynamic_rule_change Scenario.with_scheduled_dynamic
                                  Scenario.d1 Scenario.window)))); vm_compute; reflexivity.
  - apply (proj2 (proj2 (proj2 (replay_dynamic_rule_change MoreScenario.with_dynamic_d1
                                  Scenario.d1 Scenario.window)))).
    vm_compute. reflexivity.
Defined.

(** [d1] as a gy-dynamic rule and the restrict rule [restrict1]. *)
Lemma replay_final_unit_rule_change_witness :
  (let r := insert_gy_dynamic_rule Scenario.d1 Scenario.window Scenario.fresh
              UpdateCriteria_default in
   apply_update_criteria Scenario.fresh r.2 = (true, r.1, r.2))
  ∧ (let r := remove_gy_dynamic_rule "d1" MoreScenario.with_gy_d1 UpdateCriteria_default in
     r.1.1 = Some Scenario.d1
     ∧ apply_update_criteria MoreScenario.with_gy_d1 r.2 = (true, r.1.2, r.2))
  ∧ (let r := deactivate_restrict_rule "restrict1" Scenario.with_restrict_rule
                UpdateCriteria_default in
     r.1.1 = true
     ∧ apply_update_criteria Scenario.with_restrict_rule r.2 = (true, r.1.2, r.2)).
Proof.
  split; [|split].
  - apply (proj1 (replay_final_unit_rule_change Scenario.fresh Scenario.d1 "restrict1"
                    Scenario.window)).
    vm_compute. reflexivity.
  - apply (proj1 (proj2 (replay_final_unit_rule_change MoreScenario.with_gy_d1 Scenario.d1
                           "restrict1" Scenario.window))).
    vm_compute. reflexivity.
  - apply (proj2 (proj2 (proj2 (replay_final_unit_rule_change Scenario.with_restrict_rule
                                  Scenario.d1 "restrict1" Scenario.window)))).
    vm_compute. reflexivity.
Defined.

(** [r1] scheduled and installed on a fresh session under one journal. *)
Lemma replay_schedule_then_install_witness :
  let scheduled :=
    schedule_static_rule "r1" Scenario.window Scenario.fresh UpdateCriteria_default in
  let installed := install_scheduled_static_rule "r1" scheduled.1 scheduled.2 in
  let replayed := apply_update_criteria Scenario.fresh installed.2 in
  is_static_rule_installed installed.1 "r1" = true
  ∧ is_static_rule_scheduled installed.1 "r1" = false
  ∧ replayed.1.1 = true
  ∧ is_static_rule_installed replayed.1.2 "r1" = true
  ∧ is_static_rule_scheduled replayed.1.2 "r1" = true.
Proof.
  apply (replay_schedule_then_install Scenario.fresh "r1" Scenario.window);
    vm_compute; reflexivity.
Defined.

(** A first grant for rating group 10, a first monitor grant for [m1], and a
    grant put under rating group 10, each on a fresh session. *)
Lemma replay_new_credit_witness :
  (let r := receive_charging_credit MoreScenario.first_grant Scenario.fresh
              UpdateCriteria_default in
   apply_update_criteria Scenario.fresh r.2 = (true, r.1.2, r.2))
  ∧ (let r := receive_monitor MoreScenario.first_monitor_grant Scenario.fresh
                UpdateCriteria_default in
     apply_update_criteria Scenario.fresh r.2 = (true, r.1.2, r.2))
  ∧ (let r := set_charging_credit Scenario.rg10 Scenario.redirect_grant Scenario.fresh
                UpdateCriteria_default in
     apply_update_criteria Scenario.fresh r.2 = (true, r.1, r.2)).
Proof.
  destruct (replay_new_credit Scenario.fresh MoreScenario.first_grant
              MoreScenario.first_monitor_grant Scenario.rg10 Scenario.redirect_grant
              reference_grant_round_trip reference_credit_round_trip)
    as (Hcharging & Hmonitor & Hset).
  split; [|split].
  - apply Hcharging. vm_compute. reflexivity.
  - apply Hmonitor. intros credit [= <-]. vm_compute. reflexivity.
  - exact Hset.
Defined.

(** A fresh session is ACTIVE and is not terminated; a released session
    reports once, with request number 1. *)
Lemma complete_termination_reports_once_witness :
  complete_termination Scenario.fresh Scenario.journal
  = (None, Scenario.fresh, Scenario.journal)
  ∧ (let r := complete_termination MoreScenario.released Scenario.journal in
     (∃ termination_req,
        r.1.1 = Some termination_req
        ∧ str_request_number termination_req = 1
        ∧ str_session_id termination_req = "s1"
        ∧ str_sid termination_req = "IMSI001")
     ∧ curr_state_ r.1.2 = SESSION_TERMINATED
     ∧ is_fsm_updated r.2 = true
     ∧ updated_fsm_state r.2 = SESSION_TERMINATED
     ∧ complete_termination r.1.2 r.2 = (None, r.1.2, r.2)).
Proof.
  split.
  - apply (proj1 (complete_termination_reports_once Scenario.fresh Scenario.journal)).
    reflexivity.
  - apply (proj2 (complete_termination_reports_once MoreScenario.released Scenario.journal));
      vm_compute; discriminate.
Defined.

(** The set [{r1, r2}] on a session that has [r1]: [r2] is activated. *)
Lemma apply_session_static_rule_set_witness :
  let r :=
    apply_session_static_rule_set MoreScenario.static_set RulesToProcess.empty
      RulesToProcess.empty MoreScenario.with_static_r1 Scenario.journal in
  is_static_rule_installed r.1.2 "r1" = true
  ∧ is_static_rule_installed r.1.2 "r2" = true
  ∧ is_static_rule_installed r.1.2 "r3" = false
  ∧ RulesToProcess.static_rules r.1.1.1 = ["r2"]
  ∧ RulesToProcess.static_rules r.1.1.2 = [].
Proof.
  destruct (apply_session_static_rule_set_installs_the_set MoreScenario.static_set
              RulesToProcess.empty RulesToProcess.empty MoreScenario.with_static_r1
              Scenario.journal eq_refl) as (Hinstalled & Hactivated & Hdeactivated & _).
  cbv zeta in *. split; [|split; [|split; [|split]]].
  - etrans; [apply Hinstalled|]. by vm_compute.
  - etrans; [apply Hinstalled|]. by vm_compute.
  - etrans; [apply Hinstalled|]. by vm_compute.
  - etrans; [apply Hactivated|]. by vm_compute.
  - etrans; [apply Hdeactivated|]. by vm_compute.
Defined.

(** The set [{d1}] on a fresh session: [d1] is installed. *)
Lemma apply_session_dynamic_rule_set_witness :
  let r :=
    apply_session_dynamic_rule_set MoreScenario.dynamic_set RulesToProcess.empty
      RulesToProcess.empty Scenario.fresh Scenario.journal in
  dynamic_rules_ r.1.2 !! "d1" = Some Scenario.d1
  ∧ dynamic_rules_ r.1.2 !! "d2" = None
  ∧ RulesToProcess.dynamic_rules r.1.1.1 = [Scenario.d1].
Proof.
  destruct (apply_session_dynamic_rule_set_installs_the_set MoreScenario.dynamic_set
              RulesToProcess.empty RulesToProcess.empty Scenario.fresh Scenario.journal)
    as (Hinstalled & Hactivated & _).
  - apply well_formed_empty.
  - apply (well_formed_insert_rule Scenario.d1 ∅ well_formed_empty).
  - cbv zeta in *. split; [|split].
    + etrans; [apply Hinstalled|]. by vm_compute.
    + etrans; [apply Hinstalled|]. by vm_compute.
    + etrans; [apply Hactivated|]. by vm_compute.
Defined.

(** A WLAN session asks for no bearer. *)
Lemma get_dedicated_bearer_updates_without_lte_witness :
  get_dedicated_bearer_updates MoreScenario.activate_q1 MoreScenario.deactivate_r1
    MoreScenario.wlan_session Scenario.journal
  = (BearerUpdate_default, MoreScenario.wlan_session, Scenario.journal).
Proof.
  apply get_dedicated_bearer_updates_without_lte. intros lte. vm_compute. discriminate.
Defined.

(** On the LTE session, activating [q1] asks for a bearer and deactivating
    [r1] gives up bearer 6. *)
Lemma get_dedicated_bearer_updates_on_lte_witness :
  let r :=
    get_dedicated_bearer_updates MoreScenario.activate_q1 MoreScenario.deactivate_r1
      MoreScenario.lte_session Scenario.journal in
  MoreScenario.q1 ∈ cb_policy_rules (create_req r.1.1)
  ∧ 6 ∈ db_eps_bearer_ids (delete_req r.1.1)
  ∧ bearer_id_by_policy_ r.1.2 !! (STATIC, "r1") = None.
Proof.
  destruct (get_dedicated_bearer_updates_on_lte MoreScenario.activate_q1
              MoreScenario.deactivate_r1 MoreScenario.lte_session Scenario.journal
              {| bearer_id := 5; imei := EmptyString; plmn_id := "00101";
                 imsi_plmn_id := "00101"; spgw_ipv4 := "192.168.60.142";
                 user_location := EmptyString; qos_class_id := 9 |} eq_refl)
    as (Hcreate & _ & _ & Hdelete & _ & _ & _ & Hmap).
  cbv zeta. split; [|split].
  - apply Hcreate. exists (STATIC, "q1"). split; [by left|]. by vm_compute.
  - apply Hdelete. exists (STATIC, "r1"). split; [by left|]. by vm_compute.
  - rewrite Hmap. by vm_compute.
Defined.

(** The session with [d1] scheduled comes back from its stored form. *)
Lemma marshal_unmarshal_without_restrict_rules_witness :
  unmarshal (marshal Scenario.with_scheduled_dynamic)
    (static_rules_ Scenario.with_scheduled_dynamic)
  = Scenario.with_scheduled_dynamic.
Proof.
  apply marshal_unmarshal_without_restrict_rules.
  - apply reference_credit_round_trip.
  - apply reference_grant_round_trip.
  - apply well_formed_empty.
  - apply (well_formed_insert_rule Scenario.d1 ∅ well_formed_empty).
  - apply well_formed_empty.
  - exact I.
  - reflexivity.
Defined.

(** Rule [r9] has no lifetime in a fresh session. *)
Lemma should_rule_be_active_of_unknown_rule_witness :
  (should_rule_be_active Scenario.fresh "r9" 5).1 = true
  ∧ (should_rule_be_deactivated Scenario.fresh "r9" 5).1 = false
  ∧ rule_lifetimes_ (should_rule_be_active Scenario.fresh "r9" 5).2
    = <[ "r9" := RuleLifetime_zero ]> (rule_lifetimes_ Scenario.fresh)
  ∧ rule_lifetimes_ (should_rule_be_deactivated Scenario.fresh "r9" 5).2
    = <[ "r9" := RuleLifetime_zero ]> (rule_lifetimes_ Scenario.fresh).
Proof.
  apply (should_rule_be_active_of_unknown_rule Scenario.fresh "r9" 5). reflexivity.
Defined.

(** A session-level grant for [m1] while the journal marks [m1] deleted. *)
Lemma receive_monitor_for_deleted_monitor_witness :
  let r :=
    receive_monitor MoreScenario.first_monitor_grant Scenario.fresh
      MoreScenario.journal_with_m1_deleted in
  r.1.1 = false
  ∧ monitor_map_ r.1.2 = ∅
  ∧ session_level_key_ r.1.2 = "m1"
  ∧ is_session_level_key_updated r.2 = true.
Proof.
  destruct (receive_monitor_for_deleted_monitor MoreScenario.first_monitor_grant
              MoreScenario.m1_credit MoreScenario.m1_deleted Scenario.fresh
              MoreScenario.journal_with_m1_deleted eq_refl)
    as (Hfalse & Hmap & _ & _ & Hkey); [by vm_compute|reflexivity|].
  cbv zeta. rewrite Hfalse, Hmap. simpl in Hkey. destruct Hkey as (-> & -> & _). done.
Defined.

(** A session whose revalidation trigger is ready sends one request: the
    request number goes from 1 to 2. *)
Lemma increment_request_number_catches_up_witness :
  let st' :=
    get_updates (MoreScenario.revalidation_due, Scenario.empty_request, [],
                 UpdateCriteria_default) in
  let replayed := (apply_update_criteria MoreScenario.revalidation_due st'.2).1.2 in
  request_number_ st'.1.1.1 = 2
  ∧ request_number_ replayed = 1
  ∧ request_number_ (increment_request_number (request_number_increment st'.2) replayed) = 2.
Proof.
  destruct (increment_request_number_catches_up MoreScenario.revalidation_due
              Scenario.empty_request []) as [Hreplayed Hcaught].
  - by vm_compute.
  - cbv zeta in *. rewrite Hcaught, Hreplayed. by vm_compute.
Defined.

(** The reference credit primitive on the first scenario of the
    specification: a first grant of 1000 bytes, 800 bytes used, one credit
    usage update of 800 bytes with request number 1, then a second grant of
    2000 bytes.  Afterwards 800 bytes are used, 3000 allowed, nothing is in
    the reporting buckets and 800 bytes are reported; the request number is 2,
    and the journal entry of the key holds the deltas of the second grant. *)
Lemma reference_report_and_refill :
  let buckets := [USED_TX; ALLOWED_TX; REPORTING_TX; REPORTED_TX] in
  let counters (s : SessionState) :=
    (λ g : ChargingGrant, (λ b, Reference.counters (credit g) b) <$> buckets)
      <$> credit_map_ s !! Scenario.rg10 in
  let collected :=
    get_updates (MoreScenario.with_usage, Scenario.empty_request, [], Scenario.journal) in
  let refilled :=
    receive_charging_credit MoreScenario.second_grant collected.1.1.1 Scenario.journal in
  counters MoreScenario.with_usage = Some [800; 1000; 0; 0]
  ∧ (λ u, (cuu_request_number u, CreditUsage.usage_tx (cuu_usage u)))
      <$> updates collected.1.1.2 = [(1, 800)]
  ∧ counters collected.1.1.1 = Some [800; 1000; 800; 0]
  ∧ counters refilled.1.2 = Some [800; 3000; 0; 800]
  ∧ request_number_ refilled.1.2 = 2
  ∧ (λ u : CreditUC.t, (λ b, CreditUC.bucket_deltas u b) <$> buckets)
      <$> charging_credit_map refilled.2 !! Scenario.rg10
    = Some [0; 2000; -800; 800].
Proof. by vm_compute. Qed.

End FurtherOnReference.
